(* ===== verification/_CoqProject ===== *)
-Q . S2P
Prelude.v
Table.v
Models.v
Crypto.v
Settings.v
Password.v
Tokens.v
Sessions.v
Reset.v
Identities.v
Login.v
Admin.v
Cookies.v
Exports.v
Cache.v
Calendar.v
Bandwidth.v
Alerts.v
Smtp.v
Digest.v
Mail.v
Journal.v
