(* ===== verification/Prelude.v ===== *)
(** * Verification of the authentication core, the cache, the bandwidth tracker, the alert methods and the M3U digest of Enhanced Channel Manager

    This development models, in Rocq, the authentication and
    session-lifecycle subsystem of the backend of Enhanced Channel Manager
    (ECM), a FastAPI/SQLAlchemy service: [src/backend/auth/routes.py] and
    [src/backend/auth/settings.py], plus the response cache
    [src/backend/cache.py] and the bandwidth tracker
    [src/backend/bandwidth_tracker.py] with its table [BandwidthDaily] of
    [src/backend/models.py], the alert-method framework
    [src/backend/alert_methods.py] with its SMTP method
    [src/backend/alert_methods_smtp.py], and the M3U change digest
    [src/backend/tasks/m3u_digest.py], which sends e-mail through them,
    the [__all__] of the package initialisations [auth/__init__.py] and
    [auth/providers/__init__.py], and the API serialisers ([to_dict],
    [__repr__]) of [JournalEntry] and [BandwidthDaily] in [models.py].
    The modules the sources import but that the
    repository does not contain ([auth/password.py], [auth/tokens.py],
    [auth/dependencies.py], the Dispatcharr client, and the auth tables of
    [models.py]) are modelled from the specification and marked
    [spec_modelled] in the manifest.

    ** Parts of the program and how they interact

    A request reaches a handler of [routes.py] with plain strings
    (credentials, a refresh token from a cookie) and request metadata.  The
    handler reads and writes four tables through one SQLAlchemy session
    ([users], [user_identities], [user_sessions], [password_reset_tokens]),
    calls the password hasher and policy, the token service and the settings
    cache, and either commits and answers, or raises [HTTPException] /
    [AuthenticationError], in which case nothing it changed is committed.

    Alerts flow the other way: a caller builds an [AlertMessage] and the
    global [AlertMethodManager] sends it through every loaded method whose
    row enables its type and is not rate limited, stamping the row on
    success.  The SMTP method talks to a server through [smtplib]; the M3U
    digest task reads its settings and the change log and is meant to send
    its e-mail through the manager's SMTP method.

    ** Files, in dependency order

    - [Prelude.v] (this file): the [result] error type with its bind
      notation [x <-? c ;; k] in [auth_scope], the [auth] hint databases, the
      tactics [invc], [simpl_result], [case_if], Python dicts
      as insertion-ordered association lists ([dict_get], [dict_set],
      [dict_del], shared by the cache, the tracker and the alert manager),
      Python's attribute lookup that raises [AttributeError]
      ([attr_error]), and the generic
      lemmas on lists, [find], [filter], [omap] and strings, with
      [str_ltb], Python's [<] on [str] (code-point order on ASCII), a strict
      order.
    - [Table.v], [Module Table]: a table as the list of its rows in id
      order with the next autoincrement id.  [first] is
      [query(..).filter(..).first()], [get] the lookup by id, [update] an
      attribute assignment, [delete_where] a [delete()], [count], [select];
      [wf] (distinct ids, below the next id) and [unique R] (no two rows in
      relation [R]) with the lemmas that every operation keeps them.
    - [Models.v]: the rows ([Module User], [UserIdentity], [UserSession],
      [PasswordResetToken]) with one setter per group of assignments of the
      code, the database [DB], the unique constraints of [users] and [flush]
      that enforces them (raising [IntegrityError]), [get_current_user],
      [auth_error], and [env], what a request reads from outside.
    - [Crypto.v]: [Class TokenHash] ([hash_token], injective) and
      [Class PasswordHasher] (bcrypt's laws: a hash verifies its password and
      no other, the empty password never verifies, hashes are non-empty,
      salts differ), each with a concrete instance used by the witnesses.
    - [Settings.v]: the pydantic models of [settings.py] with the code's
      defaults, and [store], the module cache plus the JSON file, with
      [load_auth_settings], [save_auth_settings], [get_jwt_secret_key],
      [mark_setup_complete]; the file system's answers and the drawn secret
      are inputs.  Theorems: what [save] writes and caches, that the cached
      settings carry a secret, that the secret survives a restart exactly
      when the file could be written.
    - [Password.v]: [validate_password], its rules in order, against the
      declarative [policy_ok].
    - [Tokens.v]: JWTs over [Class JwtCodec] and [Class Signer]
      (three segments, header, payload, signature), [decode_token],
      [create_access_token], [create_refresh_token], [rotate_refresh_token];
      round trip and soundness of decoding.
    - [Sessions.v]: [create_session], [refresh_tokens] as [refresh_check]
      then [refresh_commit], [logout]; the invariant [hash_unique]; replay
      refusal after rotation and after logout; the refresh race.
    - [Reset.v]: [forgot_password] and [reset_password] as [reset_check]
      then [reset_commit]; single use, expiry, the issue/redeem round trip,
      the raw token in the log, the reset race.
    - [Identities.v]: the identity helpers, [link_identity] and
      [unlink_identity] (as [unlink_check] then [unlink_commit]); the
      invariants [one_per_provider], [local_identifier_unique],
      [dispatcharr_id_unique]; "never zero identities" and its race.
    - [Login.v]: [get_auth_status], [check_setup_required],
      [initial_setup], [login], [dispatcharr_login] and their common tail
      [issue_session]; setup-then-login, login soundness, the enumeration
      divergence, the Dispatcharr name collision.
    - [Admin.v]: profile update, [change_password], [get_auth_providers],
      [require_admin] and the admin endpoints for settings and users; the
      admin gate, self-lockout protection, [delete_user] as a hard delete
      (the repository's test expects a soft one), the invalid
      [primary_auth_mode] defect, and [get_auth_providers] answering 500
      after loading the settings.
    - [Cookies.v], [Module Cookies]: [_set_auth_cookies] and
      [_clear_auth_cookies] as lists of [Set-Cookie] headers, the responses
      of [login], [refresh_tokens], [dispatcharr_login] and [logout], and
      the browser's cookie store of RFC 6265 ([receive], [path_match],
      [sent_cookie]).  Theorems: the token cookies are never [Secure]; the
      browser sends the access token everywhere and the refresh token under
      [/api/auth] only, until their [max_age]; signing out through the
      browser revokes the session and leaves no authentication cookie.
    - [Cache.v], [Module Cache]: [cache.py]'s [Cache] over an
      insertion-ordered association list; set/get round trip, expiry,
      prefix invalidation, distinct keys and the hit/miss counters over any
      sequence of calls ([run]).
    - [Calendar.v]: dates as proleptic Gregorian ordinals, with CPython's
      [_ymd2ord] and [_ord2ymd]; [month_start] and [year_start] are
      [replace(day=1)] and [replace(month=1, day=1)].  The conversion is
      checked by evaluation on every day of the years 2000 to 2099
      ([calendar_ok_range], about ten seconds), which gives that the first
      day of the month and of the year precede a date of that range.  The
      bound covers the clock of any running installation; the theorems that
      need it say so in their hypotheses.  [iso_date] and [iso_datetime]
      are [date.isoformat()] and [datetime.isoformat()] (zero-padded by
      [pad], the [%0*d] shared with [strftime]); [iso_increasing_range]
      checks by evaluation that consecutive days of the same range print to
      increasing strings (about twenty seconds), whence [iso_date_lt]: the
      ISO text orders as the dates do.
    - [Bandwidth.v], [Module Bandwidth]: the [BandwidthTracker] state
      ([_running], [_task], [_last_bytes]), [start], [stop], one poll
      [collect_stats] with its channel loop [scan], [update_daily_record]
      (rolled back when a column leaves SQLite's 64-bit [INTEGER]),
      [get_bandwidth_summary], [purge_old_records], and the polling loop as a
      sequence of events ([step], [run]).  Theorems: one row per date and
      64-bit non-negative columns after any sequence of calls; over a day's
      polls with growing counters the day's bytes grow by exactly the
      counters' growth; the ordering of the summary's figures; the
      eight-day history window, returned as [to_dict] values whose date
      strings strictly increase; the zero-byte rows of idle polls; the bytes
      lost on a failed commit; the phantom bytes of channels without an id;
      the week total is the sum of the daily history; after [stop] the
      polling loop does nothing more.  [to_dict] and [repr] are the
      serialisers of [BandwidthDaily]; [get_tracker] and [set_tracker] the
      module's global [_tracker].
    - [Alerts.v], [Module Alerts]: Python values read from JSON ([pyval],
      [pytruthy]), [AlertMessage], a class's attributes ([method_class]) and
      an instance ([method]), [validate_config], [format_message], the
      registry ([register_method], [create_method], [get_method_types]), the
      rows of [models.AlertMethod] (spec-modelled: [models.py] does not hold
      them), and in [Section Manager] (parameters [json_loads] and [send])
      [load_methods], [reload_method], [send_alert] (its loop split at the
      [await] into [send_check] and [send_commit]), [get_alert_manager]
      and the module-level
      [send_alert_global].  Theorems: the registry stays well typed; what
      [load_methods] holds; [reload_method] refines [load_methods] for
      registered types and keeps a stale instance otherwise; the rate limit
      for successive calls; over a
      schedule of calls ([call], the inductive [eventually]), a method the
      limit holds back is eventually sent through again.  [to_dict] is
      [AlertMessage.to_dict] (the timestamp through [iso_datetime]).
    - [Smtp.v], [Module Smtp]: [SMTPMethod].  The Python string operations
      it uses ([str.split], [str.strip], [str.title], [int()], [str()],
      [strftime]) on ASCII, the plain and HTML bodies ([build_plain_message],
      [build_html_message], byte for byte the Python output; the emoji are
      their UTF-8 bytes) and the subject, and the session
      as a computation of a state-and-error monad [M] whose state is the
      trace of SMTP commands issued, the server being a parameter [reply];
      [finally_quit] is [try ... finally: server.quit()].  [smtp_send] and
      [test_connection].  Theorems: every accepted connection is closed by
      one [QUIT]; [LOGIN] follows an accepted [STARTTLS] when TLS is on, and
      goes in the clear when TLS and SSL are off; [test_connection] connects
      twice; composed with [send_alert], a refused server never stamps the
      row; the HTML body copies the title and source unescaped.
    - [Digest.v], [Module Digest]: [m3u_digest.py]; the settings singleton
      ([get_or_create], [get_config], [update_config]), the change
      selection ([select_changes]), [_send_digest_email] whole (its
      attribute lookups, SMTP filter, [to_emails] override and restore on
      the shared instance, and [_send_custom_email] call),
      [_send_custom_email] (in the monad of [Smtp]), [execute] and
      [send_immediate_digest], over the settings table and the global alert
      manager; the template is a parameter.  Theorems: the selection's
      specification; the settings stay one row; [execute] never sends and
      leaves the manager's instances as loaded ([get_methods] raises
      [AttributeError], and past it [m.enabled] would); [_send_custom_email] leaks its
      connection when the server refuses the message.
    - [Mail.v], [Module Mail]: [send_password_reset_email] of [routes.py]
      in the session monad of [Smtp] (its plain body written out), the base
      URL [forgot_password] builds from the request's headers, and
      [forgot_password_mailed], [Reset.forgot_password] fed with the
      e-mail's outcome.  Theorems: the reset link is built on whatever
      [X-Forwarded-Host] the request carries; a failed e-mail puts the raw
      token in the log.
    - [Exports.v], [Module Exports]: the [__all__] of [auth/__init__.py]
      ([auth_all]) and of [auth/providers/__init__.py] ([providers_all]) as
      functions of which submodule imports succeed; a guarded block is
      [guarded].  Theorem: the package import fails exactly when
      [auth.password] is missing, and otherwise lists each name once, the
      password names first.
    - [Journal.v], [Module Journal]: [JournalEntry]'s columns, [to_dict]
      (with [json.loads] a parameter of [Section Dict] that may raise) and
      [repr].  Theorem: [to_dict] raises exactly on a non-empty stored
      value that is not JSON.

    ** Conventions

    - A handler is a function from its inputs, the request environment [env]
      and the database to [result (.. * DB) auth_error].  An [Err] result
      leaves the database as it was: the handlers commit once, at the end,
      and an exception before the commit discards the pending changes.
    - Handlers that read, then write without a lock ([refresh_tokens],
      [reset_password], [unlink_identity]) are split at their first write
      into a check and a commit; an interleaving of two requests is the two
      checks followed by the two commits ([refresh_interleaved],
      [reset_interleaved], [unlink_interleaved]).
    - Time is [Z] seconds; one request reads one clock value (the code calls
      [datetime.utcnow()] several times within microseconds).  Python's
      [str.lower] is modelled on ASCII.  The bandwidth tracker's dates are day
      ordinals, [date.today()] an input of each call that reads it.
    - Outside services are parameters: the mailer's success, the Dispatcharr
      client ([authenticate]), [secrets.token_urlsafe] ([nonce]), bcrypt's
      salt ([salt]).
    - Every definition is executable: the witnesses evaluate the handlers on
      concrete databases with [vm_compute].  No fuel is needed: every
      function is structurally recursive (lists and strings).

    ** Not modelled

    The MIME encoding of the e-mails (a library), [M3UDigestTemplate] and
    the shared settings module of [get_settings()] (not in the repository),
    the request and response pydantic models of [routes.py] that only
    carry fields, the digest task's progress reports and registration with
    the task scheduler (not in the repository), and the SQLAlchemy column
    defaults and indexes of [models.py] (declarations without behaviour
    beyond the rows they describe).  [json.loads] is a parameter: no
    JSON parser is modelled. *)

From stdpp Require Export base list strings.
From Stdlib Require Export ZArith Lia.
From Stdlib Require Ascii.
From Stdlib Require Export Sorted.

(** ** Results of fallible code *)

(** The value a handler returns, or the exception it raises. *)
Inductive result (A E : Type) : Type :=
| Ok (a : A)
| Err (e : E).
Arguments Ok {A E} a.
Arguments Err {A E} e.

Definition rbind {A B E} (c : result A E) (k : A -> result B E) : result B E :=
  match c with
  | Ok a => k a
  | Err e => Err e
  end.

Definition rmap {A B E} (f : A -> B) (c : result A E) : result B E :=
  match c with
  | Ok a => Ok (f a)
  | Err e => Err e
  end.

(** [of_option e o] raises [e] when a lookup found nothing. *)
Definition of_option {A E} (e : E) (o : option A) : result A E :=
  match o with
  | Some a => Ok a
  | None => Err e
  end.

Definition is_ok {A E} (r : result A E) : bool :=
  match r with Ok _ => true | Err _ => false end.

Declare Scope auth_scope.
Delimit Scope auth_scope with auth.
Notation "x <-? c ;; k" := (rbind c (fun x => k))
  (at level 100, c at next level, right associativity) : auth_scope.
Open Scope auth_scope.

(** Python's [obj.a] on an object whose attributes are [attrs]: it
    raises [AttributeError] on a name the object lacks. *)
Definition attr_error (attrs : list string) (a : string) : result unit string :=
  if bool_decide (a ∈ attrs) then Ok tt else Err "AttributeError".

(** ** Automation *)

Create HintDb auth.
Create Rewrite HintDb auth_rw.

Ltac invc H := inversion H; subst; clear H.

(** Split the hypotheses [rbind c k = Ok b] and [of_option e o = Ok a] into
    their components, and close contradictory [Err = Ok] ones. *)
Ltac simpl_result :=
  repeat match goal with
  | H : rbind ?c _ = Ok _ |- _ =>
      let a := fresh "a" in let E := fresh "E" in
      destruct c as [a|?] eqn:E; simpl in H; [|discriminate H]
  | H : of_option _ ?o = Ok _ |- _ =>
      let a := fresh "a" in let E := fresh "E" in
      destruct o as [a|] eqn:E; simpl in H; [|discriminate H]
  | H : Ok _ = Ok _ |- _ => invc H
  | H : Err _ = Ok _ |- _ => discriminate H
  | H : Ok _ = Err _ |- _ => discriminate H
  end.

(** Case on the next [if] or [match] of the goal, remembering the test. *)
Ltac case_if :=
  match goal with
  | |- context [if ?b then _ else _] => let E := fresh "Eif" in destruct b eqn:E
  | |- context [match ?x with _ => _ end] => let E := fresh "Em" in destruct x eqn:E
  end.

(** ** Generic lemmas *)

Section Results.
Context {A B E : Type}.

Lemma rbind_Ok_inv (c : result A E) (k : A -> result B E) b :
  rbind c k = Ok b -> exists a, c = Ok a /\ k a = Ok b.
Proof. destruct c; simpl; eauto; discriminate. Qed.

Lemma rbind_Err (e : E) (k : A -> result B E) : rbind (Err e) k = Err e.
Proof. reflexivity. Qed.

Lemma rbind_Ok (a : A) (k : A -> result B E) : rbind (Ok a) k = k a.
Proof. reflexivity. Qed.

Lemma of_option_Ok (e : E) (o : option A) a : of_option e o = Ok a <-> o = Some a.
Proof. destruct o; simpl; split; congruence. Qed.

Lemma of_option_Err (e e' : E) (o : option A) : of_option e o = Err e' -> o = None /\ e = e'.
Proof. destruct o; simpl; intros H; [discriminate|split; congruence]. Qed.
End Results.

#[export] Hint Rewrite @rbind_Err @rbind_Ok : auth_rw.

Section Lists.
Context {A : Type}.

Lemma find_Some_In (p : A -> bool) l x : find p l = Some x -> In x l /\ p x = true.
Proof.
  induction l as [|y l IH]; simpl; [discriminate|].
  destruct (p y) eqn:Hy; [intros [= <-]; auto|].
  intros H; destruct (IH H); auto.
Qed.

Lemma find_None_iff (p : A -> bool) l : find p l = None <-> forall x, In x l -> p x = false.
Proof.
  induction l as [|y l IH]; simpl; [split; [intros _ x []|reflexivity]|].
  destruct (p y) eqn:Hy; split.
  - discriminate.
  - intros H. rewrite H in Hy; [discriminate|auto].
  - intros H x [<-|Hx]; [auto|]. apply IH; auto.
  - intros H. apply IH. intros x Hx; auto.
Qed.

Lemma find_app_None (p : A -> bool) l1 l2 :
  find p l1 = None -> find p (l1 ++ l2) = find p l2.
Proof.
  induction l1 as [|y l IH]; simpl; [auto|].
  destruct (p y); [discriminate|auto].
Qed.

Lemma find_ext_in (p q : A -> bool) l :
  (forall x, In x l -> p x = q x) -> find p l = find q l.
Proof.
  induction l as [|y l IH]; simpl; intros H; [reflexivity|].
  rewrite (H y (or_introl eq_refl)).
  destruct (q y); [reflexivity|]. apply IH; auto.
Qed.

Lemma filter_length_le (p : A -> bool) l : length (List.filter p l) <= length l.
Proof. induction l as [|y l IH]; simpl; [lia|]. destruct (p y); simpl; lia. Qed.

Lemma filter_none_length (p : A -> bool) l :
  (forall x, In x l -> p x = false) -> List.filter p l = [].
Proof.
  induction l as [|y l IH]; simpl; intros H; [reflexivity|].
  rewrite (H y (or_introl eq_refl)). apply IH; auto.
Qed.
Lemma NoDup_snoc (l : list A) x :
  List.NoDup l -> ~ In x l -> List.NoDup (l ++ [x]).
Proof.
  induction l as [|y l IH]; simpl; intros Hnd Hx.
  - constructor; [tauto|constructor].
  - apply NoDup_cons_iff in Hnd as [Hy Hnd]. constructor.
    + rewrite in_app_iff. simpl. intuition congruence.
    + apply IH; tauto.
Qed.

Lemma NoDup_map_filter {C} (f : A -> C) (q : A -> bool) l :
  List.NoDup (map f l) -> List.NoDup (map f (List.filter q l)).
Proof.
  induction l as [|x l IH]; simpl; [auto|]. intros Hnd.
  apply NoDup_cons_iff in Hnd as [Hx Hnd]. destruct (q x); simpl; [|auto].
  constructor; [|auto]. intros Hin. apply Hx.
  apply in_map_iff in Hin as [y [Hy Hin]]. apply filter_In in Hin as [Hin _].
  apply in_map_iff. eauto.
Qed.
Lemma two_In_length (l : list A) x y : In x l -> In y l -> x <> y -> 2 <= length l.
Proof.
  induction l as [|z l IH]; simpl; [tauto|].
  intros [<-|Hx] [<-|Hy] Hne; try congruence.
  - destruct l; simpl in *; [tauto|lia].
  - destruct l; simpl in *; [tauto|lia].
  - specialize (IH Hx Hy Hne). lia.
Qed.
(** Two distinct elements with the same image make [omap f l] repeat it. *)
Lemma list_last_cons (x d : A) l : List.last (x :: l) d = List.last l x.
Proof.
  revert x d. induction l as [|a l IH]; intros x d; [reflexivity|].
  change (List.last (a :: l) d = List.last (a :: l) x). rewrite !IH. reflexivity.
Qed.

Lemma omap_dup {B} (f : A -> option B) l x y m :
  In x l -> In y l -> x <> y -> f x = Some m -> f y = Some m -> ~ NoDup (omap f l).
Proof.
  induction l as [|z l IH]; simpl; [tauto|]. intros Hx Hy Hne Hfx Hfy Hnd.
  assert (Htail : NoDup (omap f l)) by (destruct (f z); [apply NoDup_cons in Hnd as [_ ?]|]; auto).
  destruct Hx as [<-|Hx], Hy as [<-|Hy]; try congruence.
  - rewrite Hfx in Hnd. apply NoDup_cons in Hnd as [Hm _]. apply Hm, list_elem_of_omap.
    exists y. split; [apply list_elem_of_In, Hy|exact Hfy].
  - rewrite Hfy in Hnd. apply NoDup_cons in Hnd as [Hm _]. apply Hm, list_elem_of_omap.
    exists x. split; [apply list_elem_of_In, Hx|exact Hfx].
  - exact (IH Hx Hy Hne Hfx Hfy Htail).
Qed.

(** A filter keeps a list sorted by a transitive order. *)
Lemma Sorted_filter (R : relation A) `{!Transitive R} (p : A -> bool) l :
  Sorted R l -> Sorted R (List.filter p l).
Proof.
  intros H. apply StronglySorted_Sorted. apply Sorted_StronglySorted in H; [|intros x y z; apply transitivity].
  induction H as [|a l _ IH Ha]; simpl; [constructor|]. destruct (p a); [|exact IH].
  constructor; [exact IH|]. apply List.Forall_forall. intros x Hx.
  apply filter_In in Hx as [Hx _]. exact (proj1 (List.Forall_forall _ _) Ha x Hx).
Qed.

(** A sorted list stays sorted under a map that carries the order of
    neighbours satisfying [P] to the order [R']. *)
Lemma Sorted_map_Forall {B} (P : A -> Prop) (R : relation A) (R' : relation B) (f : A -> B) l :
  List.Forall P l -> Sorted R l -> (forall a b, P a -> P b -> R a b -> R' (f a) (f b)) -> Sorted R' (map f l).
Proof.
  intros HF HS Himp. induction HS as [|a l HS IH Hhd]; cbn; constructor.
  - apply IH. inversion HF; assumption.
  - destruct Hhd as [|b l' Hab]; cbn; constructor.
    inversion HF as [|? ? Pa HF']; subst. inversion HF'; subst. apply Himp; assumption.
Qed.

(** A list sorted by [f a <= f b] whose keys are distinct is sorted by
    [f a < f b]. *)
Lemma Sorted_le_NoDup_lt (f : A -> Z) l :
  Sorted (fun a b => f a <= f b)%Z l -> NoDup (f <$> l) -> Sorted (fun a b => f a < f b)%Z l.
Proof.
  intros HS. induction HS as [|a l HS IH Hhd]; intros Hnd; constructor.
  - apply IH. cbn in Hnd. apply NoDup_cons in Hnd as [_ Hnd]. exact Hnd.
  - destruct Hhd as [|b l' Hab]; constructor. cbn in Hnd. apply NoDup_cons in Hnd as [Hn _].
    assert (f a <> f b)%Z; [|lia]. intros Heq. apply Hn. rewrite Heq. cbn. left.
Qed.
End Lists.

#[export] Hint Resolve find_app_None filter_length_le : auth.

(** ** Python dicts

    A dict is an association list in insertion order, the order Python
    iterates it in: assigning an existing key keeps its place, [del]
    removes it. *)

Section Dicts.
Context {K V : Type} `{EqDecision K}.

(** [d.get(k)], and [d[k]] when [k in d]. *)
Definition dict_get (k : K) (l : list (K * V)) : option V :=
  snd <$> find (fun kv => bool_decide (kv.1 = k)) l.

(** [d[k] = v]: in place if present, appended otherwise. *)
Fixpoint dict_set (k : K) (v : V) (l : list (K * V)) : list (K * V) :=
  match l with
  | [] => [(k, v)]
  | (k', v') :: l' => if bool_decide (k' = k) then (k, v) :: l' else (k', v') :: dict_set k v l'
  end.

(** [del d[k]] *)
Definition dict_del (k : K) (l : list (K * V)) : list (K * V) :=
  List.filter (fun kv => negb (bool_decide (kv.1 = k))) l.

Lemma dict_get_set_same k (v : V) l : dict_get k (dict_set k v l) = Some v.
Proof.
  unfold dict_get. induction l as [|[k' v'] l IH]; simpl.
  - rewrite bool_decide_true; reflexivity.
  - case_bool_decide; simpl; [rewrite bool_decide_true; reflexivity|].
    rewrite bool_decide_false by assumption. exact IH.
Qed.

Lemma dict_get_set_other k k' (v : V) l : k' <> k -> dict_get k' (dict_set k v l) = dict_get k' l.
Proof.
  intros Hne. unfold dict_get. induction l as [|[k'' v'] l IH]; simpl.
  - rewrite bool_decide_false by congruence. reflexivity.
  - destruct (decide (k'' = k)) as [->|Hk].
    + rewrite (bool_decide_true (k = k)) by reflexivity. simpl.
      rewrite (bool_decide_false (k = k')) by congruence. reflexivity.
    + rewrite (bool_decide_false (k'' = k)) by exact Hk. simpl.
      case_bool_decide; [reflexivity|exact IH].
Qed.

Lemma dict_get_cons k k' (v : V) l :
  dict_get k ((k', v) :: l) = if bool_decide (k' = k) then Some v else dict_get k l.
Proof. unfold dict_get. simpl. case_bool_decide; reflexivity. Qed.

Lemma dict_set_absent k (v : V) l : k ∉ map fst l -> dict_set k v l = l ++ [(k, v)].
Proof.
  induction l as [|[k' v'] l IH]; simpl; [reflexivity|]. intros Hk.
  rewrite bool_decide_false by (intros ->; apply Hk; left).
  rewrite IH; [reflexivity|]. intros Hin. apply Hk. right. exact Hin.
Qed.

Lemma dict_get_del_same k (l : list (K * V)) : dict_get k (dict_del k l) = None.
Proof.
  unfold dict_get, dict_del. induction l as [|[k' v'] l IH]; simpl; [reflexivity|].
  destruct (decide (k' = k)) as [->|Hne].
  - rewrite (bool_decide_true (k = k)) by reflexivity. exact IH.
  - rewrite (bool_decide_false (k' = k)) by exact Hne. simpl.
    rewrite (bool_decide_false (k' = k)) by exact Hne. exact IH.
Qed.

Lemma map_fst_dict_set k (v : V) l :
  map fst (dict_set k v l) = if bool_decide (k ∈ map fst l) then map fst l else map fst l ++ [k].
Proof.
  induction l as [|[k' v'] l IH]; simpl; [reflexivity|].
  destruct (decide (k' = k)) as [<-|Hne].
  - rewrite (bool_decide_true (k' = k')) by reflexivity. simpl.
    rewrite (bool_decide_true (k' ∈ k' :: map fst l)) by left. reflexivity.
  - rewrite (bool_decide_false (k' = k)) by exact Hne. simpl. rewrite IH.
    destruct (decide (k ∈ map fst l)) as [Hin|Hnin].
    + rewrite (bool_decide_true (k ∈ map fst l)) by exact Hin.
      rewrite (bool_decide_true (k ∈ k' :: map fst l)) by (right; exact Hin). reflexivity.
    + rewrite (bool_decide_false (k ∈ map fst l)) by exact Hnin.
      rewrite (bool_decide_false (k ∈ k' :: map fst l)); [reflexivity|].
      intros H'. apply elem_of_cons in H' as [->|H']; [congruence|contradiction].
Qed.

Lemma NoDup_dict_set k (v : V) l : List.NoDup (map fst l) -> List.NoDup (map fst (dict_set k v l)).
Proof.
  intros Hnd. rewrite map_fst_dict_set. case_bool_decide as Hk; [exact Hnd|].
  apply NoDup_snoc; [exact Hnd|]. intros Hin. apply Hk, list_elem_of_In, Hin.
Qed.

Lemma Forall_dict_set (P : K * V -> Prop) k v l : Forall P l -> P (k, v) -> Forall P (dict_set k v l).
Proof.
  intros Hl Hk. induction Hl as [|[k' v'] l Hh Ht IH]; simpl; [constructor; [exact Hk|constructor]|].
  case_bool_decide; constructor; auto.
Qed.

Lemma Forall_dict_del (P : K * V -> Prop) k l : Forall P l -> Forall P (dict_del k l).
Proof.
  intros Hl. apply List.Forall_forall. intros x Hx. apply filter_In in Hx as [Hx _].
  exact (proj1 (List.Forall_forall _ _) Hl x Hx).
Qed.

Lemma NoDup_dict_del k (l : list (K * V)) : List.NoDup (map fst l) -> List.NoDup (map fst (dict_del k l)).
Proof. apply NoDup_map_filter. Qed.

Lemma dict_get_In k (v : V) l : dict_get k l = Some v -> In (k, v) l.
Proof.
  unfold dict_get. destruct (find _ l) as [[k' v']|] eqn:E; [|discriminate]. intros [= <-].
  apply find_Some_In in E as [Hin Hk]. apply bool_decide_eq_true in Hk. simpl in Hk. subst. exact Hin.
Qed.

Lemma dict_get_Forall (P : K * V -> Prop) k v l : Forall P l -> dict_get k l = Some v -> P (k, v).
Proof.
  intros Hl. induction Hl as [|[k' v'] l Hh Ht IH]; [discriminate|].
  rewrite dict_get_cons. case_bool_decide; [intros [=]; subst; exact Hh|exact IH].
Qed.
End Dicts.

#[export] Hint Rewrite @dict_get_set_same @dict_get_del_same : auth_rw.

(** ** Strings *)

(** ASCII lower-casing, as Python's [str.lower] on ASCII text. *)
Definition lower_ascii (c : Ascii.ascii) : Ascii.ascii :=
  let n := Ascii.nat_of_ascii c in
  if (65 <=? n) && (n <=? 90) then Ascii.ascii_of_nat (n + 32) else c.

Fixpoint lower (s : string) : string :=
  match s with
  | EmptyString => EmptyString
  | String c s' => String (lower_ascii c) (lower s')
  end.

(** Python's [needle in hay] for strings. *)
Fixpoint contains (needle hay : string) : bool :=
  String.prefix needle hay ||
  match hay with
  | EmptyString => false
  | String _ hay' => contains needle hay'
  end.

(** Python's [s[:n]]. *)
Definition str_take (n : nat) (s : string) : string := String.substring 0 n s.

(** Python's truthiness of an optional string: [None] and [""] are false. *)
Definition truthy (o : option string) : bool :=
  match o with
  | Some s => negb (bool_decide (s = ""%string))
  | None => false
  end.

(** Python's [a or b] on optional strings. *)
Definition or_else (a b : option string) : option string :=
  if truthy a then a else b.

Lemma prefix_refl s : String.prefix s s = true.
Proof.
  induction s as [|c s IH]; simpl; [reflexivity|].
  destruct (Ascii.ascii_dec c c); [exact IH|congruence].
Qed.

Lemma contains_prefix n h : String.prefix n h = true -> contains n h = true.
Proof. intros H. destruct h; cbn [contains]; rewrite H; reflexivity. Qed.

Lemma contains_refl s : contains s s = true.
Proof. apply contains_prefix, prefix_refl. Qed.

Lemma contains_cons n c h : contains n (String c h) = String.prefix n (String c h) || contains n h.
Proof. reflexivity. Qed.

Lemma str_app_assoc (a b c : string) : (a ++ b ++ c)%string = ((a ++ b) ++ c)%string.
Proof.
  induction a as [|x a IH]; [reflexivity|].
  change (String x (a ++ b ++ c) = String x ((a ++ b) ++ c))%string. rewrite IH. reflexivity.
Qed.

Lemma contains_suffix n p : contains n (p ++ n) = true.
Proof.
  induction p as [|c p IH]; [apply contains_refl|].
  change ((String c p ++ n)%string) with (String c (p ++ n)).
  rewrite contains_cons, IH. apply orb_true_r.
Qed.

Lemma contains_app_l n p h : contains n h = true -> contains n (p ++ h) = true.
Proof.
  intros H. induction p as [|c p IH]; [exact H|].
  change ((String c p ++ h)%string) with (String c (p ++ h)). rewrite contains_cons, IH. apply orb_true_r.
Qed.

Lemma prefix_app n h t : String.prefix n h = true -> String.prefix n (h ++ t) = true.
Proof.
  revert n. induction h as [|c h IH]; intros [|c' n] H; try (destruct t; reflexivity).
  - cbn in H. discriminate.
  - change ((String c h ++ t)%string) with (String c (h ++ t)). cbn [String.prefix] in *.
    destruct (Ascii.ascii_dec c' c); [apply IH, H|discriminate].
Qed.

Lemma contains_app_r n h t : contains n h = true -> contains n (h ++ t) = true.
Proof.
  induction h as [|c h IH]; intros H.
  - apply contains_prefix. cbn [contains] in H. rewrite orb_false_r in H. exact (prefix_app _ _ _ H).
  - change ((String c h ++ t)%string) with (String c (h ++ t)). rewrite contains_cons in *.
    apply orb_true_iff in H as [H|H]; apply orb_true_iff; [left; exact (prefix_app _ (String c h) t H)|right; auto].
Qed.

(** A piece of a string built by [++] or [String.concat] is in it. *)
Lemma contains_mid n p t : contains n (p ++ n ++ t) = true.
Proof. apply contains_app_l, contains_app_r, contains_refl. Qed.

Lemma contains_concat_In n sep l x : In x l -> contains n x = true -> contains n (String.concat sep l) = true.
Proof.
  induction l as [|y l IH]; intros Hin Hx; [destruct Hin|]. destruct l as [|z l].
  - destruct Hin as [<-|[]]. exact Hx.
  - change (String.concat sep (y :: z :: l)) with (y ++ sep ++ String.concat sep (z :: l))%string.
    destruct Hin as [<-|Hin]; [apply contains_app_r, Hx|apply contains_app_l, contains_app_l, IH; assumption].
Qed.

#[export] Hint Resolve prefix_refl contains_refl contains_suffix contains_mid : auth.

(** ** The order of Python's [str] comparison

    [a < b] on strings compares code points lexicographically; on ASCII it
    is [str_ltb]. *)
Fixpoint str_ltb (a b : string) : bool :=
  match a, b with
  | EmptyString, String _ _ => true
  | String c a', String d b' =>
      if Ascii.eqb c d then str_ltb a' b' else (Ascii.nat_of_ascii c <? Ascii.nat_of_ascii d)%nat
  | _, EmptyString => false
  end.

Lemma str_ltb_irrefl a : str_ltb a a = false.
Proof. induction a as [|c a IH]; [reflexivity|]. cbn. rewrite Ascii.eqb_refl. exact IH. Qed.

Lemma str_ltb_trans a b c : str_ltb a b = true -> str_ltb b c = true -> str_ltb a c = true.
Proof.
  revert b c. induction a as [|x a IH]; intros [|y b] [|z c] Hab Hbc; cbn [str_ltb] in *; try discriminate; auto.
  revert Hab Hbc. destruct (Ascii.eqb_spec x y), (Ascii.eqb_spec y z), (Ascii.eqb_spec x z);
    subst; try congruence; intros Hab Hbc; eauto; rewrite ?Nat.ltb_lt in *.
  all: lia.
Qed.

Lemma str_ltb_asym a b : str_ltb a b = true -> str_ltb b a = false.
Proof.
  intros Hab. destruct (str_ltb b a) eqn:Hba; [|reflexivity].
  rewrite <- (str_ltb_irrefl a). symmetry. exact (str_ltb_trans _ _ _ Hab Hba).
Qed.
