(* ===== verification/Table.v ===== *)
(** * Table: a database table as the ordered list of its rows

    A SQLAlchemy table with an autoincrement primary key is the list of its
    rows in id order, each with its id, and the next id to hand out.
    - [insert] is [session.add(row); session.flush()]: the row gets the
      next id and goes last.
    - [first p] is [session.query(T).filter(p).first()]: the first row, in id
      order, that satisfies [p].
    - [get i] is [query(T).filter(T.id == i).first()].
    - [update i f] is an assignment to the attributes of row [i].
    - [delete_where p] is [query(T).filter(p).delete()].
    - [count p] is [query(T).filter(p).count()].
    - [select p] is [query(T).filter(p).all()].
    [wf] says that ids are distinct and below the next id; every operation
    preserves it.  The lemmas characterise each operation through list
    membership, which the components' proofs use instead of unfolding. *)

From S2P Require Import Prelude.

Module Table.

Record t (A : Type) := mk { rows : list (nat * A); next_id : nat }.
Arguments mk {A} rows next_id.
Arguments rows {A} t.
Arguments next_id {A} t.

Section Ops.
Context {A : Type}.

Definition empty : t A := mk [] 1.

Definition insert (a : A) (tb : t A) : nat * t A :=
  (next_id tb, mk (rows tb ++ [(next_id tb, a)]) (S (next_id tb))).

Definition first (p : nat -> A -> bool) (tb : t A) : option (nat * A) :=
  find (fun r => p r.1 r.2) (rows tb).

Definition get (i : nat) (tb : t A) : option A :=
  snd <$> first (fun j _ => j =? i) tb.

Definition update (i : nat) (f : A -> A) (tb : t A) : t A :=
  mk (map (fun r => if r.1 =? i then (r.1, f r.2) else r) (rows tb)) (next_id tb).

Definition delete_where (p : nat -> A -> bool) (tb : t A) : t A :=
  mk (List.filter (fun r => negb (p r.1 r.2)) (rows tb)) (next_id tb).

Definition select (p : nat -> A -> bool) (tb : t A) : list (nat * A) :=
  List.filter (fun r => p r.1 r.2) (rows tb).

Definition count (p : nat -> A -> bool) (tb : t A) : nat :=
  length (select p tb).

Definition wf (tb : t A) : Prop :=
  List.NoDup (map fst (rows tb)) /\ Forall (fun r => r.1 < next_id tb) (rows tb).

(** ** Membership *)

Lemma In_insert (a : A) tb j b :
  In (j, b) (rows (insert a tb).2) <-> In (j, b) (rows tb) \/ (j = next_id tb /\ b = a).
Proof.
  simpl. rewrite in_app_iff. simpl. split.
  - intros [H|[H|[]]]; [auto|]. injection H as -> ->. auto.
  - intros [H|[-> ->]]; auto.
Qed.

Lemma In_update i f tb j b :
  In (j, b) (rows (update i f tb)) <->
    (j <> i /\ In (j, b) (rows tb)) \/ (j = i /\ exists a, In (i, a) (rows tb) /\ b = f a).
Proof.
  simpl. rewrite in_map_iff. split.
  - intros [[k a] [Hk Hin]]; simpl in Hk.
    destruct (Nat.eqb_spec k i) as [->|Hne]; injection Hk as <- <-; eauto.
  - intros [[Hne Hin]|[-> [a [Hin ->]]]].
    + exists (j, b). simpl. destruct (Nat.eqb_spec j i); [congruence|auto].
    + exists (i, a). simpl. rewrite Nat.eqb_refl. auto.
Qed.

Lemma In_delete_where p tb j b :
  In (j, b) (rows (delete_where p tb)) <-> In (j, b) (rows tb) /\ p j b = false.
Proof. simpl. rewrite filter_In. simpl. rewrite negb_true_iff. tauto. Qed.

Lemma In_select p tb j b :
  In (j, b) (select p tb) <-> In (j, b) (rows tb) /\ p j b = true.
Proof. unfold select. rewrite filter_In. reflexivity. Qed.

(** ** [first] *)

Lemma first_Some p tb i a :
  first p tb = Some (i, a) -> In (i, a) (rows tb) /\ p i a = true.
Proof. intros H. exact (find_Some_In _ _ (i, a) H). Qed.

Lemma first_None p tb :
  first p tb = None <-> forall j b, In (j, b) (rows tb) -> p j b = false.
Proof.
  unfold first. rewrite find_None_iff. split.
  - intros H j b Hin. exact (H (j, b) Hin).
  - intros H [j b] Hin. exact (H j b Hin).
Qed.

Lemma first_In_Some p tb j b :
  In (j, b) (rows tb) -> p j b = true -> exists r, first p tb = Some r.
Proof.
  intros Hin Hp. destruct (first p tb) as [r|] eqn:E; [eauto|].
  rewrite first_None in E. rewrite (E j b Hin) in Hp. discriminate.
Qed.

Lemma first_ext p q tb :
  (forall j b, In (j, b) (rows tb) -> p j b = q j b) -> first p tb = first q tb.
Proof. intros H. apply find_ext_in. intros [j b]; apply H. Qed.

(** ** [wf] and [get] *)

Lemma wf_empty : wf empty.
Proof. split; constructor. Qed.

Lemma NoDup_In_unique (l : list (nat * A)) i a b :
  List.NoDup (map fst l) -> In (i, a) l -> In (i, b) l -> a = b.
Proof.
  induction l as [|[k c] l IH]; simpl; [tauto|].
  intros Hnd Ha Hb. apply NoDup_cons_iff in Hnd as [Hk Hnd].
  destruct Ha as [Ha|Ha], Hb as [Hb|Hb]; try congruence.
  - injection Ha as -> ->. exfalso. apply Hk. apply in_map_iff. exists (i, b); auto.
  - injection Hb as -> ->. exfalso. apply Hk. apply in_map_iff. exists (i, a); auto.
  - eauto.
Qed.

Lemma get_Some_In i tb a : get i tb = Some a -> In (i, a) (rows tb).
Proof.
  unfold get. destruct (first _ tb) as [[j b]|] eqn:E; simpl; [|discriminate].
  intros [= <-]. apply first_Some in E as [Hin Hj]. apply Nat.eqb_eq in Hj. subst. exact Hin.
Qed.

Lemma In_get i tb a : wf tb -> In (i, a) (rows tb) -> get i tb = Some a.
Proof.
  intros [Hnd _] Hin. unfold get.
  destruct (first_In_Some (fun j _ => j =? i) tb i a Hin (Nat.eqb_refl i)) as [[j b] Hf].
  rewrite Hf. simpl. apply first_Some in Hf as [Hin' Hj]. apply Nat.eqb_eq in Hj. subst.
  f_equal. exact (NoDup_In_unique _ _ _ _ Hnd Hin' Hin).
Qed.

(** A [delete()] whose filter spares row [j] leaves its lookup alone. *)
Lemma get_delete_where_keep p j tb : (forall a, p j a = false) -> get j (delete_where p tb) = get j tb.
Proof.
  intros Hp. unfold get, first, delete_where. cbn [rows].
  induction (rows tb) as [|[k a] l IH]; [reflexivity|]. cbn.
  destruct (p k a) eqn:Hk; cbn; destruct (Nat.eqb_spec k j) as [->|Hne]; cbn; auto.
  rewrite Hp in Hk. discriminate.
Qed.

Lemma get_None i tb : get i tb = None <-> forall a, ~ In (i, a) (rows tb).
Proof.
  unfold get. destruct (first _ tb) as [[j b]|] eqn:E; simpl.
  - split; [discriminate|]. apply first_Some in E as [Hin Hj].
    apply Nat.eqb_eq in Hj. subst. intros H. destruct (H b Hin).
  - split; [|reflexivity]. rewrite first_None in E. intros _ a Hin.
    specialize (E i a Hin). simpl in E. rewrite Nat.eqb_refl in E. discriminate.
Qed.

Lemma wf_insert a tb : wf tb -> wf (insert a tb).2.
Proof.
  intros [Hnd Hlt]. split; simpl.
  - rewrite map_app. simpl. apply NoDup_snoc; [exact Hnd|].
    intros Hx. apply in_map_iff in Hx as [[k b] [Hk Hin]]. simpl in Hk. subst k.
    rewrite List.Forall_forall in Hlt. specialize (Hlt _ Hin). simpl in *. lia.
  - apply Forall_app. split; [|constructor; [simpl; lia|constructor]].
    eapply Forall_impl; [exact Hlt|]. intros [k b]; simpl; lia.
Qed.

Lemma map_fst_update i f tb : map fst (rows (update i f tb)) = map fst (rows tb).
Proof.
  simpl. rewrite map_map. apply map_ext. intros [k b]. simpl. destruct (k =? i); reflexivity.
Qed.

Lemma wf_update i f tb : wf tb -> wf (update i f tb).
Proof.
  intros [Hnd Hlt]. split.
  - rewrite map_fst_update. exact Hnd.
  - apply List.Forall_forall. intros [j b] Hin. apply In_update in Hin.
    rewrite List.Forall_forall in Hlt. simpl.
    destruct Hin as [[_ Hin]|[-> [a [Hin _]]]]; exact (Hlt _ Hin).
Qed.

Lemma wf_delete_where p tb : wf tb -> wf (delete_where p tb).
Proof.
  intros [Hnd Hlt]. split; simpl.
  - apply NoDup_map_filter. exact Hnd.
  - apply List.Forall_forall. intros r Hr. apply filter_In in Hr as [Hr _].
    rewrite List.Forall_forall in Hlt. exact (Hlt r Hr).
Qed.

(** ** [update] *)

Lemma update_update i f g tb : update i f (update i g tb) = update i (fun a => f (g a)) tb.
Proof.
  unfold update. simpl. f_equal. rewrite map_map. apply map_ext.
  intros [k b]. simpl. destruct (Nat.eqb_spec k i) as [->|Hne]; simpl.
  - rewrite Nat.eqb_refl. reflexivity.
  - apply Nat.eqb_neq in Hne. rewrite Hne. reflexivity.
Qed.

Lemma update_ext i f g tb : (forall a, f a = g a) -> update i f tb = update i g tb.
Proof.
  intros H. unfold update. f_equal. apply map_ext. intros [k b]. simpl.
  destruct (k =? i); [rewrite H|]; reflexivity.
Qed.

(** An update that does not change what [p] sees does not move [first p]. *)
Lemma first_update_same p i f tb :
  (forall j a, p j (f a) = p j a) ->
  first p (update i f tb) = (fun r => if r.1 =? i then (r.1, f r.2) else r) <$> first p tb.
Proof.
  intros Hp. unfold first, update. simpl. induction (rows tb) as [|[k b] l IH]; simpl; [reflexivity|].
  destruct (k =? i) eqn:Ek; simpl; rewrite ?Hp; destruct (p k b); simpl; rewrite ?Ek; auto.
Qed.

Lemma get_update_eq i f tb a :
  wf tb -> get i tb = Some a -> get i (update i f tb) = Some (f a).
Proof.
  intros Hwf Hg. apply In_get; [apply wf_update, Hwf|]. apply In_update. right.
  split; [reflexivity|]. exists a. split; [apply get_Some_In, Hg|reflexivity].
Qed.

Lemma get_update_same i f tb : wf tb -> get i (update i f tb) = f <$> get i tb.
Proof.
  intros Hwf. destruct (get i tb) as [a|] eqn:E; [exact (get_update_eq i f tb a Hwf E)|].
  apply get_None. intros b Hin. apply In_update in Hin as [[Hne _]|[_ [a [Ha _]]]]; [congruence|].
  exact (proj1 (get_None i tb) E a Ha).
Qed.

Lemma get_update_ne i j f tb : wf tb -> j <> i -> get j (update i f tb) = get j tb.
Proof.
  intros Hwf Hne. destruct (get j tb) as [a|] eqn:E.
  - apply In_get; [apply wf_update, Hwf|]. apply In_update. left. split; [exact Hne|].
    apply get_Some_In, E.
  - apply get_None. intros a Hin. apply In_update in Hin as [[_ Hin]|[Heq _]]; [|contradiction].
    exact (proj1 (get_None j tb) E a Hin).
Qed.

Lemma get_insert_old a tb j : wf tb -> j <> next_id tb -> get j (insert a tb).2 = get j tb.
Proof.
  intros Hwf Hne. destruct (get j tb) as [b|] eqn:E.
  - apply In_get; [apply wf_insert, Hwf|]. apply In_insert. left. apply get_Some_In, E.
  - apply get_None. intros b Hin. apply In_insert in Hin as [Hin|[Heq _]]; [|contradiction].
    exact (proj1 (get_None j tb) E b Hin).
Qed.

Lemma first_insert_new p a tb :
  first p tb = None -> p (next_id tb) a = true -> first p (insert a tb).2 = Some (next_id tb, a).
Proof.
  unfold first. intros Hn Hp. simpl. rewrite find_app_None by exact Hn. simpl. rewrite Hp. reflexivity.
Qed.

Lemma count_select_nil p tb : count p tb = 0 <-> select p tb = [].
Proof. unfold count. destruct (select p tb); simpl; split; congruence. Qed.
Lemma count_insert p a tb :
  count p (insert a tb).2 = count p tb + (if p (next_id tb) a then 1 else 0).
Proof.
  unfold count, select. simpl. rewrite List.filter_app, List.length_app. simpl.
  destruct (p (next_id tb) a); reflexivity.
Qed.

Lemma filter_id_absent (l : list (nat * A)) j :
  ~ In j (map fst l) -> List.filter (fun r => negb (r.1 =? j)) l = l.
Proof.
  induction l as [|[k b] l IH]; simpl; [reflexivity|]. intros Hj.
  destruct (Nat.eqb_spec k j); [tauto|]. simpl. f_equal. auto.
Qed.

(** Deleting the row with id [j], which [p] selects, lowers [count p] by one. *)
Lemma count_delete_id p tb j a :
  wf tb -> In (j, a) (rows tb) -> p j a = true ->
  count p (delete_where (fun k _ => k =? j) tb) = count p tb - 1 /\ 1 <= count p tb.
Proof.
  unfold count, select, delete_where. simpl. intros [Hnd _]. revert Hnd.
  induction (rows tb) as [|[k b] l IH]; simpl; [tauto|].
  intros Hnd [Hj|Hin] Hp; apply NoDup_cons_iff in Hnd as [Hk Hnd].
  - injection Hj as -> ->. rewrite Nat.eqb_refl, Hp. simpl.
    rewrite filter_id_absent by exact Hk. lia.
  - destruct (Nat.eqb_spec k j) as [->|Hne].
    + exfalso. apply Hk. apply in_map_iff. exists (j, a). auto.
    + simpl. destruct (IH Hnd Hin Hp) as [H1 H2]. destruct (p k b); simpl; lia.
Qed.

Lemma count_update p i f tb :
  (forall j a, p j (f a) = p j a) -> count p (update i f tb) = count p tb.
Proof.
  intros Hp. unfold count, select, update. simpl. induction (rows tb) as [|[k b] l IH]; simpl; [reflexivity|].
  destruct (k =? i); simpl; rewrite ?Hp; destruct (p k b); simpl; rewrite ?IH; reflexivity.
Qed.

Lemma count_In p tb j a : In (j, a) (rows tb) -> p j a = true -> 1 <= count p tb.
Proof.
  intros Hin Hp. unfold count. destruct (select p tb) eqn:E; simpl; [|lia].
  assert (Hs : In (j, a) (select p tb)) by (apply In_select; auto). rewrite E in Hs. destruct Hs.
Qed.

(** A relation on rows that no two rows with different ids are in. *)
Definition unique (R : A -> A -> Prop) (tb : t A) : Prop :=
  forall i j a b, In (i, a) (rows tb) -> In (j, b) (rows tb) -> R a b -> i = j.

Lemma unique_delete_where R p tb : unique R tb -> unique R (delete_where p tb).
Proof.
  intros Hu i j a b Ha Hb HR. apply In_delete_where in Ha as [Ha _], Hb as [Hb _]. eauto.
Qed.

Lemma unique_single R i a n : unique R (mk [(i, a)] n).
Proof. intros j k b c [Hb|[]] [Hc|[]] _. congruence. Qed.

(** A row that no row of the table is related to, either way. *)
Definition fresh_for (R : A -> A -> Prop) (a : A) (tb : t A) : Prop :=
  forall j b, In (j, b) (rows tb) -> ~ R a b /\ ~ R b a.

Lemma unique_insert R a tb :
  wf tb -> unique R tb -> fresh_for R a tb -> unique R (insert a tb).2.
Proof.
  intros [_ Hlt] Hu Hfresh i j x y Hx Hy HR.
  apply In_insert in Hx as [Hx|[-> ->]], Hy as [Hy|[-> ->]].
  - eauto.
  - exfalso. exact (proj2 (Hfresh _ _ Hx) HR).
  - exfalso. exact (proj1 (Hfresh _ _ Hy) HR).
  - reflexivity.
Qed.

Lemma unique_update R i f tb :
  (forall a b, R (f a) b -> R a b) -> (forall a b, R a (f b) -> R a b) ->
  unique R tb -> unique R (update i f tb).
Proof.
  intros Hl Hr Hu j k x y Hx Hy HR.
  apply In_update in Hx as [[_ Hx]|[-> [a [Ha ->]]]], Hy as [[_ Hy]|[-> [b [Hb ->]]]]; eauto.
Qed.
End Ops.
End Table.
