(* ===== verification/Models.v ===== *)
(** * Models: the rows of the authentication tables, the database, the errors

    The ORM classes [User], [UserIdentity], [UserSession] and
    [PasswordResetToken] that [auth/routes.py] imports from [models.py] are
    not in the repository ([src/backend/models.py] only holds the journal and
    bandwidth tables); their columns are taken from the data model of the
    specification (section 3) and from the attributes [routes.py] reads and
    writes.  Each is a record in a module of its own, so that the column
    names of the code ([external_id], [last_used_at], [user_id], ...) can be
    kept although several tables share them.  The database is the four
    tables; [auth_error] has one constructor per kind of exception the handlers
    raise; [env] is what a request reads from the outside world. *)

From S2P Require Import Prelude Table.

Module User.
Record t := mk {
  username : string;
  email : option string;
  password_hash : option string;
  display_name : option string;
  is_admin : bool;
  is_active : bool;
  auth_provider : string;
  external_id : option string;
  created_at : Z;
  updated_at : Z;
  last_login_at : option Z
}.

Definition set_password_hash (h : option string) (now : Z) (u : t) : t :=
  mk (username u) (email u) h (display_name u) (is_admin u) (is_active u)
     (auth_provider u) (external_id u) (created_at u) now (last_login_at u).

Definition set_last_login (now : Z) (u : t) : t :=
  mk (username u) (email u) (password_hash u) (display_name u) (is_admin u) (is_active u)
     (auth_provider u) (external_id u) (created_at u) (updated_at u) (Some now).

Definition set_profile (e d : option string) (u : t) : t :=
  mk (username u) e (password_hash u) d (is_admin u) (is_active u)
     (auth_provider u) (external_id u) (created_at u) (updated_at u) (last_login_at u).

Definition set_updated (now : Z) (u : t) : t :=
  mk (username u) (email u) (password_hash u) (display_name u) (is_admin u) (is_active u)
     (auth_provider u) (external_id u) (created_at u) now (last_login_at u).

(** [user.password_hash = h] alone, as [link_identity] does it. *)
Definition store_password_hash (h : option string) (u : t) : t :=
  mk (username u) (email u) h (display_name u) (is_admin u) (is_active u)
     (auth_provider u) (external_id u) (created_at u) (updated_at u) (last_login_at u).

Definition set_flags (adm act : bool) (now : Z) (u : t) : t :=
  mk (username u) (email u) (password_hash u) (display_name u) adm act
     (auth_provider u) (external_id u) (created_at u) now (last_login_at u).
End User.

Module UserIdentity.
Record t := mk {
  user_id : nat;
  provider : string;
  external_id : option string;
  identifier : string;
  linked_at : Z;
  last_used_at : option Z
}.

Definition touch (now : Z) (i : t) : t :=
  mk (user_id i) (provider i) (external_id i) (identifier i) (linked_at i) (Some now).
End UserIdentity.

Module UserSession.
Record t := mk {
  user_id : nat;
  refresh_token_hash : string;
  ip_address : option string;
  user_agent : string;
  is_revoked : bool;
  expires_at : Z;
  last_used_at : option Z
}.

(** The three assignments of [refresh_tokens] after a successful rotation. *)
Definition rotate (h : string) (now exp : Z) (s : t) : t :=
  mk (user_id s) h (ip_address s) (user_agent s) (is_revoked s) exp (Some now).

Definition revoke (s : t) : t :=
  mk (user_id s) (refresh_token_hash s) (ip_address s) (user_agent s) true
     (expires_at s) (last_used_at s).
End UserSession.

Module PasswordResetToken.
Record t := mk {
  user_id : nat;
  token_hash : string;
  expires_at : Z;
  used_at : option Z
}.

Definition mark_used (now : Z) (r : t) : t :=
  mk (user_id r) (token_hash r) (expires_at r) (Some now).
End PasswordResetToken.

(** The database the handlers read and write through their session. *)
Record DB := mkDB {
  users : Table.t User.t;
  identities : Table.t UserIdentity.t;
  sessions : Table.t UserSession.t;
  reset_tokens : Table.t PasswordResetToken.t
}.

Definition empty_db : DB := mkDB Table.empty Table.empty Table.empty Table.empty.

Definition set_users (t : Table.t User.t) (db : DB) : DB :=
  mkDB t (identities db) (sessions db) (reset_tokens db).
Definition set_identities (t : Table.t UserIdentity.t) (db : DB) : DB :=
  mkDB (users db) t (sessions db) (reset_tokens db).
Definition set_sessions (t : Table.t UserSession.t) (db : DB) : DB :=
  mkDB (users db) (identities db) t (reset_tokens db).
Definition set_reset_tokens (t : Table.t PasswordResetToken.t) (db : DB) : DB :=
  mkDB (users db) (identities db) (sessions db) t.

Definition db_wf (db : DB) : Prop :=
  Table.wf (users db) /\ Table.wf (identities db) /\
  Table.wf (sessions db) /\ Table.wf (reset_tokens db).

(** The exceptions the handlers raise.  [HTTPException] carries the status
    code and the [detail] string of the code; [AuthenticationError] is the
    exception of [auth.dependencies] (answered with 401); [IntegrityError]
    is the database refusing a row that breaks a unique constraint. *)
Inductive auth_error : Type :=
| HTTPException (status : nat) (detail : string)
| AuthenticationError (detail : string)
| IntegrityError (what : string).

(** What one request reads from outside the program: the clock, the client
    address and [User-Agent] header, and the randomness it draws
    ([secrets.token_urlsafe] and the token identifier as [nonce], the bcrypt
    salt as [salt]). *)
Record env := mkEnv {
  now : Z;
  client_host : option string;
  user_agent_header : option string;
  nonce : string;
  salt : nat
}.

(** [request.headers.get("User-Agent", "")[:500]] *)
Definition user_agent_of (e : env) : string :=
  str_take 500 (default ""%string (user_agent_header e)).

(** The unique constraints of [users] (specification section 3): user names
    are unique, and so are e-mail addresses where set.  A flush or commit
    that would break them raises [IntegrityError]. *)
Definition usernames (db : DB) : list string := map (fun r => User.username r.2) (Table.rows (users db)).
Definition emails (db : DB) : list string := omap (fun r => User.email r.2) (Table.rows (users db)).

Definition users_unique (db : DB) : Prop := NoDup (usernames db) /\ NoDup (emails db).

#[export] Instance users_unique_dec db : Decision (users_unique db).
Proof. unfold users_unique. apply _. Defined.

(** [session.flush()] / [session.commit()] of pending changes to [users]. *)
Definition flush (db : DB) : result DB auth_error :=
  if decide (users_unique db) then Ok db else Err (IntegrityError "users").

(** [session.add(user); session.flush()]: the new row and its id. *)
Definition add_user (u : User.t) (db : DB) : result (nat * DB) auth_error :=
  let '(uid, t) := Table.insert u (users db) in
  db' <-? flush (set_users t db) ;; Ok (uid, db').

(** [get_current_user] of [auth/dependencies.py] (not in the repository):
    the active user the access token names. *)
Definition get_current_user (uid : nat) (db : DB) : result User.t auth_error :=
  match Table.get uid (users db) with
  | Some u => if User.is_active u then Ok u else Err (AuthenticationError "User not found or disabled")
  | None => Err (AuthenticationError "User not found or disabled")
  end.

(** ** The unique constraints under the table operations *)

Lemma usernames_insert u db :
  usernames (set_users (Table.insert u (users db)).2 db) = usernames db ++ [User.username u].
Proof. unfold usernames. simpl. rewrite map_app. reflexivity. Qed.

Lemma emails_insert u db :
  emails (set_users (Table.insert u (users db)).2 db) = emails db ++ option_list (User.email u).
Proof.
  unfold emails. simpl. rewrite omap_app. simpl. destruct (User.email u); simpl; rewrite ?app_nil_r; reflexivity.
Qed.

(** An update that keeps user names and e-mails keeps both lists. *)
Lemma usernames_update i f db :
  (forall u, User.username (f u) = User.username u) ->
  usernames (set_users (Table.update i f (users db)) db) = usernames db.
Proof.
  intros Hf. unfold usernames. simpl. rewrite map_map. apply map_ext. intros [k b]. simpl.
  destruct (k =? i); simpl; [apply Hf|reflexivity].
Qed.

Lemma emails_update i f db :
  (forall u, User.email (f u) = User.email u) ->
  emails (set_users (Table.update i f (users db)) db) = emails db.
Proof.
  intros Hf. unfold emails. simpl. apply list_omap_ext.
  induction (Table.rows (users db)) as [|[k b] l IH]; simpl; constructor; [|exact IH].
  destruct (k =? i); simpl; [apply Hf|reflexivity].
Qed.

Lemma users_unique_update i f db :
  (forall u, User.username (f u) = User.username u) -> (forall u, User.email (f u) = User.email u) ->
  users_unique (set_users (Table.update i f (users db)) db) <-> users_unique db.
Proof. intros Hu He. unfold users_unique. rewrite usernames_update, emails_update by assumption. reflexivity. Qed.

Lemma users_unique_insert u db :
  users_unique db -> User.username u ∉ usernames db ->
  (forall m, User.email u = Some m -> m ∉ emails db) ->
  users_unique (set_users (Table.insert u (users db)).2 db).
Proof.
  intros [Hn He] Hu Hm. unfold users_unique. rewrite usernames_insert, emails_insert. split.
  - apply NoDup_app. split; [exact Hn|]. split; [|apply NoDup_singleton].
    intros x Hx Hy. apply list_elem_of_singleton in Hy. subst. contradiction.
  - destruct (User.email u) as [m|] eqn:E; simpl; [|rewrite app_nil_r; exact He].
    apply NoDup_app. split; [exact He|]. split; [|apply NoDup_singleton].
    intros x Hx Hy. apply list_elem_of_singleton in Hy. rewrite Hy in Hx. exact (Hm m eq_refl Hx).
Qed.

Lemma users_unique_dup_username u db :
  User.username u ∈ usernames db -> ~ users_unique (set_users (Table.insert u (users db)).2 db).
Proof.
  intros Hin [Hn _]. rewrite usernames_insert in Hn. apply NoDup_app in Hn as (_ & Hdis & _).
  apply (Hdis _ Hin). apply list_elem_of_singleton. reflexivity.
Qed.

Lemma flush_Ok db : users_unique db -> flush db = Ok db.
Proof. intros H. unfold flush. rewrite decide_True by exact H. reflexivity. Qed.

Lemma flush_Ok_inv db db' : flush db = Ok db' -> db' = db /\ users_unique db.
Proof. unfold flush. destruct (decide _); intros Hf; [invc Hf; auto|discriminate]. Qed.

Lemma add_user_Ok u db :
  users_unique (set_users (Table.insert u (users db)).2 db) ->
  add_user u db = Ok (Table.next_id (users db), set_users (Table.insert u (users db)).2 db).
Proof. intros H. unfold add_user. simpl. rewrite flush_Ok by exact H. reflexivity. Qed.

Lemma add_user_dup u db :
  User.username u ∈ usernames db -> add_user u db = Err (IntegrityError "users").
Proof.
  intros Hin. unfold add_user, flush. simpl.
  rewrite decide_False by exact (users_unique_dup_username u db Hin). reflexivity.
Qed.

(** ** Projections of the table setters *)

Lemma users_set_users t db : users (set_users t db) = t.
Proof. reflexivity. Qed.
Lemma identities_set_users t db : identities (set_users t db) = identities db.
Proof. reflexivity. Qed.
Lemma sessions_set_users t db : sessions (set_users t db) = sessions db.
Proof. reflexivity. Qed.
Lemma reset_tokens_set_users t db : reset_tokens (set_users t db) = reset_tokens db.
Proof. reflexivity. Qed.
Lemma users_set_identities t db : users (set_identities t db) = users db.
Proof. reflexivity. Qed.
Lemma identities_set_identities t db : identities (set_identities t db) = t.
Proof. reflexivity. Qed.
Lemma users_set_sessions t db : users (set_sessions t db) = users db.
Proof. reflexivity. Qed.
Lemma identities_set_sessions t db : identities (set_sessions t db) = identities db.
Proof. reflexivity. Qed.
Lemma sessions_set_sessions t db : sessions (set_sessions t db) = t.
Proof. reflexivity. Qed.
Lemma users_set_reset_tokens t db : users (set_reset_tokens t db) = users db.
Proof. reflexivity. Qed.

#[export] Hint Rewrite users_set_users identities_set_users sessions_set_users reset_tokens_set_users
  users_set_identities identities_set_identities users_set_sessions identities_set_sessions
  sessions_set_sessions users_set_reset_tokens : auth_rw.

(** Two users with the same e-mail break the constraint. *)
Lemma emails_dup db i j a b m :
  In (i, a) (Table.rows (users db)) -> In (j, b) (Table.rows (users db)) -> i <> j ->
  User.email a = Some m -> User.email b = Some m -> ~ users_unique db.
Proof.
  intros Ha Hb Hne Hma Hmb [_ Hnd]. unfold emails in Hnd.
  apply (omap_dup (fun r => User.email r.2) _ (i, a) (j, b) m Ha Hb); auto. congruence.
Qed.
