(* ===== verification/Crypto.v ===== *)
(** * Crypto: the hash functions the handlers call, as interfaces

    [routes.py] calls [hash_token] (from [auth/tokens.py], a one-way hash of
    a refresh token, stored in [user_sessions.refresh_token_hash]) and
    [hash_password]/[verify_password] (from [auth/password.py], bcrypt).
    Neither file is in the repository.  Each is a type class whose laws are
    what the specification (sections 4.1 and 4.4) and the unit tests
    [tests/unit/test_password_security.py] require of it; the handlers'
    theorems are proved for every instance.  One concrete instance of each,
    whose laws are proved, lets the witnesses compute.
    - [TokenHash]: [hash_token] is injective (two different refresh tokens
      are never stored under the same hash).
    - [PasswordHasher]: [hash_password salt pw] is salted (two salts give two
      hashes), and [verify_password] accepts exactly the password that was
      hashed, never the empty one. *)

From S2P Require Import Prelude.
From Stdlib Require Import Ascii.

Class TokenHash := {
  hash_token : string -> string;
  hash_token_inj : forall a b, hash_token a = hash_token b -> a = b
}.

Class PasswordHasher := {
  hash_password : nat -> string -> string;
  verify_password : string -> string -> bool;
  verify_hash_password : forall salt pw,
    pw <> ""%string -> verify_password pw (hash_password salt pw) = true;
  verify_password_empty : forall h, verify_password ""%string h = false;
  verify_password_wrong : forall salt pw pw',
    pw' <> pw -> verify_password pw' (hash_password salt pw) = false;
  hash_password_salted : forall s1 s2 pw,
    s1 <> s2 -> hash_password s1 pw <> hash_password s2 pw;
  hash_password_nonempty : forall salt pw, hash_password salt pw <> ""%string
}.

(** ** Generic string lemmas used by the instances *)

Lemma append_cancel_l (p a b : string) : (p ++ a)%string = (p ++ b)%string -> a = b.
Proof. induction p as [|c p IH]; simpl; [auto|]. intros [= H]. auto. Qed.

Fixpoint strip_prefix (p s : string) : option string :=
  match p, s with
  | EmptyString, _ => Some s
  | String c p', String d s' => if Ascii.eqb c d then strip_prefix p' s' else None
  | String _ _, EmptyString => None
  end.

Lemma strip_prefix_app p s : strip_prefix p (p ++ s) = Some s.
Proof. induction p as [|c p IH]; simpl; [reflexivity|]. rewrite Ascii.eqb_refl. exact IH. Qed.

Lemma str_length_app (a b : string) :
  String.length (a ++ b) = String.length a + String.length b.
Proof. induction a as [|c a IH]; simpl; [reflexivity|]. rewrite IH. reflexivity. Qed.

(** ** A concrete token hash: a tagged copy of the token *)

Definition tagged_hash (s : string) : string := ("sha256:" ++ s)%string.

#[export] Instance tagged_TokenHash : TokenHash.
Proof. refine {| hash_token := tagged_hash |}. apply append_cancel_l. Defined.

(** ** A concrete bcrypt-shaped hasher

    [$2b$12$] followed by the salt (written as [salt] letters [x]), a [$],
    and the password; [verify_password] strips the prefix and the salt. *)

Fixpoint salt_str (n : nat) : string :=
  match n with
  | O => EmptyString
  | S n' => String "x"%char (salt_str n')
  end.

Lemma salt_str_length n : String.length (salt_str n) = n.
Proof. induction n as [|n IH]; simpl; [reflexivity|]. rewrite IH. reflexivity. Qed.

Fixpoint drop_salt (s : string) : string :=
  match s with
  | String c s' => if Ascii.eqb c "x"%char then drop_salt s' else s
  | EmptyString => EmptyString
  end.

Definition model_hash (salt : nat) (pw : string) : string :=
  ("$2b$12$" ++ salt_str salt ++ "$" ++ pw)%string.

Definition model_verify (pw h : string) : bool :=
  if bool_decide (pw = ""%string) then false else
  match strip_prefix "$2b$12$" h with
  | Some rest =>
      match drop_salt rest with
      | String c r => Ascii.eqb c "$"%char && bool_decide (r = pw)
      | EmptyString => false
      end
  | None => false
  end.

Lemma drop_salt_str n pw : drop_salt (salt_str n ++ "$" ++ pw) = ("$" ++ pw)%string.
Proof. induction n as [|n IH]; simpl; [reflexivity|]. exact IH. Qed.

Lemma model_verify_hash salt pw pw' :
  model_verify pw' (model_hash salt pw) = negb (bool_decide (pw' = ""%string)) && bool_decide (pw = pw').
Proof.
  unfold model_verify, model_hash.
  destruct (bool_decide (pw' = ""%string)); [reflexivity|].
  rewrite strip_prefix_app, drop_salt_str. reflexivity.
Qed.

Lemma model_hash_length salt pw :
  String.length (model_hash salt pw) = 8 + salt + String.length pw.
Proof.
  unfold model_hash. rewrite !str_length_app, salt_str_length. simpl. lia.
Qed.

#[export] Instance model_PasswordHasher : PasswordHasher.
Proof.
  refine {| hash_password := model_hash; verify_password := model_verify |}.
  - intros salt pw Hpw. rewrite model_verify_hash.
    rewrite bool_decide_false, bool_decide_true; auto.
  - intros h. reflexivity.
  - intros salt pw pw' Hne. rewrite model_verify_hash.
    rewrite (bool_decide_false (pw = pw')); [apply andb_false_r|congruence].
  - intros s1 s2 pw Hne Heq. apply (f_equal String.length) in Heq.
    rewrite !model_hash_length in Heq. lia.
  - intros salt pw Heq. apply (f_equal String.length) in Heq.
    rewrite model_hash_length in Heq. simpl in Heq. lia.
Defined.
