(* ===== verification/Settings.v ===== *)
(** * Settings: [src/backend/auth/settings.py]

    The pydantic models of the authentication configuration, with the
    defaults of the code, and the module-level cache [_cached_auth_settings]
    with the configuration file behind it.  The cache and the file are the
    [store]; [load_auth_settings], [save_auth_settings],
    [clear_auth_settings_cache], [get_jwt_secret_key] and
    [mark_setup_complete] are functions on it.  The outside world is explicit:
    whether the configuration directory can be created ([dir_ok]), whether the
    file can be written ([writable]), and the secret [secrets.token_urlsafe]
    draws ([fresh_secret]). *)

From S2P Require Import Prelude.

Record JWTSettings := mkJWT {
  secret_key : string;
  algorithm : string;
  access_token_expire_minutes : Z;
  refresh_token_expire_days : Z
}.

Record SessionSettings := mkSessionSettings {
  max_sessions_per_user : Z;
  inactivity_timeout_minutes : Z;
  extend_on_activity : bool
}.

Record LocalAuthSettings := mkLocal {
  local_enabled : bool;
  min_password_length : Z;
  require_uppercase : bool;
  require_lowercase : bool;
  require_number : bool;
  require_special : bool
}.

Record DispatcharrAuthSettings := mkDispatcharr {
  dispatcharr_enabled : bool;
  use_dispatcharr_auth : bool;
  auto_create_users : bool
}.

Record AuthSettings := mkAuth {
  setup_complete : bool;
  primary_auth_mode : string;
  require_auth : bool;
  jwt : JWTSettings;
  session : SessionSettings;
  local : LocalAuthSettings;
  dispatcharr : DispatcharrAuthSettings
}.

Definition default_jwt : JWTSettings := mkJWT "" "HS256" 30 7.
Definition default_session : SessionSettings := mkSessionSettings 5 0 true.
Definition default_local : LocalAuthSettings := mkLocal true 8 true true true false.
Definition default_dispatcharr : DispatcharrAuthSettings := mkDispatcharr false false true.

(** [AuthSettings()] *)
Definition default_settings : AuthSettings :=
  mkAuth false "local" true default_jwt default_session default_local default_dispatcharr.

Definition is_setup_required (s : AuthSettings) : bool := negb (setup_complete s).

Definition get_enabled_providers (s : AuthSettings) : list string :=
  (if local_enabled (local s) then ["local"%string] else []) ++
  (if dispatcharr_enabled (dispatcharr s) then ["dispatcharr"%string] else []).

(** What the constructor [AuthSettings] accepts on the file's data: pydantic checks the [Literal] type
    of [primary_auth_mode] when the model is built, not when a field is
    assigned. *)
Definition settings_valid (s : AuthSettings) : bool :=
  bool_decide (primary_auth_mode s = "local"%string) ||
  bool_decide (primary_auth_mode s = "dispatcharr"%string).

(** Assignments to nested fields. *)
Definition with_secret (k : string) (s : AuthSettings) : AuthSettings :=
  let j := jwt s in
  mkAuth (setup_complete s) (primary_auth_mode s) (require_auth s)
    (mkJWT k (algorithm j) (access_token_expire_minutes j) (refresh_token_expire_days j))
    (session s) (local s) (dispatcharr s).

Definition with_setup_complete (b : bool) (s : AuthSettings) : AuthSettings :=
  mkAuth b (primary_auth_mode s) (require_auth s) (jwt s) (session s) (local s) (dispatcharr s).

(** ** The cache and the configuration file *)

(** [file] is [None] when [auth_settings.json] does not exist, [Some None]
    when it exists but does not parse into [AuthSettings], and
    [Some (Some s)] when it holds [s]. *)
Record store := mkStore {
  cache : option AuthSettings;
  file : option (option AuthSettings);
  dir_ok : bool;
  writable : bool
}.

Definition set_cache (c : option AuthSettings) (st : store) : store :=
  mkStore c (file st) (dir_ok st) (writable st).

(** [save_auth_settings]: the settings are cached whatever happens; the file
    is written only when the directory exists and the write succeeds. *)
Definition save_auth_settings (s : AuthSettings) (st : store) : bool * store :=
  if negb (dir_ok st) then (false, set_cache (Some s) st)
  else if writable st then (true, mkStore (Some s) (Some (Some s)) (dir_ok st) (writable st))
  else (false, set_cache (Some s) st).

(** [load_auth_settings]; [fresh_secret] is what [_generate_secret_key]
    returns if it is called. *)
Definition load_auth_settings (fresh_secret : string) (st : store) : AuthSettings * store :=
  match cache st with
  | Some s => (s, st)
  | None =>
      match file st with
      | Some (Some s) =>
          if negb (settings_valid s) then
            let s' := with_secret fresh_secret default_settings in
            (s', (save_auth_settings s' (set_cache (Some default_settings) st)).2)
          else if bool_decide (secret_key (jwt s) = ""%string) then
            let s' := with_secret fresh_secret s in
            (s', (save_auth_settings s' (set_cache (Some s) st)).2)
          else (s, set_cache (Some s) st)
      | _ =>
          let s' := with_secret fresh_secret default_settings in
          (s', (save_auth_settings s' (set_cache (Some default_settings) st)).2)
      end
  end.

Definition get_auth_settings := load_auth_settings.

Definition clear_auth_settings_cache (st : store) : store := set_cache None st.

Definition get_jwt_secret_key (fresh_secret : string) (st : store) : string * store :=
  let '(s, st1) := get_auth_settings fresh_secret st in
  if bool_decide (secret_key (jwt s) = ""%string) then
    let s' := with_secret fresh_secret s in
    (fresh_secret, (save_auth_settings s' st1).2)
  else (secret_key (jwt s), st1).

Definition mark_setup_complete (fresh_secret : string) (st : store) : store :=
  let '(s, st1) := get_auth_settings fresh_secret st in
  (save_auth_settings (with_setup_complete true s) st1).2.

(** A process restart: the module-level cache is gone, the file stays. *)
Definition restart (st : store) : store := clear_auth_settings_cache st.

(** The cached settings carry a signing secret. *)
Definition secret_ok (st : store) : Prop :=
  forall s, cache st = Some s -> secret_key (jwt s) <> ""%string.

(** ** Properties *)

Lemma secret_key_with_secret k s : secret_key (jwt (with_secret k s)) = k.
Proof. reflexivity. Qed.

Lemma save_auth_settings_cache s st : cache (save_auth_settings s st).2 = Some s.
Proof. unfold save_auth_settings. destruct (dir_ok st), (writable st); reflexivity. Qed.

Lemma save_auth_settings_env s st :
  dir_ok (save_auth_settings s st).2 = dir_ok st /\ writable (save_auth_settings s st).2 = writable st.
Proof. unfold save_auth_settings. destruct (dir_ok st) eqn:E1, (writable st) eqn:E2; simpl; auto. Qed.

#[export] Hint Rewrite save_auth_settings_cache secret_key_with_secret : auth_rw.

(** [save_auth_settings] always caches the settings; it writes the
    file, and reports success, exactly when the directory exists and the file
    can be written. *)
Theorem save_auth_settings_spec s st :
  cache (save_auth_settings s st).2 = Some s /\
  (save_auth_settings s st).1 = dir_ok st && writable st /\
  file (save_auth_settings s st).2 = (if dir_ok st && writable st then Some (Some s) else file st).
Proof.
  rewrite save_auth_settings_cache. unfold save_auth_settings.
  destruct (dir_ok st) eqn:E1, (writable st) eqn:E2; simpl; auto.
Qed.

(** What [load_auth_settings] returns is what it leaves in the cache. *)
Lemma load_auth_settings_cache fs st :
  cache (load_auth_settings fs st).2 = Some (load_auth_settings fs st).1.
Proof.
  unfold load_auth_settings. destruct (cache st) eqn:E; [exact E|].
  destruct (file st) as [[s|]|]; [|cbn [fst snd]; autorewrite with auth_rw; reflexivity..].
  destruct (settings_valid s); cbn [negb fst snd]; [|autorewrite with auth_rw; reflexivity].
  case_bool_decide; cbn [fst snd]; autorewrite with auth_rw; reflexivity.
Qed.

(** [load_auth_settings] does not change what the file system allows. *)
Lemma load_auth_settings_env fs st :
  dir_ok (load_auth_settings fs st).2 = dir_ok st /\ writable (load_auth_settings fs st).2 = writable st.
Proof.
  unfold load_auth_settings, save_auth_settings, set_cache. repeat case_match; simpl; auto.
Qed.

(** a second [load_auth_settings] answers from the cache:
    the same settings, the store unchanged, whatever secret it would draw. *)
Theorem load_auth_settings_idempotent fs fs' st :
  load_auth_settings fs' (load_auth_settings fs st).2 =
    ((load_auth_settings fs st).1, (load_auth_settings fs st).2).
Proof.
  unfold load_auth_settings at 1. rewrite load_auth_settings_cache. reflexivity.
Qed.

(** with a non-empty drawn secret, [load_auth_settings] returns
    settings that carry a signing secret and keeps the cache so. *)
Theorem load_auth_settings_secret fs st :
  fs <> ""%string -> secret_ok st ->
  secret_key (jwt (load_auth_settings fs st).1) <> ""%string /\ secret_ok (load_auth_settings fs st).2.
Proof.
  intros Hfs Hok.
  assert (H : secret_key (jwt (load_auth_settings fs st).1) <> ""%string).
  { unfold load_auth_settings. destruct (cache st) eqn:E; [exact (Hok _ E)|].
    destruct (file st) as [[s|]|]; cbn [fst]; [|exact Hfs..].
    destruct (settings_valid s); cbn [negb]; [|exact Hfs].
    case_bool_decide; [exact Hfs|assumption]. }
  split; [exact H|]. intros s Hs. rewrite load_auth_settings_cache in Hs. congruence.
Qed.

(** C12 (against the specification, section 4.3: the signing secret
    is generated once and persisted): on a fresh installation, the secret
    drawn at the first load survives a restart exactly when the settings
    file could be written; otherwise the next process signs with a new
    secret and every token issued before is refused. *)
Theorem secret_survives_restart_iff fs1 fs2 st :
  cache st = None -> file st = None -> fs1 <> fs2 -> fs1 <> ""%string ->
  (secret_key (jwt (load_auth_settings fs2 (restart (load_auth_settings fs1 st).2)).1) = fs1 <->
   dir_ok st && writable st = true).
Proof.
  destruct st as [c f d w]; cbn. intros -> -> Hne Hfs.
  destruct d, w; cbn; split; intros; try congruence.
  case_bool_decide; [contradiction|reflexivity].
Qed.

(** After [mark_setup_complete], the cached settings say setup is done. *)
Lemma mark_setup_complete_cache fs st :
  cache (mark_setup_complete fs st) = Some (with_setup_complete true (load_auth_settings fs st).1).
Proof.
  unfold mark_setup_complete, get_auth_settings.
  destruct (load_auth_settings fs st). apply save_auth_settings_cache.
Qed.

(** ** Concrete stores: a fresh installation on a read-only volume *)

Definition ro_store : store := mkStore None None true false.
Definition rw_store : store := mkStore None None true true.

Lemma load_auth_settings_secret_witness :
  "k1"%string <> ""%string /\ secret_ok ro_store /\
  secret_key (jwt (load_auth_settings "k1" ro_store).1) <> ""%string /\
  secret_ok (load_auth_settings "k1" ro_store).2.
Proof.
  assert (Hfs : "k1"%string <> ""%string) by discriminate.
  assert (Hok : secret_ok ro_store) by (intros s Hs; discriminate Hs).
  split; [exact Hfs|]. split; [exact Hok|].
  exact (load_auth_settings_secret "k1" ro_store Hfs Hok).
Defined.

Lemma secret_survives_restart_iff_witness :
  secret_key (jwt (load_auth_settings "k2" (restart (load_auth_settings "k1" ro_store).2)).1) = "k2"%string /\
  (secret_key (jwt (load_auth_settings "k2" (restart (load_auth_settings "k1" ro_store).2)).1) = "k1"%string <->
   dir_ok ro_store && writable ro_store = true) /\
  (secret_key (jwt (load_auth_settings "k2" (restart (load_auth_settings "k1" rw_store).2)).1) = "k1"%string <->
   dir_ok rw_store && writable rw_store = true).
Proof.
  split; [vm_compute; reflexivity|].
  split; [exact (secret_survives_restart_iff "k1" "k2" ro_store eq_refl eq_refl ltac:(discriminate)
                   ltac:(discriminate))|].
  exact (secret_survives_restart_iff "k1" "k2" rw_store eq_refl eq_refl ltac:(discriminate) ltac:(discriminate)).
Defined.
