(* ===== verification/Password.v ===== *)
(** * Password: the password policy of [auth/password.py]

    [validate_password(password, username=None)] is imported by
    [routes.py] (setup, change-password, reset-password) from
    [auth/password.py], which is not in the repository.  It is modelled from
    the specification (section 4.2) and the unit tests
    [tests/unit/test_password_security.py]: the rules are checked in the
    order length, upper case, lower case, digit, special character (each
    switchable in [LocalAuthSettings]), common-password deny-list
    (case-insensitive substring), user name (case-insensitive, equal or
    contained), and the message of the first rule that fails is returned.

    [policy_ok] states the policy declaratively; [validate_password_correct]
    shows that [validate_password] accepts exactly the passwords it allows
    and then reports no error. *)

From S2P Require Import Prelude Settings.
From stdpp Require Import pretty.

Fixpoint str_exists (f : Ascii.ascii -> bool) (s : string) : bool :=
  match s with
  | EmptyString => false
  | String c s' => f c || str_exists f s'
  end.

Definition code_between (lo hi : nat) (c : Ascii.ascii) : bool :=
  (lo <=? Ascii.nat_of_ascii c) && (Ascii.nat_of_ascii c <=? hi).

Definition is_upper := code_between 65 90.
Definition is_lower := code_between 97 122.
Definition is_digit := code_between 48 57.
Definition is_special (c : Ascii.ascii) : bool :=
  negb (is_upper c || is_lower c || is_digit c).

(** The deny-list, matched against the lower-cased password. *)
Definition common_passwords : list string :=
  ["password"; "123456"; "12345678"; "qwerty"; "abc123"; "letmein"; "welcome";
   "admin123"; "iloveyou"; "monkey"]%string.

Definition is_common (pw : string) : bool :=
  existsb (fun w => contains w (lower pw)) common_passwords.

Definition matches_username (pw : string) (username : option string) : bool :=
  match username with
  | Some u => negb (bool_decide (u = ""%string)) && contains (lower u) (lower pw)
  | None => false
  end.

(** [PasswordValidationResult]: [valid] and the first error. *)
Record validation := mkValidation { valid : bool; error : option string }.

Definition reject (msg : string) : validation := mkValidation false (Some msg).

Definition validate_password (pol : LocalAuthSettings) (pw : string) (username : option string)
    : validation :=
  if (Z.of_nat (String.length pw) <? min_password_length pol)%Z then
    reject ("Password must be at least " ++ pretty (min_password_length pol) ++ " characters long")
  else if require_uppercase pol && negb (str_exists is_upper pw) then
    reject "Password must contain at least one uppercase letter"
  else if require_lowercase pol && negb (str_exists is_lower pw) then
    reject "Password must contain at least one lowercase letter"
  else if require_number pol && negb (str_exists is_digit pw) then
    reject "Password must contain at least one number"
  else if require_special pol && negb (str_exists is_special pw) then
    reject "Password must contain at least one special character"
  else if is_common pw then
    reject "Password is too common"
  else if matches_username pw username then
    reject "Password cannot contain your username"
  else mkValidation true None.

(** The policy as a proposition. *)
Definition policy_ok (pol : LocalAuthSettings) (pw : string) (username : option string) : Prop :=
  (min_password_length pol <= Z.of_nat (String.length pw))%Z /\
  (require_uppercase pol = true -> str_exists is_upper pw = true) /\
  (require_lowercase pol = true -> str_exists is_lower pw = true) /\
  (require_number pol = true -> str_exists is_digit pw = true) /\
  (require_special pol = true -> str_exists is_special pw = true) /\
  is_common pw = false /\ matches_username pw username = false.

(** [validate_password] accepts a password exactly when it satisfies
    every rule of the policy, and then reports no error; when it refuses
    one, it reports an error. *)
Theorem validate_password_correct pol pw username :
  (valid (validate_password pol pw username) = true <-> policy_ok pol pw username) /\
  (valid (validate_password pol pw username) = true <-> error (validate_password pol pw username) = None).
Proof.
  unfold validate_password, policy_ok.
  destruct (Z.ltb_spec (Z.of_nat (String.length pw)) (min_password_length pol)) as [Hl|Hl];
    [simpl; split; split; try discriminate; intros [H _]; lia|].
  destruct (require_uppercase pol), (str_exists is_upper pw); simpl;
    [|split; split; try discriminate; intros (_ & H & _); specialize (H eq_refl); discriminate|..];
  destruct (require_lowercase pol), (str_exists is_lower pw); simpl;
    try (split; split; try discriminate; intros (_ & _ & H & _); specialize (H eq_refl); discriminate);
  destruct (require_number pol), (str_exists is_digit pw); simpl;
    try (split; split; try discriminate; intros (_ & _ & _ & H & _); specialize (H eq_refl); discriminate);
  destruct (require_special pol), (str_exists is_special pw); simpl;
    try (split; split; try discriminate; intros (_ & _ & _ & _ & H & _); specialize (H eq_refl); discriminate);
  destruct (is_common pw); simpl;
    try (split; split; try discriminate; intros (_ & _ & _ & _ & _ & H & _); discriminate);
  destruct (matches_username pw username); simpl;
    try (split; split; try discriminate; intros (_ & _ & _ & _ & _ & _ & H); discriminate);
  repeat split; auto; discriminate.
Qed.

(** the scenarios of the specification (section 8) and of
    [test_password_security.py] under the default policy: ["Short1!"] is
    refused for its length, ["ValidPass123!"] is accepted, an eight-character
    password passes the length rule, the listed common passwords are refused
    as common, and a password containing the user name is refused for it. *)
Theorem validate_password_scenarios :
  validate_password default_local "Short1!" None =
    reject "Password must be at least 8 characters long" /\
  validate_password default_local "ValidPass123!" None = mkValidation true None /\
  validate_password default_local "Valid1!!" None = mkValidation true None /\
  validate_password default_local "alllowercase123!" None =
    reject "Password must contain at least one uppercase letter" /\
  validate_password default_local "ALLUPPERCASE123!" None =
    reject "Password must contain at least one lowercase letter" /\
  validate_password default_local "NoNumbers!!" None =
    reject "Password must contain at least one number" /\
  Forall (fun pw => validate_password default_local pw None = reject "Password is too common")
    ["Password123!"; "Qwerty123!"; "Admin123!"; "Welcome123!"; "Letmein123!"]%string /\
  validate_password default_local "AdminUser123!" (Some "adminuser"%string) =
    reject "Password cannot contain your username" /\
  validate_password default_local "MyJohnDoe123!" (Some "johndoe"%string) =
    reject "Password cannot contain your username".
Proof.
  repeat match goal with
  | |- _ /\ _ => split
  | |- Forall _ _ => constructor
  | |- _ = _ => vm_compute; reflexivity
  end.
Qed.
