(* ===== verification/Tokens.v ===== *)
(** * Tokens: the JWT service of [auth/tokens.py]

    [auth/tokens.py] is not in the repository; this file models it from the
    specification (sections 4.3 and 6) and the unit tests
    [tests/unit/test_jwt_tokens.py].  A token is the string
    [header.payload.signature]: [header] is the fixed HS256 header,
    [payload] the encoded claims, [signature] the MAC, under the secret
    key, of [header.payload].  The encoding (base64url of JSON) and the MAC
    (HMAC-SHA256) are type classes with the laws the proofs need: decoding an
    encoded payload gives the claims back, and neither output contains a dot.
    A concrete instance of each, built on stdpp's [Countable] encoding
    written in binary, lets the witnesses compute.

    [decode_token] splits on ['.'] as Python's [str.split] does, requires
    three segments and the HS256 header, decodes the payload, checks the
    signature, then the expiry, in PyJWT's order.  Refresh tokens carry a
    random token identifier [jti], drawn per token, which is what makes a
    rotated refresh token differ from the one it replaces (the test
    [test_refresh_token_rotation_creates_new_refresh_token]). *)

From S2P Require Import Prelude Settings.
From stdpp Require Import countable.
From Stdlib Require Import Ascii.

Record claims := mkClaims {
  sub : option nat;
  username_claim : option string;
  type_claim : option string;
  jti : option string;
  iat : Z;
  exp : Z
}.

#[export] Instance claims_eq_dec : EqDecision claims.
Proof. solve_decision. Defined.

Definition claims_to_tuple (c : claims) :=
  (sub c, username_claim c, type_claim c, jti c, iat c, exp c).

Definition claims_of_tuple
    (t : option nat * option string * option string * option string * Z * Z) : claims :=
  let '(a, b, c, d, e, f) := t in mkClaims a b c d e f.

#[export] Instance claims_countable : Countable claims.
Proof. apply (inj_countable' claims_to_tuple claims_of_tuple). intros []; reflexivity. Defined.

(** A segment of a token never contains a dot. *)
Fixpoint no_dot (s : string) : bool :=
  match s with
  | EmptyString => true
  | String c s' => negb (Ascii.eqb c ".") && no_dot s'
  end.

Class JwtCodec := {
  encode_claims : claims -> string;
  decode_claims : string -> option claims;
  decode_encode_claims : forall c, decode_claims (encode_claims c) = Some c;
  encode_claims_no_dot : forall c, no_dot (encode_claims c) = true
}.

Class Signer := {
  sign : string -> string -> string;
  sign_no_dot : forall k m, no_dot (sign k m) = true
}.

Inductive token_error :=
| TokenExpiredError
| InvalidTokenError (msg : string)
| TokenRevokedError.

(** Python's [s.split(".")]. *)
Fixpoint split_dot (s : string) : list string :=
  match s with
  | EmptyString => [EmptyString]
  | String c s' =>
      if Ascii.eqb c "." then EmptyString :: split_dot s'
      else match split_dot s' with
           | x :: xs => String c x :: xs
           | [] => [String c EmptyString]
           end
  end.

(** base64url of [{"alg":"HS256","typ":"JWT"}] *)
Definition jwt_header : string := "eyJhbGciOiJIUzI1NiIsInR5cCI6IkpXVCJ9".

Definition join3 (h p s : string) : string := (h ++ "." ++ p ++ "." ++ s)%string.

Section Service.
Context `{JwtCodec} `{Signer}.

Definition encode_jwt (secret : string) (c : claims) : string :=
  let p := encode_claims c in
  join3 jwt_header p (sign secret (jwt_header ++ "." ++ p)).

Definition decode_token (secret : string) (now : Z) (tok : string) : result claims token_error :=
  match split_dot tok with
  | [h; p; s] =>
      if negb (bool_decide (h = jwt_header)) then Err (InvalidTokenError "bad header")
      else match decode_claims p with
      | None => Err (InvalidTokenError "bad payload")
      | Some c =>
          if negb (bool_decide (s = sign secret (h ++ "." ++ p)))
          then Err (InvalidTokenError "Signature verification failed")
          else if (exp c <=? now)%Z then Err TokenExpiredError
          else Ok c
      end
  | _ => Err (InvalidTokenError "Not enough segments")
  end.

Definition access_claims (j : JWTSettings) (now : Z) (uid : nat) (uname : string) : claims :=
  mkClaims (Some uid) (Some uname) None None now (now + access_token_expire_minutes j * 60).

Definition refresh_claims (j : JWTSettings) (now : Z) (uid : nat) (nonce : string) : claims :=
  mkClaims (Some uid) None (Some "refresh"%string) (Some nonce) now
    (now + refresh_token_expire_days j * 86400).

Definition create_access_token (j : JWTSettings) (now : Z) (uid : nat) (uname : string) : string :=
  encode_jwt (secret_key j) (access_claims j now uid uname).

Definition create_refresh_token (j : JWTSettings) (now : Z) (uid : nat) (nonce : string) : string :=
  encode_jwt (secret_key j) (refresh_claims j now uid nonce).

Definition is_refresh (c : claims) : bool := bool_decide (type_claim c = Some "refresh"%string).

(** [rotate_refresh_token]: a new access token and a new refresh token for
    the subject of a valid refresh token.  It does not record the old
    token: one-time use is the session table's job (specification 4.3). *)
Definition rotate_refresh_token (j : JWTSettings) (now : Z) (nonce : string) (tok : string)
    : result (string * string) token_error :=
  c <-? decode_token (secret_key j) now tok ;;
  if negb (is_refresh c) then Err (InvalidTokenError "Not a refresh token") else
  match sub c with
  | None => Err (InvalidTokenError "Missing subject")
  | Some uid =>
      Ok (encode_jwt (secret_key j) (mkClaims (Some uid) None None None now
            (now + access_token_expire_minutes j * 60)),
          create_refresh_token j now uid nonce)
  end.

(** [refresh_access_token], with the set of refresh tokens it has already
    exchanged ([test_used_refresh_token_is_invalidated]). *)
Definition refresh_access_token (j : JWTSettings) (now : Z) (used : list string) (tok : string)
    : result (string * list string) token_error :=
  c <-? decode_token (secret_key j) now tok ;;
  if negb (is_refresh c) then Err (InvalidTokenError "Not a refresh token") else
  if bool_decide (tok ∈ used) then Err TokenRevokedError else
  match sub c with
  | None => Err (InvalidTokenError "Missing subject")
  | Some uid =>
      Ok (encode_jwt (secret_key j) (mkClaims (Some uid) None None None now
            (now + access_token_expire_minutes j * 60)), tok :: used)
  end.
End Service.

(** ** Concrete codec and signer: binary strings of stdpp's encoding *)

Fixpoint pos_bits (p : positive) : string :=
  match p with
  | xH => "1"
  | xO p' => String "0" (pos_bits p')
  | xI p' => String "1" (pos_bits p')
  end.

Fixpoint parse_bits (s : string) : option positive :=
  match s with
  | EmptyString => None
  | String c s' =>
      if Ascii.eqb c "0" then xO <$> parse_bits s'
      else if Ascii.eqb c "1" then
        match s' with
        | EmptyString => Some xH
        | _ => xI <$> parse_bits s'
        end
      else None
  end.

Lemma pos_bits_nonempty p : pos_bits p <> EmptyString.
Proof. destruct p; discriminate. Qed.

Lemma parse_pos_bits p : parse_bits (pos_bits p) = Some p.
Proof.
  induction p as [p IH|p IH|]; simpl; [|rewrite IH; reflexivity|reflexivity].
  destruct (pos_bits p) eqn:E; [exfalso; exact (pos_bits_nonempty p E)|].
  rewrite IH. reflexivity.
Qed.

Lemma pos_bits_no_dot p : no_dot (pos_bits p) = true.
Proof. induction p; simpl; auto. Qed.

#[export] Instance binary_JwtCodec : JwtCodec.
Proof.
  refine {| encode_claims c := pos_bits (encode c);
            decode_claims s := parse_bits s ≫= decode |}.
  - intros c. rewrite parse_pos_bits. simpl. apply decode_encode.
  - intros c. apply pos_bits_no_dot.
Defined.

#[export] Instance binary_Signer : Signer.
Proof.
  refine {| sign k m := pos_bits (encode (k, m)) |}.
  intros k m. apply pos_bits_no_dot.
Defined.

(** ** Splitting and joining segments *)

Lemma split_dot_app a b :
  no_dot a = true -> split_dot (a ++ "." ++ b)%string = a :: split_dot b.
Proof.
  induction a as [|c a IH]; simpl; [reflexivity|].
  intros Hnd. apply andb_true_iff in Hnd as [Hc Ha].
  apply negb_true_iff in Hc. rewrite Hc, IH by exact Ha. reflexivity.
Qed.

Lemma split_dot_single a : no_dot a = true -> split_dot a = [a].
Proof.
  induction a as [|c a IH]; simpl; [reflexivity|].
  intros Hnd. apply andb_true_iff in Hnd as [Hc Ha].
  apply negb_true_iff in Hc. rewrite Hc, IH by exact Ha. reflexivity.
Qed.

Lemma split_join3 h p s :
  no_dot h = true -> no_dot p = true -> no_dot s = true -> split_dot (join3 h p s) = [h; p; s].
Proof.
  intros Hh Hp Hs. unfold join3.
  rewrite split_dot_app by exact Hh. rewrite split_dot_app by exact Hp.
  rewrite split_dot_single by exact Hs. reflexivity.
Qed.

(** Every string is the join of the segments [split_dot] cuts it into. *)
Fixpoint join_dot (l : list string) : string :=
  match l with
  | [] => EmptyString
  | [x] => x
  | x :: l' => (x ++ String "." (join_dot l'))%string
  end.

Lemma split_dot_nonempty s : split_dot s <> [].
Proof. destruct s; simpl; [discriminate|]. case_if; [discriminate|]. case_if; discriminate. Qed.

Lemma join_split_dot s : join_dot (split_dot s) = s.
Proof.
  induction s as [|c s IH]; simpl; [reflexivity|].
  destruct (Ascii.eqb_spec c ".") as [->|Hc].
  - destruct (split_dot s) as [|x xs] eqn:E; [exfalso; exact (split_dot_nonempty s E)|].
    simpl in *. destruct xs; rewrite IH; reflexivity.
  - destruct (split_dot s) as [|x xs] eqn:E; [exfalso; exact (split_dot_nonempty s E)|].
    simpl in *. destruct xs; rewrite <- IH; reflexivity.
Qed.

Lemma no_dot_header : no_dot jwt_header = true.
Proof. reflexivity. Qed.

#[export] Hint Resolve no_dot_header : auth.

Section TokenProofs.
Context `{JwtCodec} `{Signer}.

Lemma split_encode_jwt secret c :
  split_dot (encode_jwt secret c) =
    [jwt_header; encode_claims c; sign secret (jwt_header ++ "." ++ encode_claims c)].
Proof.
  apply split_join3; [reflexivity|apply encode_claims_no_dot|apply sign_no_dot].
Qed.

Lemma decode_encode_jwt secret now c :
  decode_token secret now (encode_jwt secret c) =
    if (exp c <=? now)%Z then Err TokenExpiredError else Ok c.
Proof.
  unfold decode_token. rewrite split_encode_jwt, decode_encode_claims.
  rewrite !bool_decide_true by reflexivity. reflexivity.
Qed.

Lemma encode_jwt_inj secret c1 c2 : encode_jwt secret c1 = encode_jwt secret c2 -> c1 = c2.
Proof.
  intros Heq. apply (f_equal split_dot) in Heq. rewrite !split_encode_jwt in Heq.
  injection Heq as Hp _. apply (f_equal decode_claims) in Hp.
  rewrite !decode_encode_claims in Hp. congruence.
Qed.

(** a token created by [create_access_token] decodes, before it
    expires, to the claims it was created with: the user id as [sub], the
    user name, and a lifetime of the configured number of minutes. *)
Theorem access_token_roundtrip (j : JWTSettings) now t uid uname :
  (now <= t < now + access_token_expire_minutes j * 60)%Z ->
  exists c, decode_token (secret_key j) t (create_access_token j now uid uname) = Ok c /\
    sub c = Some uid /\ username_claim c = Some uname /\
    (exp c - iat c = access_token_expire_minutes j * 60)%Z.
Proof.
  intros Ht. exists (access_claims j now uid uname).
  unfold create_access_token. rewrite decode_encode_jwt. simpl.
  destruct (Z.leb_spec (now + access_token_expire_minutes j * 60) t); [lia|].
  repeat split; lia.
Qed.

(** [decode_token] accepts a token only if it is three segments whose
    last one is the signature, under the secret, of the first two, whose
    payload decodes to the returned claims, and which has not expired;
    a tampered payload or signature is rejected. *)
Theorem decode_token_sound secret now tok c :
  decode_token secret now tok = Ok c ->
  exists p s, tok = join3 jwt_header p s /\
    s = sign secret (jwt_header ++ "." ++ p) /\ decode_claims p = Some c /\ (now < exp c)%Z.
Proof.
  unfold decode_token. intros Hd.
  pose proof (join_split_dot tok) as Hj.
  destruct (split_dot tok) as [|h [|p [|s [|x l]]]]; try discriminate.
  destruct (bool_decide_reflect (h = jwt_header)) as [->|]; [|discriminate].
  destruct (decode_claims p) as [c'|] eqn:Ep; [|discriminate].
  destruct (bool_decide_reflect (s = sign secret (jwt_header ++ "." ++ p))) as [Hs|]; [|discriminate].
  destruct (Z.leb_spec (exp c') now); simpl in Hd; [discriminate|]. injection Hd as <-.
  exists p, s. repeat split; auto.
Qed.

(** A token is a refresh token for [uid] with identifier [n]. *)
Lemma rotate_refresh_token_Ok j now nonce tok acc r :
  rotate_refresh_token j now nonce tok = Ok (acc, r) ->
  exists c uid, decode_token (secret_key j) now tok = Ok c /\ is_refresh c = true /\
    sub c = Some uid /\ r = create_refresh_token j now uid nonce.
Proof.
  unfold rotate_refresh_token. intros Hr. simpl_result.
  destruct (is_refresh a) eqn:Er; simpl in Hr; [|discriminate].
  destruct (sub a) as [uid|] eqn:Es; [|discriminate]. invc Hr. eauto 10.
Qed.

(** rotation issues a refresh token different from the one presented
    whenever the fresh token identifier differs from the old one's. *)
Theorem rotate_refresh_token_fresh j now nonce tok acc r c :
  decode_token (secret_key j) now tok = Ok c -> jti c <> Some nonce ->
  rotate_refresh_token j now nonce tok = Ok (acc, r) -> r <> tok.
Proof.
  intros Hd Hjti Hr Heq. subst r.
  apply rotate_refresh_token_Ok in Hr as (c' & uid & _ & _ & _ & Hr).
  unfold create_refresh_token in Hr. rewrite Hr, decode_encode_jwt in Hd.
  destruct (exp _ <=? now)%Z; [discriminate|]. injection Hd as <-.
  simpl in Hjti. congruence.
Qed.

(** Decoding the same token at another time only changes the expiry verdict. *)
Lemma decode_token_time secret now now' tok c :
  decode_token secret now tok = Ok c ->
  decode_token secret now' tok = if (exp c <=? now')%Z then Err TokenExpiredError else Ok c.
Proof.
  unfold decode_token. intros Hd.
  destruct (split_dot tok) as [|h [|p [|s [|x l]]]]; try discriminate.
  destruct (bool_decide (h = jwt_header)); simpl in *; [|discriminate].
  destruct (decode_claims p) as [c'|]; [|discriminate].
  destruct (bool_decide (s = sign secret (h ++ "." ++ p))); simpl in *; [|discriminate].
  destruct (exp c' <=? now)%Z; [discriminate|]. injection Hd as <-. reflexivity.
Qed.

(** [refresh_access_token] exchanges a refresh token once: presenting
    it again, at any time, with the set of used tokens the first exchange
    returned, is refused with [TokenRevokedError], or with
    [TokenExpiredError] once the token has expired. *)
Theorem refresh_access_token_once j now now' used tok acc used' :
  refresh_access_token j now used tok = Ok (acc, used') ->
  refresh_access_token j now' used' tok = Err TokenRevokedError \/
  refresh_access_token j now' used' tok = Err TokenExpiredError.
Proof.
  unfold refresh_access_token. intros Hr. simpl_result.
  destruct (is_refresh a) eqn:Er; simpl in Hr; [|discriminate].
  destruct (bool_decide (tok ∈ used)); [discriminate|].
  destruct (sub a); [|discriminate]. injection Hr as _ <-.
  rewrite (decode_token_time _ _ now' _ _ E).
  destruct (exp a <=? now')%Z; simpl; [right; reflexivity|left].
  rewrite Er. simpl. rewrite bool_decide_true; [reflexivity|]. apply list_elem_of_here.
Qed.

(** an access token is not a refresh token: [refresh_access_token]
    refuses it with [InvalidTokenError]. *)
Theorem refresh_access_token_rejects_access j now t used uid uname :
  exists msg, refresh_access_token j t used (create_access_token j now uid uname) =
    Err (InvalidTokenError msg) \/
  refresh_access_token j t used (create_access_token j now uid uname) = Err TokenExpiredError.
Proof.
  unfold refresh_access_token, create_access_token. rewrite decode_encode_jwt.
  destruct (exp _ <=? t)%Z; simpl; [exists ""%string; right; reflexivity|eexists; left; reflexivity].
Qed.
End TokenProofs.

(** ** Concrete tokens *)

Definition demo_jwt : JWTSettings := mkJWT "k" "HS256" 30 7.
Definition demo_access : string := create_access_token demo_jwt 1000 7 "bob".
Definition demo_refresh_token : string := create_refresh_token demo_jwt 1000 7 "n0".
Definition demo_rotation := rotate_refresh_token demo_jwt 1200 "n1" demo_refresh_token.
Definition demo_rot_access : string := match demo_rotation with Ok (a, _) => a | Err _ => ""%string end.
Definition demo_rot_refresh : string := match demo_rotation with Ok (_, r) => r | Err _ => ""%string end.
Definition demo_exchange := refresh_access_token demo_jwt 1200 [] demo_refresh_token.
Definition demo_exchange_access : string := match demo_exchange with Ok (a, _) => a | Err _ => ""%string end.

Lemma access_token_roundtrip_witness :
  (1000 <= 1500 < 1000 + access_token_expire_minutes demo_jwt * 60)%Z /\
  exists c, decode_token (secret_key demo_jwt) 1500 (create_access_token demo_jwt 1000 7 "bob") = Ok c /\
    sub c = Some 7 /\ username_claim c = Some "bob"%string /\
    (exp c - iat c = access_token_expire_minutes demo_jwt * 60)%Z.
Proof.
  assert (H : (1000 <= 1500 < 1000 + access_token_expire_minutes demo_jwt * 60)%Z) by (simpl; lia).
  split; [exact H|]. exact (access_token_roundtrip demo_jwt 1000 1500 7 "bob" H).
Defined.

Lemma decode_token_sound_witness :
  decode_token "k" 1500 demo_access = Ok (access_claims demo_jwt 1000 7 "bob") /\
  exists p s, demo_access = join3 jwt_header p s /\
    s = sign "k" (jwt_header ++ "." ++ p) /\ decode_claims p = Some (access_claims demo_jwt 1000 7 "bob") /\
    (1500 < exp (access_claims demo_jwt 1000 7 "bob"))%Z.
Proof.
  assert (H : decode_token "k" 1500 demo_access = Ok (access_claims demo_jwt 1000 7 "bob"))
    by (vm_compute; reflexivity).
  split; [exact H|]. exact (decode_token_sound "k" 1500 demo_access _ H).
Defined.

Lemma rotate_refresh_token_fresh_witness :
  decode_token (secret_key demo_jwt) 1200 demo_refresh_token = Ok (refresh_claims demo_jwt 1000 7 "n0") /\
  jti (refresh_claims demo_jwt 1000 7 "n0") <> Some "n1"%string /\
  rotate_refresh_token demo_jwt 1200 "n1" demo_refresh_token = Ok (demo_rot_access, demo_rot_refresh) /\
  demo_rot_refresh <> demo_refresh_token.
Proof.
  assert (H1 : decode_token (secret_key demo_jwt) 1200 demo_refresh_token =
                 Ok (refresh_claims demo_jwt 1000 7 "n0")) by (vm_compute; reflexivity).
  assert (H2 : jti (refresh_claims demo_jwt 1000 7 "n0") <> Some "n1"%string) by (simpl; congruence).
  assert (H3 : rotate_refresh_token demo_jwt 1200 "n1" demo_refresh_token =
                 Ok (demo_rot_access, demo_rot_refresh)) by (vm_compute; reflexivity).
  split; [exact H1|]. split; [exact H2|]. split; [exact H3|].
  exact (rotate_refresh_token_fresh demo_jwt 1200 "n1" demo_refresh_token _ _ _ H1 H2 H3).
Defined.

Lemma refresh_access_token_once_witness :
  refresh_access_token demo_jwt 1200 [] demo_refresh_token =
    Ok (demo_exchange_access, [demo_refresh_token]) /\
  (refresh_access_token demo_jwt 1300 [demo_refresh_token] demo_refresh_token = Err TokenRevokedError \/
   refresh_access_token demo_jwt 1300 [demo_refresh_token] demo_refresh_token = Err TokenExpiredError).
Proof.
  assert (H : refresh_access_token demo_jwt 1200 [] demo_refresh_token =
                Ok (demo_exchange_access, [demo_refresh_token])) by (vm_compute; reflexivity).
  split; [exact H|]. exact (refresh_access_token_once demo_jwt 1200 1300 [] _ _ _ H).
Defined.
