(* ===== verification/Sessions.v ===== *)
(** * Sessions: refresh-token rotation, logout, and the session table

    The session bookkeeping of [src/backend/auth/routes.py]:
    - [create_session] is the "Create session record" block that [login]
      (lines 515-524) and [dispatcharr_login] (lines 1058-1066) share: a row
      holding the hash of the new refresh token, the client address, the
      truncated [User-Agent], and an expiry [refresh_token_expire_days] ahead;
    - [refresh_tokens] (lines 606-671) is [refresh_check], every read and
      test of the handler up to and including [rotate_refresh_token],
      followed by [refresh_commit], the three assignments to the session row
      and the commit.  The two phases are the code's own: the row is read with
      a plain [first()] (no row lock, no compare-and-swap) and written later;
    - [logout] (lines 674-705) revokes the row whose hash matches, if any, and
      always succeeds.

    The invariant [hash_unique] says that no two rows of [user_sessions]
    store the same hash.  The anti-replay theorem (C1) shows that a refresh
    token, once rotated, is refused; [refresh_race] shows that two refreshes
    of one token that both read the row before either writes it both
    succeed, which the specification (section 5) forbids. *)

From S2P Require Import Prelude Table Models Crypto Settings Tokens.

Section Sessions.
Context `{TokenHash} `{JwtCodec} `{Signer}.

(** [except TokenExpiredError/TokenRevokedError/InvalidTokenError] of the
    handler. *)
Definition auth_of_token_error (te : token_error) : auth_error :=
  match te with
  | TokenExpiredError => AuthenticationError "Refresh token expired"
  | TokenRevokedError => AuthenticationError "Refresh token revoked"
  | InvalidTokenError m => AuthenticationError ("Invalid refresh token: " ++ m)
  end.

Definition lift_token {A} (r : result A token_error) : result A auth_error :=
  match r with
  | Ok a => Ok a
  | Err te => Err (auth_of_token_error te)
  end.

Definition session_expiry (s : AuthSettings) (e : env) : Z :=
  (now e + refresh_token_expire_days (jwt s) * 86400)%Z.

Definition create_session (s : AuthSettings) (e : env) (uid : nat) (rt : string)
    (db : DB) : DB :=
  let row := UserSession.mk uid (hash_token rt) (client_host e) (user_agent_of e) false
               (session_expiry s e) None in
  set_sessions (Table.insert row (sessions db)).2 db.

(** The session rows a presented refresh token matches. *)
Definition live_hash (h : string) (_ : nat) (r : UserSession.t) : bool :=
  bool_decide (UserSession.refresh_token_hash r = h) && negb (UserSession.is_revoked r).

Definition any_hash (h : string) (_ : nat) (r : UserSession.t) : bool :=
  bool_decide (UserSession.refresh_token_hash r = h).

(** What [refresh_tokens] has decided when it reaches its first write: the
    session row to update and the new token pair. *)
Record refresh_plan := mkPlan { plan_sid : nat; plan_access : string; plan_refresh : string }.

Definition refresh_check (s : AuthSettings) (e : env) (cookie : option string) (db : DB)
    : result refresh_plan auth_error :=
  match cookie with
  | None | Some EmptyString => Err (AuthenticationError "No refresh token provided")
  | Some rt =>
      c <-? lift_token (decode_token (secret_key (jwt s)) (now e) rt) ;;
      if negb (is_refresh c) then Err (AuthenticationError "Invalid token type") else
      match sub c with
      | None => Err (AuthenticationError "Invalid token payload")
      | Some uid =>
          match Table.first (live_hash (hash_token rt)) (sessions db) with
          | None => Err (AuthenticationError "Session not found or revoked")
          | Some (sid, us) =>
              if (UserSession.expires_at us <? now e)%Z
              then Err (AuthenticationError "Session expired") else
              match Table.get uid (users db) with
              | Some u =>
                  if negb (User.is_active u)
                  then Err (AuthenticationError "User not found or disabled") else
                  p <-? lift_token (rotate_refresh_token (jwt s) (now e) (nonce e) rt) ;;
                  Ok (mkPlan sid p.1 p.2)
              | None => Err (AuthenticationError "User not found or disabled")
              end
          end
      end
  end.

Definition refresh_commit (s : AuthSettings) (e : env) (p : refresh_plan) (db : DB) : DB :=
  set_sessions
    (Table.update (plan_sid p)
       (UserSession.rotate (hash_token (plan_refresh p)) (now e) (session_expiry s e))
       (sessions db)) db.

(** [refresh_tokens]: the new database and the new (access, refresh) pair
    set as cookies. *)
Definition refresh_tokens (s : AuthSettings) (e : env) (cookie : option string) (db : DB)
    : result (DB * (string * string)) auth_error :=
  p <-? refresh_check s e cookie db ;;
  Ok (refresh_commit s e p db, (plan_access p, plan_refresh p)).

Definition logout (cookie : option string) (db : DB) : DB * string :=
  let db' :=
    match cookie with
    | None | Some EmptyString => db
    | Some rt =>
        match Table.first (any_hash (hash_token rt)) (sessions db) with
        | Some (sid, _) => set_sessions (Table.update sid UserSession.revoke (sessions db)) db
        | None => db
        end
    end in
  (db', "Logged out successfully"%string).

(** No two session rows store the same refresh-token hash. *)
Definition hash_unique (db : DB) : Prop :=
  forall i j a b, In (i, a) (Table.rows (sessions db)) -> In (j, b) (Table.rows (sessions db)) ->
    UserSession.refresh_token_hash a = UserSession.refresh_token_hash b -> i = j.

(** A hash that no session row stores. *)
Definition hash_fresh (h : string) (db : DB) : Prop :=
  forall j b, In (j, b) (Table.rows (sessions db)) -> UserSession.refresh_token_hash b <> h.
Definition session_hashes (db : DB) : list string :=
  map (fun r => UserSession.refresh_token_hash r.2) (Table.rows (sessions db)).

(** Executable checks of the two properties. *)
Definition hash_uniqueb (db : DB) : bool := bool_decide (NoDup (session_hashes db)).

Definition hash_freshb (h : string) (db : DB) : bool := bool_decide (h ∉ session_hashes db).
End Sessions.

Section SessionProofs.
Context `{TokenHash} `{JwtCodec} `{Signer}.

(** What a successful [refresh_check] has seen. *)
Lemma refresh_check_Ok s e c db p :
  refresh_check s e c db = Ok p ->
  exists rt us, c = Some rt /\
    Table.first (live_hash (hash_token rt)) (sessions db) = Some (plan_sid p, us) /\
    rotate_refresh_token (jwt s) (now e) (nonce e) rt = Ok (plan_access p, plan_refresh p).
Proof.
  unfold refresh_check. intros Hc.
  destruct c as [[|ch rt']|]; try discriminate.
  set (rt := String ch rt') in *.
  destruct (lift_token (decode_token _ _ rt)) as [cl|]; simpl in Hc; [|discriminate].
  destruct (is_refresh cl); simpl in Hc; [|discriminate].
  destruct (sub cl) as [uid|]; [|discriminate].
  destruct (Table.first _ _) as [[sid us]|] eqn:Ef; [|discriminate].
  destruct (_ <? _)%Z; [discriminate|].
  destruct (Table.get uid _) as [u|]; [|discriminate].
  destruct (User.is_active u); simpl in Hc; [|discriminate].
  destruct (rotate_refresh_token _ _ _ rt) as [[a r]|] eqn:Er; simpl in Hc; [|discriminate].
  invc Hc. exists rt, us. simpl. auto.
Qed.

(** Without a live row for the presented token, [refresh_check] fails. *)
Lemma refresh_check_no_live s e rt db p :
  Table.first (live_hash (hash_token rt)) (sessions db) = None ->
  refresh_check s e (Some rt) db <> Ok p.
Proof.
  intros Hf Hc. apply refresh_check_Ok in Hc as (rt' & us & [= <-] & Hf' & _). congruence.
Qed.

Lemma refresh_tokens_Ok s e c db db' acc r :
  refresh_tokens s e c db = Ok (db', (acc, r)) ->
  exists sid, refresh_check s e c db = Ok (mkPlan sid acc r) /\
    db' = refresh_commit s e (mkPlan sid acc r) db.
Proof.
  unfold refresh_tokens. intros Hr. simpl_result. destruct a as [sid a' r'].
  simpl. eauto.
Qed.

Lemma hash_uniqueb_sound db : hash_uniqueb db = true -> hash_unique db.
Proof.
  unfold hash_uniqueb, hash_unique, session_hashes. rewrite bool_decide_eq_true.
  induction (Table.rows (sessions db)) as [|[k c] l IH]; simpl; [tauto|].
  intros Hnd. apply NoDup_cons in Hnd as [Hc Hnd].
  intros i j a b [Ha|Ha] [Hb|Hb] Hab; try (injection Ha as <- <-); try (injection Hb as <- <-).
  - reflexivity.
  - exfalso. apply Hc. rewrite Hab. apply list_elem_of_In, in_map_iff. exists (j, b). auto.
  - exfalso. apply Hc. rewrite <- Hab. apply list_elem_of_In, in_map_iff. exists (i, a). auto.
  - eapply IH; eauto.
Qed.

Lemma hash_freshb_sound h db : hash_freshb h db = true -> hash_fresh h db.
Proof.
  unfold hash_freshb, hash_fresh, session_hashes. rewrite bool_decide_eq_true.
  intros Hn j b Hin Hb. apply Hn. apply list_elem_of_In, in_map_iff. exists (j, b). subst. auto.
Qed.

Lemma rotate_row_hash h t x (us : UserSession.t) :
  UserSession.refresh_token_hash (UserSession.rotate h t x us) = h.
Proof. reflexivity. Qed.

(** After [refresh_commit] on the row found for [rt], with a new token
    different from [rt], no live row matches [rt] any more. *)
Lemma commit_kills_old s e db rt sid us acc r :
  hash_unique db -> r <> rt ->
  Table.first (live_hash (hash_token rt)) (sessions db) = Some (sid, us) ->
  Table.first (live_hash (hash_token rt)) (sessions (refresh_commit s e (mkPlan sid acc r) db)) = None.
Proof.
  intros Hu Hne Hf. apply Table.first_Some in Hf as [Hin Hp].
  unfold live_hash in Hp. apply andb_true_iff in Hp as [Hh _]. apply bool_decide_eq_true in Hh.
  apply Table.first_None. intros j b Hjb. simpl in Hjb. apply Table.In_update in Hjb.
  unfold live_hash. destruct Hjb as [[Hji Hjb]|[-> [a [_ ->]]]].
  - destruct (bool_decide_reflect (UserSession.refresh_token_hash b = hash_token rt)) as [Hb|]; [|reflexivity].
    exfalso. apply Hji. apply (Hu j sid b us Hjb Hin). congruence.
  - simpl. rewrite bool_decide_false; [reflexivity|].
    intros Heq. apply hash_token_inj in Heq. contradiction.
Qed.

(** C1 (anti-replay): once [refresh_tokens] has rotated a refresh token
    into a different one, presenting the old token again fails, whatever
    the settings, time and randomness of the second request: the stored
    hash was overwritten, and no other row stores it. *)
Theorem refresh_replay_rejected s e s' e' rt db db' acc r x :
  hash_unique db ->
  refresh_tokens s e (Some rt) db = Ok (db', (acc, r)) -> r <> rt ->
  refresh_tokens s' e' (Some rt) db' <> Ok x.
Proof.
  intros Hu Hr Hne. apply refresh_tokens_Ok in Hr as (sid & Hc & ->).
  pose proof Hc as Hc'. apply refresh_check_Ok in Hc' as (rt' & us & [= <-] & Hf & _).
  unfold refresh_tokens. intros Hr2. simpl_result.
  eapply refresh_check_no_live; [|exact E]. eapply commit_kills_old; eauto.
Qed.

(** C2: [refresh_tokens] keeps the session hashes unique when the token it
    issues was never stored before, and [create_session] (login) does when
    the token it stores is fresh. *)
Theorem refresh_tokens_hash_unique s e c db db' acc r :
  hash_unique db -> hash_fresh (hash_token r) db ->
  refresh_tokens s e c db = Ok (db', (acc, r)) -> hash_unique db'.
Proof.
  intros Hu Hfr Hr. apply refresh_tokens_Ok in Hr as (sid & _ & ->).
  intros i j a b Ha Hb Hab. simpl in Ha, Hb.
  apply Table.In_update in Ha as [[Hi Ha]|[-> [a0 [Ha ->]]]];
  apply Table.In_update in Hb as [[Hj Hb]|[-> [b0 [Hb ->]]]]; simpl in Hab; auto.
  - eapply Hu; eauto.
  - exfalso. exact (Hfr i a Ha Hab).
  - exfalso. exact (Hfr j b Hb (eq_sym Hab)).
Qed.

Lemma create_session_hash_unique s e uid rt db :
  hash_unique db -> hash_fresh (hash_token rt) db -> hash_unique (create_session s e uid rt db).
Proof.
  intros Hu Hfr i j a b Ha Hb Hab. simpl in Ha, Hb.
  apply Table.In_insert in Ha as [Ha|[-> ->]]; apply Table.In_insert in Hb as [Hb|[-> ->]];
    simpl in Hab; auto.
  - eapply Hu; eauto.
  - exfalso. exact (Hfr i a Ha Hab).
  - exfalso. exact (Hfr j b Hb (eq_sym Hab)).
Qed.

Lemma revoke_revoke us : UserSession.revoke (UserSession.revoke us) = UserSession.revoke us.
Proof. reflexivity. Qed.

(** [logout] always answers success, and a second [logout] with the
    same cookie changes nothing (idempotence, specification section 8). *)
Theorem logout_idempotent c db :
  (logout c db).2 = "Logged out successfully"%string /\
  logout c (logout c db).1 = ((logout c db).1, "Logged out successfully"%string).
Proof.
  split; [reflexivity|]. unfold logout.
  destruct c as [[|ch rt']|]; simpl; try reflexivity.
  destruct (Table.first _ (sessions db)) as [[sid us]|] eqn:Ef; simpl; [|rewrite Ef; reflexivity].
  rewrite Table.first_update_same by reflexivity. rewrite Ef. simpl. rewrite Nat.eqb_refl.
  rewrite Table.update_update. reflexivity.
Qed.

(** after [logout] with a refresh token, [refresh_tokens] with that
    token fails: the session is revoked. *)
Theorem logout_then_refresh_rejected s e rt db x :
  hash_unique db -> refresh_tokens s e (Some rt) (logout (Some rt) db).1 <> Ok x.
Proof.
  intros Hu Hr. unfold refresh_tokens in Hr. simpl_result.
  destruct rt as [|ch rt']; [discriminate|].
  eapply refresh_check_no_live; [|exact E]. clear E. set (rt := String ch rt').
  apply Table.first_None. intros j b Hjb. unfold live_hash.
  destruct (bool_decide_reflect (UserSession.refresh_token_hash b = hash_token rt)) as [Hb|];
    [simpl|reflexivity].
  unfold logout in Hjb. simpl in Hjb. fold rt in Hjb.
  destruct (Table.first (any_hash (hash_token rt)) (sessions db)) as [[sid us]|] eqn:Ef.
  - apply Table.first_Some in Ef as [Hin Hus]. apply bool_decide_eq_true in Hus.
    simpl in Hjb. apply Table.In_update in Hjb as [[Hji Hjb]|[-> [a0 [_ ->]]]]; [|reflexivity].
    exfalso. apply Hji. apply (Hu j sid b us Hjb Hin). congruence.
  - rewrite Table.first_None in Ef. specialize (Ef j b Hjb).
    unfold any_hash in Ef. rewrite bool_decide_true in Ef by exact Hb. discriminate.
Qed.

(** [refresh_check] reads the clock and the randomness of the request only
    through [now] and the token identifier, and the identifier cannot make
    it fail. *)
Lemma refresh_check_other_nonce s e1 e2 c db p1 :
  now e2 = now e1 -> refresh_check s e1 c db = Ok p1 ->
  exists p2, refresh_check s e2 c db = Ok p2 /\ plan_sid p2 = plan_sid p1.
Proof.
  intros Hnow Hc. unfold refresh_check in *. rewrite Hnow.
  destruct c as [[|ch rt']|]; try discriminate.
  destruct (lift_token _) as [cl|]; simpl in *; [|discriminate].
  destruct (is_refresh cl) eqn:Er; simpl in *; [|discriminate].
  destruct (sub cl) as [uid|]; [|discriminate].
  destruct (Table.first _ _) as [[sid us]|]; [|discriminate].
  destruct (_ <? _)%Z; [discriminate|].
  destruct (Table.get uid _) as [u|]; [|discriminate].
  destruct (User.is_active u); simpl in *; [|discriminate].
  unfold rotate_refresh_token in *.
  destruct (decode_token _ _ _) as [cl'|]; simpl in *; [|discriminate].
  destruct (is_refresh cl'); simpl in *; [|discriminate].
  destruct (sub cl'); simpl in *; [|discriminate]. invc Hc. eexists; split; reflexivity.
Qed.

(** Two refresh requests carrying the same cookie, whose reads both happen
    before either writes (two workers serving them at once). *)
Definition refresh_interleaved (s : AuthSettings) (e1 e2 : env) (c : option string) (db : DB)
    : result (DB * (string * string) * (string * string)) auth_error :=
  p1 <-? refresh_check s e1 c db ;;
  p2 <-? refresh_check s e2 c db ;;
  Ok (refresh_commit s e2 p2 (refresh_commit s e1 p1 db),
      (plan_access p1, plan_refresh p1), (plan_access p2, plan_refresh p2)).

(** C7 (race, a divergence from the specification's single-winner rule):
    whenever one refresh succeeds, two concurrent refreshes of the same
    token in the same second that both read before either writes both
    succeed, and both rotate the same session row. *)
Theorem refresh_race s e1 e2 c db db1 t1 :
  now e2 = now e1 -> refresh_tokens s e1 c db = Ok (db1, t1) ->
  exists db' t2, refresh_interleaved s e1 e2 c db = Ok (db', t1, t2).
Proof.
  intros Hnow Hr. destruct t1 as [acc r].
  apply refresh_tokens_Ok in Hr as (sid & Hc & _).
  destruct (refresh_check_other_nonce s e1 e2 c db _ Hnow Hc) as (p2 & Hc2 & _).
  unfold refresh_interleaved. rewrite Hc, Hc2. simpl. eauto.
Qed.
End SessionProofs.

(** ** A concrete run: one user, one session, one rotation *)

Definition demo_settings : AuthSettings := with_secret "k" default_settings.
Definition demo_env0 : env := mkEnv 1000 (Some "127.0.0.1"%string) (Some "ua"%string) "n0" 3.
Definition demo_env1 : env := mkEnv 1010 None None "n1" 4.
Definition demo_env1' : env := mkEnv 1010 None None "n9" 7.
Definition demo_env2 : env := mkEnv 1020 None None "n2" 5.
Definition demo_user : User.t := User.mk "alice" None None None false true "local" None 0 0 None.
Definition demo_rt : string := create_refresh_token (jwt demo_settings) 1000 1 "n0".
Definition demo_db : DB :=
  create_session demo_settings demo_env0 1 demo_rt
    (set_users (Table.insert demo_user Table.empty).2 empty_db).
Definition demo_refresh := refresh_tokens demo_settings demo_env1 (Some demo_rt) demo_db.
Definition demo_db1 : DB := match demo_refresh with Ok (d, _) => d | Err _ => demo_db end.
Definition demo_acc1 : string := match demo_refresh with Ok (_, (a, _)) => a | Err _ => ""%string end.
Definition demo_rt1 : string := match demo_refresh with Ok (_, (_, r)) => r | Err _ => ""%string end.

Lemma demo_hash_unique : hash_unique demo_db.
Proof. apply hash_uniqueb_sound. vm_compute. reflexivity. Qed.

Lemma demo_refresh_Ok :
  refresh_tokens demo_settings demo_env1 (Some demo_rt) demo_db = Ok (demo_db1, (demo_acc1, demo_rt1)).
Proof. vm_compute. reflexivity. Qed.

Lemma demo_rt1_new : demo_rt1 <> demo_rt.
Proof. apply (bool_decide_eq_false (demo_rt1 = demo_rt)). vm_compute. reflexivity. Qed.

Lemma refresh_replay_rejected_witness :
  hash_unique demo_db /\
  refresh_tokens demo_settings demo_env1 (Some demo_rt) demo_db = Ok (demo_db1, (demo_acc1, demo_rt1)) /\
  demo_rt1 <> demo_rt /\
  (forall x, refresh_tokens demo_settings demo_env2 (Some demo_rt) demo_db1 <> Ok x).
Proof.
  split; [exact demo_hash_unique|]. split; [exact demo_refresh_Ok|]. split; [exact demo_rt1_new|].
  intros x. exact (refresh_replay_rejected demo_settings demo_env1 demo_settings demo_env2 demo_rt demo_db
    demo_db1 demo_acc1 demo_rt1 x demo_hash_unique demo_refresh_Ok demo_rt1_new).
Defined.

Lemma refresh_tokens_hash_unique_witness :
  hash_unique demo_db /\ hash_fresh (hash_token demo_rt1) demo_db /\ hash_unique demo_db1.
Proof.
  assert (Hf : hash_fresh (hash_token demo_rt1) demo_db)
    by (apply hash_freshb_sound; vm_compute; reflexivity).
  split; [exact demo_hash_unique|]. split; [exact Hf|].
  exact (refresh_tokens_hash_unique demo_settings demo_env1 (Some demo_rt) demo_db demo_db1
    demo_acc1 demo_rt1 demo_hash_unique Hf demo_refresh_Ok).
Defined.

Lemma logout_then_refresh_rejected_witness :
  hash_unique demo_db /\
  (forall x, refresh_tokens demo_settings demo_env1 (Some demo_rt) (logout (Some demo_rt) demo_db).1 <> Ok x).
Proof.
  split; [exact demo_hash_unique|]. intros x.
  exact (logout_then_refresh_rejected demo_settings demo_env1 demo_rt demo_db x demo_hash_unique).
Defined.

Lemma refresh_race_witness :
  now demo_env1' = now demo_env1 /\
  exists db' t2, refresh_interleaved demo_settings demo_env1 demo_env1' (Some demo_rt) demo_db =
    Ok (db', (demo_acc1, demo_rt1), t2).
Proof.
  split; [reflexivity|].
  exact (refresh_race demo_settings demo_env1 demo_env1' (Some demo_rt) demo_db demo_db1
    (demo_acc1, demo_rt1) eq_refl demo_refresh_Ok).
Defined.
