(* ===== verification/Reset.v ===== *)
(** * Reset: forgot-password and reset-password ([routes.py] lines 748-856)

    - [forgot_password] looks the user up by e-mail; for an active user of
      the [local] provider it draws a raw token ([secrets.token_urlsafe],
      the request's [nonce]), stores its bcrypt hash with an expiry one hour
      ahead, hands the raw token to the mailer, and logs the outcome; it
      answers the same message in every case.  The mailer is outside the
      program: whether it succeeded is an input.  The log lines it writes are
      part of its result.
    - [reset_password] is [reset_check], the scan of the unused tokens for
      the first whose hash verifies the presented token and the tests that
      follow, then [reset_commit], which stores the new password hash and
      marks the token used.  As in [refresh_tokens], nothing locks the token
      row between the two.

    The single-use theorem (C13) needs that no two unused token rows verify
    the same raw token ([reset_unique]), which holds when raw tokens are
    drawn fresh. *)

From S2P Require Import Prelude Table Models Crypto Settings Password.

Definition forgot_message : string :=
  "If an account with that email exists, a password reset link has been sent.".

Definition reset_token_lifetime : Z := 3600.

Section Reset.
Context `{PasswordHasher}.

Definition reset_eligible (u : User.t) : bool :=
  User.is_active u && bool_decide (User.auth_provider u = "local"%string).

Definition forgot_password (e : env) (email : string) (email_sent : bool) (db : DB)
    : DB * list string * string :=
  match Table.first (fun _ u => bool_decide (User.email u = Some email)) (users db) with
  | Some (uid, u) =>
      if reset_eligible u then
        let raw := nonce e in
        let row := PasswordResetToken.mk uid (hash_password (salt e) raw)
                     (now e + reset_token_lifetime) None in
        let db' := set_reset_tokens (Table.insert row (reset_tokens db)).2 db in
        let log := if email_sent
                   then ("Password reset email sent to: " ++ email)%string
                   else ("Password reset email failed for " ++ email ++ ", token: " ++ raw)%string in
        (db', [log], forgot_message)
      else (db, [], forgot_message)
  | None => (db, [], forgot_message)
  end.

(** The unused token rows whose hash verifies [tok], in id order: the
    [for] loop over [query(...).filter(used_at.is_(None)).all()]. *)
Definition matches_token (tok : string) (_ : nat) (r : PasswordResetToken.t) : bool :=
  bool_decide (PasswordResetToken.used_at r = None) &&
  verify_password tok (PasswordResetToken.token_hash r).

Definition invalid_reset : auth_error := HTTPException 400 "Invalid or expired reset token".

Definition reset_check (s : AuthSettings) (e : env) (tok new_pw : string) (db : DB)
    : result (nat * nat) auth_error :=
  match Table.first (matches_token tok) (reset_tokens db) with
  | None => Err invalid_reset
  | Some (tid, rt) =>
      if (PasswordResetToken.expires_at rt <? now e)%Z
      then Err (HTTPException 400 "Reset token has expired") else
      match Table.get (PasswordResetToken.user_id rt) (users db) with
      | None => Err invalid_reset
      | Some u =>
          if negb (User.is_active u) then Err invalid_reset else
          let v := validate_password (local s) new_pw (Some (User.username u)) in
          if negb (valid v) then Err (HTTPException 422 (default ""%string (error v)))
          else Ok (tid, PasswordResetToken.user_id rt)
      end
  end.

Definition reset_commit (e : env) (new_pw : string) (ids : nat * nat) (db : DB) : DB :=
  let '(tid, uid) := ids in
  set_reset_tokens (Table.update tid (PasswordResetToken.mark_used (now e)) (reset_tokens db))
    (set_users (Table.update uid
       (User.set_password_hash (Some (hash_password (salt e) new_pw)) (now e)) (users db)) db).

Definition reset_password (s : AuthSettings) (e : env) (tok new_pw : string) (db : DB)
    : result DB auth_error :=
  ids <-? reset_check s e tok new_pw db ;;
  Ok (reset_commit e new_pw ids db).

(** Two redemptions of one token whose reads both precede either write. *)
Definition reset_interleaved (s : AuthSettings) (e1 e2 : env) (tok pw1 pw2 : string) (db : DB)
    : result DB auth_error :=
  ids1 <-? reset_check s e1 tok pw1 db ;;
  ids2 <-? reset_check s e2 tok pw2 db ;;
  Ok (reset_commit e2 pw2 ids2 (reset_commit e1 pw1 ids1 db)).

(** At most one unused token row verifies [tok]. *)
Definition reset_unique (tok : string) (db : DB) : Prop :=
  forall i j a b, In (i, a) (Table.rows (reset_tokens db)) -> In (j, b) (Table.rows (reset_tokens db)) ->
    matches_token tok i a = true -> matches_token tok j b = true -> i = j.

Definition reset_uniqueb (tok : string) (db : DB) : bool :=
  length (Table.select (matches_token tok) (reset_tokens db)) <=? 1.
End Reset.

Section ResetProofs.
Context `{PasswordHasher}.

Lemma reset_check_Ok s e tok pw db tid uid :
  reset_check s e tok pw db = Ok (tid, uid) ->
  exists rt, Table.first (matches_token tok) (reset_tokens db) = Some (tid, rt) /\
    PasswordResetToken.user_id rt = uid.
Proof.
  unfold reset_check. intros Hc.
  destruct (Table.first _ _) as [[t rt]|]; [|discriminate].
  destruct (_ <? _)%Z; [discriminate|].
  destruct (Table.get _ _) as [u|]; [|discriminate].
  destruct (User.is_active u); simpl in Hc; [|discriminate].
  destruct (valid _); simpl in Hc; [|discriminate]. invc Hc. eauto.
Qed.

Lemma reset_uniqueb_sound tok db : reset_uniqueb tok db = true -> reset_unique tok db.
Proof.
  unfold reset_uniqueb, reset_unique. intros Hl i j a b Ha Hb Hma Hmb.
  destruct (Nat.eq_dec i j) as [|Hne]; [assumption|exfalso].
  apply Nat.leb_le in Hl.
  assert (2 <= length (Table.select (matches_token tok) (reset_tokens db))); [|lia].
  apply (two_In_length _ (i, a) (j, b)); [apply Table.In_select; auto|apply Table.In_select; auto|congruence].
Qed.

(** [reset_check] reads the request environment only through its clock. *)
Lemma reset_check_now s e1 e2 tok pw db :
  now e1 = now e2 -> reset_check s e1 tok pw db = reset_check s e2 tok pw db.
Proof. intros Hn. unfold reset_check. rewrite Hn. reflexivity. Qed.

(** C3: a reset token redeems once: after a successful [reset_password],
    presenting the same raw token again fails, whatever the time, salt and
    new password, provided no other unused token row verifies it. *)
Theorem reset_password_single_use s e s' e' tok pw pw' db db' x :
  reset_unique tok db -> reset_password s e tok pw db = Ok db' ->
  reset_password s' e' tok pw' db' <> Ok x.
Proof.
  intros Hu Hr Hr'. unfold reset_password in Hr, Hr'.
  destruct (reset_check s e tok pw db) as [[tid uid]|] eqn:E; [|discriminate]. invc Hr.
  destruct (reset_check s' e' tok pw' _) as [[tid' uid']|] eqn:E'; [|discriminate].
  apply reset_check_Ok in E as (rt & Hf & _). apply reset_check_Ok in E' as (rt' & Hf' & _).
  apply Table.first_Some in Hf as [Hin Hm], Hf' as [Hin' Hm'].
  simpl in Hin'. apply Table.In_update in Hin' as [[Hne Hin']|[-> [a0 [_ ->]]]].
  - exact (Hne (Hu _ _ _ _ Hin' Hin Hm' Hm)).
  - unfold matches_token in Hm'. simpl in Hm'. discriminate.
Qed.

(** After [forgot_password] for an eligible user, the new row is the first
    unused row that verifies the raw token. *)
Lemma forgot_first e em sent db uid u :
  Table.first (fun _ u => bool_decide (User.email u = Some em)) (users db) = Some (uid, u) ->
  reset_eligible u = true -> nonce e <> ""%string ->
  Table.first (matches_token (nonce e)) (reset_tokens db) = None ->
  Table.first (matches_token (nonce e)) (reset_tokens (forgot_password e em sent db).1.1) =
    Some (Table.next_id (reset_tokens db),
          PasswordResetToken.mk uid (hash_password (salt e) (nonce e)) (now e + reset_token_lifetime) None).
Proof.
  intros Hu Hel Hne Hn. unfold forgot_password. rewrite Hu, Hel. simpl.
  apply Table.first_insert_new; [exact Hn|].
  unfold matches_token. simpl. rewrite verify_hash_password by exact Hne. reflexivity.
Qed.

(** a reset token issued by [forgot_password] at time [t] is refused
    as expired at any time later than [t + 3600] (specification section 8:
    redeeming at now+2h fails citing expiry). *)
Theorem reset_after_expiry s e0 e em sent db uid u pw :
  Table.first (fun _ u => bool_decide (User.email u = Some em)) (users db) = Some (uid, u) ->
  reset_eligible u = true -> nonce e0 <> ""%string ->
  Table.first (matches_token (nonce e0)) (reset_tokens db) = None ->
  (now e0 + reset_token_lifetime < now e)%Z ->
  reset_password s e (nonce e0) pw (forgot_password e0 em sent db).1.1 =
    Err (HTTPException 400 "Reset token has expired").
Proof.
  intros Hu Hel Hne Hn Ht. unfold reset_password, reset_check.
  rewrite (forgot_first e0 em sent db uid u Hu Hel Hne Hn). simpl.
  destruct (Z.ltb_spec (now e0 + reset_token_lifetime) (now e)); [reflexivity|lia].
Qed.

(** (round trip): within the hour, redeeming the token that
    [forgot_password] issued with a password the policy accepts succeeds,
    and afterwards the user's stored hash verifies the new password
    (specification section 8: redeeming at now+30m succeeds). *)
Theorem forgot_reset_roundtrip s e0 e em sent db uid u pw :
  Table.wf (users db) ->
  Table.first (fun _ u => bool_decide (User.email u = Some em)) (users db) = Some (uid, u) ->
  reset_eligible u = true -> nonce e0 <> ""%string -> pw <> ""%string ->
  Table.first (matches_token (nonce e0)) (reset_tokens db) = None ->
  (now e <= now e0 + reset_token_lifetime)%Z ->
  valid (validate_password (local s) pw (Some (User.username u))) = true ->
  exists db2, reset_password s e (nonce e0) pw (forgot_password e0 em sent db).1.1 = Ok db2 /\
    exists u2, Table.get uid (users db2) = Some u2 /\
      User.password_hash u2 = Some (hash_password (salt e) pw) /\
      verify_password pw (hash_password (salt e) pw) = true.
Proof.
  intros Hwf Hu Hel Hne Hpw Hn Ht Hv.
  pose proof Hu as Hg. apply Table.first_Some in Hg as [Hin _].
  apply (Table.In_get _ _ _ Hwf) in Hin.
  assert (Hg1 : Table.get uid (users (forgot_password e0 em sent db).1.1) = Some u).
  { unfold forgot_password. rewrite Hu, Hel. exact Hin. }
  assert (Hwf1 : Table.wf (users (forgot_password e0 em sent db).1.1)).
  { unfold forgot_password. rewrite Hu, Hel. exact Hwf. }
  unfold reset_password, reset_check.
  rewrite (forgot_first e0 em sent db uid u Hu Hel Hne Hn). simpl.
  destruct (Z.ltb_spec (now e0 + reset_token_lifetime) (now e)); [lia|].
  rewrite Hg1. apply andb_true_iff in Hel as [Hact _]. rewrite Hact, Hv. simpl.
  eexists. split; [reflexivity|]. eexists. split.
  - simpl. apply Table.get_update_eq; [exact Hwf1|exact Hg1].
  - split; [reflexivity|]. apply verify_hash_password, Hpw.
Qed.

(** C10 (a divergence from the specification, which says the raw token is
    never logged): when the reset e-mail cannot be sent, [forgot_password]
    writes the raw reset token to the log. *)
Theorem forgot_password_logs_token e em db uid u :
  Table.first (fun _ u => bool_decide (User.email u = Some em)) (users db) = Some (uid, u) ->
  reset_eligible u = true ->
  exists line, In line (forgot_password e em false db).1.2 /\ contains (nonce e) line = true.
Proof.
  intros Hu Hel. unfold forgot_password. rewrite Hu, Hel. simpl. eexists. split; [left; reflexivity|].
  rewrite !str_app_assoc. apply contains_suffix.
Qed.

(** C8 (race, against the specification's single-winner rule for reset
    tokens): when one redemption succeeds, a second one of the same token
    and password in the same second, whose read precedes the first one's
    write, succeeds too. *)
Theorem reset_race s e1 e2 tok pw db db1 :
  reset_password s e1 tok pw db = Ok db1 -> now e2 = now e1 ->
  exists db', reset_interleaved s e1 e2 tok pw pw db = Ok db'.
Proof.
  intros Hr Hn. unfold reset_password in Hr. simpl_result.
  unfold reset_interleaved. rewrite E, (reset_check_now s e2 e1 tok pw db Hn), E. simpl. eauto.
Qed.
End ResetProofs.

(** ** A concrete run: one local user asks for a reset and redeems it *)

Definition demo_alice : User.t :=
  User.mk "alice" (Some "alice@example.com"%string) None None false true "local" None 0 0 None.
Definition demo_users_db : DB := set_users (Table.insert demo_alice Table.empty).2 empty_db.
Definition demo_e0 : env := mkEnv 1000 None None "tok0" 3.
Definition demo_e30 : env := mkEnv 2800 None None "x" 4.
Definition demo_e30' : env := mkEnv 2800 None None "y" 6.
Definition demo_e2h : env := mkEnv 8200 None None "x" 4.
Definition demo_forgot_db : DB := (forgot_password demo_e0 "alice@example.com" true demo_users_db).1.1.
Definition demo_reset := reset_password default_settings demo_e30 "tok0" "ValidPass123!" demo_forgot_db.
Definition demo_reset_db : DB := match demo_reset with Ok d => d | Err _ => demo_forgot_db end.

Lemma demo_alice_first :
  Table.first (fun _ u => bool_decide (User.email u = Some "alice@example.com"%string))
    (users demo_users_db) = Some (1, demo_alice).
Proof. vm_compute. reflexivity. Qed.

Lemma demo_alice_eligible : reset_eligible demo_alice = true.
Proof. reflexivity. Qed.

Lemma demo_tok0_nonempty : nonce demo_e0 <> ""%string.
Proof. discriminate. Qed.

Lemma demo_no_tokens : Table.first (matches_token (nonce demo_e0)) (reset_tokens demo_users_db) = None.
Proof. reflexivity. Qed.

Lemma demo_reset_Ok :
  reset_password default_settings demo_e30 "tok0" "ValidPass123!" demo_forgot_db = Ok demo_reset_db.
Proof. vm_compute. reflexivity. Qed.

Lemma reset_password_single_use_witness :
  reset_unique "tok0" demo_forgot_db /\
  reset_password default_settings demo_e30 "tok0" "ValidPass123!" demo_forgot_db = Ok demo_reset_db /\
  (forall x, reset_password default_settings demo_e2h "tok0" "Other#Pass99" demo_reset_db <> Ok x).
Proof.
  assert (Hu : reset_unique "tok0" demo_forgot_db) by (apply reset_uniqueb_sound; vm_compute; reflexivity).
  split; [exact Hu|]. split; [exact demo_reset_Ok|]. intros x.
  exact (reset_password_single_use default_settings demo_e30 default_settings demo_e2h "tok0"
           "ValidPass123!" "Other#Pass99" demo_forgot_db demo_reset_db x Hu demo_reset_Ok).
Defined.

Lemma reset_after_expiry_witness :
  (now demo_e0 + reset_token_lifetime < now demo_e2h)%Z /\
  reset_password default_settings demo_e2h (nonce demo_e0) "ValidPass123!"
    (forgot_password demo_e0 "alice@example.com" true demo_users_db).1.1 =
    Err (HTTPException 400 "Reset token has expired").
Proof.
  assert (Ht : (now demo_e0 + reset_token_lifetime < now demo_e2h)%Z) by (simpl; unfold reset_token_lifetime; lia).
  split; [exact Ht|].
  exact (reset_after_expiry default_settings demo_e0 demo_e2h "alice@example.com" true demo_users_db 1
           demo_alice "ValidPass123!" demo_alice_first demo_alice_eligible demo_tok0_nonempty
           demo_no_tokens Ht).
Defined.

Lemma forgot_reset_roundtrip_witness :
  (now demo_e30 <= now demo_e0 + reset_token_lifetime)%Z /\
  exists db2, reset_password default_settings demo_e30 (nonce demo_e0) "ValidPass123!"
      (forgot_password demo_e0 "alice@example.com" true demo_users_db).1.1 = Ok db2 /\
    exists u2, Table.get 1 (users db2) = Some u2 /\
      User.password_hash u2 = Some (hash_password (salt demo_e30) "ValidPass123!") /\
      verify_password "ValidPass123!" (hash_password (salt demo_e30) "ValidPass123!") = true.
Proof.
  assert (Hwf : Table.wf (users demo_users_db)) by (apply Table.wf_insert, Table.wf_empty).
  assert (Ht : (now demo_e30 <= now demo_e0 + reset_token_lifetime)%Z) by (simpl; unfold reset_token_lifetime; lia).
  assert (Hpw : "ValidPass123!"%string <> ""%string) by discriminate.
  assert (Hv : valid (validate_password (local default_settings) "ValidPass123!"
                 (Some (User.username demo_alice))) = true) by (vm_compute; reflexivity).
  split; [exact Ht|].
  exact (forgot_reset_roundtrip default_settings demo_e0 demo_e30 "alice@example.com" true demo_users_db 1
           demo_alice "ValidPass123!" Hwf demo_alice_first demo_alice_eligible demo_tok0_nonempty Hpw
           demo_no_tokens Ht Hv).
Defined.

Lemma forgot_password_logs_token_witness :
  exists line, In line (forgot_password demo_e0 "alice@example.com" false demo_users_db).1.2 /\
    contains (nonce demo_e0) line = true.
Proof.
  exact (forgot_password_logs_token demo_e0 "alice@example.com" demo_users_db 1 demo_alice
           demo_alice_first demo_alice_eligible).
Defined.

Lemma reset_race_witness :
  now demo_e30' = now demo_e30 /\
  exists db', reset_interleaved default_settings demo_e30 demo_e30' "tok0" "ValidPass123!" "ValidPass123!"
    demo_forgot_db = Ok db'.
Proof.
  split; [reflexivity|].
  exact (reset_race default_settings demo_e30 demo_e30' "tok0" "ValidPass123!" demo_forgot_db demo_reset_db
           demo_reset_Ok eq_refl).
Defined.
