(* ===== verification/Identities.v ===== *)
(** * Identities: the identity-linking helpers and handlers of [routes.py]

    Lines 1405-1673 of [src/backend/auth/routes.py]: the helpers
    [get_user_identities], [find_user_by_identity], [find_user_by_identifier],
    [add_user_identity], [update_identity_last_used], [remove_user_identity],
    and the handlers [list_linked_identities], [link_identity] and
    [unlink_identity].  The Dispatcharr client ([auth/providers/dispatcharr.py],
    not in the repository) is the section variable [authenticate]: what
    [DispatcharrClient().authenticate(username, password)] returns or raises.

    [unlink_identity] is [unlink_check] (the reads and tests) followed by
    [unlink_commit] (the [delete] and the commit); nothing locks the rows in
    between, so two unlinks of a user's two identities can both pass the
    count test (theorem [unlink_race]).

    The invariants are [one_per_provider] (a user has at most one identity
    per provider, which [link_identity] checks first) and the two claims
    uniqueness rules the code enforces: a [local] identifier and a
    [dispatcharr] external id are each linked once. *)

From S2P Require Import Prelude Table Models Crypto Settings.

(** What [DispatcharrClient.authenticate] returns: the remote account. *)
Record dispatcharr_user := mkDUser {
  d_user_id : string;
  d_username : string;
  d_email : option string;
  d_display_name : option string
}.

(** Its result or the exception it raises. *)
Inductive dispatcharr_outcome :=
| DAuthOk (r : dispatcharr_user)
| DAuthFailed (msg : string)          (* DispatcharrAuthenticationError *)
| DAuthTimeout                        (* TimeoutError *)
| DAuthUnreachable (msg : string)     (* DispatcharrConnectionError *)
| DAuthCrashed (msg : string).        (* any other exception *)

Section Identities.
Context `{PasswordHasher}.
Variable authenticate : string -> string -> dispatcharr_outcome.

Definition of_user (uid : nat) (_ : nat) (i : UserIdentity.t) : bool :=
  UserIdentity.user_id i =? uid.

Definition get_user_identities (db : DB) (uid : nat) : list (nat * UserIdentity.t) :=
  Table.select (of_user uid) (identities db).

Definition identity_count (db : DB) (uid : nat) : nat :=
  Table.count (of_user uid) (identities db).

Definition by_external_id (provider ext : string) (_ : nat) (i : UserIdentity.t) : bool :=
  bool_decide (UserIdentity.provider i = provider) &&
  bool_decide (UserIdentity.external_id i = Some ext).

Definition by_identifier (provider ident : string) (_ : nat) (i : UserIdentity.t) : bool :=
  bool_decide (UserIdentity.provider i = provider) &&
  bool_decide (UserIdentity.identifier i = ident).

(** [identity.user if identity else None]: the owning user row. *)
Definition owner (db : DB) (r : option (nat * UserIdentity.t)) : option (nat * User.t) :=
  match r with
  | Some (_, i) => (fun u => (UserIdentity.user_id i, u)) <$> Table.get (UserIdentity.user_id i) (users db)
  | None => None
  end.

Definition find_user_by_identity (db : DB) (provider ext : string) : option (nat * User.t) :=
  owner db (Table.first (by_external_id provider ext) (identities db)).

Definition find_user_by_identifier (db : DB) (provider ident : string) : option (nat * User.t) :=
  owner db (Table.first (by_identifier provider ident) (identities db)).

(** [add_user_identity]: [linked_at] is the column default, the time of the
    insert. *)
Definition add_user_identity (e : env) (db : DB) (uid : nat) (provider ident : string)
    (ext : option string) : nat * DB :=
  let '(iid, t) := Table.insert (UserIdentity.mk uid provider ext ident (now e) None) (identities db) in
  (iid, set_identities t db).

Definition update_identity_last_used (e : env) (db : DB) (iid : nat) : DB :=
  set_identities (Table.update iid (UserIdentity.touch (now e)) (identities db)) db.

Definition remove_user_identity (db : DB) (iid uid : nat) : bool * DB :=
  if identity_count db uid <=? 1 then (false, db) else
  let p := fun j i => (j =? iid) && (UserIdentity.user_id i =? uid) in
  (0 <? Table.count p (identities db), set_identities (Table.delete_where p (identities db)) db).

Definition list_linked_identities (uid : nat) (db : DB) : list (nat * UserIdentity.t) :=
  get_user_identities db uid.

(** [link_identity]: the id of the new identity row and the database. *)
Definition link_identity (s : AuthSettings) (e : env) (uid : nat)
    (provider0 username password : string) (db : DB) : result (nat * DB) auth_error :=
  let provider := lower provider0 in
  match Table.first (fun j i => of_user uid j i && bool_decide (UserIdentity.provider i = provider))
          (identities db) with
  | Some _ => Err (HTTPException 409 ("You already have a " ++ provider ++ " identity linked"))
  | None =>
      if bool_decide (provider = "local") then
        if bool_decide (password = "") then
          Err (HTTPException 400 "Password is required for local linking") else
        match Table.first (by_identifier "local" username) (identities db) with
        | Some _ => Err (HTTPException 409 "This local username is already linked to another account")
        | None =>
            let db1 := set_users (Table.update uid
                         (User.store_password_hash (Some (hash_password (salt e) password)))
                         (users db)) db in
            Ok (add_user_identity e db1 uid "local" username None)
        end
      else if bool_decide (provider = "dispatcharr") then
        if negb (dispatcharr_enabled (dispatcharr s)) then
          Err (HTTPException 404 "Dispatcharr authentication is not enabled") else
        match authenticate username password with
        | DAuthFailed m => Err (HTTPException 401 ("Dispatcharr authentication failed: " ++ m))
        | DAuthTimeout | DAuthUnreachable _ => Err (HTTPException 503 "Cannot connect to Dispatcharr")
        | DAuthCrashed _ => Err (HTTPException 500 "Internal Server Error")
        | DAuthOk r =>
            match Table.first (by_external_id "dispatcharr" (d_user_id r)) (identities db) with
            | Some _ => Err (HTTPException 409 "This Dispatcharr account is already linked to another user")
            | None => Ok (add_user_identity e db uid "dispatcharr" (d_username r) (Some (d_user_id r)))
            end
        end
      else Err (HTTPException 400 ("Linking not supported for provider: " ++ provider))
  end.

(** The reads and tests of [unlink_identity]: the id of the row to delete. *)
Definition unlink_check (uid iid : nat) (db : DB) : result nat auth_error :=
  match Table.first (fun j i => (j =? iid) && of_user uid j i) (identities db) with
  | None => Err (HTTPException 404 "Identity not found")
  | Some (j, _) =>
      if identity_count db uid <=? 1 then
        Err (HTTPException 400 "Cannot unlink your last identity - you would be locked out")
      else Ok j
  end.

(** [session.delete(identity); session.commit()] *)
Definition unlink_commit (j : nat) (db : DB) : DB :=
  set_identities (Table.delete_where (fun k _ => k =? j) (identities db)) db.

Definition unlink_identity (uid iid : nat) (db : DB) : result DB auth_error :=
  j <-? unlink_check uid iid db ;; Ok (unlink_commit j db).

(** Two unlinks by one user whose reads both precede either delete. *)
Definition unlink_interleaved (uid iid1 iid2 : nat) (db : DB) : result DB auth_error :=
  j1 <-? unlink_check uid iid1 db ;;
  j2 <-? unlink_check uid iid2 db ;;
  Ok (unlink_commit j2 (unlink_commit j1 db)).

(** ** Invariants *)

(** The three rules, as relations between two identity rows that the
    rule forbids for two distinct rows. *)
Definition same_owner_provider (a b : UserIdentity.t) : Prop :=
  UserIdentity.user_id a = UserIdentity.user_id b /\ UserIdentity.provider a = UserIdentity.provider b.

Definition same_local_identifier (a b : UserIdentity.t) : Prop :=
  UserIdentity.provider a = "local"%string /\ UserIdentity.provider b = "local"%string /\
  UserIdentity.identifier a = UserIdentity.identifier b.

Definition same_dispatcharr_id (a b : UserIdentity.t) : Prop :=
  UserIdentity.provider a = "dispatcharr"%string /\ UserIdentity.provider b = "dispatcharr"%string /\
  UserIdentity.external_id a = UserIdentity.external_id b /\ UserIdentity.external_id a <> None.

(** A user has at most one identity per provider. *)
Definition one_per_provider (db : DB) : Prop := Table.unique same_owner_provider (identities db).

(** A [local] identifier is linked once. *)
Definition local_identifier_unique (db : DB) : Prop := Table.unique same_local_identifier (identities db).

(** A [dispatcharr] external id is linked once. *)
Definition dispatcharr_id_unique (db : DB) : Prop := Table.unique same_dispatcharr_id (identities db).

Definition identities_ok (db : DB) : Prop :=
  Table.wf (identities db) /\ one_per_provider db /\ local_identifier_unique db /\
  dispatcharr_id_unique db.
End Identities.

Section IdentityProofs.
Context `{PasswordHasher}.
Variable authenticate : string -> string -> dispatcharr_outcome.

(** What a successful [link_identity] has done to [user_identities]: one row
    inserted, for [uid] and the lower-cased provider, after the checks of its
    branch found nothing. *)
Lemma link_identity_Ok s e uid p0 u pw db iid db' :
  link_identity authenticate s e uid p0 u pw db = Ok (iid, db') ->
  exists ident ext,
    let r := UserIdentity.mk uid (lower p0) ext ident (now e) None in
    iid = Table.next_id (identities db) /\
    identities db' = (Table.insert r (identities db)).2 /\
    Table.first (fun j i => of_user uid j i && bool_decide (UserIdentity.provider i = lower p0))
      (identities db) = None /\
    ((lower p0 = "local"%string /\ ext = None /\
      Table.first (by_identifier "local" ident) (identities db) = None) \/
     (lower p0 = "dispatcharr"%string /\ exists x, ext = Some x /\
      Table.first (by_external_id "dispatcharr" x) (identities db) = None)).
Proof.
  unfold link_identity. intros Hl.
  destruct (Table.first _ _) eqn:Ep; [discriminate|].
  case_bool_decide as Hloc.
  - case_bool_decide; [discriminate|].
    destruct (Table.first (by_identifier _ _) _) eqn:Ei; [discriminate|]. invc Hl.
    exists u, None. simpl. rewrite Hloc. repeat split; auto.
  - case_bool_decide as Hd; [|discriminate].
    destruct (dispatcharr_enabled _); simpl in Hl; [|discriminate].
    destruct (authenticate u pw) as [r| | | |]; try discriminate.
    destruct (Table.first (by_external_id _ _) _) eqn:Ex; [discriminate|]. invc Hl.
    exists (d_username r), (Some (d_user_id r)). simpl. rewrite Hd. repeat split; eauto 6.
Qed.

Lemma unlink_check_Ok uid iid db j :
  unlink_check uid iid db = Ok j ->
  j = iid /\ 2 <= identity_count db uid /\
  exists a, In (iid, a) (Table.rows (identities db)) /\ UserIdentity.user_id a = uid.
Proof.
  unfold unlink_check. destruct (Table.first _ _) as [[k a]|] eqn:E; [|discriminate].
  destruct (Nat.leb_spec (identity_count db uid) 1); [discriminate|]. intros Hj. invc Hj.
  apply Table.first_Some in E as [Hin Hp]. apply andb_true_iff in Hp as [Hk Hu].
  apply Nat.eqb_eq in Hk, Hu. subst. split; [reflexivity|]. split; [lia|]. eauto.
Qed.

(** Deleting one of [uid]'s identities lowers its count by one. *)
Lemma count_unlink_commit uid j a db :
  Table.wf (identities db) -> In (j, a) (Table.rows (identities db)) -> UserIdentity.user_id a = uid ->
  identity_count (unlink_commit j db) uid = identity_count db uid - 1 /\ 1 <= identity_count db uid.
Proof.
  intros Hwf Hin Hu. apply Table.count_delete_id with (a := a); [exact Hwf|exact Hin|].
  unfold of_user. apply Nat.eqb_eq, Hu.
Qed.

Lemma wf_unlink_commit j db : Table.wf (identities db) -> Table.wf (identities (unlink_commit j db)).
Proof. apply Table.wf_delete_where. Qed.

Lemma In_unlink_commit j db k b :
  In (k, b) (Table.rows (identities (unlink_commit j db))) <->
  In (k, b) (Table.rows (identities db)) /\ k <> j.
Proof.
  unfold unlink_commit, set_identities. cbn [identities].
  rewrite (Table.In_delete_where (fun k _ => k =? j)).
  rewrite Nat.eqb_neq. reflexivity.
Qed.
Lemma identities_add_user_identity e db uid p i ext :
  identities (add_user_identity e db uid p i ext).2 =
    (Table.insert (UserIdentity.mk uid p ext i (now e) None) (identities db)).2.
Proof. reflexivity. Qed.

Lemma users_add_user_identity e db uid p i ext : users (add_user_identity e db uid p i ext).2 = users db.
Proof. reflexivity. Qed.
End IdentityProofs.

Section IdentityTheorems.
Context `{PasswordHasher}.
Variable authenticate : string -> string -> dispatcharr_outcome.

Lemma unlink_check_In uid iid a db :
  In (iid, a) (Table.rows (identities db)) -> UserIdentity.user_id a = uid ->
  2 <= identity_count db uid -> unlink_check uid iid db = Ok iid.
Proof.
  intros Hin Hu Hc. unfold unlink_check.
  destruct (Table.first _ _) as [[j b]|] eqn:E.
  - apply Table.first_Some in E as [_ Hp]. apply andb_true_iff in Hp as [Hj _].
    apply Nat.eqb_eq in Hj as ->. destruct (Nat.leb_spec (identity_count db uid) 1); [lia|reflexivity].
  - rewrite Table.first_None in E. specialize (E iid a Hin). simpl in E.
    unfold of_user in E. rewrite Nat.eqb_refl, Hu, Nat.eqb_refl in E. discriminate.
Qed.

Lemma identity_count_In uid j a db :
  In (j, a) (Table.rows (identities db)) -> UserIdentity.user_id a = uid -> 1 <= identity_count db uid.
Proof. intros Hin Hu. apply (Table.count_In _ _ j a Hin). apply Nat.eqb_eq, Hu. Qed.

(** C6: a successful [unlink_identity] removes exactly one of the
    user's identities and leaves at least one. *)
Theorem unlink_identity_keeps_one uid iid db db' :
  Table.wf (identities db) -> unlink_identity uid iid db = Ok db' ->
  identity_count db' uid = identity_count db uid - 1 /\ 1 <= identity_count db' uid.
Proof.
  intros Hwf Hu. unfold unlink_identity in Hu.
  destruct (unlink_check uid iid db) as [j|] eqn:E; [|discriminate]. invc Hu.
  apply unlink_check_Ok in E as (-> & H2 & a & Hin & Hua).
  destruct (count_unlink_commit uid iid a db Hwf Hin Hua). lia.
Qed.

(** a user's only identity cannot be unlinked. *)
Theorem unlink_last_identity_refused uid iid a db :
  In (iid, a) (Table.rows (identities db)) -> UserIdentity.user_id a = uid ->
  identity_count db uid <= 1 ->
  unlink_identity uid iid db =
    Err (HTTPException 400 "Cannot unlink your last identity - you would be locked out").
Proof.
  intros Hin Hu Hc. unfold unlink_identity, unlink_check.
  destruct (Table.first _ _) as [[j b]|] eqn:E.
  - destruct (Nat.leb_spec (identity_count db uid) 1); [reflexivity|lia].
  - rewrite Table.first_None in E. specialize (E iid a Hin). simpl in E.
    unfold of_user in E. rewrite Nat.eqb_refl, Hu, Nat.eqb_refl in E. discriminate.
Qed.

(** C9: two unlinks of the two identities of a user, whose reads
    both precede either delete, both succeed and leave the user with none. *)
Theorem unlink_race uid i1 i2 a1 a2 db :
  Table.wf (identities db) ->
  In (i1, a1) (Table.rows (identities db)) -> In (i2, a2) (Table.rows (identities db)) ->
  i1 <> i2 -> UserIdentity.user_id a1 = uid -> UserIdentity.user_id a2 = uid ->
  identity_count db uid = 2 ->
  exists db', unlink_interleaved uid i1 i2 db = Ok db' /\ identity_count db' uid = 0.
Proof.
  intros Hwf H1 H2 Hne Hu1 Hu2 Hc. unfold unlink_interleaved.
  rewrite (unlink_check_In uid i1 a1 db H1 Hu1) by lia.
  rewrite (unlink_check_In uid i2 a2 db H2 Hu2) by lia. simpl.
  eexists; split; [reflexivity|].
  destruct (count_unlink_commit uid i1 a1 db Hwf H1 Hu1) as [Hc1 _].
  assert (H2' : In (i2, a2) (Table.rows (identities (unlink_commit i1 db))))
    by (apply In_unlink_commit; auto).
  destruct (count_unlink_commit uid i2 a2 _ (wf_unlink_commit i1 db Hwf) H2' Hu2) as [Hc2 _].
  lia.
Qed.
(** The checks [link_identity] made, as freshness of the new row against
    each uniqueness rule. *)
Lemma link_fresh_provider uid p0 tb r :
  UserIdentity.user_id r = uid -> UserIdentity.provider r = lower p0 ->
  Table.first (fun j i => of_user uid j i && bool_decide (UserIdentity.provider i = lower p0)) tb = None ->
  Table.fresh_for same_owner_provider r tb.
Proof.
  intros Hu Hp Hf j b Hin. rewrite Table.first_None in Hf. specialize (Hf j b Hin).
  unfold of_user in Hf. apply andb_false_iff in Hf. unfold same_owner_provider.
  rewrite Nat.eqb_neq, bool_decide_eq_false in Hf. split; intros [H1 H2]; destruct Hf; congruence.
Qed.

Lemma link_fresh_local ident tb r :
  UserIdentity.identifier r = ident -> Table.first (by_identifier "local" ident) tb = None ->
  Table.fresh_for same_local_identifier r tb.
Proof.
  intros Hi Hf j b Hin. rewrite Table.first_None in Hf. specialize (Hf j b Hin).
  unfold by_identifier in Hf. apply andb_false_iff in Hf. unfold same_local_identifier.
  rewrite !bool_decide_eq_false in Hf. split; intros (H1 & H2 & H3); destruct Hf; congruence.
Qed.

Lemma link_fresh_dispatcharr x tb r :
  UserIdentity.external_id r = Some x -> Table.first (by_external_id "dispatcharr" x) tb = None ->
  Table.fresh_for same_dispatcharr_id r tb.
Proof.
  intros Hx Hf j b Hin. rewrite Table.first_None in Hf. specialize (Hf j b Hin).
  unfold by_external_id in Hf. apply andb_false_iff in Hf. unfold same_dispatcharr_id.
  rewrite !bool_decide_eq_false in Hf. split; intros (H1 & H2 & H3 & _); destruct Hf; congruence.
Qed.

(** A row is fresh for a rule about another provider's rows. *)
Lemma fresh_local_other r tb :
  UserIdentity.provider r <> "local"%string -> Table.fresh_for same_local_identifier r tb.
Proof. intros Hr j b _. unfold same_local_identifier. split; intros (H1 & H2 & _); tauto. Qed.

Lemma fresh_dispatcharr_none r tb :
  UserIdentity.external_id r = None -> Table.fresh_for same_dispatcharr_id r tb.
Proof. intros Hr j b _. unfold same_dispatcharr_id. split; intros (_ & _ & H3 & H4); congruence. Qed.

(** [link_identity] keeps the identity table well formed, one
    identity per provider per user, and each [local] identifier and
    [dispatcharr] external id linked once. *)
Theorem link_identity_preserves_ok s e uid p0 u pw db iid db' :
  identities_ok db -> link_identity authenticate s e uid p0 u pw db = Ok (iid, db') ->
  identities_ok db'.
Proof.
  intros (Hwf & Hop & Hlo & Hdi) Hl.
  apply link_identity_Ok in Hl as (ident & ext & _ & Hid & Hf & Hcase).
  unfold identities_ok, one_per_provider, local_identifier_unique, dispatcharr_id_unique in *.
  rewrite Hid.
  set (r := UserIdentity.mk uid (lower p0) ext ident (now e) None).
  assert (Hfp : Table.fresh_for same_owner_provider r (identities db))
    by (apply (link_fresh_provider uid p0); auto).
  split; [apply Table.wf_insert, Hwf|]. split; [apply Table.unique_insert; auto|].
  destruct Hcase as [(Hp & -> & Hi)|(Hp & x & -> & Hx)]; split; apply Table.unique_insert; auto.
  - apply (link_fresh_local ident); auto.
  - apply fresh_dispatcharr_none; reflexivity.
  - apply fresh_local_other. simpl. rewrite Hp. discriminate.
  - apply (link_fresh_dispatcharr x); auto.
Qed.

(** so does [unlink_identity]. *)
Theorem unlink_identity_preserves_ok uid iid db db' :
  identities_ok db -> unlink_identity uid iid db = Ok db' -> identities_ok db'.
Proof.
  intros (Hwf & Hop & Hlo & Hdi) Hu. unfold unlink_identity in Hu.
  destruct (unlink_check uid iid db) as [j|]; [|discriminate]. invc Hu.
  split; [apply Table.wf_delete_where, Hwf|].
  split; [|split]; apply Table.unique_delete_where; assumption.
Qed.

(** A successful [link_identity] adds one identity to the user. *)
Lemma link_identity_count s e uid p0 u pw db iid db' :
  link_identity authenticate s e uid p0 u pw db = Ok (iid, db') ->
  identity_count db' uid = S (identity_count db uid).
Proof.
  intros Hl. apply link_identity_Ok in Hl as (ident & ext & _ & Hid & _).
  unfold identity_count. rewrite Hid, Table.count_insert. simpl. unfold of_user. simpl.
  rewrite Nat.eqb_refl. lia.
Qed.

(** (specification section 8): once a user with an identity
    has linked a second provider, unlinking the first identity succeeds. *)
Theorem link_then_unlink s e uid p0 u pw db iid db' j a :
  link_identity authenticate s e uid p0 u pw db = Ok (iid, db') ->
  In (j, a) (Table.rows (identities db)) -> UserIdentity.user_id a = uid ->
  exists db'', unlink_identity uid j db' = Ok db''.
Proof.
  intros Hl Hin Hu. pose proof (link_identity_count _ _ _ _ _ _ _ _ _ Hl) as Hc.
  pose proof (identity_count_In uid j a db Hin Hu) as H1.
  apply link_identity_Ok in Hl as (ident & ext & _ & Hid & _).
  assert (Hin' : In (j, a) (Table.rows (identities db'))) by (rewrite Hid; apply Table.In_insert; auto).
  unfold unlink_identity. rewrite (unlink_check_In uid j a db' Hin' Hu) by lia. eauto.
Qed.

(** C31 (against the code's comment "verify the password matches"):
    linking a [local] identity asks for no credential of the account: for any
    non-empty password, when the user has no local identity and the name is
    free, it succeeds and replaces the user's password hash. *)
Theorem link_local_sets_password s e uid u pw db cu :
  Table.wf (users db) -> Table.get uid (users db) = Some cu -> pw <> ""%string ->
  Table.first (fun j i => of_user uid j i && bool_decide (UserIdentity.provider i = "local"%string))
    (identities db) = None ->
  Table.first (by_identifier "local" u) (identities db) = None ->
  exists iid db', link_identity authenticate s e uid "local" u pw db = Ok (iid, db') /\
    Table.get uid (users db') = Some (User.store_password_hash (Some (hash_password (salt e) pw)) cu) /\
    verify_password pw (hash_password (salt e) pw) = true.
Proof.
  intros Hwf Hg Hpw Hf Hi. unfold link_identity.
  change (lower "local") with "local"%string. rewrite Hf.
  rewrite bool_decide_true by reflexivity. rewrite bool_decide_false by exact Hpw. rewrite Hi.
  do 2 eexists. split; [reflexivity|]. split; [|apply verify_hash_password].
  simpl. apply Table.get_update_eq; assumption. exact Hpw.
Qed.
End IdentityTheorems.

(** ** A concrete account with one or two identities *)

Definition ex_carol : User.t :=
  User.mk "carol" None (Some (model_hash 1 "Old#Pass1")) None false true "local" None 0 0 None.
Definition ex_e : env := mkEnv 500 None None "n" 5.
Definition ex_auth (u _ : string) : dispatcharr_outcome :=
  if bool_decide (u = "carol_d"%string) then DAuthOk (mkDUser "42" "carol_d" None None)
  else DAuthFailed "Invalid credentials".
Definition ex_settings : AuthSettings :=
  mkAuth true "local" true default_jwt default_session default_local (mkDispatcharr true false true).
(** Carol with her local identity only. *)
Definition ex_db1 : DB :=
  let '(uid, us) := Table.insert ex_carol Table.empty in
  (add_user_identity ex_e (set_users us empty_db) uid "local" "carol" None).2.
(** Carol with a local and a Dispatcharr identity. *)
Definition ex_db2 : DB := (add_user_identity ex_e ex_db1 1 "dispatcharr" "carol_d" (Some "42"%string)).2.
(** Carol with her Dispatcharr identity only. *)
Definition ex_db3 : DB :=
  let '(uid, us) := Table.insert ex_carol Table.empty in
  (add_user_identity ex_e (set_users us empty_db) uid "dispatcharr" "carol_d" (Some "42"%string)).2.

Lemma ex_db1_ok : identities_ok ex_db1.
Proof.
  split; [apply Table.wf_insert, Table.wf_empty|].
  split; [|split]; apply Table.unique_single.
Qed.

(** Two-row tables: check each pair of rows. *)
Ltac unique_pairs :=
  let i := fresh in let j := fresh in let a := fresh in let b := fresh in
  let Ha := fresh in let Hb := fresh in let HR := fresh in
  intros i j a b Ha Hb HR; vm_compute in Ha, Hb;
  repeat match goal with
  | H : _ \/ _ |- _ => destruct H as [H|H]
  | H : False |- _ => destruct H
  | H : (_, _) = (_, _) |- _ => injection H as <- <-
  end;
  try reflexivity; cbv in HR; intuition congruence.

Lemma ex_db2_ok : identities_ok ex_db2.
Proof.
  split; [vm_compute; split; repeat constructor; simpl; lia|].
  split; [|split]; unique_pairs.
Qed.

Lemma ex_link_Ok :
  link_identity ex_auth ex_settings ex_e 1 "Dispatcharr" "carol_d" "pw" ex_db1 = Ok (2, ex_db2).
Proof. vm_compute. reflexivity. Qed.

Lemma unlink_identity_keeps_one_witness :
  Table.wf (identities ex_db2) /\ unlink_identity 1 1 ex_db2 = Ok (unlink_commit 1 ex_db2) /\
  identity_count (unlink_commit 1 ex_db2) 1 = identity_count ex_db2 1 - 1 /\
  1 <= identity_count (unlink_commit 1 ex_db2) 1.
Proof.
  assert (Hwf : Table.wf (identities ex_db2)) by (vm_compute; split; repeat constructor; simpl; lia).
  assert (Hu : unlink_identity 1 1 ex_db2 = Ok (unlink_commit 1 ex_db2)) by (vm_compute; reflexivity).
  split; [exact Hwf|]. split; [exact Hu|].
  exact (unlink_identity_keeps_one 1 1 ex_db2 (unlink_commit 1 ex_db2) Hwf Hu).
Defined.

Lemma unlink_last_identity_refused_witness :
  In (1, UserIdentity.mk 1 "local" None "carol" 500 None) (Table.rows (identities ex_db1)) /\
  identity_count ex_db1 1 <= 1 /\
  unlink_identity 1 1 ex_db1 =
    Err (HTTPException 400 "Cannot unlink your last identity - you would be locked out").
Proof.
  assert (Hin : In (1, UserIdentity.mk 1 "local" None "carol" 500 None) (Table.rows (identities ex_db1)))
    by (left; reflexivity).
  assert (Hc : identity_count ex_db1 1 <= 1) by (vm_compute; lia).
  split; [exact Hin|]. split; [exact Hc|].
  exact (unlink_last_identity_refused 1 1 _ ex_db1 Hin eq_refl Hc).
Defined.

Lemma unlink_race_witness :
  identity_count ex_db2 1 = 2 /\
  exists db', unlink_interleaved 1 1 2 ex_db2 = Ok db' /\ identity_count db' 1 = 0.
Proof.
  assert (Hwf : Table.wf (identities ex_db2)) by (vm_compute; split; repeat constructor; simpl; lia).
  assert (H1 : In (1, UserIdentity.mk 1 "local" None "carol" 500 None) (Table.rows (identities ex_db2)))
    by (left; reflexivity).
  assert (H2 : In (2, UserIdentity.mk 1 "dispatcharr" (Some "42"%string) "carol_d" 500 None)
                 (Table.rows (identities ex_db2))) by (right; left; reflexivity).
  assert (Hc : identity_count ex_db2 1 = 2) by (vm_compute; reflexivity).
  split; [exact Hc|].
  exact (unlink_race 1 1 2 _ _ ex_db2 Hwf H1 H2 ltac:(discriminate) eq_refl eq_refl Hc).
Defined.

Lemma link_identity_preserves_ok_witness :
  identities_ok ex_db1 /\
  link_identity ex_auth ex_settings ex_e 1 "Dispatcharr" "carol_d" "pw" ex_db1 = Ok (2, ex_db2) /\
  identities_ok ex_db2.
Proof.
  split; [exact ex_db1_ok|]. split; [exact ex_link_Ok|].
  exact (link_identity_preserves_ok ex_auth ex_settings ex_e 1 "Dispatcharr" "carol_d" "pw" ex_db1 2 ex_db2
           ex_db1_ok ex_link_Ok).
Defined.

Lemma unlink_identity_preserves_ok_witness :
  identities_ok ex_db2 /\ unlink_identity 1 1 ex_db2 = Ok (unlink_commit 1 ex_db2) /\
  identities_ok (unlink_commit 1 ex_db2).
Proof.
  assert (Hok : identities_ok ex_db2) by exact ex_db2_ok.
  assert (Hu : unlink_identity 1 1 ex_db2 = Ok (unlink_commit 1 ex_db2)) by (vm_compute; reflexivity).
  split; [exact Hok|]. split; [exact Hu|].
  exact (unlink_identity_preserves_ok 1 1 ex_db2 _ Hok Hu).
Defined.

Lemma link_then_unlink_witness :
  link_identity ex_auth ex_settings ex_e 1 "Dispatcharr" "carol_d" "pw" ex_db1 = Ok (2, ex_db2) /\
  exists db'', unlink_identity 1 1 ex_db2 = Ok db''.
Proof.
  split; [exact ex_link_Ok|].
  exact (link_then_unlink ex_auth ex_settings ex_e 1 "Dispatcharr" "carol_d" "pw" ex_db1 2 ex_db2 1
           (UserIdentity.mk 1 "local" None "carol" 500 None) ex_link_Ok (or_introl eq_refl) eq_refl).
Defined.

Lemma link_local_sets_password_witness :
  exists iid db', link_identity ex_auth ex_settings ex_e 1 "local" "carol" "Any#Pass2" ex_db3 = Ok (iid, db') /\
    Table.get 1 (users db') =
      Some (User.store_password_hash (Some (hash_password (salt ex_e) "Any#Pass2")) ex_carol) /\
    verify_password "Any#Pass2" (hash_password (salt ex_e) "Any#Pass2") = true.
Proof.
  assert (Hwf : Table.wf (users ex_db3)) by (apply Table.wf_insert, Table.wf_empty).
  assert (Hf : Table.first (fun j i => of_user 1 j i && bool_decide (UserIdentity.provider i = "local"%string))
                 (identities ex_db3) = None) by (vm_compute; reflexivity).
  assert (Hi : Table.first (by_identifier "local" "carol") (identities ex_db3) = None)
    by (vm_compute; reflexivity).
  exact (link_local_sets_password ex_auth ex_settings ex_e 1 "carol" "Any#Pass2" ex_db3 ex_carol
           Hwf eq_refl ltac:(discriminate) Hf Hi).
Defined.
