(* ===== verification/Login.v ===== *)
(** * Login: status, first-run setup, local and Dispatcharr login

    The handlers of [src/backend/auth/routes.py] that create users and
    sessions:
    - [get_auth_status] (lines 331-360), with its repair of a false
      [setup_complete] flag when users exist, which it persists;
    - [check_setup_required] (367-378) and [initial_setup] (381-439), which
      creates the first (admin) user and its [local] identity;
    - [login] (442-538): the user by [local] identity, else by user name
      (the legacy path), the provider test, the password test, the active
      test, then [issue_session];
    - [dispatcharr_login] (926-1083): the remote authentication
      ([authenticate], as in [Identities]), the user by [dispatcharr]
      identity, else by legacy [external_id], else a new user (named
      ["disp_" ++ name] when the name is taken) with its identity, then the
      same token issue.
    [issue_session] is the common tail of both logins (lines 511-528 and
    1054-1070): two tokens, the session row of [Sessions.create_session],
    [last_login_at], commit. *)

From S2P Require Import Prelude Table Models Crypto Settings Password Tokens Sessions Identities.

Definition invalid_credentials : auth_error := HTTPException 401 "Invalid username or password".

(** [AuthStatusResponse] *)
Record auth_status := mkStatus {
  st_setup_complete : bool;
  st_require_auth : bool;
  st_enabled_providers : list string;
  st_primary_auth_mode : string;
  st_smtp_configured : bool
}.

Definition user_count (db : DB) : nat := Table.count (fun _ _ => true) (users db).

Section Login.
Context `{PasswordHasher} `{TokenHash} `{JwtCodec} `{Signer}.
Variable authenticate : string -> string -> dispatcharr_outcome.

(** [get_auth_status]: [fs] is the secret a first load would draw,
    [smtp] what [is_smtp_configured()] answers. *)
Definition get_auth_status (fs : string) (smtp : bool) (st : store) (db : DB) : auth_status * store :=
  let '(s, st1) := get_auth_settings fs st in
  let '(done, st2) :=
    if negb (setup_complete s) && (0 <? user_count db)
    then (true, (save_auth_settings (with_setup_complete true s) st1).2)
    else (setup_complete s, st1) in
  let s2 := if negb (setup_complete s) && (0 <? user_count db) then with_setup_complete true s else s in
  (mkStatus done (require_auth s2) (get_enabled_providers s2) (primary_auth_mode s2) smtp, st2).

Definition check_setup_required (db : DB) : bool := user_count db =? 0.

(** [initial_setup]: the new admin's id and the database. *)
Definition initial_setup (s : AuthSettings) (e : env) (uname email pw : string) (db : DB)
    : result (nat * DB) auth_error :=
  if 0 <? user_count db then Err (HTTPException 403 "Setup already completed. Users already exist.") else
  let v := validate_password (local s) pw (Some uname) in
  if negb (valid v) then Err (HTTPException 422 (default ""%string (error v))) else
  let u := User.mk uname (Some email) (Some (hash_password (salt e) pw)) None true true "local" None
             (now e) (now e) None in
  p <-? add_user u db ;;
  let '(uid, db1) := p in
  db2 <-? flush (add_user_identity e db1 uid "local" uname None).2 ;;
  Ok (uid, db2).

(** Tokens, session row and [last_login_at] for user [uid], then commit:
    the database and the (access, refresh) pair. *)
Definition record_login (s : AuthSettings) (e : env) (uid : nat) (rt : string) (db : DB) : DB :=
  let db1 := create_session s e uid rt db in
  set_users (Table.update uid (User.set_last_login (now e)) (users db1)) db1.

Definition issue_session (s : AuthSettings) (e : env) (uid : nat) (u : User.t) (db : DB)
    : result (DB * (string * string)) auth_error :=
  let acc := create_access_token (jwt s) (now e) uid (User.username u) in
  let rt := create_refresh_token (jwt s) (now e) uid (nonce e) in
  db' <-? flush (record_login s e uid rt db) ;; Ok (db', (acc, rt)).

Definition by_username (uname : string) (_ : nat) (u : User.t) : bool :=
  bool_decide (User.username u = uname).

(** The user a local login names: by [local] identity, else by user name. *)
Definition login_user (uname : string) (db : DB) : option (nat * User.t) :=
  match Table.first (by_identifier "local" uname) (identities db) with
  | Some r => owner db (Some r)
  | None => Table.first (by_username uname) (users db)
  end.

Definition has_local_identity (uid : nat) (db : DB) : bool :=
  bool_decide (is_Some (Table.first (fun j i => of_user uid j i &&
                          bool_decide (UserIdentity.provider i = "local"%string)) (identities db))).

(** [not user.password_hash or not verify_password(...)] *)
Definition password_ok (pw : string) (u : User.t) : bool :=
  match User.password_hash u with
  | Some h => negb (bool_decide (h = ""%string)) && verify_password pw h
  | None => false
  end.

Definition login (s : AuthSettings) (e : env) (uname pw : string) (db : DB)
    : result (DB * (string * string)) auth_error :=
  match login_user uname db with
  | None => Err invalid_credentials
  | Some (uid, u) =>
      if negb (has_local_identity uid db) && negb (bool_decide (User.auth_provider u = "local"%string))
      then Err (HTTPException 401 "Please use your configured authentication provider to log in") else
      if negb (password_ok pw u) then Err invalid_credentials else
      let db1 := match Table.first (by_identifier "local" uname) (identities db) with
                 | Some (iid, _) => update_identity_last_used e db iid
                 | None => db
                 end in
      if negb (User.is_active u) then Err (HTTPException 401 "User account is disabled") else
      issue_session s e uid u db1
  end.

(** [user.email = auth_result.email or user.email], and the display name. *)
Definition refresh_profile (r : dispatcharr_user) (u : User.t) : User.t :=
  User.set_profile (or_else (d_email r) (User.email u))
    (or_else (d_display_name r) (User.display_name u)) u.

Definition by_legacy_dispatcharr (ext : string) (_ : nat) (u : User.t) : bool :=
  bool_decide (User.auth_provider u = "dispatcharr"%string) &&
  bool_decide (User.external_id u = Some ext).

(** The local account of a Dispatcharr user: found by identity, by legacy
    [external_id], or created; with its profile refreshed. *)
Definition dispatcharr_account (e : env) (r : dispatcharr_user) (db : DB)
    : result (nat * User.t * DB) auth_error :=
  match Table.first (by_external_id "dispatcharr" (d_user_id r)) (identities db) with
  | Some (iid, i) =>
      match Table.get (UserIdentity.user_id i) (users db) with
      | None => Err (HTTPException 500 "Internal Server Error")
      | Some u =>
          let uid := UserIdentity.user_id i in
          let db1 := update_identity_last_used e db iid in
          Ok (uid, refresh_profile r u, set_users (Table.update uid (refresh_profile r) (users db1)) db1)
      end
  | None =>
      match Table.first (by_legacy_dispatcharr (d_user_id r)) (users db) with
      | Some (uid, u) =>
          Ok (uid, refresh_profile r u, set_users (Table.update uid (refresh_profile r) (users db)) db)
      | None =>
          let uname := match Table.first (by_username (d_username r)) (users db) with
                       | Some _ => ("disp_" ++ d_username r)%string
                       | None => d_username r
                       end in
          let u := User.mk uname (d_email r) None (d_display_name r) false true "dispatcharr"
                     (Some (d_user_id r)) (now e) (now e) None in
          p <-? add_user u db ;;
          let '(uid, db1) := p in
          Ok (uid, u, (add_user_identity e db1 uid "dispatcharr" (d_username r) (Some (d_user_id r))).2)
      end
  end.

Definition dispatcharr_login (s : AuthSettings) (e : env) (uname pw : string) (db : DB)
    : result (DB * (string * string)) auth_error :=
  if negb (dispatcharr_enabled (dispatcharr s)) then
    Err (HTTPException 404 "Dispatcharr authentication is not enabled") else
  match authenticate uname pw with
  | DAuthFailed m => Err (HTTPException 401 m)
  | DAuthTimeout => Err (HTTPException 503 "Dispatcharr connection timeout")
  | DAuthUnreachable _ => Err (HTTPException 503 "Cannot connect to Dispatcharr")
  | DAuthCrashed _ => Err (HTTPException 500 "Authentication error")
  | DAuthOk r =>
      a <-? dispatcharr_account e r db ;;
      let '(uid, u, db1) := a in
      if negb (User.is_active u) then Err (HTTPException 401 "User account is disabled") else
      issue_session s e uid u db1
  end.
End Login.

Section LoginProofs.
Context `{PasswordHasher} `{TokenHash} `{JwtCodec} `{Signer}.
Variable authenticate : string -> string -> dispatcharr_outcome.

Lemma users_unique_create_session s e uid rt db :
  users_unique (create_session s e uid rt db) <-> users_unique db.
Proof. reflexivity. Qed.

Lemma users_unique_update_identity_last_used e db iid :
  users_unique (update_identity_last_used e db iid) <-> users_unique db.
Proof. reflexivity. Qed.

Lemma user_count_update i f db : user_count (set_users (Table.update i f (users db)) db) = user_count db.
Proof. unfold user_count. rewrite users_set_users. apply Table.count_update. reflexivity. Qed.

Lemma users_unique_record_login s e uid rt db :
  users_unique (record_login s e uid rt db) <-> users_unique db.
Proof. unfold record_login. rewrite users_unique_update by reflexivity. reflexivity. Qed.

Lemma user_count_record_login s e uid rt db : user_count (record_login s e uid rt db) = user_count db.
Proof. unfold record_login. rewrite user_count_update. reflexivity. Qed.

(** [issue_session] commits whenever the user constraints hold. *)
Lemma issue_session_Ok s e uid u db :
  users_unique db ->
  issue_session s e uid u db =
    Ok (record_login s e uid (create_refresh_token (jwt s) (now e) uid (nonce e)) db,
        (create_access_token (jwt s) (now e) uid (User.username u),
         create_refresh_token (jwt s) (now e) uid (nonce e))).
Proof.
  intros Hu. unfold issue_session. rewrite flush_Ok; [reflexivity|].
  apply users_unique_record_login. exact Hu.
Qed.

Lemma issue_session_Ok_inv s e uid u db db' t :
  issue_session s e uid u db = Ok (db', t) ->
  t = (create_access_token (jwt s) (now e) uid (User.username u),
       create_refresh_token (jwt s) (now e) uid (nonce e)) /\ users_unique db.
Proof.
  unfold issue_session. destruct (flush _) eqn:E; [|discriminate]. intros Hi. invc Hi.
  apply flush_Ok_inv in E as [_ Hu]. split; [reflexivity|].
  apply users_unique_record_login in Hu. exact Hu.
Qed.

(** The new admin of [initial_setup]. *)
Definition setup_user (e : env) (uname email pw : string) : User.t :=
  User.mk uname (Some email) (Some (hash_password (salt e) pw)) None true true "local" None
    (now e) (now e) None.

Lemma initial_setup_Ok s e uname email pw db uid db1 :
  initial_setup s e uname email pw db = Ok (uid, db1) ->
  user_count db = 0 /\ uid = Table.next_id (users db) /\ users_unique db1 /\
  db1 = (add_user_identity e (set_users (Table.insert (setup_user e uname email pw) (users db)).2 db)
           uid "local" uname None).2.
Proof.
  unfold initial_setup. destruct (Nat.ltb_spec 0 (user_count db)); [discriminate|].
  destruct (valid _); simpl; [|discriminate].
  unfold add_user. simpl. destruct (flush (set_users _ db)) as [dbu|] eqn:E1; simpl; [|discriminate].
  apply flush_Ok_inv in E1 as [-> _].
  destruct (flush _) as [db2|] eqn:E2; simpl; [|discriminate]. intros Hs. invc Hs.
  apply flush_Ok_inv in E2 as [-> Hu]. split; [lia|]. split; [reflexivity|]. split; [exact Hu|reflexivity].
Qed.
(** (round trip): after [initial_setup] has created the first
    admin, [login] with the same user name and password succeeds, at any
    later request, when no [local] identity already claimed the name. *)
Theorem setup_then_login s e e' uname email pw db uid db1 :
  Table.wf (users db) -> Table.first (by_identifier "local" uname) (identities db) = None ->
  pw <> ""%string -> initial_setup s e uname email pw db = Ok (uid, db1) ->
  exists db2 acc rt, login s e' uname pw db1 = Ok (db2, (acc, rt)).
Proof.
  intros Hwf Hfree Hpw Hs. apply initial_setup_Ok in Hs as (_ & -> & Hu & ->).
  set (u := setup_user e uname email pw).
  set (r := UserIdentity.mk (Table.next_id (users db)) "local" None uname (now e) None).
  assert (Hget : Table.get (Table.next_id (users db)) (Table.insert u (users db)).2 = Some u).
  { apply Table.In_get; [apply Table.wf_insert, Hwf|]. apply Table.In_insert. auto. }
  assert (Hfirst : Table.first (by_identifier "local" uname) (Table.insert r (identities db)).2 =
                     Some (Table.next_id (identities db), r)).
  { apply Table.first_insert_new; [exact Hfree|]. unfold by_identifier. simpl.
    rewrite !bool_decide_true; reflexivity. }
  assert (Hloc : has_local_identity (Table.next_id (users db))
                  (add_user_identity e (set_users (Table.insert u (users db)).2 db)
                     (Table.next_id (users db)) "local" uname None).2 = true).
  { unfold has_local_identity. apply bool_decide_eq_true. rewrite identities_add_user_identity.
    destruct (Table.first_In_Some (fun j i => of_user (Table.next_id (users db)) j i &&
                bool_decide (UserIdentity.provider i = "local"%string))
                (Table.insert r (identities db)).2 (Table.next_id (identities db)) r)
      as [x Hx]; [apply Table.In_insert; auto|unfold of_user; simpl; rewrite Nat.eqb_refl; reflexivity|].
    autorewrite with auth_rw. fold r. rewrite Hx. eexists; reflexivity. }
  unfold login, login_user. rewrite identities_add_user_identity. autorewrite with auth_rw.
  fold r. rewrite Hfirst. unfold owner. rewrite users_add_user_identity. autorewrite with auth_rw.
  change (UserIdentity.user_id r) with (Table.next_id (users db)). rewrite Hget. simpl fmap.
  cbv iota beta. rewrite Hloc.
  assert (Hok : password_ok pw u = true).
  { unfold password_ok. simpl. rewrite bool_decide_false by apply hash_password_nonempty.
    apply verify_hash_password, Hpw. }
  rewrite Hok. change (User.is_active u) with true. cbn [negb andb].
  do 3 eexists. apply issue_session_Ok. exact Hu.
Qed.
(** C4: [login] succeeds only for an active user, found by the
    name, whose stored hash verifies the presented password; it then issues
    an access token for that user and a refresh token for the request's
    token identifier. *)
Theorem login_sound s e uname pw db db' t :
  login s e uname pw db = Ok (db', t) ->
  exists uid u h, login_user uname db = Some (uid, u) /\ User.password_hash u = Some h /\
    verify_password pw h = true /\ User.is_active u = true /\
    t = (create_access_token (jwt s) (now e) uid (User.username u),
         create_refresh_token (jwt s) (now e) uid (nonce e)).
Proof.
  unfold login. destruct (login_user uname db) as [[uid u]|] eqn:E; [|discriminate].
  destruct (_ && _); [discriminate|].
  destruct (password_ok pw u) eqn:Ep; [|discriminate]. simpl.
  destruct (User.is_active u) eqn:Ea; [|discriminate]. simpl. intros Hi.
  apply issue_session_Ok_inv in Hi as [-> _].
  unfold password_ok in Ep. destruct (User.password_hash u) as [h|] eqn:Eh; [|discriminate].
  apply andb_true_iff in Ep as [_ Hv]. exists uid, u, h. repeat split; assumption.
Qed.

(** C32 (against the specification, section 4.7: a credential
    failure does not tell an unknown user from a wrong password): for a user
    without a local identity whose provider is not [local], [login] answers
    a message of its own whatever the password, while an unknown name gets
    the generic one. *)
Theorem login_reveals_provider s e uname uname' pw pw' db uid u :
  login_user uname db = Some (uid, u) -> has_local_identity uid db = false ->
  User.auth_provider u <> "local"%string -> login_user uname' db = None ->
  login s e uname pw db =
    Err (HTTPException 401 "Please use your configured authentication provider to log in") /\
  login s e uname' pw' db = Err invalid_credentials.
Proof.
  intros Hu Hl Hp Hn. unfold login. rewrite Hu, Hn, Hl, bool_decide_false by exact Hp.
  split; reflexivity.
Qed.

(** once [initial_setup] has succeeded, it is refused. *)
Theorem setup_once s e uname email pw db uid db1 s' e' uname' email' pw' :
  initial_setup s e uname email pw db = Ok (uid, db1) ->
  initial_setup s' e' uname' email' pw' db1 =
    Err (HTTPException 403 "Setup already completed. Users already exist.") /\
  check_setup_required db1 = false.
Proof.
  intros Hs. apply initial_setup_Ok in Hs as (_ & _ & _ & ->).
  assert (Hc : 0 < user_count (add_user_identity e (set_users (Table.insert (setup_user e uname email pw)
                 (users db)).2 db) uid "local" uname None).2).
  { unfold user_count. rewrite users_add_user_identity, users_set_users, Table.count_insert. lia. }
  unfold initial_setup, check_setup_required. apply Nat.ltb_lt in Hc as Hc'. rewrite Hc'.
  split; [reflexivity|]. apply Nat.eqb_neq. lia.
Qed.
Lemma first_by_username_None x db :
  x ∉ usernames db -> Table.first (by_username x) (users db) = None.
Proof.
  intros Hx. apply Table.first_None. intros j b Hin. apply bool_decide_eq_false. intros <-.
  apply Hx, list_elem_of_In, in_map_iff. exists (j, b). auto.
Qed.

Lemma first_by_username_Some x db :
  x ∈ usernames db -> exists r, Table.first (by_username x) (users db) = Some r.
Proof.
  intros Hx. apply list_elem_of_In, in_map_iff in Hx as [[j b] [Hb Hin]]. simpl in Hb.
  apply (Table.first_In_Some _ _ j b Hin). apply bool_decide_eq_true. exact Hb.
Qed.



(** C36: when the remote name and its ["disp_"] variant are
    both taken by local users, a first Dispatcharr login fails on the
    unique user-name constraint instead of finding a free name. *)
Theorem dispatcharr_login_name_collision s e uname pw db r :
  dispatcharr_enabled (dispatcharr s) = true -> authenticate uname pw = DAuthOk r ->
  Table.first (by_external_id "dispatcharr" (d_user_id r)) (identities db) = None ->
  Table.first (by_legacy_dispatcharr (d_user_id r)) (users db) = None ->
  d_username r ∈ usernames db -> ("disp_" ++ d_username r)%string ∈ usernames db ->
  dispatcharr_login authenticate s e uname pw db = Err (IntegrityError "users").
Proof.
  intros Hen Ha Hi Hl Hn Hd. unfold dispatcharr_login. rewrite Hen, Ha. simpl.
  unfold dispatcharr_account. rewrite Hi, Hl.
  destruct (first_by_username_Some _ _ Hn) as [x Hx]. rewrite Hx.
  rewrite add_user_dup; [reflexivity|exact Hd].
Qed.

(** (against [auto_create_users] of the settings): a
    first Dispatcharr login creates a local user even when the setting says
    not to. *)
Theorem dispatcharr_login_ignores_auto_create s e uname pw db r :
  dispatcharr_enabled (dispatcharr s) = true -> auto_create_users (dispatcharr s) = false ->
  authenticate uname pw = DAuthOk r -> users_unique db ->
  Table.first (by_external_id "dispatcharr" (d_user_id r)) (identities db) = None ->
  Table.first (by_legacy_dispatcharr (d_user_id r)) (users db) = None ->
  d_username r ∉ usernames db -> (forall m, d_email r = Some m -> m ∉ emails db) ->
  exists db' t, dispatcharr_login authenticate s e uname pw db = Ok (db', t) /\
    user_count db' = S (user_count db).
Proof.
  intros Hen _ Ha Hu Hi Hl Hn He. unfold dispatcharr_login. rewrite Hen, Ha. simpl.
  unfold dispatcharr_account. rewrite Hi, Hl, first_by_username_None by exact Hn.
  rewrite add_user_Ok by (apply users_unique_insert; auto). simpl.
  rewrite issue_session_Ok by (apply users_unique_insert; auto).
  do 2 eexists. split; [reflexivity|]. rewrite user_count_record_login.
  unfold user_count, set_identities, set_users, Table.count, Table.select. cbn [users Table.rows].
  rewrite List.filter_app, List.length_app. simpl. lia.
Qed.
(** when users exist, [get_auth_status] reports setup as
    complete and leaves settings saying so in the cache, whatever the flag
    said before. *)
Theorem get_auth_status_repairs fs smtp st db :
  0 < user_count db ->
  st_setup_complete (get_auth_status fs smtp st db).1 = true /\
  (forall s, cache (get_auth_status fs smtp st db).2 = Some s -> setup_complete s = true).
Proof.
  intros Hc. pose proof (load_auth_settings_cache fs st) as Hcache.
  unfold get_auth_status, get_auth_settings.
  destruct (load_auth_settings fs st) as [s st1]. cbn [fst snd] in Hcache.
  apply Nat.ltb_lt in Hc. rewrite Hc.
  destruct (setup_complete s) eqn:Es; cbn [negb andb].
  - split; [reflexivity|]. intros s' Hs'. simpl in Hs'. congruence.
  - split; [reflexivity|]. intros s' Hs'. cbn [snd] in Hs'. rewrite save_auth_settings_cache in Hs'.
    injection Hs' as <-. reflexivity.
Qed.
End LoginProofs.

(** ** A concrete installation: setup, login, Dispatcharr logins *)

Definition lg_settings : AuthSettings := with_secret "k" default_settings.
Definition lg_dsettings : AuthSettings :=
  mkAuth true "local" true (mkJWT "k" "HS256" 30 7) default_session default_local
    (mkDispatcharr true false false).
Definition lg_e : env := mkEnv 1000 None None "n0" 3.
Definition lg_e' : env := mkEnv 1100 (Some "10.0.0.2"%string) None "n1" 4.
Definition lg_pw : string := "Sturdy#Key42".
Definition lg_setup := initial_setup lg_settings lg_e "root" "root@example.com" lg_pw empty_db.
Definition lg_setup_db : DB := match lg_setup with Ok (_, d) => d | Err _ => empty_db end.
Definition lg_login := login lg_settings lg_e' "root" lg_pw lg_setup_db.
Definition lg_login_db : DB := match lg_login with Ok (d, _) => d | Err _ => empty_db end.
Definition lg_login_t : string * string := match lg_login with Ok (_, t) => t | Err _ => (""%string, ""%string) end.
(** A user created by the legacy Dispatcharr path: no identity row. *)
Definition lg_dave : User.t := User.mk "dave" None None None false true "dispatcharr" (Some "7"%string) 0 0 None.
Definition lg_dave_db : DB := set_users (Table.insert lg_dave Table.empty).2 empty_db.
(** Local users holding both [carol_d] and [disp_carol_d]. *)
Definition lg_user (n : string) : User.t := User.mk n None None None false true "local" None 0 0 None.
Definition lg_taken_db : DB :=
  set_users (Table.insert (lg_user "disp_carol_d") (Table.insert (lg_user "carol_d") Table.empty).2).2 empty_db.

Lemma lg_setup_Ok : lg_setup = Ok (1, lg_setup_db).
Proof. vm_compute. reflexivity. Qed.

Lemma lg_login_Ok : lg_login = Ok (lg_login_db, lg_login_t).
Proof. vm_compute. reflexivity. Qed.

Lemma setup_then_login_witness :
  initial_setup lg_settings lg_e "root" "root@example.com" lg_pw empty_db = Ok (1, lg_setup_db) /\
  exists db2 acc rt, login lg_settings lg_e' "root" lg_pw lg_setup_db = Ok (db2, (acc, rt)).
Proof.
  split; [exact lg_setup_Ok|].
  exact (setup_then_login lg_settings lg_e lg_e' "root" "root@example.com" lg_pw empty_db 1 lg_setup_db
           Table.wf_empty eq_refl ltac:(discriminate) lg_setup_Ok).
Defined.

Lemma login_sound_witness :
  login lg_settings lg_e' "root" lg_pw lg_setup_db = Ok (lg_login_db, lg_login_t) /\
  exists uid u h, login_user "root" lg_setup_db = Some (uid, u) /\ User.password_hash u = Some h /\
    verify_password lg_pw h = true /\ User.is_active u = true /\
    lg_login_t = (create_access_token (jwt lg_settings) (now lg_e') uid (User.username u),
                  create_refresh_token (jwt lg_settings) (now lg_e') uid (nonce lg_e')).
Proof.
  split; [exact lg_login_Ok|].
  exact (login_sound lg_settings lg_e' "root" lg_pw lg_setup_db lg_login_db lg_login_t lg_login_Ok).
Defined.

Lemma login_reveals_provider_witness :
  login lg_settings lg_e "dave" "whatever" lg_dave_db =
    Err (HTTPException 401 "Please use your configured authentication provider to log in") /\
  login lg_settings lg_e "nobody" "whatever" lg_dave_db = Err invalid_credentials.
Proof.
  exact (login_reveals_provider lg_settings lg_e "dave" "nobody" "whatever" "whatever" lg_dave_db 1 lg_dave
           ltac:(vm_compute; reflexivity) ltac:(vm_compute; reflexivity) ltac:(discriminate)
           ltac:(vm_compute; reflexivity)).
Defined.

Lemma setup_once_witness :
  initial_setup lg_settings lg_e "root" "root@example.com" lg_pw empty_db = Ok (1, lg_setup_db) /\
  initial_setup lg_settings lg_e' "eve" "eve@example.com" "Other#Key77" lg_setup_db =
    Err (HTTPException 403 "Setup already completed. Users already exist.") /\
  check_setup_required lg_setup_db = false.
Proof.
  split; [exact lg_setup_Ok|].
  exact (setup_once lg_settings lg_e "root" "root@example.com" lg_pw empty_db 1 lg_setup_db
           lg_settings lg_e' "eve" "eve@example.com" "Other#Key77" lg_setup_Ok).
Defined.

Lemma dispatcharr_login_name_collision_witness :
  ex_auth "carol_d" "pw" = DAuthOk (mkDUser "42" "carol_d" None None) /\
  dispatcharr_login ex_auth lg_dsettings lg_e "carol_d" "pw" lg_taken_db = Err (IntegrityError "users").
Proof.
  split; [reflexivity|].
  exact (dispatcharr_login_name_collision ex_auth lg_dsettings lg_e "carol_d" "pw" lg_taken_db
           (mkDUser "42" "carol_d" None None) eq_refl eq_refl ltac:(vm_compute; reflexivity)
           ltac:(vm_compute; reflexivity) ltac:(vm_compute; left) ltac:(vm_compute; right; left)).
Defined.

Lemma dispatcharr_login_ignores_auto_create_witness :
  auto_create_users (dispatcharr lg_dsettings) = false /\
  exists db' t, dispatcharr_login ex_auth lg_dsettings lg_e "carol_d" "pw" empty_db = Ok (db', t) /\
    user_count db' = S (user_count empty_db).
Proof.
  split; [reflexivity|].
  exact (dispatcharr_login_ignores_auto_create ex_auth lg_dsettings lg_e "carol_d" "pw" empty_db
           (mkDUser "42" "carol_d" None None) eq_refl eq_refl eq_refl ltac:(split; constructor)
           eq_refl eq_refl (not_elem_of_nil _) ltac:(discriminate)).
Defined.

Lemma get_auth_status_repairs_witness :
  0 < user_count lg_setup_db /\
  st_setup_complete (get_auth_status "k1" false rw_store lg_setup_db).1 = true /\
  (forall s, cache (get_auth_status "k1" false rw_store lg_setup_db).2 = Some s -> setup_complete s = true).
Proof.
  assert (Hc : 0 < user_count lg_setup_db) by (vm_compute; lia).
  split; [exact Hc|]. exact (get_auth_status_repairs "k1" false rw_store lg_setup_db Hc).
Defined.
