(* ===== verification/Admin.v ===== *)
(** * Admin: account handlers and the admin endpoints of [routes.py]

    - [update_current_user_profile] (lines 565-603) and [change_password]
      (712-745): the current user's own profile and password;
    - [get_auth_providers] (875-913): it loads the settings (writing them
      on a first load), lists the two built-in providers, then reads
      [settings.saml], a field [AuthSettings] does not have, and raises
      [AttributeError] (HTTP 500);
    - [require_admin] (1090-1097), the dependency of every admin endpoint;
    - [get_admin_auth_settings] and [update_admin_auth_settings]
      (1124-1182): the settings cache is mutated in place and saved; a
      [primary_auth_mode] outside the [Literal] is accepted, because pydantic
      does not validate assignments;
    - [list_users], [get_user], [update_user], [delete_user] (1222-1360),
      with the self-protection tests of [update_user] and [delete_user];
      [delete_user] deletes the row ([session.delete(user)]).

    The current user is [get_current_user] of [Models]; its id is the
    handler's input. *)

From S2P Require Import Prelude Table Models Crypto Settings Password Sessions.

Section Admin.
Context `{PasswordHasher}.

(** [update_current_user_profile]: [None] is a field left out of the
    request. *)
Definition update_current_user_profile (e : env) (uid : nat) (display_name email : option string)
    (db : DB) : result (User.t * DB) auth_error :=
  cu <-? get_current_user uid db ;;
  let u1 := match display_name with
            | Some d => User.set_profile (User.email cu) (if bool_decide (d = ""%string) then None else Some d) cu
            | None => cu
            end in
  let conflict := match email with
                  | Some m => negb (bool_decide (m = ""%string)) &&
                              bool_decide (is_Some (Table.first (fun j u => bool_decide (User.email u = Some m) &&
                                                     negb (j =? uid)) (users db)))
                  | None => false
                  end in
  if conflict then Err (HTTPException 409 "Email already in use") else
  let u2 := match email with
            | Some m => User.set_profile (if bool_decide (m = ""%string) then None else Some m) (User.display_name u1) u1
            | None => u1
            end in
  let u3 := User.set_updated (now e) u2 in
  db' <-? flush (set_users (Table.update uid (fun _ => u3) (users db)) db) ;;
  Ok (u3, db').

(** [change_password] *)
Definition change_password (s : AuthSettings) (e : env) (uid : nat) (current new : string) (db : DB)
    : result DB auth_error :=
  cu <-? get_current_user uid db ;;
  let ok := match User.password_hash cu with
            | Some h => negb (bool_decide (h = ""%string)) && verify_password current h
            | None => false
            end in
  if negb ok then Err (HTTPException 401 "Current password is incorrect") else
  let v := validate_password (local s) new (Some (User.username cu)) in
  if negb (valid v) then Err (HTTPException 422 (default ""%string (error v))) else
  Ok (set_users (Table.update uid (User.set_password_hash (Some (hash_password (salt e) new)) (now e))
                   (users db)) db).

(** The fields [AuthSettings] declares in [settings.py]. *)
Definition auth_settings_fields : list string :=
  ["setup_complete"; "primary_auth_mode"; "require_auth"; "jwt"; "session"; "local"; "dispatcharr"].

(** [get_auth_providers]: [get_auth_settings()] (which loads, and on a
    first load writes, the settings), the [local] and [dispatcharr]
    tests, then [settings.saml]: a field [AuthSettings] does not declare,
    so the handler raises [AttributeError] and FastAPI answers 500.  The
    [Ok] branch is what the handler has built when it reaches that read;
    the [saml] and [ldap] tests have no fields to read and are not
    modelled past it. *)
Definition get_auth_providers (fs : string) (st : store) : result (list string) auth_error * store :=
  let '(s, st1) := get_auth_settings fs st in
  let providers := ((if local_enabled (local s) then ["local"] else []) ++
                    (if dispatcharr_enabled (dispatcharr s) then ["dispatcharr"] else []))%list in
  match attr_error auth_settings_fields "saml" with
  | Ok _ => (Ok providers, st1)
  | Err _ => (Err (HTTPException 500 "Internal Server Error"), st1)
  end.

Definition require_admin (uid : nat) (db : DB) : result User.t auth_error :=
  u <-? get_current_user uid db ;;
  if User.is_admin u then Ok u else Err (HTTPException 403 "Admin access required").

(** [AuthSettingsPublicResponse] *)
Record public_settings := mkPublic {
  pub_require_auth : bool;
  pub_primary_auth_mode : string;
  pub_local_enabled : bool;
  pub_local_min_password_length : Z;
  pub_dispatcharr_enabled : bool;
  pub_dispatcharr_auto_create_users : bool
}.

Definition get_admin_auth_settings (fs : string) (uid : nat) (db : DB) (st : store)
    : result (public_settings * store) auth_error :=
  _ <-? require_admin uid db ;;
  let '(s, st1) := get_auth_settings fs st in
  Ok (mkPublic (require_auth s) (primary_auth_mode s) (local_enabled (local s))
        (min_password_length (local s)) (dispatcharr_enabled (dispatcharr s))
        (auto_create_users (dispatcharr s)), st1).

(** [AuthSettingsUpdateRequest]: [None] is a field left out. *)
Record settings_update := mkUpdate {
  upd_require_auth : option bool;
  upd_primary_auth_mode : option string;
  upd_local_enabled : option bool;
  upd_local_min_password_length : option Z;
  upd_dispatcharr_enabled : option bool;
  upd_dispatcharr_auto_create_users : option bool
}.

(** The six conditional assignments of [update_admin_auth_settings];
    pydantic does not validate assignment, so any integer is stored. *)
Definition apply_update (r : settings_update) (s : AuthSettings) : AuthSettings :=
  let l := local s in
  let d := dispatcharr s in
  mkAuth (setup_complete s)
    (default (primary_auth_mode s) (upd_primary_auth_mode r))
    (default (require_auth s) (upd_require_auth r))
    (jwt s) (session s)
    (mkLocal (default (local_enabled l) (upd_local_enabled r))
       (default (min_password_length l) (upd_local_min_password_length r))
       (require_uppercase l) (require_lowercase l) (require_number l) (require_special l))
    (mkDispatcharr (default (dispatcharr_enabled d) (upd_dispatcharr_enabled r))
       (use_dispatcharr_auth d)
       (default (auto_create_users d) (upd_dispatcharr_auto_create_users r))).

Definition update_admin_auth_settings (fs : string) (uid : nat) (r : settings_update) (db : DB)
    (st : store) : result store auth_error :=
  _ <-? require_admin uid db ;;
  let '(s, st1) := get_auth_settings fs st in
  Ok (save_auth_settings (apply_update r s) st1).2.

(** [list_users]: [order_by(User.created_at.desc())]; rows with equal
    times keep the table order. *)
Fixpoint insert_desc (r : nat * User.t) (l : list (nat * User.t)) : list (nat * User.t) :=
  match l with
  | [] => [r]
  | x :: l' => if (User.created_at x.2 <? User.created_at r.2)%Z then r :: l else x :: insert_desc r l'
  end.

Definition sort_desc (l : list (nat * User.t)) : list (nat * User.t) :=
  fold_right insert_desc [] (rev l).

Definition list_users (uid : nat) (db : DB) : result (list (nat * User.t) * nat) auth_error :=
  _ <-? require_admin uid db ;;
  let us := sort_desc (Table.rows (users db)) in
  Ok (us, length us).

Definition live_session_of (uid : nat) (_ : nat) (r : UserSession.t) : bool :=
  (UserSession.user_id r =? uid) && negb (UserSession.is_revoked r).

(** [get_user]: the user and the number of its unrevoked sessions. *)
Definition get_user (admin uid : nat) (db : DB) : result (User.t * nat) auth_error :=
  _ <-? require_admin admin db ;;
  match Table.get uid (users db) with
  | None => Err (HTTPException 404 "User not found")
  | Some u => Ok (u, Table.count (live_session_of uid) (sessions db))
  end.

(** [UserUpdateRequest] *)
Record user_update := mkUserUpdate {
  uu_is_admin : option bool;
  uu_is_active : option bool;
  uu_display_name : option string;
  uu_email : option string
}.

Definition apply_user_update (r : user_update) (now : Z) (u : User.t) : User.t :=
  let u1 := User.set_flags (default (User.is_admin u) (uu_is_admin r))
              (default (User.is_active u) (uu_is_active r)) now u in
  User.set_profile (match uu_email r with Some m => Some m | None => User.email u1 end)
    (match uu_display_name r with Some d => Some d | None => User.display_name u1 end) u1.

Definition update_user (e : env) (admin uid : nat) (r : user_update) (db : DB)
    : result (User.t * DB) auth_error :=
  _ <-? require_admin admin db ;;
  match Table.get uid (users db) with
  | None => Err (HTTPException 404 "User not found")
  | Some u =>
      if bool_decide (uu_is_admin r = Some false) && (uid =? admin)
      then Err (HTTPException 400 "Cannot remove your own admin status") else
      if bool_decide (uu_is_active r = Some false) && (uid =? admin)
      then Err (HTTPException 400 "Cannot deactivate your own account") else
      let u' := apply_user_update r (now e) u in
      db' <-? flush (set_users (Table.update uid (fun _ => u') (users db)) db) ;;
      Ok (u', db')
  end.

(** [delete_user]: its sessions and reset tokens are deleted, then the user
    row; its identity rows are not touched. *)
Definition delete_user (admin uid : nat) (db : DB) : result (string * DB) auth_error :=
  _ <-? require_admin admin db ;;
  match Table.get uid (users db) with
  | None => Err (HTTPException 404 "User not found")
  | Some u =>
      if uid =? admin then Err (HTTPException 400 "Cannot delete your own account") else
      let db1 := set_sessions (Table.delete_where (fun _ r => UserSession.user_id r =? uid) (sessions db)) db in
      let db2 := set_reset_tokens (Table.delete_where (fun _ r => PasswordResetToken.user_id r =? uid)
                                     (reset_tokens db1)) db1 in
      Ok (("User '" ++ User.username u ++ "' deleted")%string,
          set_users (Table.delete_where (fun j _ => j =? uid) (users db2)) db2)
  end.
End Admin.

Section AdminProofs.
Context `{PasswordHasher}.

Lemma require_admin_Ok uid db a :
  require_admin uid db = Ok a ->
  Table.get uid (users db) = Some a /\ User.is_admin a = true /\ User.is_active a = true.
Proof.
  unfold require_admin, get_current_user. destruct (Table.get uid (users db)) as [u|]; [|discriminate].
  destruct (User.is_active u) eqn:Ea; [|discriminate]. simpl.
  destruct (User.is_admin u) eqn:Ed; [|discriminate]. intros Hr. invc Hr. auto.
Qed.

Lemma require_admin_not_admin uid db u :
  get_current_user uid db = Ok u -> User.is_admin u = false ->
  require_admin uid db = Err (HTTPException 403 "Admin access required").
Proof. intros Hc Ha. unfold require_admin. rewrite Hc. simpl. rewrite Ha. reflexivity. Qed.

(** C5: for a signed-in user who is not an administrator, every
    admin endpoint answers 403 and changes nothing. *)
Theorem admin_endpoints_require_admin uid db u fs st r x ur e :
  get_current_user uid db = Ok u -> User.is_admin u = false ->
  let forbidden := HTTPException 403 "Admin access required" in
  get_admin_auth_settings fs uid db st = Err forbidden /\
  update_admin_auth_settings fs uid r db st = Err forbidden /\
  list_users uid db = Err forbidden /\ get_user uid x db = Err forbidden /\
  update_user e uid x ur db = Err forbidden /\ delete_user uid x db = Err forbidden.
Proof.
  intros Hc Ha forbidden.
  unfold get_admin_auth_settings, update_admin_auth_settings, list_users, get_user, update_user, delete_user.
  rewrite (require_admin_not_admin uid db u Hc Ha). repeat split.
Qed.

(** (specification section 7): an administrator who updates
    their own account stays an active administrator, and cannot delete it. *)
Theorem admin_no_self_lockout e a r db u' db' :
  (update_user e a a r db = Ok (u', db') -> User.is_admin u' = true /\ User.is_active u' = true) /\
  (forall res, delete_user a a db <> Ok res).
Proof.
  split.
  - unfold update_user. destruct (require_admin a db) as [ad|] eqn:Er; [|discriminate]. simpl.
    apply require_admin_Ok in Er as (Hg & Had & Hac). rewrite Hg, Nat.eqb_refl.
    destruct (uu_is_admin r) as [[|]|] eqn:Ea, (uu_is_active r) as [[|]|] eqn:Ec; simpl;
      try discriminate;
      (destruct (flush _); simpl; [|discriminate]); intros Hu; invc Hu;
      unfold apply_user_update; rewrite ?Ea, ?Ec; simpl; rewrite ?Had, ?Hac; auto.
  - intros res. unfold delete_user. destruct (require_admin a db) as [ad|] eqn:Er; [|discriminate]. simpl.
    apply require_admin_Ok in Er as (Hg & _ & _). rewrite Hg, Nat.eqb_refl. discriminate.
Qed.
(** C40: [get_auth_providers] answers 500 on every call, whatever the
    settings: it reads [settings.saml], which [AuthSettings] does not
    declare.  It does so after [get_auth_settings] has loaded the
    settings, and on a first load written them with a new secret, so the
    failing call still changes the store. *)
Lemma get_auth_providers_500 fs st :
  get_auth_providers fs st = (Err (HTTPException 500 "Internal Server Error"), (get_auth_settings fs st).2).
Proof.
  unfold get_auth_providers. destruct (get_auth_settings fs st) as [s st1].
  replace (attr_error auth_settings_fields "saml") with (@Err unit string "AttributeError") by (vm_compute; reflexivity).
  reflexivity.
Qed.

(** [require_admin] reads only the caller's user row. *)
Lemma require_admin_users a db db'' :
  Table.get a (users db'') = Table.get a (users db) -> require_admin a db'' = require_admin a db.
Proof. intros Hg. unfold require_admin, get_current_user. rewrite Hg. reflexivity. Qed.

(** C35: [delete_user] is a hard delete ([session.delete(user)]): after
    it succeeds, [get_user] answers 404 for the deleted id, the user's
    sessions and reset tokens are gone, and every other user row is as it
    was.  The repository's test [test_admin_delete_user_soft_deletes]
    expects the row kept and deactivated. *)
Theorem delete_user_hard_deletes a uid db msg db' :
  delete_user a uid db = Ok (msg, db') ->
  get_user a uid db' = Err (HTTPException 404 "User not found") /\
  (forall j r, In (j, r) (Table.rows (sessions db')) -> UserSession.user_id r <> uid) /\
  (forall j r, In (j, r) (Table.rows (reset_tokens db')) -> PasswordResetToken.user_id r <> uid) /\
  (forall j, j <> uid -> Table.get j (users db') = Table.get j (users db)).
Proof.
  unfold delete_user. destruct (require_admin a db) as [ad|] eqn:Er; [|discriminate]. simpl.
  destruct (Table.get uid (users db)) as [u|]; [|discriminate].
  destruct (Nat.eqb_spec uid a) as [|Hne]; [discriminate|]. intros Hd. invc Hd.
  assert (Hkeep : forall j, j <> uid ->
    Table.get j (Table.delete_where (fun j _ => j =? uid) (users db)) = Table.get j (users db)).
  { intros j Hj. apply Table.get_delete_where_keep. intros _. apply Nat.eqb_neq, Hj. }
  repeat split; cbn [users sessions reset_tokens set_users set_sessions set_reset_tokens] in *.
  - unfold get_user. rewrite (require_admin_users a db), Er by (cbn; apply Hkeep; congruence). simpl.
    replace (Table.get uid _) with (@None User.t); [reflexivity|]. symmetry. apply Table.get_None.
    intros b Hin. apply Table.In_delete_where in Hin as [_ Hp]. rewrite Nat.eqb_refl in Hp. discriminate.
  - intros j r Hin Heq. apply Table.In_delete_where in Hin as [_ Hp]. cbn beta in Hp.
    rewrite Heq, Nat.eqb_refl in Hp. discriminate.
  - intros j r Hin Heq. apply Table.In_delete_where in Hin as [_ Hp]. cbn beta in Hp.
    rewrite Heq, Nat.eqb_refl in Hp. discriminate.
  - exact Hkeep.
Qed.

(** [change_password] succeeds only when the current
    password verifies against the stored hash, and then stores the hash of
    the new password, which verifies it. *)
Theorem change_password_correct s e uid cur new db db' :
  Table.wf (users db) -> new <> ""%string ->
  change_password s e uid cur new db = Ok db' ->
  exists u h, Table.get uid (users db) = Some u /\ User.password_hash u = Some h /\
    verify_password cur h = true /\
    Table.get uid (users db') =
      Some (User.set_password_hash (Some (hash_password (salt e) new)) (now e) u) /\
    verify_password new (hash_password (salt e) new) = true.
Proof.
  intros Hwf Hnew. unfold change_password, get_current_user.
  destruct (Table.get uid (users db)) as [u|] eqn:Eg; [|discriminate].
  destruct (User.is_active u); [|discriminate]. simpl.
  destruct (User.password_hash u) as [h|] eqn:Eh; [|discriminate]. simpl.
  destruct (verify_password cur h) eqn:Ev; [|rewrite andb_false_r; discriminate].
  rewrite andb_true_r. destruct (bool_decide (h = ""%string)); [discriminate|]. simpl.
  destruct (valid _); [|discriminate]. simpl. intros Hc. invc Hc.
  exists u, h. repeat split; auto.
  - apply Table.get_update_eq; assumption.
  - apply verify_hash_password, Hnew.
Qed.

(** (against the specification's [Conflict] for a duplicate
    e-mail): [update_user] sets an e-mail another user already has without
    checking it, and the commit fails on the unique constraint instead
    ([update_current_user_profile] answers 409 in the same case). *)
Theorem update_user_duplicate_email e a uid r db u j v m :
  Table.wf (users db) -> require_admin a db = Ok u -> Table.get uid (users db) <> None ->
  (uu_is_admin r = Some false -> uid <> a) -> (uu_is_active r = Some false -> uid <> a) ->
  uu_email r = Some m -> In (j, v) (Table.rows (users db)) -> j <> uid -> User.email v = Some m ->
  update_user e a uid r db = Err (IntegrityError "users").
Proof.
  intros Hwf Ha Hg Hadm Hact Hm Hin Hne Hv. unfold update_user. rewrite Ha. simpl.
  destruct (Table.get uid (users db)) as [w|] eqn:Ew; [|contradiction].
  set (w' := apply_user_update r (now e) w).
  set (t := Table.update uid (fun _ => w') (users db)).
  assert (HinU : In (uid, w') (Table.rows t)).
  { apply Table.In_update. right. split; [reflexivity|]. exists w. split; [apply Table.get_Some_In, Ew|reflexivity]. }
  assert (HinJ : In (j, v) (Table.rows t)) by (apply Table.In_update; left; auto).
  assert (Hbad : ~ users_unique (set_users t db)).
  { apply (emails_dup (set_users t db) uid j w' v m HinU HinJ); auto. unfold w', apply_user_update. simpl. rewrite Hm. reflexivity. }
  destruct (bool_decide (uu_is_admin r = Some false)) eqn:E1, (Nat.eqb_spec uid a) as [Heq|Hne'];
    simpl; try (apply bool_decide_eq_true in E1; exfalso; exact (Hadm E1 Heq)).
  all: destruct (bool_decide (uu_is_active r = Some false)) eqn:E2; simpl;
    try (apply bool_decide_eq_true in E2; exfalso; exact (Hact E2 Heq)).
  all: unfold flush; fold w' t; rewrite decide_False by exact Hbad; reflexivity.
Qed.
(** C11 (a defect): [update_admin_auth_settings] stores any string
    as [primary_auth_mode]; once saved, the file no longer loads as
    [AuthSettings], so after a restart the settings are the defaults with a
    new signing secret: setup is flagged incomplete and every issued token
    is refused. *)
Theorem admin_invalid_mode_resets_settings fs fs' a r db st st' m :
  update_admin_auth_settings fs a r db st = Ok st' ->
  upd_primary_auth_mode r = Some m -> m <> "local"%string -> m <> "dispatcharr"%string ->
  dir_ok st && writable st = true ->
  load_auth_settings fs' (restart st') = (with_secret fs' default_settings,
    (save_auth_settings (with_secret fs' default_settings)
       (set_cache (Some default_settings) (restart st'))).2).
Proof.
  intros Hu Hm Hl Hd Hw. unfold update_admin_auth_settings, get_auth_settings in Hu.
  destruct (require_admin a db); [|discriminate]. simpl in Hu.
  pose proof (load_auth_settings_env fs st) as [Hd1 Hw1].
  destruct (load_auth_settings fs st) as [s st1]. invc Hu. cbn [snd] in Hd1, Hw1.
  assert (Hfile : file (save_auth_settings (apply_update r s) st1).2 = Some (Some (apply_update r s))).
  { pose proof (save_auth_settings_spec (apply_update r s) st1) as (_ & _ & Hf).
    rewrite Hf, Hd1, Hw1, Hw. reflexivity. }
  assert (Hinv : settings_valid (apply_update r s) = false).
  { unfold settings_valid, apply_update. simpl. rewrite Hm. simpl.
    rewrite !bool_decide_false by assumption. reflexivity. }
  unfold load_auth_settings, restart, clear_auth_settings_cache. simpl.
  unfold set_cache at 1. cbn [file]. rewrite Hfile, Hinv. reflexivity.
Qed.
End AdminProofs.

(** ** A concrete installation: an administrator and two users *)

Definition ad_root : User.t := User.mk "root" None None None true true "local" None 0 0 None.
Definition ad_bob : User.t :=
  User.mk "bob" (Some "b@example.com"%string) (Some (model_hash 1 "Old#Pass1")) None false true "local" None 0 0 None.
Definition ad_carl : User.t := User.mk "carl" (Some "c@example.com"%string) None None false true "local" None 0 0 None.
Definition ad_users : Table.t User.t :=
  (Table.insert ad_carl (Table.insert ad_bob (Table.insert ad_root Table.empty).2).2).2.
Definition ad_db : DB :=
  mkDB ad_users
    (Table.insert (UserIdentity.mk 2 "local" None "bob" 0 None) Table.empty).2
    (Table.insert (UserSession.mk 2 "h" None "" false 9999 None) Table.empty).2
    (Table.insert (PasswordResetToken.mk 2 "t" 9999 None) Table.empty).2.
Definition ad_e : env := mkEnv 100 None None "n" 6.
Definition ad_noop : settings_update := mkUpdate None None None None None None.
Definition ad_bad_mode : settings_update := mkUpdate None (Some "saml"%string) None None None None.

Lemma ad_users_wf : Table.wf ad_users.
Proof. repeat apply Table.wf_insert. apply Table.wf_empty. Qed.

Lemma admin_endpoints_require_admin_witness :
  get_current_user 2 ad_db = Ok ad_bob /\ User.is_admin ad_bob = false /\
  list_users 2 ad_db = Err (HTTPException 403 "Admin access required") /\
  delete_user 2 3 ad_db = Err (HTTPException 403 "Admin access required").
Proof.
  assert (Hc : get_current_user 2 ad_db = Ok ad_bob) by (vm_compute; reflexivity).
  split; [exact Hc|]. split; [reflexivity|].
  destruct (admin_endpoints_require_admin 2 ad_db ad_bob "k" rw_store ad_noop 3
              (mkUserUpdate None None None None) ad_e Hc eq_refl) as (_ & _ & Hl & _ & _ & Hd).
  split; [exact Hl|exact Hd].
Defined.

Lemma admin_no_self_lockout_witness :
  update_user ad_e 1 1 (mkUserUpdate (Some true) None (Some "Root"%string) None) ad_db =
    Ok (apply_user_update (mkUserUpdate (Some true) None (Some "Root"%string) None) 100 ad_root,
        set_users (Table.update 1 (fun _ => apply_user_update (mkUserUpdate (Some true) None
          (Some "Root"%string) None) 100 ad_root) ad_users) ad_db) /\
  User.is_admin (apply_user_update (mkUserUpdate (Some true) None (Some "Root"%string) None) 100 ad_root) = true.
Proof.
  assert (Hu : update_user ad_e 1 1 (mkUserUpdate (Some true) None (Some "Root"%string) None) ad_db =
    Ok (apply_user_update (mkUserUpdate (Some true) None (Some "Root"%string) None) 100 ad_root,
        set_users (Table.update 1 (fun _ => apply_user_update (mkUserUpdate (Some true) None
          (Some "Root"%string) None) 100 ad_root) ad_users) ad_db)) by (vm_compute; reflexivity).
  split; [exact Hu|].
  exact (proj1 (proj1 (admin_no_self_lockout ad_e 1 (mkUserUpdate (Some true) None (Some "Root"%string) None)
           ad_db _ _) Hu)).
Defined.

Lemma delete_user_hard_deletes_witness :
  exists msg db', delete_user 1 2 ad_db = Ok (msg, db') /\
  get_user 1 2 db' = Err (HTTPException 404 "User not found") /\
  (forall j r, In (j, r) (Table.rows (sessions db')) -> UserSession.user_id r <> 2) /\
  (forall j r, In (j, r) (Table.rows (reset_tokens db')) -> PasswordResetToken.user_id r <> 2) /\
  (forall j, j <> 2 -> Table.get j (users db') = Table.get j (users ad_db)).
Proof.
  destruct (delete_user 1 2 ad_db) as [[msg db']|] eqn:E; [|vm_compute in E; discriminate].
  exists msg, db'. split; [reflexivity|]. exact (delete_user_hard_deletes 1 2 ad_db msg db' E).
Defined.

Lemma change_password_correct_witness :
  exists db', change_password default_settings ad_e 2 "Old#Pass1" "New#Pass22" ad_db = Ok db' /\
  exists u h, Table.get 2 (users ad_db) = Some u /\ User.password_hash u = Some h /\
    verify_password "Old#Pass1" h = true /\
    Table.get 2 (users db') =
      Some (User.set_password_hash (Some (hash_password (salt ad_e) "New#Pass22")) (now ad_e) u) /\
    verify_password "New#Pass22" (hash_password (salt ad_e) "New#Pass22") = true.
Proof.
  destruct (change_password default_settings ad_e 2 "Old#Pass1" "New#Pass22" ad_db) as [db'|] eqn:E;
    [|vm_compute in E; discriminate].
  exists db'. split; [reflexivity|].
  exact (change_password_correct default_settings ad_e 2 "Old#Pass1" "New#Pass22" ad_db db' ad_users_wf
           ltac:(discriminate) E).
Defined.

Lemma update_user_duplicate_email_witness :
  update_user ad_e 1 3 (mkUserUpdate None None None (Some "b@example.com"%string)) ad_db =
    Err (IntegrityError "users").
Proof.
  exact (update_user_duplicate_email ad_e 1 3 (mkUserUpdate None None None (Some "b@example.com"%string))
           ad_db ad_root 2 ad_bob "b@example.com" ad_users_wf ltac:(vm_compute; reflexivity)
           ltac:(vm_compute; discriminate) ltac:(discriminate) ltac:(discriminate) eq_refl
           ltac:(vm_compute; right; left; reflexivity) ltac:(discriminate) eq_refl).
Defined.

Lemma admin_invalid_mode_resets_settings_witness :
  exists st', update_admin_auth_settings "k1" 1 ad_bad_mode ad_db rw_store = Ok st' /\
  setup_complete (load_auth_settings "k2" (restart st')).1 = false /\
  load_auth_settings "k2" (restart st') = (with_secret "k2" default_settings,
    (save_auth_settings (with_secret "k2" default_settings)
       (set_cache (Some default_settings) (restart st'))).2).
Proof.
  destruct (update_admin_auth_settings "k1" 1 ad_bad_mode ad_db rw_store) as [st'|] eqn:E;
    [|vm_compute in E; discriminate].
  pose proof (admin_invalid_mode_resets_settings "k1" "k2" 1 ad_bad_mode ad_db rw_store st' "saml" E
                eq_refl ltac:(discriminate) ltac:(discriminate) eq_refl) as H.
  exists st'. split; [reflexivity|]. rewrite H. split; reflexivity.
Defined.
