(* ===== verification/Cookies.v ===== *)
(** * Cookies: the authentication cookies of [src/backend/auth/routes.py]

    [login], [refresh_tokens] and [dispatcharr_login] hand their token pair
    to the browser through [_set_auth_cookies]; [logout] calls
    [_clear_auth_cookies].  A [Set-Cookie] header is a [cookie] record,
    with the attributes [Response.set_cookie] and [Response.delete_cookie]
    write ([delete_cookie] is a [set_cookie] with an empty value and
    [max_age=0]).

    What the browser does with them is the cookie store of RFC 6265, kept
    to the parts these cookies use: a cookie is stored under its name and
    path (section 5.3, step 11), a [Max-Age] of zero or less removes it
    (section 5.2.2), a request carries the unexpired cookies whose path
    matches its own (section 5.1.4).  The store is a [jar], an
    insertion-ordered association list. *)

From S2P Require Import Prelude Table Models Crypto Settings Password Tokens Sessions Identities Login.

Local Open Scope string_scope.

Module Cookies.

(** One [Set-Cookie] header. *)
Record cookie := mkCookie {
  name : string;
  value : string;
  max_age : Z;
  path : string;
  httponly : bool;
  secure : bool;
  samesite : string
}.

(** [_set_auth_cookies(response, access_token, refresh_token, secure)];
    the lifetimes come from [get_auth_settings()]. *)
Definition set_auth_cookies (s : AuthSettings) (access refresh : string) (secure : bool) : list cookie :=
  [mkCookie "access_token" access (access_token_expire_minutes (jwt s) * 60) "/" true secure "lax";
   mkCookie "refresh_token" refresh (refresh_token_expire_days (jwt s) * 24 * 60 * 60) "/api/auth" true secure "lax"].

(** [Response.delete_cookie(key, path)]. *)
Definition delete_cookie (key p : string) : cookie := mkCookie key "" 0 p false false "lax".

(** [_clear_auth_cookies]. *)
Definition clear_auth_cookies : list cookie :=
  [delete_cookie "access_token" "/"; delete_cookie "refresh_token" "/api/auth"].

(** ** The handlers' responses *)

(** [login]: the tokens go to cookies set without [secure], the default. *)
Definition login_response (s : AuthSettings) (e : env) (uname pw : string) (db : DB)
    : result (DB * list cookie) auth_error :=
  r <-? login s e uname pw db ;;
  let '(db', (acc, rt)) := r in Ok (db', set_auth_cookies s acc rt false).

Definition refresh_response (s : AuthSettings) (e : env) (c : option string) (db : DB)
    : result (DB * list cookie) auth_error :=
  r <-? refresh_tokens s e c db ;;
  let '(db', (acc, rt)) := r in Ok (db', set_auth_cookies s acc rt false).

Definition dispatcharr_login_response (authenticate : string -> string -> dispatcharr_outcome)
    (s : AuthSettings) (e : env) (uname pw : string) (db : DB) : result (DB * list cookie) auth_error :=
  r <-? dispatcharr_login authenticate s e uname pw db ;;
  let '(db', (acc, rt)) := r in Ok (db', set_auth_cookies s acc rt false).

Definition logout_response (c : option string) (db : DB) : DB * list cookie :=
  ((logout c db).1, clear_auth_cookies).

(** ** The browser's cookie store (RFC 6265) *)

(** Stored cookies: (name, path) to (value, expiry time). *)
Definition jar := list ((string * string) * (string * Z)).

(** Receiving one [Set-Cookie] at time [now]. *)
Definition receive (now : Z) (c : cookie) (j : jar) : jar :=
  if (max_age c <=? 0)%Z then dict_del (name c, path c) j
  else dict_set (name c, path c) (value c, now + max_age c)%Z j.

Definition receive_all (now : Z) (cs : list cookie) (j : jar) : jar :=
  fold_left (fun j c => receive now c j) cs j.

Definition slash : Ascii.ascii := Ascii.ascii_of_nat 47.

(** Path-match of section 5.1.4. *)
Definition path_match (req cp : string) : bool :=
  String.eqb req cp ||
  (String.prefix cp req &&
   (bool_decide (String.get (String.length cp - 1) cp = Some slash) ||
    bool_decide (String.get (String.length cp) req = Some slash))).

(** The value of cookie [nm] a request to [p] at time [t] carries. *)
Definition sent_cookie (nm : string) (t : Z) (p : string) (j : jar) : option string :=
  (fun kv => kv.2.1) <$> find (fun kv => bool_decide (kv.1.1 = nm) && path_match p kv.1.2 && (t <? kv.2.2)%Z) j.

(** The store only holds the authentication cookies at the paths the
    server gives them. *)
Definition auth_paths (j : jar) : Prop :=
  Forall (fun kv => (kv.1.1 = "access_token" -> kv.1.2 = "/") /\
                    (kv.1.1 = "refresh_token" -> kv.1.2 = "/api/auth")) j.

Definition jar_ok (j : jar) : Prop := List.NoDup (map fst j) /\ auth_paths j.

(** Every cookie the server sets or deletes sits at its canonical path. *)
Definition canonical (cs : list cookie) : Prop :=
  Forall (fun c => (name c = "access_token" -> path c = "/") /\ (name c = "refresh_token" -> path c = "/api/auth")) cs.

(** ** Lemmas *)

Lemma receive_jar_ok now c j :
  (name c = "access_token" -> path c = "/") -> (name c = "refresh_token" -> path c = "/api/auth") ->
  jar_ok j -> jar_ok (receive now c j).
Proof.
  intros Ha Hr [Hnd Hp]. unfold receive. case_if.
  - split; [apply NoDup_dict_del, Hnd|apply Forall_dict_del, Hp].
  - split; [apply NoDup_dict_set, Hnd|apply Forall_dict_set; [exact Hp|simpl; auto]].
Qed.

Lemma receive_all_jar_ok now cs j : canonical cs -> jar_ok j -> jar_ok (receive_all now cs j).
Proof.
  intros Hc. revert j. induction Hc as [|c cs [Ha Hr] _ IH]; intros j Hj; [exact Hj|].
  apply IH, receive_jar_ok; assumption.
Qed.

Lemma set_auth_cookies_canonical s a r b : canonical (set_auth_cookies s a r b).
Proof. repeat constructor; simpl; intros [=]; reflexivity. Qed.

Create HintDb cookies.
#[local] Hint Resolve receive_all_jar_ok set_auth_cookies_canonical : cookies.

(** A cookie name stored under one path only is sent exactly when that
    entry matches. *)
Lemma sent_cookie_only nm k v t p (j : jar) :
  List.NoDup (map fst j) -> In ((nm, k), v) j -> (forall k' v', In ((nm, k'), v') j -> k' = k) ->
  sent_cookie nm t p j = if path_match p k && (t <? v.2)%Z then Some v.1 else None.
Proof.
  unfold sent_cookie. induction j as [|[[n k0] v0] j IH]; intros Hnd Hin Hk; [destruct Hin|].
  cbn [map fst] in Hnd. apply List.NoDup_cons_iff in Hnd as [Hn Hnd]. cbn [find].
  destruct Hin as [[= -> -> ->]|Hin].
  - cbn. rewrite bool_decide_true by reflexivity. cbn [andb].
    destruct (path_match p k && (t <? v.2)%Z); [reflexivity|].
    cbn. destruct (find _ j) as [[[n' k'] v']|] eqn:E; [|reflexivity].
    apply find_Some_In in E as [E Hb]. apply andb_true_iff in Hb as [Hb _]. apply andb_true_iff in Hb as [Hb _].
    apply bool_decide_eq_true in Hb. simpl in Hb. subst n'. rewrite (Hk k' v' (or_intror E)) in E.
    exfalso. apply Hn. apply in_map_iff. exists ((nm, k), v'). auto.
  - destruct (decide (n = nm)) as [->|Hne].
    + exfalso. rewrite (Hk k0 v0 (or_introl eq_refl)) in Hn. apply Hn, in_map_iff.
      exists ((nm, k), v). auto.
    + cbn. rewrite bool_decide_false by (simpl; congruence). cbn [andb].
      apply IH; [exact Hnd|exact Hin|intros k' v' H; exact (Hk k' v' (or_intror H))].
Qed.

Lemma sent_cookie_absent nm t p (j : jar) :
  (forall k v, ~ In ((nm, k), v) j) -> sent_cookie nm t p j = None.
Proof.
  intros Ha. unfold sent_cookie. destruct (find _ j) as [[[n k] v]|] eqn:E; [|reflexivity].
  apply find_Some_In in E as [E Hb]. apply andb_true_iff in Hb as [Hb _]. apply andb_true_iff in Hb as [Hb _].
  apply bool_decide_eq_true in Hb. simpl in Hb. subst. destruct (Ha k v E).
Qed.

(** In a well-kept store, an authentication cookie sits at its path. *)
Lemma jar_ok_path j nm k v :
  jar_ok j -> In ((nm, k), v) j ->
  (nm = "access_token" -> k = "/") /\ (nm = "refresh_token" -> k = "/api/auth").
Proof. intros [_ Hp] Hin. exact (proj1 (List.Forall_forall _ _) Hp _ Hin). Qed.

(** The store after the cookies of a successful sign-in. *)
Lemma receive_set_auth s now acc rt j :
  (0 < access_token_expire_minutes (jwt s))%Z -> (0 < refresh_token_expire_days (jwt s))%Z ->
  receive_all now (set_auth_cookies s acc rt false) j =
  dict_set ("refresh_token", "/api/auth") (rt, now + refresh_token_expire_days (jwt s) * 24 * 60 * 60)%Z
    (dict_set ("access_token", "/") (acc, now + access_token_expire_minutes (jwt s) * 60)%Z j).
Proof.
  intros Ha Hr. unfold receive_all, receive. cbn [fold_left set_auth_cookies name path value max_age].
  rewrite !(proj2 (Z.leb_gt _ _)) by lia. reflexivity.
Qed.

Lemma In_set_auth_access s now (acc rt : string) (j : jar) :
  In (("access_token", "/"), (acc, now + access_token_expire_minutes (jwt s) * 60)%Z)
    (dict_set ("refresh_token", "/api/auth") (rt, now + refresh_token_expire_days (jwt s) * 24 * 60 * 60)%Z
      (dict_set ("access_token", "/") (acc, now + access_token_expire_minutes (jwt s) * 60)%Z j)).
Proof. apply dict_get_In. rewrite dict_get_set_other by discriminate. apply dict_get_set_same. Qed.

Lemma In_set_auth_refresh s now (acc rt : string) (j : jar) :
  In (("refresh_token", "/api/auth"), (rt, now + refresh_token_expire_days (jwt s) * 24 * 60 * 60)%Z)
    (dict_set ("refresh_token", "/api/auth") (rt, now + refresh_token_expire_days (jwt s) * 24 * 60 * 60)%Z
      (dict_set ("access_token", "/") (acc, now + access_token_expire_minutes (jwt s) * 60)%Z j)).
Proof. apply dict_get_In, dict_get_set_same. Qed.

(** After the deletions of [logout], no authentication cookie is left. *)
Lemma clear_leaves_none t j nm k v :
  jar_ok j -> nm = "access_token" \/ nm = "refresh_token" ->
  ~ In ((nm, k), v) (receive_all t clear_auth_cookies j).
Proof.
  intros Hj Hnm Hin. unfold receive_all, receive in Hin. cbn [fold_left clear_auth_cookies delete_cookie name path max_age] in Hin.
  rewrite !(proj2 (Z.leb_le 0 0)) in Hin by lia. unfold dict_del in Hin.
  apply filter_In in Hin as [Hin H2]. apply filter_In in Hin as [Hin H1].
  destruct (jar_ok_path _ _ _ _ Hj Hin) as [Ha Hr].
  destruct Hnm as [ -> | -> ]; [rewrite (Ha eq_refl) in H1|rewrite (Hr eq_refl) in H2];
    rewrite bool_decide_true in * by reflexivity; discriminate.
Qed.

(** ** Theorems *)

(** C17: the cookies that carry the tokens after a sign-in, a
    refresh or a Dispatcharr sign-in are never marked [Secure]: every
    caller of [_set_auth_cookies] leaves [secure] at its default [False],
    so the browser sends them over plain HTTP as well. *)
Theorem auth_cookies_not_secure authenticate s e uname pw c db db' cs :
  (login_response s e uname pw db = Ok (db', cs) \/
   refresh_response s e c db = Ok (db', cs) \/
   dispatcharr_login_response authenticate s e uname pw db = Ok (db', cs)) ->
  cs <> [] /\ Forall (fun k => secure k = false) cs.
Proof.
  unfold login_response, refresh_response, dispatcharr_login_response.
  intros [H|[H|H]]; simpl_result; destruct a as [d [acc rt]]; invc H;
    (split; [discriminate|repeat constructor]).
Qed.

(** C19: after the cookies of a sign-in, the browser sends the access
    token to every path of the site and the refresh token to the paths
    under [/api/auth] only, each until its [max_age] runs out. *)
Theorem login_cookies_sent s now acc rt j t p :
  jar_ok j -> (0 < access_token_expire_minutes (jwt s))%Z -> (0 < refresh_token_expire_days (jwt s))%Z ->
  sent_cookie "access_token" t p (receive_all now (set_auth_cookies s acc rt false) j) =
    (if path_match p "/" && (t <? now + access_token_expire_minutes (jwt s) * 60)%Z then Some acc else None) /\
  sent_cookie "refresh_token" t p (receive_all now (set_auth_cookies s acc rt false) j) =
    (if path_match p "/api/auth" && (t <? now + refresh_token_expire_days (jwt s) * 24 * 60 * 60)%Z
     then Some rt else None).
Proof.
  intros Hj Ha Hr. assert (Hok : jar_ok (receive_all now (set_auth_cookies s acc rt false) j)) by auto with cookies.
  rewrite receive_set_auth in * by assumption. split.
  - rewrite (sent_cookie_only _ "/" (acc, now + access_token_expire_minutes (jwt s) * 60)%Z); [reflexivity|apply Hok|apply In_set_auth_access|].
    intros k' v' H. exact (proj1 (jar_ok_path _ _ _ _ Hok H) eq_refl).
  - rewrite (sent_cookie_only _ "/api/auth" (rt, now + refresh_token_expire_days (jwt s) * 24 * 60 * 60)%Z); [reflexivity|apply Hok|apply In_set_auth_refresh|].
    intros k' v' H. exact (proj2 (jar_ok_path _ _ _ _ Hok H) eq_refl).
Qed.

(** C18: signing out through the browser ends the session: the
    request to [/api/auth/logout] carries the refresh token of the sign-in,
    [logout] revokes its session so that [refresh_tokens] refuses it, and
    the deletions of [_clear_auth_cookies] leave the browser with neither
    cookie, at any path and any later time. *)
Theorem browser_logout_ends_session s e' now t rt acc db j x :
  jar_ok j -> hash_unique db ->
  (0 < access_token_expire_minutes (jwt s))%Z -> (0 < refresh_token_expire_days (jwt s))%Z ->
  (t < now + refresh_token_expire_days (jwt s) * 24 * 60 * 60)%Z ->
  let j1 := receive_all now (set_auth_cookies s acc rt false) j in
  let r := logout_response (sent_cookie "refresh_token" t "/api/auth/logout" j1) db in
  sent_cookie "refresh_token" t "/api/auth/logout" j1 = Some rt /\
  refresh_tokens s e' (Some rt) r.1 <> Ok x /\
  (forall t' p, sent_cookie "access_token" t' p (receive_all t r.2 j1) = None /\
                sent_cookie "refresh_token" t' p (receive_all t r.2 j1) = None).
Proof.
  intros Hj Hu Ha Hr Ht j1 r.
  assert (Hok : jar_ok j1) by (unfold j1; auto with cookies).
  assert (Hc : sent_cookie "refresh_token" t "/api/auth/logout" j1 = Some rt).
  { unfold j1. rewrite receive_set_auth by assumption. unfold j1 in Hok. rewrite receive_set_auth in Hok by assumption.
    rewrite (sent_cookie_only _ "/api/auth" (rt, now + refresh_token_expire_days (jwt s) * 24 * 60 * 60)%Z); [|apply Hok|apply In_set_auth_refresh|].
    - cbn [fst snd]. rewrite (proj2 (Z.ltb_lt _ _) Ht). reflexivity.
    - intros k' v' H. exact (proj2 (jar_ok_path _ _ _ _ Hok H) eq_refl). }
  split; [exact Hc|split].
  - unfold r, logout_response. rewrite Hc. apply logout_then_refresh_rejected, Hu.
  - intros t' p. split; apply sent_cookie_absent; intros k v; apply clear_leaves_none; auto.
Qed.

(** ** Witnesses *)

Definition ck_auth (u p : string) : dispatcharr_outcome := DAuthFailed "Invalid credentials".

Lemma auth_cookies_not_secure_witness :
  login_response lg_settings lg_e' "root" lg_pw lg_setup_db =
    Ok (lg_login_db, set_auth_cookies lg_settings lg_login_t.1 lg_login_t.2 false) /\
  set_auth_cookies lg_settings lg_login_t.1 lg_login_t.2 false <> [] /\
  Forall (fun k => secure k = false) (set_auth_cookies lg_settings lg_login_t.1 lg_login_t.2 false).
Proof.
  assert (H : login_response lg_settings lg_e' "root" lg_pw lg_setup_db =
                Ok (lg_login_db, set_auth_cookies lg_settings lg_login_t.1 lg_login_t.2 false))
    by (vm_compute; reflexivity).
  split; [exact H|].
  exact (auth_cookies_not_secure ck_auth lg_settings lg_e' "root" lg_pw None lg_setup_db _ _ (or_introl H)).
Defined.

Lemma jar_ok_nil : jar_ok [].
Proof. split; constructor. Qed.

Lemma login_cookies_sent_witness :
  sent_cookie "access_token" 2000 "/api/channels"
    (receive_all 1100 (set_auth_cookies lg_settings lg_login_t.1 lg_login_t.2 false) []) = Some lg_login_t.1 /\
  sent_cookie "refresh_token" 2000 "/api/channels"
    (receive_all 1100 (set_auth_cookies lg_settings lg_login_t.1 lg_login_t.2 false) []) = None.
Proof.
  destruct (login_cookies_sent lg_settings 1100 lg_login_t.1 lg_login_t.2 [] 2000 "/api/channels"
              jar_ok_nil ltac:(vm_compute; reflexivity) ltac:(vm_compute; reflexivity)) as [Ha Hr].
  rewrite Ha, Hr. split; vm_compute; reflexivity.
Defined.

Lemma browser_logout_ends_session_witness :
  let j1 := receive_all 1100 (set_auth_cookies lg_settings lg_login_t.1 lg_login_t.2 false) [] in
  let r := logout_response (sent_cookie "refresh_token" 5000 "/api/auth/logout" j1) lg_login_db in
  sent_cookie "refresh_token" 5000 "/api/auth/logout" j1 = Some lg_login_t.2 /\
  refresh_tokens lg_settings lg_e (Some lg_login_t.2) r.1 <> Ok (lg_login_db, lg_login_t) /\
  (forall t' p, sent_cookie "access_token" t' p (receive_all 5000 r.2 j1) = None /\
                sent_cookie "refresh_token" t' p (receive_all 5000 r.2 j1) = None).
Proof.
  apply (browser_logout_ends_session lg_settings lg_e 1100 5000 lg_login_t.2 lg_login_t.1 lg_login_db [] _ jar_ok_nil).
  - apply hash_uniqueb_sound. vm_compute. reflexivity.
  - vm_compute. reflexivity.
  - vm_compute. reflexivity.
  - vm_compute. reflexivity.
Defined.

End Cookies.
