(* ===== verification/Exports.v ===== *)
(** * Exports: the package initialisation of [src/backend/auth/__init__.py]

    Importing the [auth] package runs its [__init__]: an unguarded
    [from .password import ...], then four blocks, each an import followed
    by [__all__.extend([...])] inside [try: ... except ImportError: pass].
    Which submodule imports succeed is a parameter [avail]: an import
    statement either binds all its names or raises [ImportError], and a
    block that raises extends nothing.  [auth/providers/__init__.py] is the
    same with a single unguarded import. *)

From S2P Require Import Prelude.

Local Open Scope string_scope.

Module Exports.

(** The submodules [__init__] imports. *)
Inductive submodule := MPassword | MTokens | MSettings | MDependencies | MRoutes | MAdminRoutes | MDispatcharr.

#[export] Instance submodule_eq_dec : EqDecision submodule.
Proof. solve_decision. Defined.

Definition password_names : list string :=
  ["hash_password"; "verify_password"; "validate_password"; "PasswordValidationResult"].

Definition token_names : list string :=
  ["create_access_token"; "create_refresh_token"; "decode_token"; "refresh_access_token";
   "rotate_refresh_token"; "TokenExpiredError"; "InvalidTokenError"; "TokenRevokedError"].

Definition settings_names : list string :=
  ["AuthSettings"; "JWTSettings"; "SessionSettings"; "LocalAuthSettings"; "DispatcharrAuthSettings";
   "get_auth_settings"; "save_auth_settings"; "clear_auth_settings_cache"; "get_jwt_secret_key";
   "mark_setup_complete"].

Definition dependency_names : list string :=
  ["AuthenticationError"; "PermissionError"; "get_token_from_request"; "get_refresh_token_from_request";
   "get_current_user"; "get_current_user_optional"; "get_current_active_admin";
   "require_auth_if_enabled"; "RequireAuthIfEnabled"].

Definition router_names : list string := ["auth_router"; "admin_router"].

(** One [try: import; __all__.extend(names) except ImportError: pass]. *)
Definition guarded (ok : bool) (names : list string) (all : list string) : list string :=
  if ok then (all ++ names)%list else all.

(** [auth/__init__.py]: the final [__all__], or the [ImportError] of the
    unguarded first import. *)
Definition auth_all (avail : submodule -> bool) : result (list string) string :=
  if negb (avail MPassword) then Err "ImportError"
  else Ok (guarded (avail MRoutes && avail MAdminRoutes) router_names
            (guarded (avail MDependencies) dependency_names
              (guarded (avail MSettings) settings_names
                (guarded (avail MTokens) token_names password_names)))).

(** [auth/providers/__init__.py]. *)
Definition providers_all (avail : submodule -> bool) : result (list string) string :=
  if avail MDispatcharr then Ok ["DispatcharrClient"; "DispatcharrAuthResult"] else Err "ImportError".

(** ** Theorems *)

(** C38: importing [auth] fails exactly when [auth.password] cannot
    be imported; otherwise [__all__] names each exported name once, the
    password names first, whatever subset of the guarded blocks imports. *)
Theorem auth_all_spec avail :
  (auth_all avail = Err "ImportError" <-> avail MPassword = false) /\
  (forall l, auth_all avail = Ok l -> List.NoDup l /\ exists rest, l = (password_names ++ rest)%list).
Proof.
  split.
  - unfold auth_all. destruct (avail MPassword); cbn [negb]; split; congruence.
  - unfold auth_all, guarded. destruct (avail MPassword); [|discriminate]. intros l [= <-].
    destruct (avail MTokens), (avail MSettings), (avail MDependencies), (avail MRoutes && avail MAdminRoutes);
      (split; [apply NoDup_ListNoDup, (bool_decide_unpack _); vm_compute; reflexivity|]);
      rewrite <- ?app_assoc; eexists; reflexivity.
Qed.

End Exports.
