(* ===== verification/Cache.v ===== *)
(** * Cache: the in-memory response cache of [src/backend/cache.py]

    [Cache] holds a Python dict from keys to [CacheEntry(data, cached_at)],
    a default time-to-live and two counters.  The dict is an association
    list in insertion order, which is the order Python iterates it in (and
    so the order of the [entries] that [stats] reports): assigning an
    existing key keeps its place, [del] removes it.  Time is [time.time()],
    an input of each operation that reads it; it is kept as an integer
    number of seconds here, so [stats] reports ages without the rounding to
    tenths of the code.

    Every operation returns its result and the new cache.  The invariant is
    that keys are distinct ([wf]); every operation keeps it. *)

From S2P Require Import Prelude.
From Stdlib Require Import QArith.
Local Close Scope Q_scope.

Module Cache.

Record entry (V : Type) := mkEntry { data : V; cached_at : Z }.
Arguments mkEntry {V} data cached_at.
Arguments data {V} _.
Arguments cached_at {V} _.

Record t (V : Type) := mk {
  store : list (string * entry V);
  default_ttl : Z;
  hits : nat;
  misses : nat
}.
Arguments mk {V} store default_ttl hits misses.
Arguments store {V} _.
Arguments default_ttl {V} _.
Arguments hits {V} _.
Arguments misses {V} _.

(** [Cache.stats()]: [hit_rate_percent] is kept exact. *)
Record stats_t := mkStats {
  entry_count : nat;
  stat_hits : nat;
  stat_misses : nat;
  hit_rate_percent : Q;
  entries : list (string * Z)
}.

Section Ops.
Context {V : Type}.

(** ** The methods *)

Definition new (default_ttl : Z) : t V := mk [] default_ttl 0 0.

Definition get (now : Z) (k : string) (ttl : option Z) (c : t V) : option V * t V :=
  match dict_get k (store c) with
  | None => (None, mk (store c) (default_ttl c) (hits c) (S (misses c)))
  | Some en =>
      let eff := default (default_ttl c) ttl in
      if (eff <? now - cached_at en)%Z
      then (None, mk (dict_del k (store c)) (default_ttl c) (hits c) (S (misses c)))
      else (Some (data en), mk (store c) (default_ttl c) (S (hits c)) (misses c))
  end.

Definition set (now : Z) (k : string) (v : V) (c : t V) : t V :=
  mk (dict_set k (mkEntry v now) (store c)) (default_ttl c) (hits c) (misses c).

Definition invalidate (k : string) (c : t V) : bool * t V :=
  match dict_get k (store c) with
  | Some _ => (true, mk (dict_del k (store c)) (default_ttl c) (hits c) (misses c))
  | None => (false, c)
  end.

Definition invalidate_prefix (p : string) (c : t V) : nat * t V :=
  let gone := List.filter (fun kv => String.prefix p kv.1) (store c) in
  (length gone,
   mk (List.filter (fun kv => negb (String.prefix p kv.1)) (store c)) (default_ttl c) (hits c) (misses c)).

Definition clear (c : t V) : nat * t V := (length (store c), mk [] (default_ttl c) (hits c) (misses c)).

Definition stats (now : Z) (c : t V) : stats_t :=
  let total := (hits c + misses c)%nat in
  mkStats (length (store c)) (hits c) (misses c)
    (if (0 <? total)%nat then (inject_Z (Z.of_nat (hits c)) / inject_Z (Z.of_nat total) * 100)%Q else 0%Q)
    (map (fun kv => (kv.1, now - cached_at kv.2)%Z) (store c)).

(** Keys are distinct. *)
Definition wf (c : t V) : Prop := List.NoDup (map fst (store c)).

(** ** Traces: a sequence of calls, each with the clock it reads *)

Inductive op :=
| OpGet (now : Z) (k : string) (ttl : option Z)
| OpSet (now : Z) (k : string) (v : V)
| OpInvalidate (k : string)
| OpInvalidatePrefix (p : string)
| OpClear.

Definition step (c : t V) (o : op) : t V :=
  match o with
  | OpGet now k ttl => (get now k ttl c).2
  | OpSet now k v => set now k v c
  | OpInvalidate k => (invalidate k c).2
  | OpInvalidatePrefix p => (invalidate_prefix p c).2
  | OpClear => (clear c).2
  end.

Definition run (c : t V) (os : list op) : t V := fold_left step os c.

Definition is_get (o : op) : bool := match o with OpGet _ _ _ => true | _ => false end.
End Ops.

Section Proofs.
Context {V : Type}.
Implicit Types c : t V.

Lemma NoDup_map_fst_filter (q : string * entry V -> bool) l :
  List.NoDup (map fst l) -> List.NoDup (map fst (List.filter q l)).
Proof. apply NoDup_map_filter. Qed.

(** every operation keeps the keys distinct, and so does any
    sequence of them. *)
Theorem run_wf c os : wf c -> wf (run c os).
Proof.
  revert c. induction os as [|o os IH]; simpl; intros c Hc; [exact Hc|]. apply IH.
  destruct o as [now k ttl|now k v|k|p|]; unfold wf; simpl.
  - unfold get. destruct (dict_get k (store c)) as [en|]; [|exact Hc].
    destruct (_ <? _)%Z; [apply NoDup_map_fst_filter, Hc|exact Hc].
  - apply NoDup_dict_set, Hc.
  - unfold invalidate. destruct (dict_get k (store c)); [apply NoDup_map_fst_filter, Hc|exact Hc].
  - apply NoDup_map_fst_filter, Hc.
  - constructor.
Qed.

(** a value [set] at time [t] is returned by [get] at
    any time up to [t] plus the time-to-live in force, and counts a hit. *)
Theorem set_get now now' k v ttl c :
  (now' - now <= default (default_ttl c) ttl)%Z ->
  get now' k ttl (set now k v c) =
    (Some v, mk (dict_set k (mkEntry v now) (store c)) (default_ttl c) (S (hits c)) (misses c)).
Proof.
  intros Ht. unfold get, set. simpl. rewrite dict_get_set_same. simpl.
  destruct (Z.ltb_spec (default (default_ttl c) ttl) (now' - now)); [lia|reflexivity].
Qed.

(** past its time-to-live an entry is a miss and is removed
    from the dict. *)
Theorem get_expired now k ttl c en :
  dict_get k (store c) = Some en -> (default (default_ttl c) ttl < now - cached_at en)%Z ->
  get now k ttl c = (None, mk (dict_del k (store c)) (default_ttl c) (hits c) (S (misses c))) /\
  dict_get k (dict_del k (store c)) = None.
Proof.
  intros Hg Ht. unfold get. rewrite Hg. apply Z.ltb_lt in Ht. rewrite Ht. split; [reflexivity|].
  apply dict_get_del_same.
Qed.

(** [invalidate_prefix] removes exactly the entries whose
    key starts with the prefix, in order, and returns how many it removed. *)
Theorem invalidate_prefix_spec p c :
  let '(n, c') := invalidate_prefix p c in
  (n + length (store c') = length (store c))%nat /\
  (forall k en, In (k, en) (store c') <-> In (k, en) (store c) /\ String.prefix p k = false).
Proof.
  unfold invalidate_prefix. simpl. split.
  - induction (store c) as [|kv l IH]; simpl; [reflexivity|].
    destruct (String.prefix p kv.1); simpl; lia.
  - intros k en. rewrite filter_In. simpl. rewrite negb_true_iff. reflexivity.
Qed.

(** over any sequence of calls, every [get] counts exactly
    one hit or one miss, and nothing else touches the counters. *)
Theorem run_counters c os :
  (hits (run c os) + misses (run c os) = hits c + misses c + length (List.filter is_get os))%nat.
Proof.
  revert c. induction os as [|o os IH]; intros c; simpl; [lia|]. rewrite IH.
  destruct o as [now k ttl|now k v|k|p|]; simpl.
  - unfold get. destruct (dict_get k (store c)) as [en|]; simpl; [destruct (_ <? _)%Z|]; simpl; lia.
  - lia.
  - unfold invalidate. destruct (dict_get k (store c)); simpl; lia.
  - lia.
  - lia.
Qed.
End Proofs.


(** ** The global cache of [get_cache()]: [Cache(default_ttl=300)] *)

Definition global : t nat := new 300.
Definition ex_c1 : t nat := set 10 "streams:1" 7 global.

Lemma run_wf_witness :
  wf global /\
  wf (run global [OpSet 10 "streams:1" 7; OpSet 12 "streams:2" 8; OpGet 400 "streams:1" None;
                  OpInvalidatePrefix "streams:"]).
Proof.
  assert (H : wf global) by constructor.
  split; [exact H|]. exact (run_wf global _ H).
Defined.

Lemma set_get_witness :
  (100 - 10 <= default (default_ttl global) None)%Z /\
  (get 100 "streams:1" None ex_c1).1 = Some 7%nat.
Proof.
  assert (Ht : (100 - 10 <= default (default_ttl global) None)%Z) by (simpl; lia).
  split; [exact Ht|]. unfold ex_c1. rewrite (set_get 10 100 "streams:1" 7%nat None global Ht). reflexivity.
Defined.

Lemma get_expired_witness :
  dict_get "streams:1" (store ex_c1) = Some (mkEntry 7%nat 10) /\
  (default (default_ttl ex_c1) None < 311 - cached_at (mkEntry 7%nat 10))%Z /\
  get 311 "streams:1" None ex_c1 = (None, mk [] 300 0 1).
Proof.
  assert (Hg : dict_get "streams:1" (store ex_c1) = Some (mkEntry 7%nat 10)) by (vm_compute; reflexivity).
  assert (Ht : (default (default_ttl ex_c1) None < 311 - cached_at (mkEntry 7%nat 10))%Z) by (simpl; lia).
  split; [exact Hg|]. split; [exact Ht|].
  exact (proj1 (get_expired 311 "streams:1" None ex_c1 _ Hg Ht)).
Defined.

End Cache.
