(* ===== verification/Calendar.v ===== *)
(** * Calendar: the proleptic Gregorian ordinals of Python's [datetime.date]

    [bandwidth_tracker.py] compares and shifts [date] values:
    [date.today() - timedelta(days=7)], [today.replace(day=1)],
    [today.replace(month=1, day=1)].  A date is kept as its ordinal
    ([date.toordinal()], day 1 is 0001-01-01), so that comparison is [Z.le]
    and [timedelta(days=k)] is [+ k].  [ymd2ord] and [ord2ymd] are the
    conversions of CPython's [datetime.py] ([_ymd2ord], [_ord2ymd]),
    written with its constants and its [divmod] steps.

    The conversion is checked exhaustively on the ordinals of the years
    2000 to 2099 ([calendar_ok_range]): [ord2ymd] gives a valid date there,
    [ymd2ord] maps it back, and so the first day of the month and of the
    year of a date precede it.  The bound covers every date a running
    installation reads from its clock.

    [iso_date] and [iso_datetime] print a date and a time as
    [isoformat()] does, for the serialisers of [models.py] and
    [alert_methods.py]; on the same range the ISO text of a date orders,
    as a Python string, as the date does ([iso_date_lt]). *)

From S2P Require Import Prelude.
From Stdlib Require Import ZArith Lia.
From stdpp Require Import pretty.

Local Open Scope Z_scope.

Definition is_leap (y : Z) : bool :=
  (Z.eqb (y mod 4) 0) && (negb (Z.eqb (y mod 100) 0) || Z.eqb (y mod 400) 0).

Definition days_before_year (y : Z) : Z :=
  let y' := y - 1 in y' * 365 + y' / 4 - y' / 100 + y' / 400.

(** [_DAYS_IN_MONTH] and [_DAYS_BEFORE_MONTH], index 1 to 12. *)
Definition days_in_month_tbl (m : Z) : Z :=
  match m with
  | 1 => 31 | 2 => 28 | 3 => 31 | 4 => 30 | 5 => 31 | 6 => 30
  | 7 => 31 | 8 => 31 | 9 => 30 | 10 => 31 | 11 => 30 | 12 => 31
  | _ => -1
  end%Z.

Definition days_before_month_tbl (m : Z) : Z :=
  match m with
  | 1 => 0 | 2 => 31 | 3 => 59 | 4 => 90 | 5 => 120 | 6 => 151
  | 7 => 181 | 8 => 212 | 9 => 243 | 10 => 273 | 11 => 304 | 12 => 334
  | _ => -1
  end%Z.

Definition days_in_month (y m : Z) : Z :=
  if Z.eqb m 2 && is_leap y then 29 else days_in_month_tbl m.

Definition days_before_month (y m : Z) : Z :=
  days_before_month_tbl m + (if Z.ltb 2 m && is_leap y then 1 else 0).

Definition ymd2ord (y m d : Z) : Z := days_before_year y + days_before_month y m + d.

Definition DI400Y : Z := days_before_year 401.
Definition DI100Y : Z := days_before_year 101.
Definition DI4Y : Z := days_before_year 5.

Definition ord2ymd (n0 : Z) : Z * Z * Z :=
  let n := n0 - 1 in
  let n400 := n / DI400Y in let n := n mod DI400Y in
  let year := n400 * 400 + 1 in
  let n100 := n / DI100Y in let n := n mod DI100Y in
  let n4 := n / DI4Y in let n := n mod DI4Y in
  let n1 := n / 365 in let n := n mod 365 in
  let year := year + n100 * 100 + n4 * 4 + n1 in
  if Z.eqb n1 4 || Z.eqb n100 4 then (year - 1, 12, 31) else
  let leapyear := Z.eqb n1 3 && (negb (Z.eqb n4 24) || Z.eqb n100 3) in
  let month := Z.shiftr (n + 50) 5 in
  let preceding := days_before_month_tbl month + (if Z.ltb 2 month && leapyear then 1 else 0) in
  let '(month, preceding) :=
    if Z.ltb n preceding then
      (month - 1, preceding - (days_in_month_tbl (month - 1) +
                               (if Z.eqb (month - 1) 2 && leapyear then 1 else 0)))
    else (month, preceding) in
  (year, month, n - preceding + 1).

(** [d.replace(day=1)] and [d.replace(month=1, day=1)] on ordinals. *)
Definition month_start (n : Z) : Z := let '(y, m, _) := ord2ymd n in ymd2ord y m 1.
Definition year_start (n : Z) : Z := let '(y, _, _) := ord2ymd n in ymd2ord y 1 1.

Definition valid_ymd (y m d : Z) : bool :=
  (1 <=? y)%Z && (1 <=? m)%Z && (m <=? 12)%Z && (1 <=? d)%Z && (d <=? days_in_month y m)%Z.

(** ** ISO strings *)

(** [%0*d]: the decimal digits of a non-negative [z], zero-padded to [w]. *)
Definition pad (w : nat) (z : Z) : string :=
  let s := pretty z in
  (String.concat "" (repeat "0"%string (w - String.length s)) ++ s)%string.

(** [date.isoformat()] of the date with ordinal [n]. *)
Definition iso_date (n : Z) : string :=
  let '(y, m, d) := ord2ymd n in (pad 4 y ++ "-" ++ pad 2 m ++ "-" ++ pad 2 d)%string.

(** [datetime.isoformat()] of a time [ts] in whole seconds since the
    epoch (no fraction: the microseconds are zero). *)
Definition iso_datetime (ts : Z) : string :=
  let secs := ts mod 86400 in
  (iso_date (ymd2ord 1970 1 1 + ts / 86400) ++ "T" ++ pad 2 (secs / 3600) ++ ":" ++
   pad 2 ((secs mod 3600) / 60) ++ ":" ++ pad 2 (secs mod 60))%string.

(** What is checked of one ordinal. *)
Definition calendar_ok (n : Z) : bool :=
  let '(y, m, d) := ord2ymd n in
  valid_ymd y m d && Z.eqb (ymd2ord y m d) n.

(** [calendar_ok] on [k] consecutive ordinals from [n]. *)
Fixpoint calendar_ok_from (n : Z) (k : nat) : bool :=
  match k with
  | O => true
  | S k' => calendar_ok n && calendar_ok_from (n + 1) k'
  end.

(** The ISO strings of [k] consecutive days from [n] increase. *)
Fixpoint iso_increasing_from (n : Z) (k : nat) : bool :=
  match k with
  | O => true
  | S k' => str_ltb (iso_date n) (iso_date (n + 1)) && iso_increasing_from (n + 1) k'
  end.

Definition ord_2000 : Z := ymd2ord 2000 1 1.
Definition ord_2100 : Z := ymd2ord 2100 1 1.

Lemma calendar_ok_from_spec n k i :
  calendar_ok_from n k = true -> (n <= i < n + Z.of_nat k)%Z -> calendar_ok i = true.
Proof.
  revert n. induction k as [|k IH]; intros n Hk Hi; simpl in *; [lia|].
  apply andb_true_iff in Hk as [Hn Hk].
  destruct (Z.eq_dec i n) as [->|Hne]; [exact Hn|]. apply (IH (n + 1)); [exact Hk|lia].
Qed.

(** The exhaustive check, by evaluation. *)
Lemma calendar_ok_range : calendar_ok_from ord_2000 (Z.to_nat (ord_2100 - ord_2000)) = true.
Proof. vm_compute. reflexivity. Qed.

Lemma calendar_ok_in_range n : (ord_2000 <= n < ord_2100)%Z -> calendar_ok n = true.
Proof.
  intros Hn. apply (calendar_ok_from_spec _ _ _ calendar_ok_range).
  rewrite Z2Nat.id; [lia|]. vm_compute. discriminate.
Qed.

Lemma days_before_month_nonneg y m : (1 <= m <= 12)%Z -> (0 <= days_before_month y m)%Z.
Proof.
  intros Hm. unfold days_before_month.
  assert (m = 1 \/ m = 2 \/ m = 3 \/ m = 4 \/ m = 5 \/ m = 6 \/ m = 7 \/ m = 8 \/ m = 9 \/
          m = 10 \/ m = 11 \/ m = 12)%Z as H by lia.
  destruct (is_leap y); repeat destruct H as [->|H]; subst; simpl; lia.
Qed.

(** Within the checked range, the first day of a date's month and year
    precede it, in that order. *)
Lemma month_year_start_le n :
  (ord_2000 <= n < ord_2100)%Z -> (year_start n <= month_start n <= n)%Z.
Proof.
  intros Hn. pose proof (calendar_ok_in_range n Hn) as Hc. unfold calendar_ok in Hc.
  unfold month_start, year_start. destruct (ord2ymd n) as [[y m] d].
  apply andb_true_iff in Hc as [Hv He]. apply Z.eqb_eq in He.
  unfold valid_ymd in Hv. repeat (apply andb_true_iff in Hv as [Hv ?]). apply Z.leb_le in Hv.
  repeat match goal with H : (_ <=? _)%Z = true |- _ => apply Z.leb_le in H end.
  pose proof (days_before_month_nonneg y m ltac:(lia)). unfold ymd2ord in *.
  replace (days_before_month y 1) with 0%Z by reflexivity. lia.
Qed.

Lemma iso_increasing_from_spec n k i j :
  iso_increasing_from n k = true -> (n <= i)%Z -> (i < j)%Z -> (j <= n + Z.of_nat k)%Z ->
  str_ltb (iso_date i) (iso_date j) = true.
Proof.
  revert n i. induction k as [|k IH]; intros n i Hk Hi Hij Hj; [lia|].
  cbn [iso_increasing_from] in Hk. apply andb_true_iff in Hk as [Hn Hk].
  destruct (Z.eq_dec i n) as [->|Hne].
  - destruct (Z.eq_dec j (n + 1)) as [->|Hj1]; [exact Hn|].
    apply (str_ltb_trans _ (iso_date (n + 1))); [exact Hn|]. apply (IH (n + 1) (n + 1)); [exact Hk|lia..].
  - apply (IH (n + 1) i); [exact Hk|lia..].
Qed.

(** The exhaustive check of the ISO order, by evaluation. *)
Lemma iso_increasing_range : iso_increasing_from ord_2000 (Z.to_nat (ord_2100 - 1 - ord_2000)) = true.
Proof. vm_compute. reflexivity. Qed.

(** Within the checked range, [date.isoformat()] orders dates as their
    ordinals. *)
Lemma iso_date_lt n1 n2 :
  (ord_2000 <= n1)%Z -> (n2 < ord_2100)%Z -> (n1 < n2)%Z -> str_ltb (iso_date n1) (iso_date n2) = true.
Proof.
  intros H1 H2 H12. apply (iso_increasing_from_spec _ _ _ _ iso_increasing_range); [lia|lia|].
  rewrite Z2Nat.id; [lia|]. vm_compute. discriminate.
Qed.
