(* ===== verification/Bandwidth.v ===== *)
(** * Bandwidth: the bandwidth tracker of [src/backend/bandwidth_tracker.py]

    [BandwidthTracker] polls Dispatcharr's channel statistics every thirty
    seconds and adds, to the [bandwidth_daily] row of the day
    ([models.py], [BandwidthDaily]), the bytes that the channels' counters
    grew by since the previous poll, and raises the day's peaks of channels
    and clients.  [get_bandwidth_summary] sums the rows over the day, the
    week, the month, the year and all time; [purge_old_records] deletes the
    rows older than a number of days.

    - The tracker is a record of [_running], whether [_task] is set, and
      [_last_bytes] (a dict from channel id to counter).
    - One poll is [collect_stats]: its input is what
      [client.get_channel_stats()] gave ([None] when it raised) and today's
      date, its output the new tracker and table.  The [for] loop over the
      channels is [scan], with the loop's accumulators as arguments.
    - [update_daily_record] is [_update_daily_record]: the row of the day is
      found or created, updated, and committed; the commit fails, and the
      session is rolled back, when a column no longer fits SQLite's 64-bit
      [INTEGER] (Python's [sqlite3] raises [OverflowError] on binding it).
    - Dates are ordinals ([Calendar]); today's date is an input of each
      operation that reads [date.today()].
    - [to_dict] and [repr] serialise a row as [models.py] does; the
      [daily_history] of [get_bandwidth_summary] is the list of the
      [to_dict] values, as the code returns it;
      [get_tracker] and [set_tracker] read and write the module's global.
    - [step] and [run] play a sequence of calls: start, stop, one poll,
      purge.  The polling loop itself ([_poll_loop], the [asyncio] task and
      its sleeps) is the order of the [Poll] events in the sequence; a poll
      only happens while the tracker runs. *)

From S2P Require Import Prelude Table Calendar.
From stdpp Require Import sorting pretty.

Local Open Scope Z_scope.

Module Bandwidth.

(** [BandwidthDaily] (its id is the row's id in the table). *)
Record daily := mkDaily {
  date : Z;
  bytes_transferred : Z;
  peak_channels : Z;
  peak_clients : Z
}.

(** One entry of [stats["channels"]], as the loop reads it: [channel_id] is
    [str(channel.get("channel_id", ""))]; the counts are [None] when absent
    or [null]. *)
Record channel := mkChannel {
  channel_id : string;
  total_bytes : option Z;
  client_count : option Z
}.

(** [x or 0] on an optional integer ([0 or 0] is [0] too). *)
Definition or0 (o : option Z) : Z := default 0%Z o.

Record tracker := mkTracker {
  running : bool;
  has_task : bool;
  last_bytes : list (string * Z)
}.

(** [BandwidthTracker.__init__]. *)
Definition init : tracker := mkTracker false false [].

(** [start]: a second start only logs a warning. *)
Definition start (t : tracker) : tracker :=
  if running t then t else mkTracker true true (last_bytes t).

(** [stop]: the task is cancelled and awaited. *)
Definition stop (t : tracker) : tracker := mkTracker false false (last_bytes t).

(** The [for channel in channels] loop: the delta against [last], the sum
    of the client counts, and [current_bytes]. *)
Fixpoint scan (last : list (string * Z)) (chs : list channel)
    (delta clients : Z) (cur : list (string * Z)) : Z * Z * list (string * Z) :=
  match chs with
  | [] => (delta, clients, cur)
  | ch :: rest =>
      let bytes_now := or0 (total_bytes ch) in
      let delta' :=
        match dict_get (channel_id ch) last with
        | Some prev => if (prev <? bytes_now)%Z then (delta + (bytes_now - prev))%Z else delta
        | None => delta
        end in
      scan last rest delta' (clients + or0 (client_count ch))%Z
        (dict_set (channel_id ch) bytes_now cur)
  end.

(** SQLite's [INTEGER] range. *)
Definition fits_int64 (x : Z) : bool := ((- 2 ^ 63 <=? x) && (x <=? 2 ^ 63 - 1))%Z.

Definition row_fits (r : daily) : bool :=
  fits_int64 (bytes_transferred r) && fits_int64 (peak_channels r) && fits_int64 (peak_clients r).

(** The three assignments of [_update_daily_record]. *)
Definition bump (delta chans clients : Z) (r : daily) : daily :=
  mkDaily (date r) (bytes_transferred r + delta)
    (Z.max (peak_channels r) chans) (Z.max (peak_clients r) clients).

Definition update_daily_record (today delta chans clients : Z) (db : Table.t daily) : Table.t daily :=
  match Table.first (fun _ r => (date r =? today)%Z) db with
  | Some (i, r) =>
      if row_fits (bump delta chans clients r)
      then Table.update i (bump delta chans clients) db else db
  | None =>
      let r := bump delta chans clients (mkDaily today 0 0 0) in
      if row_fits r then (Table.insert r db).2 else db
  end.

(** [_collect_stats]: [fetch] is [None] when [get_channel_stats] raised,
    and [Some (stats.get("channels", []))] otherwise. *)
Definition collect_stats (today : Z) (fetch : option (list channel))
    (t : tracker) (db : Table.t daily) : tracker * Table.t daily :=
  match fetch with
  | None | Some [] => (t, db)
  | Some chs =>
      let '(delta, clients, cur) := scan (last_bytes t) chs 0 0 [] in
      let active := Z.of_nat (length chs) in
      let t' := mkTracker (running t) (has_task t) cur in
      if ((0 <? delta) || (0 <? active))%Z
      then (t', update_daily_record today delta active clients db)
      else (t', db)
  end.

(** [purge_old_records(days)]. *)
Definition purge_old_records (today days : Z) (db : Table.t daily) : Table.t daily :=
  Table.delete_where (fun _ r => (date r <? today - days)%Z) db.

(** ** [get_bandwidth_summary] *)

(** [BandwidthDaily.to_dict]: [self.date.isoformat() if self.date else
    None]; a [date] is always true. *)
Record daily_dict := mkDailyDict {
  dict_date : option string;
  dict_bytes_transferred : Z;
  dict_peak_channels : Z;
  dict_peak_clients : Z
}.

Definition to_dict (r : daily) : daily_dict :=
  mkDailyDict (Some (iso_date (date r))) (bytes_transferred r) (peak_channels r) (peak_clients r).

Record summary := mkSummary {
  today_bytes : Z;
  week_bytes : Z;
  month_bytes : Z;
  year_bytes : Z;
  all_time_bytes : Z;
  daily_history : list daily_dict
}.

(** One iteration of [for record in all_records]. *)
Definition tally (today week_ago month_start year_start : Z) (s : summary) (r : daily) : summary :=
  let b := bytes_transferred r in
  mkSummary
    (if date r =? today then b else today_bytes s)
    (if week_ago <=? date r then week_bytes s + b else week_bytes s)
    (if month_start <=? date r then month_bytes s + b else month_bytes s)
    (if year_start <=? date r then year_bytes s + b else year_bytes s)
    (all_time_bytes s + b)
    (daily_history s).

(** [order_by(BandwidthDaily.date.asc())]. *)
Definition date_le (a b : daily) : Prop := date a <= date b.
#[export] Instance date_le_dec : RelDecision date_le := fun a b => decide (date a <= date b).
#[export] Instance date_le_total : Total date_le.
Proof. intros a b. unfold date_le. lia. Qed.

Definition get_bandwidth_summary (today : Z) (db : Table.t daily) : summary :=
  let week_ago := today - 7 in
  let s := fold_left (tally today week_ago (month_start today) (year_start today))
             (map snd (Table.rows db)) (mkSummary 0 0 0 0 0 []) in
  mkSummary (today_bytes s) (week_bytes s) (month_bytes s) (year_bytes s) (all_time_bytes s)
    (map to_dict (merge_sort date_le (map snd (Table.select (fun _ r => week_ago <=? date r) db)))).

(** ** The API view of a row and the global tracker *)

(** [BandwidthDaily.__repr__]; [str] of a [date] is its ISO form. *)
Definition repr (r : daily) : string :=
  ("<BandwidthDaily(date=" ++ iso_date (date r) ++ ", bytes=" ++ pretty (bytes_transferred r) ++ ")>")%string.

(** [_tracker], [get_tracker] and [set_tracker]. *)
Definition get_tracker (g : option tracker) : option tracker := g.
Definition set_tracker (t : tracker) (g : option tracker) : option tracker := Some t.

(** ** The tracker's life: a sequence of calls *)

Inductive event :=
| EStart
| EStop
| EPoll (today : Z) (fetch : option (list channel))
| EPurge (today days : Z).

Definition step (e : event) (s : tracker * Table.t daily) : tracker * Table.t daily :=
  let '(t, db) := s in
  match e with
  | EStart => (start t, db)
  | EStop => (stop t, db)
  | EPoll today fetch => if running t then collect_stats today fetch t db else (t, db)
  | EPurge today days => (t, purge_old_records today days db)
  end.

Definition run (es : list event) (s : tracker * Table.t daily) : tracker * Table.t daily :=
  fold_left (fun s e => step e s) es s.

(** A poll of [_poll_loop], as opposed to a call from outside. *)
Definition is_poll (e : event) : bool := match e with EPoll _ _ => true | _ => false end.

(** ** The table's invariant

    Ids are well formed, there is one row per date (the [unique=True] of
    the [date] column) and every column holds a non-negative 64-bit value. *)

Definition same_date (a b : daily) : Prop := date a = date b.

Definition row_ok (r : daily) : Prop :=
  0 <= bytes_transferred r <= 2 ^ 63 - 1 /\ 0 <= peak_channels r <= 2 ^ 63 - 1 /\
  0 <= peak_clients r <= 2 ^ 63 - 1.

Definition inv (db : Table.t daily) : Prop :=
  Table.wf db /\ Table.unique same_date db /\ forall i r, In (i, r) (Table.rows db) -> row_ok r.

(** ** What a sequence of polls reports

    The quantities the growth theorem is stated in: the counters of a poll
    as [current_bytes] keeps them, their sum, the clients' sum, what one
    channel adds to the delta, and a poll that grows every counter of the
    previous one. *)

Definition readings (chs : list channel) : list (string * Z) :=
  map (fun ch => (channel_id ch, or0 (total_bytes ch))) chs.

Definition total (chs : list channel) : Z :=
  fold_right (fun ch acc => or0 (total_bytes ch) + acc) 0 chs.

Definition clients_of (chs : list channel) : Z :=
  fold_right (fun ch acc => or0 (client_count ch) + acc) 0 chs.

Definition gain (last : list (string * Z)) (ch : channel) : Z :=
  let now := or0 (total_bytes ch) in
  match dict_get (channel_id ch) last with
  | Some prev => if prev <? now then now - prev else 0
  | None => 0
  end.

Definition grows (p p' : list channel) : Prop :=
  Forall2 (fun c c' => channel_id c = channel_id c' /\ or0 (total_bytes c) <= or0 (total_bytes c')) p p'.

Fixpoint grows_chain (p : list channel) (ps : list (list channel)) : Prop :=
  match ps with
  | [] => True
  | p' :: ps' => grows p p' /\ grows_chain p' ps'
  end.

(** A poll whose channel and client counts fit the [Integer] columns. *)
Definition poll_fits (chs : list channel) : bool :=
  fits_int64 (Z.of_nat (length chs)) && fits_int64 (clients_of chs).

(** The bytes of the day's row, [0] when there is none. *)
Definition day_bytes (today : Z) (db : Table.t daily) : Z :=
  match Table.first (fun _ r => date r =? today) db with
  | Some (_, r) => bytes_transferred r
  | None => 0
  end.

(** The bytes of the rows that [p] selects. *)
Definition sum_if (p : daily -> bool) (rs : list daily) : Z :=
  fold_right (fun r acc => (if p r then bytes_transferred r else 0) + acc) 0 rs.

(** The bytes of a list of rows. *)
Definition sum_bytes (rs : list daily) : Z := fold_right (fun r acc => bytes_transferred r + acc) 0 rs.

(** The bytes of a [daily_history] as the API returns it. *)
Definition history_bytes (ds : list daily_dict) : Z :=
  fold_right (fun d acc => dict_bytes_transferred d + acc) 0 ds.

(** ** Lemmas *)

Lemma fits_int64_spec x : fits_int64 x = true <-> - 2 ^ 63 <= x <= 2 ^ 63 - 1.
Proof. unfold fits_int64. rewrite andb_true_iff, !Z.leb_le. reflexivity. Qed.

Lemma row_fits_spec r :
  row_fits r = true <->
    (- 2 ^ 63 <= bytes_transferred r <= 2 ^ 63 - 1 /\ - 2 ^ 63 <= peak_channels r <= 2 ^ 63 - 1 /\
     - 2 ^ 63 <= peak_clients r <= 2 ^ 63 - 1).
Proof. unfold row_fits. rewrite !andb_true_iff, !fits_int64_spec. tauto. Qed.

(** The loop only adds to the delta. *)
Lemma scan_delta_mono last chs d c cur : d <= (scan last chs d c cur).1.1.
Proof.
  revert d c cur. induction chs as [|ch chs IH]; intros d c cur; simpl; [lia|].
  etransitivity; [|apply IH]. destruct (dict_get _ _) as [p|]; [case_if|]; lia.
Qed.

Lemma row_ok_bump delta chans clients r :
  row_ok r -> 0 <= delta -> row_fits (bump delta chans clients r) = true ->
  row_ok (bump delta chans clients r).
Proof. unfold row_ok. rewrite row_fits_spec. simpl. lia. Qed.

Lemma row_ok_new today : row_ok (mkDaily today 0 0 0).
Proof. unfold row_ok. simpl. lia. Qed.

Lemma inv_update_daily_record today delta chans clients db :
  inv db -> 0 <= delta -> inv (update_daily_record today delta chans clients db).
Proof.
  intros [Hwf [Hu Hok]] Hd. unfold update_daily_record.
  destruct (Table.first _ db) as [[i r]|] eqn:Hf.
  - destruct (row_fits _) eqn:Hfit; [|exact (conj Hwf (conj Hu Hok))].
    apply Table.first_Some in Hf as [Hin _].
    split; [apply Table.wf_update, Hwf|split].
    + apply Table.unique_update; [intros a b H; exact H..|exact Hu].
    + intros j x Hx. apply Table.In_update in Hx as [[_ Hx]|[-> [a [Ha ->]]]]; [eauto|].
      rewrite (Table.NoDup_In_unique _ i a r (proj1 Hwf) Ha Hin) in *.
      apply row_ok_bump; eauto.
  - destruct (row_fits _) eqn:Hfit; [|exact (conj Hwf (conj Hu Hok))].
    split; [apply Table.wf_insert, Hwf|split].
    + apply Table.unique_insert; [exact Hwf|exact Hu|]. intros j b Hb.
      rewrite Table.first_None in Hf. specialize (Hf j b Hb). simpl in Hf.
      apply Z.eqb_neq in Hf. unfold same_date. simpl. split; congruence.
    + intros j x Hx. apply Table.In_insert in Hx as [Hx|[_ ->]]; [eauto|].
      apply row_ok_bump; [apply row_ok_new|exact Hd|exact Hfit].
Qed.

Lemma inv_collect_stats today fetch t db : inv db -> inv (collect_stats today fetch t db).2.
Proof.
  intros Hinv. unfold collect_stats.
  destruct fetch as [[|ch chs]|]; [exact Hinv| |exact Hinv].
  pose proof (scan_delta_mono (last_bytes t) (ch :: chs) 0 0 []) as Hd.
  destruct (scan _ _ _ _ _) as [[delta clients] cur]. simpl in Hd.
  destruct (_ || _); simpl; [apply inv_update_daily_record|]; assumption.
Qed.

Lemma inv_purge today days db : inv db -> inv (purge_old_records today days db).
Proof.
  intros [Hwf [Hu Hok]]. split; [apply Table.wf_delete_where, Hwf|split].
  - apply Table.unique_delete_where, Hu.
  - intros j x Hx. apply Table.In_delete_where in Hx as [Hx _]. eauto.
Qed.

Lemma inv_step e s : inv s.2 -> inv (step e s).2.
Proof.
  destruct s as [t db]. intros Hinv.
  destruct e; simpl; try case_if; auto using inv_collect_stats, inv_purge.
Qed.

(** ** The loop over the channels *)

Lemma scan_spec last chs d c cur :
  (scan last chs d c cur).1.1 = d + fold_right (fun ch acc => gain last ch + acc) 0 chs /\
  (scan last chs d c cur).1.2 = c + clients_of chs.
Proof.
  revert d c cur. induction chs as [|ch chs IH]; intros d c cur; simpl; [lia|].
  destruct (IH (match dict_get (channel_id ch) last with
                | Some prev => if prev <? or0 (total_bytes ch) then d + (or0 (total_bytes ch) - prev) else d
                | None => d end) (c + or0 (client_count ch))
               (dict_set (channel_id ch) (or0 (total_bytes ch)) cur)) as [-> ->].
  unfold gain. split; [|lia]. destruct (dict_get _ _) as [p|]; [case_if|]; lia.
Qed.

Lemma scan_cur last chs d c cur :
  List.NoDup (map channel_id chs) -> (forall ch, In ch chs -> channel_id ch ∉ map fst cur) ->
  (scan last chs d c cur).2 = cur ++ readings chs.
Proof.
  revert d c cur. induction chs as [|ch chs IH]; intros d c cur Hnd Hfresh; simpl; [by rewrite app_nil_r|].
  apply NoDup_cons_iff in Hnd as [Hch Hnd].
  rewrite dict_set_absent by (apply Hfresh; left; reflexivity).
  rewrite IH; [by rewrite <- app_assoc|exact Hnd|].
  intros x Hx. rewrite map_app. simpl. rewrite elem_of_app, list_elem_of_singleton.
  intros [Hin|Heq]; [exact (Hfresh x (or_intror Hx) Hin)|].
  apply Hch. rewrite <- Heq. apply in_map, Hx.
Qed.

Lemma gain_nil ch : gain [] ch = 0.
Proof. reflexivity. Qed.

Lemma grows_ids p p' : grows p p' -> map channel_id p = map channel_id p'.
Proof. induction 1 as [|c c' p p' [Hid _] _ IH]; simpl; congruence. Qed.

Lemma sum_gain_ext l a b :
  (forall ch, In ch l -> gain a ch = gain b ch) ->
  fold_right (fun ch acc => gain a ch + acc) 0 l = fold_right (fun ch acc => gain b ch + acc) 0 l.
Proof.
  induction l as [|ch l IH]; intros H; simpl; [reflexivity|].
  rewrite (H ch (or_introl eq_refl)), IH; [reflexivity|]. intros x Hx. apply H. right. exact Hx.
Qed.

(** Against the previous poll's counters, a poll that grows them adds
    exactly their growth. *)
Lemma gain_grows p p' :
  List.NoDup (map channel_id p) -> grows p p' ->
  fold_right (fun ch acc => gain (readings p) ch + acc) 0 p' = total p' - total p.
Proof.
  intros Hnd Hg. revert Hnd. induction Hg as [|c c' p p' [Hid Hle] Hg IH]; intros Hnd; [reflexivity|].
  unfold total in *. cbn [fold_right map readings] in *. fold (readings p).
  apply NoDup_cons_iff in Hnd as [Hc Hnd]. pose proof (grows_ids _ _ Hg) as Hids.
  rewrite (sum_gain_ext p' ((channel_id c, or0 (total_bytes c)) :: readings p) (readings p)).
  - rewrite IH by exact Hnd. unfold gain at 1. rewrite dict_get_cons, bool_decide_true by exact Hid.
    case_if; lia.
  - intros x Hx. unfold gain. rewrite dict_get_cons, bool_decide_false; [reflexivity|].
    intros Heq. apply Hc. rewrite Hids, Heq. apply in_map, Hx.
Qed.

(** ** Recording a poll *)

Lemma day_bytes_update_daily_record today delta chans clients db :
  inv db -> 0 <= delta -> 0 <= chans <= 2 ^ 63 - 1 -> - 2 ^ 63 <= clients <= 2 ^ 63 - 1 ->
  day_bytes today db + delta <= 2 ^ 63 - 1 ->
  day_bytes today (update_daily_record today delta chans clients db) = day_bytes today db + delta.
Proof.
  intros [Hwf [Hu Hok]] Hd Hc Hcl Hmax. unfold day_bytes, update_daily_record in *.
  destruct (Table.first _ db) as [[i r]|] eqn:Hf.
  - pose proof (Table.first_Some _ _ _ _ Hf) as [Hin _]. destruct (Hok i r Hin) as (Hb & Hpc & Hpk).
    rewrite (proj2 (row_fits_spec _)) by (simpl; lia).
    rewrite Table.first_update_same by reflexivity. rewrite Hf. simpl. rewrite Nat.eqb_refl. reflexivity.
  - rewrite (proj2 (row_fits_spec _)) by (simpl; lia).
    rewrite Table.first_insert_new; [reflexivity|exact Hf|simpl; apply Z.eqb_refl].
Qed.

Lemma sum_gain_nil l : fold_right (fun ch acc => gain [] ch + acc) 0 l = 0.
Proof. induction l as [|ch l IH]; simpl; [reflexivity|]. rewrite IH. reflexivity. Qed.

(** A poll with channels whose ids are distinct adds the channels' gains
    to the day's row and remembers their counters. *)
Lemma collect_stats_day_bytes today t db chs :
  inv db -> chs <> [] -> List.NoDup (map channel_id chs) -> poll_fits chs = true ->
  day_bytes today db + fold_right (fun ch acc => gain (last_bytes t) ch + acc) 0 chs <= 2 ^ 63 - 1 ->
  day_bytes today (collect_stats today (Some chs) t db).2 =
    day_bytes today db + fold_right (fun ch acc => gain (last_bytes t) ch + acc) 0 chs /\
  (collect_stats today (Some chs) t db).1 = mkTracker (running t) (has_task t) (readings chs).
Proof.
  intros Hinv Hne Hnd Hfit Hmax. destruct chs as [|ch chs']; [congruence|]. unfold collect_stats.
  pose proof (scan_spec (last_bytes t) (ch :: chs') 0 0 []) as [Hd Hc].
  pose proof (scan_delta_mono (last_bytes t) (ch :: chs') 0 0 []) as Hpos.
  pose proof (scan_cur (last_bytes t) (ch :: chs') 0 0 [] Hnd (fun _ _ => not_elem_of_nil _)) as Hcur.
  destruct (scan _ _ _ _ _) as [[delta clients] cur]. simpl in Hd, Hc, Hcur, Hpos. subst.
  unfold poll_fits in Hfit. apply andb_true_iff in Hfit as [Hl Hcl]. apply fits_int64_spec in Hl, Hcl.
  rewrite (proj2 (Z.ltb_lt 0 (Z.of_nat (length (ch :: chs'))))) by (simpl; lia).
  rewrite orb_true_r. simpl. split; [|reflexivity].
  apply day_bytes_update_daily_record; [exact Hinv|lia|cbn [length] in *; lia|..].
  - unfold clients_of in *. cbn [fold_right] in *. lia.
  - cbn [fold_right] in *. lia.
Qed.

Lemma grows_total p p' : grows p p' -> total p <= total p'.
Proof. induction 1 as [|c c' p p' [_ Hle] _ IH]; unfold total in *; simpl; lia. Qed.

Lemma grows_chain_total p ps : grows_chain p ps -> total p <= total (List.last ps p).
Proof.
  revert p. induction ps as [|p' ps IH]; intros p Hc; [simpl; lia|].
  destruct Hc as [Hg Hc]. specialize (IH p' Hc). pose proof (grows_total _ _ Hg).
  rewrite list_last_cons. lia.
Qed.

Lemma grows_nonempty p p' : grows p p' -> p <> [] -> p' <> [].
Proof. intros Hg. destruct Hg; congruence. Qed.

Lemma grows_NoDup p p' : grows p p' -> List.NoDup (map channel_id p) -> List.NoDup (map channel_id p').
Proof. intros Hg. rewrite (grows_ids _ _ Hg). exact id. Qed.

Lemma step_poll today fetch t db :
  running t = true -> step (EPoll today fetch) (t, db) = collect_stats today fetch t db.
Proof. intros Hrun. simpl. rewrite Hrun. reflexivity. Qed.

(** The polls after the first, on one day: each adds the growth of the
    counters since the previous one. *)
Lemma polls_chain today t db p ps :
  inv db -> running t = true -> last_bytes t = readings p -> List.NoDup (map channel_id p) ->
  p <> [] -> grows_chain p ps -> Forall (fun p' => poll_fits p' = true) ps ->
  day_bytes today db + (total (List.last ps p) - total p) <= 2 ^ 63 - 1 ->
  inv (run (map (fun p' => EPoll today (Some p')) ps) (t, db)).2 /\
  day_bytes today (run (map (fun p' => EPoll today (Some p')) ps) (t, db)).2 =
    day_bytes today db + (total (List.last ps p) - total p).
Proof.
  revert p t db. induction ps as [|p' ps IH]; intros p t db Hinv Hrun Hlast Hnd Hne Hc Hfit Hmax.
  { simpl. split; [exact Hinv|lia]. }
  destruct Hc as [Hg Hc]. apply Forall_cons in Hfit as [Hf Hfit].
  pose proof (grows_total _ _ Hg). pose proof (grows_chain_total _ _ Hc).
  rewrite list_last_cons in *.
  pose proof (gain_grows _ _ Hnd Hg) as Hgain. rewrite <- Hlast in Hgain.
  destruct (collect_stats_day_bytes today t db p' Hinv (grows_nonempty _ _ Hg Hne)
              (grows_NoDup _ _ Hg Hnd) Hf ltac:(lia)) as [Hday Ht].
  pose proof (inv_collect_stats today (Some p') t db Hinv) as Hinv'.
  unfold run in *. cbn [map fold_left].
  rewrite step_poll by exact Hrun.
  destruct (collect_stats today (Some p') t db) as [t' db'].
  simpl in Hday, Ht, Hinv'. subst t'.
  destruct (IH p' (mkTracker (running t) (has_task t) (readings p')) db' Hinv' Hrun eq_refl (grows_NoDup _ _ Hg Hnd) (grows_nonempty _ _ Hg Hne) Hc Hfit
              ltac:(lia)) as [Hi Hd].
  split; [exact Hi|]. rewrite Hd, Hday. lia.
Qed.

(** ** The summary in closed form *)

Lemma fold_tally T W M Y rs s :
  fold_left (tally T W M Y) rs s =
  mkSummary (fold_left (fun acc r => if date r =? T then bytes_transferred r else acc) rs (today_bytes s))
    (week_bytes s + sum_if (fun r => W <=? date r) rs)
    (month_bytes s + sum_if (fun r => M <=? date r) rs)
    (year_bytes s + sum_if (fun r => Y <=? date r) rs)
    (all_time_bytes s + sum_if (fun _ => true) rs)
    (daily_history s).
Proof.
  revert s. induction rs as [|r rs IH]; intros s; simpl.
  - rewrite !Z.add_0_r. destruct s; reflexivity.
  - rewrite IH. simpl. f_equal; repeat case_if; lia.
Qed.

Lemma fold_today_none T rs d :
  (forall r, In r rs -> date r <> T) ->
  fold_left (fun acc r => if date r =? T then bytes_transferred r else acc) rs d = d.
Proof.
  revert d. induction rs as [|r rs IH]; intros d Hn; simpl; [reflexivity|].
  rewrite (proj2 (Z.eqb_neq _ _)) by (apply Hn; left; reflexivity).
  apply IH. intros x Hx. apply Hn. right. exact Hx.
Qed.

(** With one row per date, the last row of the day that the loop sees is
    the first one [Table.first] finds. *)
Lemma fold_today_first T (l : list (nat * daily)) d :
  List.NoDup (map fst l) ->
  (forall i j a b, In (i, a) l -> In (j, b) l -> date a = date b -> i = j) ->
  fold_left (fun acc r => if date r =? T then bytes_transferred r else acc) (map snd l) d =
  match find (fun r => date r.2 =? T) l with Some (_, r) => bytes_transferred r | None => d end.
Proof.
  revert d. induction l as [|[i x] l IH]; intros d Hnd Hu; simpl; [reflexivity|].
  apply NoDup_cons_iff in Hnd as [Hi Hnd].
  destruct (Z.eqb_spec (date x) T) as [Hx|Hx].
  - apply fold_today_none. intros r Hr Hd. apply in_map_iff in Hr as [[j y] [<- Hy]].
    simpl in Hd. apply Hi. rewrite <- (Hu i j x y (or_introl eq_refl) (or_intror Hy)) in Hy by congruence.
    apply in_map_iff. exists (i, y). auto.
  - apply IH; [exact Hnd|]. intros i' j a b Ha Hb. apply Hu; right; assumption.
Qed.

Lemma today_bytes_summary today db :
  inv db -> today_bytes (get_bandwidth_summary today db) = day_bytes today db.
Proof.
  intros [[Hnd _] [Hu _]]. unfold get_bandwidth_summary, day_bytes, Table.first. simpl.
  rewrite fold_tally. simpl. apply fold_today_first; [exact Hnd|].
  intros i j a b Ha Hb Hd. exact (Hu i j a b Ha Hb Hd).
Qed.

Lemma sum_if_nonneg p rs : Forall (fun r => 0 <= bytes_transferred r) rs -> 0 <= sum_if p rs.
Proof. induction 1; simpl; [lia|]. case_if; lia. Qed.

Lemma sum_if_mono p q rs :
  Forall (fun r => 0 <= bytes_transferred r) rs -> (forall r, p r = true -> q r = true) ->
  sum_if p rs <= sum_if q rs.
Proof.
  intros Hpos Hpq. induction Hpos as [|r rs Hr _ IH]; simpl; [lia|].
  destruct (p r) eqn:Ep; [rewrite (Hpq r Ep)|destruct (q r)]; lia.
Qed.

Lemma fold_today_le T rs d :
  Forall (fun r => 0 <= bytes_transferred r) rs -> 0 <= d ->
  0 <= fold_left (fun acc r => if date r =? T then bytes_transferred r else acc) rs d <=
  d + sum_if (fun r => date r =? T) rs.
Proof.
  intros Hpos. revert d. induction Hpos as [|r rs Hr _ IH]; intros d Hd; simpl; [lia|].
  case_if; [specialize (IH (bytes_transferred r) Hr)|specialize (IH d Hd)]; lia.
Qed.

Lemma inv_empty : inv Table.empty.
Proof. split; [apply Table.wf_empty|split]; [intros ? ? ? ? []|intros ? ? []]. Qed.

Ltac sum_mono :=
  apply sum_if_mono; [assumption|intros ?r ?Hp; cbn beta in *; rewrite ?Z.eqb_eq, ?Z.leb_le in *;
                                   first [reflexivity|lia]].

(** ** Theorems *)

(** over a day's polls that report the same channels, with
    counters that never go down, the day's figure of
    [get_bandwidth_summary] grows by exactly the growth of the counters
    between the first poll and the last (the first poll only sets the
    baseline), provided the total fits SQLite's 64-bit integers. *)
Theorem polls_count_growth today t db p0 ps :
  inv db -> running t = true -> last_bytes t = [] -> p0 <> [] -> List.NoDup (map channel_id p0) ->
  grows_chain p0 ps -> Forall (fun p => poll_fits p = true) (p0 :: ps) ->
  today_bytes (get_bandwidth_summary today db) + (total (List.last ps p0) - total p0) <= 2 ^ 63 - 1 ->
  today_bytes (get_bandwidth_summary today (run (map (fun p => EPoll today (Some p)) (p0 :: ps)) (t, db)).2) =
  today_bytes (get_bandwidth_summary today db) + (total (List.last ps p0) - total p0).
Proof.
  intros Hinv Hrun Hlast Hne Hnd Hc Hfit Hmax. apply Forall_cons in Hfit as [Hf0 Hfit].
  rewrite today_bytes_summary in * by exact Hinv. pose proof (grows_chain_total _ _ Hc).
  destruct (collect_stats_day_bytes today t db p0 Hinv Hne Hnd Hf0) as [Hday Ht];
    [rewrite Hlast, sum_gain_nil; lia|].
  rewrite Hlast, sum_gain_nil in Hday.
  pose proof (inv_collect_stats today (Some p0) t db Hinv) as Hinv'.
  unfold run. cbn [map fold_left]. rewrite step_poll by exact Hrun.
  destruct (collect_stats today (Some p0) t db) as [t' db']. simpl in Hday, Ht, Hinv'. subst t'.
  destruct (polls_chain today (mkTracker (running t) (has_task t) (readings p0)) db' p0 ps Hinv' Hrun eq_refl Hnd Hne Hc Hfit ltac:(lia)) as [Hi Hd].
  unfold run in Hd, Hi. rewrite !today_bytes_summary by assumption. rewrite Hd, Hday. lia.
Qed.

(** C33: every sequence of calls (start, stop, polls, purges) keeps
    one row per date, well-formed ids, and non-negative 64-bit columns. *)
Theorem run_inv es t db : inv db -> inv (run es (t, db)).2.
Proof.
  unfold run. revert t db. induction es as [|e es IH]; intros t db Hinv; cbn [fold_left]; [exact Hinv|].
  pose proof (inv_step e (t, db) Hinv) as Hs. destruct (step e (t, db)) as [t' db']. exact (IH t' db' Hs).
Qed.

(** on a table that keeps the invariant, and for a date of the
    years 2000 to 2099, the summary's figures are ordered: today's bytes
    are at most the week's and the month's, the month's at most the
    year's, and the year's and the week's at most the all-time total. *)
Theorem summary_ordered today db :
  inv db -> ord_2000 <= today < ord_2100 ->
  0 <= today_bytes (get_bandwidth_summary today db) <= week_bytes (get_bandwidth_summary today db) /\
  today_bytes (get_bandwidth_summary today db) <= month_bytes (get_bandwidth_summary today db) /\
  month_bytes (get_bandwidth_summary today db) <= year_bytes (get_bandwidth_summary today db) /\
  year_bytes (get_bandwidth_summary today db) <= all_time_bytes (get_bandwidth_summary today db) /\
  week_bytes (get_bandwidth_summary today db) <= all_time_bytes (get_bandwidth_summary today db).
Proof.
  intros Hinv Hr. pose proof (month_year_start_le today Hr) as [Hym Hmt].
  assert (Hpos : Forall (fun r => 0 <= bytes_transferred r) (map snd (Table.rows db))).
  { apply Forall_forall. intros r Hr'. apply list_elem_of_In, in_map_iff in Hr' as [[i x] [<- Hx]].
    exact (proj1 (proj1 (proj2 (proj2 Hinv) i x Hx))). }
  unfold get_bandwidth_summary. rewrite fold_tally. cbn [today_bytes week_bytes month_bytes year_bytes all_time_bytes].
  pose proof (fold_today_le today _ 0 Hpos (Z.le_refl 0)).
  set (rs := map snd (Table.rows db)) in *.
  assert (sum_if (fun r => date r =? today) rs <= sum_if (fun r => today - 7 <=? date r) rs) by sum_mono.
  assert (sum_if (fun r => date r =? today) rs <= sum_if (fun r => month_start today <=? date r) rs) by sum_mono.
  assert (sum_if (fun r => month_start today <=? date r) rs <= sum_if (fun r => year_start today <=? date r) rs) by sum_mono.
  assert (sum_if (fun r => year_start today <=? date r) rs <= sum_if (fun _ => true) rs) by sum_mono.
  assert (sum_if (fun r => today - 7 <=? date r) rs <= sum_if (fun _ => true) rs) by sum_mono.
  lia.
Qed.

(** The rows of the second query of [get_bandwidth_summary]. *)
Lemma week_rows_In today db r :
  In r (merge_sort date_le (map snd (Table.select (fun _ r => today - 7 <=? date r) db))) <->
  (exists i, In (i, r) (Table.rows db)) /\ today - 7 <= date r.
Proof.
  rewrite <- !list_elem_of_In, (merge_sort_Permutation date_le _), list_elem_of_In, in_map_iff.
  split.
  - intros [[i x] [<- Hx]]. apply Table.In_select in Hx as [Hx Hd]. apply Z.leb_le in Hd. eauto.
  - intros [[i Hx] Hd]. exists (i, r). split; [reflexivity|]. apply Table.In_select. split; [exact Hx|].
    apply Z.leb_le, Hd.
Qed.

(** Distinct ids and one row per date give distinct dates. *)
Lemma NoDup_dates (l : list (nat * daily)) :
  List.NoDup (map fst l) -> (forall i j a b, In (i, a) l -> In (j, b) l -> date a = date b -> i = j) ->
  NoDup (date <$> map snd l).
Proof.
  induction l as [|[k c] l IH]; intros Hnd Hu; cbn; [constructor|].
  apply NoDup_cons_iff in Hnd as [Hk Hnd]. apply NoDup_cons. split.
  - intros Hin. apply list_elem_of_fmap in Hin as [b [Hb Hin]].
    apply list_elem_of_In, in_map_iff in Hin as [[j b'] [Hb' Hj]]. cbn in Hb'. subst b'.
    apply Hk. rewrite (Hu k j c b (or_introl eq_refl) (or_intror Hj) Hb). apply in_map_iff. exists (j, b). auto.
  - apply IH; [exact Hnd|]. intros i j a b Ha Hb. apply Hu; right; assumption.
Qed.

(** [daily_history] is the [to_dict] of exactly the rows dated from
    seven days before today on: eight calendar days up to today, where
    the docstring announces the last seven. *)
Theorem daily_history_window today db d :
  In d (daily_history (get_bandwidth_summary today db)) <->
  exists i r, In (i, r) (Table.rows db) /\ today - 7 <= date r /\ d = to_dict r.
Proof.
  unfold get_bandwidth_summary. cbn [daily_history]. rewrite in_map_iff. split.
  - intros [r [<- Hr]]. apply week_rows_In in Hr as [[i Hi] Hd]. eauto.
  - intros (i & r & Hi & Hd & ->). exists r. split; [reflexivity|]. apply week_rows_In. eauto.
Qed.

(** C34: when the day's total would leave SQLite's 64-bit range,
    the commit fails and is rolled back: the table is unchanged, peaks
    included, while the tracker has already moved its counters on, so the
    poll's bytes are never counted. *)
Theorem poll_overflow_lost today t db chs i r :
  chs <> [] -> List.NoDup (map channel_id chs) ->
  Table.first (fun _ r => date r =? today) db = Some (i, r) ->
  2 ^ 63 - 1 < bytes_transferred r + fold_right (fun ch acc => gain (last_bytes t) ch + acc) 0 chs ->
  collect_stats today (Some chs) t db = (mkTracker (running t) (has_task t) (readings chs), db).
Proof.
  intros Hne Hnd Hf Hover. destruct chs as [|ch chs']; [congruence|]. unfold collect_stats.
  pose proof (scan_spec (last_bytes t) (ch :: chs') 0 0 []) as [Hd _].
  pose proof (scan_cur (last_bytes t) (ch :: chs') 0 0 [] Hnd (fun _ _ => not_elem_of_nil _)) as Hcur.
  destruct (scan _ _ _ _ _) as [[delta clients] cur]. simpl in Hd, Hcur. subst.
  rewrite (proj2 (Z.ltb_lt 0 (Z.of_nat (length (ch :: chs'))))) by (cbn [length]; lia).
  rewrite orb_true_r. unfold update_daily_record. rewrite Hf.
  destruct (row_fits _) eqn:E; [|reflexivity]. apply row_fits_spec in E. simpl in E.
  exfalso. cbn [fold_right] in Hover. lia.
Qed.

(** a poll that reports channels records the day even when no
    byte was transferred: on a day without a row it creates one with zero
    bytes, although the code's comment says it only records when there is
    actual data transfer. *)
Theorem poll_without_transfer_records today t db chs :
  chs <> [] -> poll_fits chs = true ->
  fold_right (fun ch acc => gain (last_bytes t) ch + acc) 0 chs = 0 ->
  Table.first (fun _ r => date r =? today) db = None ->
  Table.first (fun _ r => date r =? today) (collect_stats today (Some chs) t db).2 =
    Some (Table.next_id db, mkDaily today 0 (Z.of_nat (length chs)) (Z.max 0 (clients_of chs))).
Proof.
  intros Hne Hfit H0 Hf. destruct chs as [|ch chs']; [congruence|]. unfold collect_stats.
  pose proof (scan_spec (last_bytes t) (ch :: chs') 0 0 []) as [Hd Hc]. rewrite H0 in Hd.
  destruct (scan _ _ _ _ _) as [[delta clients] cur]. cbn [fst snd] in Hd, Hc. subst.
  unfold poll_fits in Hfit. apply andb_true_iff in Hfit as [Hl Hcl]. apply fits_int64_spec in Hl, Hcl.
  rewrite (proj2 (Z.ltb_lt 0 (Z.of_nat (length (ch :: chs'))))) by (cbn [length]; lia).
  rewrite orb_true_r. unfold update_daily_record. rewrite Hf.
  rewrite (proj2 (row_fits_spec _)) by (cbn [bump date bytes_transferred peak_channels peak_clients]; lia).
  cbn [snd]. rewrite Table.first_insert_new; [|exact Hf|simpl; apply Z.eqb_refl].
  unfold bump. cbn [date bytes_transferred peak_channels peak_clients]. do 3 f_equal; lia.
Qed.

(** channels reported without a [channel_id] all get the id
    [""]; their counters are compared with the last one's, so two idle
    channels whose counters never move make each poll add the difference
    of their counters to the day. *)
Example missing_ids_phantom_bytes :
  let p := [mkChannel "" (Some 500) (Some 1); mkChannel "" (Some 100) (Some 1)] in
  let d := ymd2ord 2026 11 9 in
  today_bytes (get_bandwidth_summary d
    (run [EStart; EPoll d (Some p); EPoll d (Some p); EPoll d (Some p)] (init, Table.empty)).2) = 800.
Proof. vm_compute. reflexivity. Qed.

Lemma sum_bytes_perm rs rs' : Permutation rs rs' -> sum_bytes rs = sum_bytes rs'.
Proof. induction 1; unfold sum_bytes in *; simpl; lia. Qed.

Lemma sum_bytes_select p (l : list (nat * daily)) :
  sum_bytes (map snd (List.filter (fun r => p r.2) l)) = sum_if p (map snd l).
Proof. induction l as [|[i r] l IH]; simpl; [reflexivity|]. destruct (p r); simpl; unfold sum_bytes in *; lia. Qed.

Lemma history_bytes_to_dict rs : history_bytes (map to_dict rs) = sum_bytes rs.
Proof. induction rs as [|r rs IH]; [reflexivity|]. unfold history_bytes, sum_bytes in *. cbn. rewrite IH. reflexivity. Qed.

(** C30: [get_bandwidth_summary] computes the week twice, as the
    [this_week] total of its loop and as the [daily_history] of its
    second query; the two agree: [this_week] is the sum of the history's
    bytes, on any table. *)
Theorem week_bytes_history today db :
  week_bytes (get_bandwidth_summary today db) = history_bytes (daily_history (get_bandwidth_summary today db)).
Proof.
  unfold get_bandwidth_summary. rewrite fold_tally. cbn [week_bytes daily_history].
  rewrite history_bytes_to_dict.
  rewrite (sum_bytes_perm _ _ (merge_sort_Permutation date_le _)).
  unfold Table.select. cbv beta. rewrite (sum_bytes_select (fun r => today - 7 <=? date r)). lia.
Qed.

(** C37: the [daily_history] the API returns lists each date once, in
    increasing order of its [date] text: on a table keeping the
    invariant of [run] (one row per date) with its dates in 2000 to
    2099, the strings of consecutive entries increase under Python's
    string comparison.  This rests on the [order_by(date.asc())] of the
    second query, the [unique=True] of the column and [isoformat()]. *)
Theorem daily_history_dates_increasing today db :
  inv db -> (forall i r, In (i, r) (Table.rows db) -> ord_2000 <= date r < ord_2100) ->
  Sorted (fun d1 d2 => str_ltb (default "" (dict_date d1)) (default "" (dict_date d2)) = true)
    (daily_history (get_bandwidth_summary today db)).
Proof.
  intros [[Hnd _] [Hu _]] Hr. unfold get_bandwidth_summary. cbn [daily_history].
  apply (Sorted_map_Forall (fun r => ord_2000 <= date r < ord_2100) (fun a b => date a < date b)).
  - apply List.Forall_forall. intros r Hin. apply week_rows_In in Hin as [[i Hi] _]. eauto.
  - apply Sorted_le_NoDup_lt; [apply Sorted_merge_sort; apply _|].
    rewrite (merge_sort_Permutation date_le _). unfold Table.select.
    apply NoDup_dates; [apply NoDup_map_filter, Hnd|].
    intros i j a b Ha Hb. apply filter_In in Ha as [Ha _], Hb as [Hb _]. exact (Hu i j a b Ha Hb).
  - intros a b Ha Hb Hab. cbn [to_dict dict_date default]. unfold id. apply iso_date_lt; lia.
Qed.

(** C29: [_poll_loop] ends with [stop]: once [stop] has run, the
    polls that follow, however many, change neither the tracker nor the
    table, because [while self._running] fails. *)
Theorem stop_ends_polling t db es :
  Forall (fun e => is_poll e = true) es -> run es (step EStop (t, db)) = (stop t, db).
Proof.
  intros Hes. cbn [step]. induction Hes as [|e es He _ IH]; [reflexivity|].
  destruct e; try discriminate. exact IH.
Qed.

(** ** Witnesses *)

Definition ex_day : Z := ymd2ord 2026 11 9.
Definition ex_p0 : list channel := [mkChannel "7" (Some 1000) (Some 2); mkChannel "9" (Some 5000) (Some 1)].
Definition ex_p1 : list channel := [mkChannel "7" (Some 1500) (Some 3); mkChannel "9" (Some 5000) (Some 1)].
Definition ex_p2 : list channel := [mkChannel "7" (Some 2500) (Some 3); mkChannel "9" (Some 7000) (Some 0)].
Definition ex_tracker : tracker := start init.
Definition ex_full : Table.t daily := Table.mk [(1%nat, mkDaily ex_day (2 ^ 63 - 10) 2 3)] 2.

Lemma inv_ex_full : inv ex_full.
Proof.
  split; [split; [repeat constructor; simpl; tauto|repeat constructor; simpl; lia]|split].
  - apply Table.unique_single.
  - intros i r [H|[]]. injection H as <- <-. unfold row_ok. simpl. lia.
Qed.

Definition ex_two : Table.t daily :=
  Table.mk [(1%nat, mkDaily ex_day 100 1 1); (2%nat, mkDaily (ex_day - 1) 50 1 1)] 3.

Lemma daily_history_dates_increasing_witness :
  Sorted (fun d1 d2 => str_ltb (default "" (dict_date d1)) (default "" (dict_date d2)) = true)
    (daily_history (get_bandwidth_summary ex_day ex_two)).
Proof.
  apply daily_history_dates_increasing.
  - split; [split; [repeat constructor; simpl; lia|repeat constructor; simpl; lia]|split].
    + intros i j a b [Ha|[Ha|[]]] [Hb|[Hb|[]]] Hs; injection Ha as <- <-; injection Hb as <- <-;
        unfold same_date in Hs; simpl in Hs; lia.
    + intros i r [H|[H|[]]]; injection H as <- <-; unfold row_ok; simpl; lia.
  - intros i r [H|[H|[]]]; injection H as <- <-; simpl;
      (split; [apply Z.leb_le|apply Z.ltb_lt]; vm_compute; reflexivity).
Defined.

Lemma polls_count_growth_witness :
  today_bytes (get_bandwidth_summary ex_day
    (run (map (fun p => EPoll ex_day (Some p)) (ex_p0 :: [ex_p1; ex_p2])) (ex_tracker, Table.empty)).2) = 3500.
Proof.
  rewrite (polls_count_growth ex_day ex_tracker Table.empty ex_p0 [ex_p1; ex_p2]).
  - vm_compute. reflexivity.
  - apply inv_empty.
  - reflexivity.
  - reflexivity.
  - discriminate.
  - apply NoDup_ListNoDup, (bool_decide_unpack _). vm_compute. reflexivity.
  - vm_compute. repeat constructor; discriminate.
  - apply Forall_forall. intros p Hp. apply list_elem_of_In in Hp. vm_compute in Hp.
    repeat destruct Hp as [<-|Hp]; [reflexivity..|destruct Hp].
  - vm_compute. discriminate.
Defined.

Lemma run_inv_witness :
  inv (run [EStart; EPoll ex_day (Some ex_p0); EPoll ex_day (Some ex_p1); EPurge ex_day 90; EStop]
         (init, Table.empty)).2.
Proof. apply (run_inv _ init Table.empty), inv_empty. Defined.

Lemma summary_ordered_witness :
  (ord_2000 <= ex_day < ord_2100) /\
  month_bytes (get_bandwidth_summary ex_day ex_full) <= year_bytes (get_bandwidth_summary ex_day ex_full).
Proof.
  assert (Hr : ord_2000 <= ex_day < ord_2100)
    by (split; [apply Z.leb_le|apply Z.ltb_lt]; vm_compute; reflexivity).
  split; [exact Hr|]. apply (summary_ordered ex_day ex_full inv_ex_full Hr).
Defined.

Lemma poll_overflow_lost_witness :
  collect_stats ex_day (Some ex_p1) (mkTracker true true (readings ex_p0)) ex_full =
    (mkTracker true true (readings ex_p1), ex_full).
Proof.
  apply (poll_overflow_lost ex_day (mkTracker true true (readings ex_p0)) ex_full ex_p1 1%nat
           (mkDaily ex_day (2 ^ 63 - 10) 2 3)).
  - discriminate.
  - apply NoDup_ListNoDup, (bool_decide_unpack _). vm_compute. reflexivity.
  - vm_compute. reflexivity.
  - vm_compute. reflexivity.
Defined.

Lemma poll_without_transfer_records_witness :
  Table.first (fun _ r => date r =? ex_day) (collect_stats ex_day (Some ex_p0) ex_tracker Table.empty).2 =
    Some (1%nat, mkDaily ex_day 0 2 3).
Proof.
  apply (poll_without_transfer_records ex_day ex_tracker Table.empty ex_p0).
  - discriminate.
  - reflexivity.
  - reflexivity.
  - reflexivity.
Defined.

Lemma stop_ends_polling_witness :
  Forall (fun e => is_poll e = true) [EPoll 739000 (Some []); EPoll 739001 None] /\
  run [EPoll 739000 (Some []); EPoll 739001 None] (step EStop (start init, Table.empty)) =
    (stop (start init), Table.empty).
Proof.
  assert (H : Forall (fun e => is_poll e = true) [EPoll 739000 (Some []); EPoll 739001 None])
    by (repeat constructor).
  split; [exact H|exact (stop_ends_polling (start init) Table.empty _ H)].
Defined.



End Bandwidth.
