(* ===== verification/Alerts.v ===== *)
(** * Alerts: the alert-method framework of [src/backend/alert_methods.py]

    An alert method (Discord, SMTP, ...) is an instance of a subclass of
    [AlertMethod]: its class attributes ([method_type], [display_name],
    [required_config_fields], [optional_config_fields]) are a
    [method_class], an instance is a [method] (class, id, name, config).
    [register_method] files a class under its type in the registry,
    [create_method] instantiates the class a type names.

    [AlertMethodManager] keeps [_methods], a dict from the id of an
    [AlertMethod] row to the loaded instance.  The rows ([alert_row], the
    columns the code reads of [models.AlertMethod], which the repository's
    [models.py] does not contain) live in a [Table.t].
    - [load_methods] rebuilds the dict from the enabled rows;
    - [reload_method] refreshes one entry;
    - [send_alert] walks the dict, skips the methods whose row is gone,
      whose row does not enable the message's type, or whose last sending
      is more recent than [min_interval_seconds], sends through the
      others, and stamps [last_sent_at] of those that succeeded.
    [json.loads] and the method's [send] are parameters of the section
    ([json_loads], [send]); the clock is [now], one value per call.  The
    per-method step of [send_alert] is split at its [await method.send]
    into [send_check] and [send_commit]. *)

From S2P Require Import Prelude Table Calendar.

Local Open Scope string_scope.

Module Alerts.

Local Unset Elimination Schemes.

(** A value of a [Dict[str, Any]] read from JSON (JSON's floats are left
    out: no code reads one). *)
Inductive pyval :=
| PNone
| PBool (b : bool)
| PInt (z : Z)
| PStr (s : string)
| PList (l : list pyval)
| PDict (d : list (string * pyval)).
Local Set Elimination Schemes.

(** Python's truth value of a [pyval]. *)
Definition pytruthy (v : pyval) : bool :=
  match v with
  | PNone => false
  | PBool b => b
  | PInt z => negb (z =? 0)%Z
  | PStr s => negb (String.eqb s "")
  | PList l => match l with [] => false | _ => true end
  | PDict d => match d with [] => false | _ => true end
  end.

(** [AlertMessage]; [timestamp] is [datetime.utcnow()] in seconds. *)
Record alert_message := mkMessage {
  title : string;
  message : string;
  notification_type : string;
  source : option string;
  metadata : list (string * pyval);
  timestamp : Z
}.

(** [AlertMessage.__init__]: [metadata or {}]. *)
Definition new_message (title message notification_type : string) (source : option string)
    (metadata : option (list (string * pyval))) (now : Z) : alert_message :=
  mkMessage title message notification_type source (default [] metadata) now.

(** [AlertMessage.to_dict]. *)
Definition to_dict (m : alert_message) : list (string * pyval) :=
  [("title", PStr (title m)); ("message", PStr (message m)); ("type", PStr (notification_type m));
   ("source", match source m with Some s => PStr s | None => PNone end); ("metadata", PDict (metadata m));
   ("timestamp", PStr (iso_datetime (timestamp m) ++ "Z"))].

(** The class attributes of an [AlertMethod] subclass. *)
Record method_class := mkClass {
  method_type : string;
  display_name : string;
  required_config_fields : list string;
  optional_config_fields : list (string * pyval)
}.

(** An instance: [AlertMethod.__init__(method_id, name, config)]. *)
Record method := mkMethod {
  cls : method_class;
  method_id : nat;
  name : string;
  config : pyval
}.

(** [validate_config]: the required fields absent or falsy, in order. *)
Definition missing_fields (c : method_class) (config : list (string * pyval)) : list string :=
  List.filter (fun f => match dict_get f config with Some v => negb (pytruthy v) | None => true end)
    (required_config_fields c).

Definition validate_config (c : method_class) (config : list (string * pyval)) : bool * string :=
  match missing_fields c config with
  | [] => (true, "")
  | missing => (false, "Missing required fields: " ++ String.concat ", " missing)
  end.

Definition nl : string := String (Ascii.ascii_of_nat 10) "".

(** [format_message]. *)
Definition format_message (m : alert_message) : string :=
  String.concat nl
    ((if String.eqb (title m) "" then [] else ["**" ++ title m ++ "**"]) ++ [message m] ++
     match source m with
     | Some s => if String.eqb s "" then [] else ["Source: " ++ s]
     | None => []
     end).

(** ** The registry *)

Definition registry := list (string * method_class).

(** [register_method]: [ValueError] when the class has no type. *)
Definition register_method (c : method_class) (reg : registry) : result registry string :=
  if String.eqb (method_type c) "" then Err "ValueError"
  else Ok (dict_set (method_type c) c reg).

(** [get_method_types]: one entry per registered class, in registration
    order. *)
Definition get_method_types (reg : registry) : list method_class := map snd reg.

Definition create_method (reg : registry) (t : string) (i : nat) (nm : string) (config : pyval)
    : option method :=
  match dict_get t reg with
  | Some c => Some (mkMethod c i nm config)
  | None => None
  end.

(** What [register_method] keeps of the registry: each class filed under
    its own, non-empty, type, once. *)
Definition registry_ok (reg : registry) : Prop :=
  Forall (fun tc => tc.1 = method_type tc.2 /\ tc.1 <> "") reg /\ List.NoDup (map fst reg).

(** ** The rows of [AlertMethod] *)

Record alert_row := mkRow {
  row_name : string;
  row_type : string;
  row_config : option string;
  enabled : bool;
  notify_info : bool;
  notify_success : bool;
  notify_warning : bool;
  notify_error : bool;
  last_sent_at : option Z;
  min_interval_seconds : Z
}.

Definition set_last_sent (t : Z) (r : alert_row) : alert_row :=
  mkRow (row_name r) (row_type r) (row_config r) (enabled r) (notify_info r) (notify_success r)
    (notify_warning r) (notify_error r) (Some t) (min_interval_seconds r).

(** The notification-type filter of [send_alert]: [.get(type, False)]. *)
Definition type_enabled (ntype : string) (r : alert_row) : bool :=
  if String.eqb ntype "info" then notify_info r
  else if String.eqb ntype "success" then notify_success r
  else if String.eqb ntype "warning" then notify_warning r
  else if String.eqb ntype "error" then notify_error r
  else false.

(** The rate limit: sent less than [min_interval_seconds] ago. *)
Definition rate_limited (now : Z) (r : alert_row) : bool :=
  match last_sent_at r with
  | Some t => (now - t <? min_interval_seconds r)%Z
  | None => false
  end.

(** What [method.send] gives: its boolean, or an exception. *)
Inductive send_outcome := Sent (ok : bool) | Raised.

#[export] Instance send_outcome_eq_dec : EqDecision send_outcome.
Proof. solve_decision. Defined.

(** The entry [send_alert] records for an outcome. *)
Definition outcome_bool (o : send_outcome) : bool :=
  match o with Sent b => b | Raised => false end.

Section Manager.
(** [json.loads]: [None] when it raises. *)
Variable json_loads : string -> option pyval.
(** [await method.send(message)]. *)
Variable send : method -> alert_message -> send_outcome.

(** [json.loads(c) if c else {}]. *)
Definition load_config (c : option string) : option pyval :=
  match c with
  | None => Some (PDict [])
  | Some s => if String.eqb s "" then Some (PDict []) else json_loads s
  end.

(** One row of the [for method_model in methods] loop of [load_methods]. *)
Definition load_one (reg : registry) (ms : list (nat * method)) (ir : nat * alert_row)
    : list (nat * method) :=
  let '(i, r) := ir in
  match load_config (row_config r) with
  | None => ms
  | Some cfg =>
      match create_method reg (row_type r) i (row_name r) cfg with
      | Some m => dict_set i m ms
      | None => ms
      end
  end.

(** [load_methods]: [_methods.clear()], then the enabled rows. *)
Definition load_methods (reg : registry) (db : Table.t alert_row) : list (nat * method) :=
  fold_left (load_one reg) (Table.select (fun _ r => enabled r) db) [].

(** [reload_method]: a [json.loads] error propagates. *)
Definition reload_method (reg : registry) (db : Table.t alert_row) (i : nat)
    (ms : list (nat * method)) : result (list (nat * method)) string :=
  match Table.get i db with
  | Some r =>
      if enabled r then
        match load_config (row_config r) with
        | None => Err "JSONDecodeError"
        | Some cfg =>
            match create_method reg (row_type r) i (row_name r) cfg with
            | Some m => Ok (dict_set i m ms)
            | None => Ok ms
            end
        end
      else Ok (dict_del i ms)
  | None => Ok (dict_del i ms)
  end.

(** The reads before [await method.send]: the row exists, enables the
    type, and is not rate limited. *)
Definition send_check (ntype : string) (now : Z) (i : nat) (db : Table.t alert_row) : bool :=
  match Table.get i db with
  | Some r => type_enabled ntype r && negb (rate_limited now r)
  | None => false
  end.

(** The send and what follows it: the result, and on success
    [last_sent_at = utcnow()] and the commit. *)
Definition send_commit (m : method) (msg : alert_message) (now : Z) (i : nat)
    (db : Table.t alert_row) (results : list (nat * bool)) : list (nat * bool) * Table.t alert_row :=
  match send m msg with
  | Sent true => (dict_set i true results, Table.update i (set_last_sent now) db)
  | Sent false => (dict_set i false results, db)
  | Raised => (dict_set i false results, db)
  end.

Fixpoint send_loop (msg : alert_message) (now : Z) (ms : list (nat * method))
    (db : Table.t alert_row) (results : list (nat * bool)) : list (nat * bool) * Table.t alert_row :=
  match ms with
  | [] => (results, db)
  | (i, m) :: rest =>
      let '(results', db') :=
        if send_check (notification_type msg) now i db then send_commit m msg now i db results
        else (results, db) in
      send_loop msg now rest db' results'
  end.

(** [AlertMethodManager.send_alert]. *)
Definition send_alert (ms : list (nat * method)) (db : Table.t alert_row) (now : Z)
    (title message ntype : string) (source : option string)
    (metadata : option (list (string * pyval))) : list (nat * bool) * Table.t alert_row :=
  send_loop (new_message title message ntype source metadata now) now ms db [].

(** [get_alert_manager]: the global manager, loaded on first use. *)
Definition get_alert_manager (reg : registry) (db : Table.t alert_row)
    (g : option (list (nat * method))) : list (nat * method) :=
  match g with
  | Some ms => ms
  | None => load_methods reg db
  end.

(** The module-level [send_alert]: through the global manager, which the
    call loads when there is none yet; the new global is returned. *)
Definition send_alert_global (reg : registry) (db : Table.t alert_row) (g : option (list (nat * method)))
    (now : Z) (title message ntype : string) (source : option string)
    (metadata : option (list (string * pyval)))
    : list (nat * bool) * Table.t alert_row * option (list (nat * method)) :=
  let ms := get_alert_manager reg db g in
  let '(res, db') := send_alert ms db now title message ntype source metadata in
  (res, db', Some ms).

(** ** A schedule of calls *)

(** One call of [send_alert]: its clock and its arguments. *)
Record call := mkCall {
  call_now : Z;
  call_title : string;
  call_message : string;
  call_type : string;
  call_source : option string;
  call_metadata : option (list (string * pyval))
}.

Definition send_call (ms : list (nat * method)) (db : Table.t alert_row) (c : call)
    : list (nat * bool) * Table.t alert_row :=
  send_alert ms db (call_now c) (call_title c) (call_message c) (call_type c) (call_source c) (call_metadata c).

(** [eventually ms P db cs]: running the calls [cs] one after the other
    from the rows [db], some call's results satisfy [P]. *)
Inductive eventually (ms : list (nat * method)) (P : list (nat * bool) -> Prop)
    : Table.t alert_row -> list call -> Prop :=
| eventually_now db c cs : P (send_call ms db c).1 -> eventually ms P db (c :: cs)
| eventually_later db c cs : eventually ms P (send_call ms db c).2 cs -> eventually ms P db (c :: cs).

(** ** Lemmas *)

Lemma wf_send_loop msg now ms db res : Table.wf db -> Table.wf (send_loop msg now ms db res).2.
Proof.
  revert db res. induction ms as [|[j m] ms IH]; intros db res Hwf; simpl; [exact Hwf|].
  destruct (send_check _ _ _ _); [|apply IH, Hwf].
  unfold send_commit. destruct (send m msg) as [[]|]; apply IH; auto using Table.wf_update.
Qed.

Lemma send_check_get ntype now i db db' :
  Table.get i db = Table.get i db' -> send_check ntype now i db = send_check ntype now i db'.
Proof. unfold send_check. intros ->. reflexivity. Qed.

(** A method the loop does not reach keeps its entry and its row. *)
Lemma send_loop_other msg now ms db res i :
  Table.wf db -> ~ In i (map fst ms) ->
  dict_get i (send_loop msg now ms db res).1 = dict_get i res /\
  Table.get i (send_loop msg now ms db res).2 = Table.get i db.
Proof.
  revert db res. induction ms as [|[j m] ms IH]; intros db res Hwf Hi; simpl; [auto|].
  assert (Hj : j <> i) by (intros ->; apply Hi; left; reflexivity).
  assert (Hr : ~ In i (map fst ms)) by (intros H; apply Hi; right; exact H).
  destruct (send_check _ _ _ _); [|apply IH; assumption].
  unfold send_commit. destruct (send m msg) as [[]|];
    (match goal with |- context [send_loop msg now ms ?d ?r] =>
       destruct (IH d r ltac:(auto using Table.wf_update) Hr) as [H1 H2] end;
     rewrite H1, H2, ?dict_get_set_other by congruence;
     rewrite ?Table.get_update_ne by (auto; congruence); auto).
Qed.

(** What the loop does to a method it reaches, once. *)
Lemma send_loop_key msg now ms db res i m :
  Table.wf db -> List.NoDup (map fst ms) -> In (i, m) ms ->
  dict_get i (send_loop msg now ms db res).1 =
    (if send_check (notification_type msg) now i db then Some (outcome_bool (send m msg))
     else dict_get i res) /\
  Table.get i (send_loop msg now ms db res).2 =
    (if send_check (notification_type msg) now i db && bool_decide (send m msg = Sent true)
     then set_last_sent now <$> Table.get i db else Table.get i db).
Proof.
  revert db res. induction ms as [|[j m'] ms IH]; intros db res Hwf Hnd Hin; [destruct Hin|].
  apply NoDup_cons_iff in Hnd as [Hj Hnd]. cbn [fst] in Hj. cbn [send_loop].
  destruct Hin as [[= -> ->]|Hin].
  - destruct (send_check _ _ _ _) eqn:Ec; simpl.
    + unfold send_commit. destruct (send m msg) as [[]|] eqn:Es;
        (match goal with |- context [send_loop msg now ms ?d ?r] =>
           destruct (send_loop_other msg now ms d r i ltac:(auto using Table.wf_update) Hj) as [H1 H2] end;
         rewrite H1, H2, ?dict_get_set_same, ?Table.get_update_same by exact Hwf;
         split; [reflexivity|case_bool_decide; congruence]).
    + destruct (send_loop_other msg now ms db res i Hwf Hj) as [H1 H2]. rewrite H1, H2. auto.
  - assert (Hji : j <> i) by (intros ->; apply Hj, in_map_iff; exists (i, m); auto).
    destruct (send_check _ _ j db); [unfold send_commit; destruct (send m' msg) as [[]|]|];
      (match goal with |- context [send_loop msg now ms ?d ?r] =>
         destruct (IH d r ltac:(auto using Table.wf_update) Hnd Hin) as [H1 H2] end;
       rewrite H1, H2, ?dict_get_set_other by congruence;
       rewrite ?Table.get_update_ne by (auto; congruence);
       erewrite send_check_get by (rewrite ?Table.get_update_ne by (auto; congruence); reflexivity);
       auto).
Qed.

Lemma send_loop_disabled msg now ms db res :
  (forall i, send_check (notification_type msg) now i db = false) ->
  send_loop msg now ms db res = (res, db).
Proof.
  intros Hc. revert res. induction ms as [|[j m] ms IH]; intros res; simpl; [reflexivity|].
  rewrite Hc. apply IH.
Qed.

Lemma type_enabled_unknown ntype r :
  ~ In ntype ["info"; "success"; "warning"; "error"] -> type_enabled ntype r = false.
Proof.
  intros Hn. unfold type_enabled.
  repeat match goal with |- context [String.eqb ntype ?s] =>
    destruct (String.eqb_spec ntype s) as [->|_]; [exfalso; apply Hn; simpl; tauto|] end.
  reflexivity.
Qed.

(** What loading one row gives. *)
Definition loaded (reg : registry) (i : nat) (r : alert_row) : option method :=
  match load_config (row_config r) with
  | Some cfg => create_method reg (row_type r) i (row_name r) cfg
  | None => None
  end.

Lemma find_id_absent {A} (l : list (nat * A)) i :
  ~ In i (map fst l) -> find (fun p => Nat.eqb p.1 i) l = None.
Proof.
  induction l as [|[j a] l IH]; intros Hi; simpl; [reflexivity|].
  destruct (Nat.eqb_spec j i) as [->|_]; [exfalso; apply Hi; left; reflexivity|].
  apply IH. intros H. apply Hi. right. exact H.
Qed.

Lemma fold_load_one reg l ms i :
  List.NoDup (map fst l) ->
  dict_get i (fold_left (load_one reg) l ms) =
  match find (fun p => Nat.eqb p.1 i) l with
  | Some (_, r) => match loaded reg i r with Some m => Some m | None => dict_get i ms end
  | None => dict_get i ms
  end.
Proof.
  revert ms. induction l as [|[j r] l IH]; intros ms Hnd; simpl; [reflexivity|].
  apply NoDup_cons_iff in Hnd as [Hj Hnd]. cbn [fst] in Hj. rewrite IH by exact Hnd.
  destruct (Nat.eqb_spec j i) as [->|Hne].
  - rewrite find_id_absent by exact Hj. unfold load_one, loaded.
    destruct (load_config _); [destruct (create_method _ _ _ _ _)|]; auto using dict_get_set_same.
  - unfold load_one. assert (Hg : forall ms', dict_get i ms' = dict_get i ms ->
      dict_get i (match load_config (row_config r) with
                  | Some cfg => match create_method reg (row_type r) j (row_name r) cfg with
                                | Some m => dict_set j m ms | None => ms end
                  | None => ms end) = dict_get i ms).
    { intros _ _. destruct (load_config _); [destruct (create_method _ _ _ _ _)|]; auto.
      rewrite dict_get_set_other by congruence. reflexivity. }
    rewrite (Hg ms eq_refl). reflexivity.
Qed.

Lemma find_select_id (db : Table.t alert_row) q i :
  List.NoDup (map fst (Table.rows db)) ->
  find (fun p => Nat.eqb p.1 i) (Table.select q db) =
  match find (fun p => Nat.eqb p.1 i) (Table.rows db) with
  | Some x => if q x.1 x.2 then Some x else None
  | None => None
  end.
Proof.
  unfold Table.select. induction (Table.rows db) as [|[j r] l IH]; intros Hnd; simpl; [reflexivity|].
  apply NoDup_cons_iff in Hnd as [Hj Hnd]. cbn [fst] in Hj.
  destruct (Nat.eqb_spec j i) as [->|Hne]; destruct (q _ r) eqn:Eq; simpl;
    rewrite ?Nat.eqb_refl, ?Eq; auto.
  - rewrite find_id_absent; [reflexivity|]. intros H. apply Hj.
    apply in_map_iff in H as [[k b] [<- Hk]]. apply filter_In in Hk as [Hk _].
    apply in_map_iff. exists (k, b). auto.
  - rewrite (proj2 (Nat.eqb_neq j i) Hne). apply IH, Hnd.
Qed.

(** ** Theorems *)

(** C13: after a [send_alert] has sent through a method, a
    [send_alert] less than the row's [min_interval_seconds] later skips
    that method (no entry in its results). *)
Theorem send_alert_rate_limited ms db i m r t1 t2 ti1 me1 ty1 so1 md1 ti2 me2 ty2 so2 md2 :
  Table.wf db -> List.NoDup (map fst ms) -> In (i, m) ms -> Table.get i db = Some r ->
  dict_get i (send_alert ms db t1 ti1 me1 ty1 so1 md1).1 = Some true ->
  (t2 - t1 < min_interval_seconds r)%Z ->
  dict_get i (send_alert ms (send_alert ms db t1 ti1 me1 ty1 so1 md1).2 t2 ti2 me2 ty2 so2 md2).1 = None.
Proof.
  intros Hwf Hnd Hin Hr H1 Ht. unfold send_alert in *.
  set (msg1 := new_message ti1 me1 ty1 so1 md1 t1) in *.
  destruct (send_loop_key msg1 t1 ms db [] i m Hwf Hnd Hin) as [K1 G1].
  rewrite K1 in H1. destruct (send_check _ _ _ _); [|discriminate].
  assert (Hs : send m msg1 = Sent true) by (destruct (send m msg1) as [[]|]; simpl in H1; congruence).
  rewrite Hs, bool_decide_true in G1 by reflexivity. rewrite Hr in G1. simpl in G1.
  destruct (send_loop_key (new_message ti2 me2 ty2 so2 md2 t2) t2 ms _ [] i m
              (wf_send_loop msg1 t1 ms db [] Hwf) Hnd Hin) as [K2 _].
  rewrite K2. unfold send_check. rewrite G1. unfold rate_limited. simpl.
  rewrite (proj2 (Z.ltb_lt _ _) Ht), andb_false_r. reflexivity.
Qed.

(** C28: the rate limit only delays: when a method's row enables
    every call's type and its sends succeed, a schedule that contains one
    call past the row's [min_interval_seconds] eventually sends through
    the method. *)
Theorem send_alert_eventually_sent ms db i m r calls :
  Table.wf db -> List.NoDup (map fst ms) -> In (i, m) ms -> Table.get i db = Some r ->
  (forall msg, send m msg = Sent true) ->
  Forall (fun c => type_enabled (call_type c) r = true) calls ->
  Exists (fun c => rate_limited (call_now c) r = false) calls ->
  eventually ms (fun res => dict_get i res = Some true) db calls.
Proof.
  intros Hwf Hnd Hin Hr Hs Hty Hex. revert db Hwf Hr.
  induction Hty as [|c cs Hc _ IH]; intros db Hwf Hr; [inversion Hex|].
  destruct (send_loop_key (new_message (call_title c) (call_message c) (call_type c) (call_source c)
              (call_metadata c) (call_now c)) (call_now c) ms db [] i m Hwf Hnd Hin) as [K G].
  destruct (send_check (call_type c) (call_now c) i db) eqn:Ec.
  - apply eventually_now. unfold send_call, send_alert. rewrite K. simpl. rewrite Ec, Hs. reflexivity.
  - apply eventually_later. apply IH.
    + inversion Hex as [? ? Hn|? ? Hx]; subst; [|exact Hx].
      unfold send_check in Ec. rewrite Hr, Hc, Hn in Ec. discriminate.
    + apply wf_send_loop, Hwf.
    + unfold send_call, send_alert. rewrite G. simpl. rewrite Ec. exact Hr.
Qed.

(** a notification type other than info, success, warning and
    error reaches no method and changes no row. *)
Theorem send_alert_unknown_type ms db now ti me ntype so md :
  ~ In ntype ["info"; "success"; "warning"; "error"] ->
  send_alert ms db now ti me ntype so md = ([], db).
Proof.
  intros Hn. apply send_loop_disabled. intros i. unfold send_check.
  destruct (Table.get i db) as [r|]; [|reflexivity]. simpl. rewrite type_enabled_unknown by exact Hn.
  reflexivity.
Qed.

(** [load_methods] holds, for each id, the instance built from
    its row exactly when the row is enabled, its config loads and its type
    is registered. *)
Theorem load_methods_spec reg db i :
  Table.wf db ->
  dict_get i (load_methods reg db) =
  match Table.get i db with
  | Some r => if enabled r then loaded reg i r else None
  | None => None
  end.
Proof.
  intros [Hnd _]. unfold load_methods.
  rewrite fold_load_one by (apply NoDup_map_filter, Hnd). rewrite find_select_id by exact Hnd.
  change (Table.get i db) with (snd <$> find (fun p => Nat.eqb p.1 i) (Table.rows db)).
  destruct (find _ (Table.rows db)) as [[j r]|] eqn:E; simpl; [|reflexivity].
  apply find_Some_In in E as [_ Hj]. apply Nat.eqb_eq in Hj. cbn [fst] in Hj. subst j.
  destruct (enabled r); [|reflexivity]. destruct (loaded reg i r); reflexivity.
Qed.

(** C21: [reload_method] leaves the reloaded id as a fresh
    [load_methods] would, as long as the row, when enabled, names a
    registered type. *)
Theorem reload_matches_load reg db i ms ms' :
  Table.wf db ->
  (forall r, Table.get i db = Some r -> enabled r = true -> dict_get (row_type r) reg <> None) ->
  reload_method reg db i ms = Ok ms' -> dict_get i ms' = dict_get i (load_methods reg db).
Proof.
  intros Hwf Hreg Hrl. rewrite load_methods_spec by exact Hwf. unfold reload_method in Hrl.
  destruct (Table.get i db) as [r|] eqn:Er; [|injection Hrl as <-; apply dict_get_del_same].
  destruct (enabled r) eqn:En; [|injection Hrl as <-; apply dict_get_del_same].
  unfold loaded. destruct (load_config (row_config r)) as [cfg|]; [|discriminate].
  unfold create_method in *. destruct (dict_get (row_type r) reg) as [c|] eqn:Ec.
  - injection Hrl as <-. apply dict_get_set_same.
  - exfalso. exact (Hreg r eq_refl En Ec).
Qed.

(** C22: when an enabled row names a type that is not registered,
    [reload_method] keeps the instance loaded before, of whatever class,
    while a fresh [load_methods] would hold none for that id. *)
Theorem reload_keeps_stale reg db i ms r cfg :
  Table.wf db -> Table.get i db = Some r -> enabled r = true -> load_config (row_config r) = Some cfg ->
  dict_get (row_type r) reg = None ->
  reload_method reg db i ms = Ok ms /\ dict_get i (load_methods reg db) = None.
Proof.
  intros Hwf Hr He Hc Ht. rewrite load_methods_spec by exact Hwf.
  unfold reload_method, loaded, create_method. rewrite Hr, He, Hc, Ht. auto.
Qed.

End Manager.

(** C24: [register_method] keeps the registry well typed and files
    the class under its type, and every instance [create_method] then
    builds has the class of the type it was asked for. *)
Theorem register_method_typed reg c reg' t i nm cfg m :
  registry_ok reg -> register_method c reg = Ok reg' ->
  registry_ok reg' /\ dict_get (method_type c) reg' = Some c /\
  (create_method reg' t i nm cfg = Some m -> method_type (cls m) = t /\ method_id m = i).
Proof.
  intros [Hf Hnd]. unfold register_method. case_if; [discriminate|]. intros [= <-].
  apply String.eqb_neq in Eif.
  assert (Hok : registry_ok (dict_set (method_type c) c reg))
    by (split; [apply Forall_dict_set; [exact Hf|simpl; split; [reflexivity|congruence]]|apply NoDup_dict_set, Hnd]).
  split; [exact Hok|split; [apply dict_get_set_same|]].
  unfold create_method. destruct (dict_get t _) as [c'|] eqn:E; [|discriminate]. intros [= <-].
  simpl. split; [|reflexivity]. symmetry. exact (proj1 (dict_get_Forall _ _ _ _ (proj1 Hok) E)).
Qed.

(** [validate_config] accepts a configuration exactly when
    every required field is present with a true value. *)
Theorem validate_config_spec c cfg :
  (validate_config c cfg).1 = true <->
  Forall (fun f => exists v, dict_get f cfg = Some v /\ pytruthy v = true) (required_config_fields c).
Proof.
  unfold validate_config, missing_fields.
  assert (Hf : List.filter (fun f => match dict_get f cfg with Some v => negb (pytruthy v) | None => true end)
                 (required_config_fields c) = [] <->
               Forall (fun f => exists v, dict_get f cfg = Some v /\ pytruthy v = true) (required_config_fields c)).
  { induction (required_config_fields c) as [|f l IH]; simpl.
    - split; auto.
    - rewrite Forall_cons_iff, <- IH. destruct (dict_get f cfg) as [v|]; [destruct (pytruthy v) eqn:Ev|]; simpl.
      + split; [intros H; split; eauto|intros [_ H]; exact H].
      + split; [discriminate|intros [[v' [[= <-] Hv']] _]; congruence].
      + split; [discriminate|intros [[v' [[=] _]] _]]. }
  rewrite <- Hf. destruct (List.filter _ _); simpl; split; congruence.
Qed.

(** ** Witnesses *)

Definition ex_class : method_class :=
  mkClass "smtp" "Email (SMTP)" ["smtp_host"; "smtp_port"; "from_email"; "to_emails"] [].
Definition ex_reg : registry := [("smtp", ex_class)].
Definition ex_row : alert_row := mkRow "ops" "smtp" (Some "{}") true true false false true (Some 1000%Z) 300.
Definition ex_db : Table.t alert_row := Table.mk [(1%nat, ex_row)] 2.
Definition ex_method : method := mkMethod ex_class 1 "ops" (PDict []).
Definition ex_ms : list (nat * method) := [(1%nat, ex_method)].
Definition ex_send (m : method) (msg : alert_message) : send_outcome := Sent true.
Definition ex_json (s : string) : option pyval := Some (PDict []).

Lemma ex_db_wf : Table.wf ex_db.
Proof. split; [repeat constructor; simpl; tauto|repeat constructor; simpl; lia]. Qed.

Lemma send_alert_rate_limited_witness :
  dict_get 1%nat (send_alert ex_send ex_ms
    (send_alert ex_send ex_ms ex_db 2000 "Disk" "full" "info" None None).2 2100 "Disk" "still full" "info" None None).1
  = None.
Proof.
  apply (send_alert_rate_limited ex_send ex_ms ex_db 1 ex_method ex_row 2000 2100
           "Disk" "full" "info" None None "Disk" "still full" "info" None None).
  - exact ex_db_wf.
  - apply NoDup_ListNoDup, (bool_decide_unpack _). vm_compute. reflexivity.
  - left. reflexivity.
  - reflexivity.
  - vm_compute. reflexivity.
  - vm_compute. reflexivity.
Defined.

Lemma send_alert_unknown_type_witness :
  send_alert ex_send ex_ms ex_db 2000 "Disk" "full" "critical" None None = ([], ex_db).
Proof.
  apply (send_alert_unknown_type ex_send ex_ms ex_db 2000 "Disk" "full" "critical" None None).
  intros H. repeat destruct H as [H|H]; discriminate || exact H.
Defined.

Lemma load_methods_spec_witness :
  dict_get 1%nat (load_methods ex_json ex_reg ex_db) = Some ex_method.
Proof. rewrite (load_methods_spec ex_json ex_reg ex_db 1 ex_db_wf). vm_compute. reflexivity. Defined.

Lemma reload_matches_load_witness :
  dict_get 1%nat [(1%nat, ex_method)] = dict_get 1%nat (load_methods ex_json ex_reg ex_db).
Proof.
  apply (reload_matches_load ex_json ex_reg ex_db 1 [] [(1%nat, ex_method)] ex_db_wf).
  - intros r Hr _. vm_compute in Hr. injection Hr as <-. vm_compute. discriminate.
  - vm_compute. reflexivity.
Defined.

Definition ex_row_telegram : alert_row :=
  mkRow "ops" "telegram" None true true false false true None 300.
Definition ex_db_telegram : Table.t alert_row := Table.mk [(1%nat, ex_row_telegram)] 2.

Lemma reload_keeps_stale_witness :
  reload_method ex_json ex_reg ex_db_telegram 1 ex_ms = Ok ex_ms /\
  dict_get 1%nat (load_methods ex_json ex_reg ex_db_telegram) = None.
Proof.
  apply (reload_keeps_stale ex_json ex_reg ex_db_telegram 1 ex_ms ex_row_telegram (PDict []));
    [split; [repeat constructor; simpl; tauto|repeat constructor; simpl; lia]|reflexivity..].
Defined.

Definition ex_calls : list call :=
  [mkCall 1100 "Disk" "full" "info" None None; mkCall 1400 "Disk" "still full" "info" None None].

Lemma send_alert_eventually_sent_witness :
  eventually ex_send ex_ms (fun res => dict_get 1%nat res = Some true) ex_db ex_calls.
Proof.
  apply (send_alert_eventually_sent ex_send ex_ms ex_db 1 ex_method ex_row ex_calls ex_db_wf).
  - apply NoDup_ListNoDup, (bool_decide_unpack _). vm_compute. reflexivity.
  - left. reflexivity.
  - reflexivity.
  - reflexivity.
  - repeat constructor.
  - right. left. reflexivity.
Defined.

Definition ex_discord : method_class := mkClass "discord" "Discord Webhook" ["webhook_url"] [].

Lemma register_method_typed_witness :
  registry_ok (ex_reg ++ [("discord", ex_discord)])%list /\
  dict_get "discord" (ex_reg ++ [("discord", ex_discord)])%list = Some ex_discord /\
  (create_method (ex_reg ++ [("discord", ex_discord)])%list "discord" 2 "chat" (PDict []) =
     Some (mkMethod ex_discord 2 "chat" (PDict [])) ->
   method_type (cls (mkMethod ex_discord 2 "chat" (PDict []))) = "discord" /\
   method_id (mkMethod ex_discord 2 "chat" (PDict [])) = 2%nat).
Proof.
  apply (register_method_typed ex_reg ex_discord _ "discord" 2 "chat" (PDict [])); [|reflexivity].
  split; [repeat constructor; simpl; discriminate|].
  apply NoDup_ListNoDup, (bool_decide_unpack _). vm_compute. reflexivity.
Defined.

End Alerts.
