(* ===== verification/Smtp.v ===== *)
(** * Smtp: the SMTP alert method of [src/backend/alert_methods_smtp.py]

    [SMTPMethod] is the one [AlertMethod] subclass of the repository.  Its
    [send] reads the instance's config, builds the message (subject, plain
    body) and talks to the SMTP server through [smtplib]; its
    [test_connection] opens a connection, then calls [send].

    The server is a parameter: [reply c] is what the server does with
    command [c] (success, or the exception [smtplib] raises).  A session is
    a computation in a small state-and-error monad [M] whose state is the
    trace of the commands issued, so that what is sent, in which order,
    and on which connection, can be stated.  [try ... finally:
    server.quit()] is [finally_quit]: the [QUIT] is issued whatever
    happened, and an exception it raises replaces the outcome, as in
    Python.

    The Python string operations the method uses are written out on ASCII:
    [str.split(",")], [str.strip()], [str.title()], [int()] on a string,
    [str()] of a scalar, and [strftime("%Y-%m-%d %H:%M:%S UTC")] through
    [Calendar].  The HTML alternative of the e-mail ([_build_html_message])
    and the MIME encoding are not modelled: the [SENDMAIL] command carries
    the envelope, the subject and the plain body. *)

From S2P Require Import Prelude Table Calendar Alerts.
From stdpp Require Import pretty.

Local Open Scope string_scope.

Module Smtp.
Import Alerts.

(** ** Python string operations on ASCII *)

Definition char_code (c : Ascii.ascii) : nat := Ascii.nat_of_ascii c.

(** [str.isspace] on ASCII: tab to carriage return, the separators
    0x1c to 0x1f, and space. *)
Definition is_space (c : Ascii.ascii) : bool :=
  let n := char_code c in ((Nat.leb 9 n) && (Nat.leb n 13)) || ((Nat.leb 28 n) && (Nat.leb n 32)).

Fixpoint lstrip (s : string) : string :=
  match s with
  | String c s' => if is_space c then lstrip s' else s
  | EmptyString => EmptyString
  end.

Definition rev_str (s : string) : string := String.string_of_list_ascii (rev (String.list_ascii_of_string s)).

(** [str.strip()]. *)
Definition strip (s : string) : string := rev_str (lstrip (rev_str (lstrip s))).

(** [str.split(sep)] for a one-character separator. *)
Fixpoint split_on (sep : Ascii.ascii) (s : string) : list string :=
  match s with
  | EmptyString => [EmptyString]
  | String c s' =>
      if Ascii.eqb c sep then EmptyString :: split_on sep s'
      else match split_on sep s' with
           | w :: ws => String c w :: ws
           | [] => [String c EmptyString]
           end
  end.

Definition comma : Ascii.ascii := Ascii.ascii_of_nat 44.

(** [[e.strip() for e in to_emails.split(",") if e.strip()]]. *)
Definition parse_recipients (s : string) : list string :=
  List.filter (fun e => negb (String.eqb e "")) (map strip (split_on comma s)).

Definition is_lower (c : Ascii.ascii) : bool := let n := char_code c in (Nat.leb 97 n) && (Nat.leb n 122).
Definition is_upper (c : Ascii.ascii) : bool := let n := char_code c in (Nat.leb 65 n) && (Nat.leb n 90).
Definition to_upper (c : Ascii.ascii) : Ascii.ascii :=
  if is_lower c then Ascii.ascii_of_nat (char_code c - 32) else c.

(** [str.title()]: a letter after a letter is lowered, any other letter
    raised. *)
Fixpoint title_go (prev_cased : bool) (s : string) : string :=
  match s with
  | EmptyString => EmptyString
  | String c s' =>
      if is_lower c || is_upper c then
        String (if prev_cased then lower_ascii c else to_upper c) (title_go true s')
      else String c (title_go false s')
  end.

Definition title_case (s : string) : string := title_go false s.

(** [str.replace(a, b)] for single characters. *)
Fixpoint replace_char (a b : Ascii.ascii) (s : string) : string :=
  match s with
  | EmptyString => EmptyString
  | String c s' => String (if Ascii.eqb c a then b else c) (replace_char a b s')
  end.

(** [int(s)] on a string: surrounding whitespace, a sign, and digits that
    single underscores may separate; [None] is the [ValueError]. *)
Fixpoint digits_go (acc : Z) (after_digit : bool) (s : string) : option Z :=
  match s with
  | EmptyString => if after_digit then Some acc else None
  | String c s' =>
      let n := char_code c in
      if (Nat.leb 48 n) && (Nat.leb n 57) then digits_go (acc * 10 + Z.of_nat (n - 48))%Z true s'
      else if (Nat.eqb n 95) && after_digit then
        match s' with
        | String c' _ => let m := char_code c' in
                         if (Nat.leb 48 m) && (Nat.leb m 57) then digits_go acc false s' else None
        | EmptyString => None
        end
      else None
  end.

Definition parse_int (s : string) : option Z :=
  match strip s with
  | String c s' =>
      if Ascii.eqb c (Ascii.ascii_of_nat 45) then option_map Z.opp (digits_go 0 false s')
      else if Ascii.eqb c (Ascii.ascii_of_nat 43) then digits_go 0 false s'
      else digits_go 0 false (String c s')
  | EmptyString => None
  end.

(** [int(v)] on a config value; [None] is the exception. *)
Definition py_int (v : pyval) : option Z :=
  match v with
  | PInt z => Some z
  | PBool b => Some (if b then 1 else 0)%Z
  | PStr s => parse_int s
  | _ => None
  end.

(** [str(v)] of the scalars [_build_plain_message] prints. *)
Definition py_str (v : pyval) : option string :=
  match v with
  | PStr s => Some s
  | PInt z => Some (pretty z)
  | PBool b => Some (if b then "True" else "False")
  | _ => None
  end.

(** [timestamp.strftime("%Y-%m-%d %H:%M:%S UTC")], the timestamp in
    seconds since the epoch. *)
Definition strftime_utc (ts : Z) : string :=
  let days := (ts / 86400)%Z in
  let secs := (ts mod 86400)%Z in
  let '(y, m, d) := ord2ymd (ymd2ord 1970 1 1 + days) in
  pad 4 y ++ "-" ++ pad 2 m ++ "-" ++ pad 2 d ++ " " ++ pad 2 (secs / 3600) ++ ":" ++
  pad 2 ((secs mod 3600) / 60) ++ ":" ++ pad 2 (secs mod 60) ++ " UTC".

(** ** The method's class and its messages *)

(** [SMTPMethod]'s class attributes. *)
Definition smtp_class : method_class :=
  mkClass "smtp" "Email (SMTP)" ["smtp_host"; "smtp_port"; "from_email"; "to_emails"]
    [("smtp_user", PStr ""); ("smtp_password", PStr ""); ("use_tls", PBool true);
     ("use_ssl", PBool false); ("from_name", PStr "ECM Alerts")].

(** [TYPE_LABELS.get(t)]. *)
Definition type_label (t : string) : option string :=
  if String.eqb t "info" then Some "[INFO]"
  else if String.eqb t "success" then Some "[SUCCESS]"
  else if String.eqb t "warning" then Some "[WARNING]"
  else if String.eqb t "error" then Some "[ERROR]"
  else None.

Definition dashes : string := String.concat "" (repeat "-" 40).

Definition or_default (s d : string) : string := if String.eqb s "" then d else s.

(** One line of metadata, for the values of type str, int or bool. *)
Definition metadata_line (kv : string * pyval) : option string :=
  match py_str kv.2 with
  | Some v => Some (title_case (replace_char (Ascii.ascii_of_nat 95) (Ascii.ascii_of_nat 32) kv.1) ++ ": " ++ v)
  | None => None
  end.

Definition sent_from (m : alert_message) : string :=
  "Sent from Enhanced Channel Manager" ++
  match source m with Some s => if String.eqb s "" then "" else " - " ++ s | None => "" end.

(** [_build_plain_message]. *)
Definition build_plain_message (m : alert_message) : string :=
  String.concat nl
    ([default "[NOTIFICATION]" (type_label (notification_type m)) ++ " " ++ or_default (title m) "Notification";
      ""; message m] ++
     match metadata m with
     | [] => []
     | md => [""; dashes] ++ omap metadata_line md
     end ++
     [""; dashes; sent_from m; "Time: " ++ strftime_utc (timestamp m)]).

(** The [Subject] header. *)
Definition subject (m : alert_message) : string :=
  default "" (type_label (notification_type m)) ++ " " ++ or_default (title m) "ECM Notification".

(** ** The HTML body *)

(** [AlertMethod.get_emoji]; the strings are the UTF-8 bytes of the
    emoji. *)
Definition get_emoji (t : string) : string :=
  if String.eqb t "info" then "ℹ️"
  else if String.eqb t "success" then "✅"
  else if String.eqb t "warning" then "⚠️"
  else if String.eqb t "error" then "❌"
  else "📢".

(** [colors.get(message.notification_type, "#808080")]. *)
Definition html_color (t : string) : string :=
  if String.eqb t "info" then "#3B82F6"
  else if String.eqb t "success" then "#22C55E"
  else if String.eqb t "warning" then "#F59E0B"
  else if String.eqb t "error" then "#EF4444"
  else "#808080".

Definition dq : string := String (Ascii.ascii_of_nat 34) "".

(** [s.replace(chr(10), r)]. *)
Fixpoint replace_nl (r s : string) : string :=
  match s with
  | EmptyString => EmptyString
  | String c s' => (if Ascii.eqb c (Ascii.ascii_of_nat 10) then r else String c EmptyString) ++ replace_nl r s'
  end.

(** One [metadata-item] line, for the values of type str, int or bool. *)
Definition html_metadata_item (kv : string * pyval) : option string :=
  match py_str kv.2 with
  | Some v => Some ("<div class=" ++ dq ++ "metadata-item" ++ dq ++ "><strong>" ++
                    title_case (replace_char (Ascii.ascii_of_nat 95) (Ascii.ascii_of_nat 32) kv.1) ++
                    ":</strong> " ++ v ++ "</div>")
  | None => None
  end.

(** The first f-string of [_build_html_message]. *)
Definition html_head (m : alert_message) : string :=
  let color := html_color (notification_type m) in
  String.concat nl
    [""; "        <html>";
     "        <head>";
     "            <style>";
     "                body { font-family: -apple-system, BlinkMacSystemFont, 'Segoe UI', Roboto, sans-serif; }";
     "                .container { max-width: 600px; margin: 0 auto; padding: 20px; }";
     "                .header { background-color: " ++ color ++ "; color: white; padding: 15px; border-radius: 8px 8px 0 0; }";
     "                .header h2 { margin: 0; font-size: 18px; }";
     "                .body { background-color: #f8f9fa; padding: 20px; border: 1px solid #e9ecef; border-top: none; }";
     "                .message { color: #333; line-height: 1.6; }";
     "                .metadata { margin-top: 15px; padding-top: 15px; border-top: 1px solid #e9ecef; }";
     "                .metadata-item { font-size: 13px; color: #666; margin: 5px 0; }";
     "                .footer { font-size: 12px; color: #999; margin-top: 15px; padding-top: 15px; border-top: 1px solid #e9ecef; }";
     "            </style>";
     "        </head>";
     "        <body>";
     "            <div class=" ++ dq ++ "container" ++ dq ++ ">";
     "                <div class=" ++ dq ++ "header" ++ dq ++ ">";
     "                    <h2>" ++ get_emoji (notification_type m) ++ " " ++ or_default (title m) "Notification" ++ "</h2>";
     "                </div>";
     "                <div class=" ++ dq ++ "body" ++ dq ++ ">";
     "                    <div class=" ++ dq ++ "message" ++ dq ++ ">" ++ replace_nl "<br>" (message m) ++ "</div>";
     "        "].

(** The closing f-string. *)
Definition html_footer (m : alert_message) : string :=
  String.concat nl
    [""; "                    <div class=" ++ dq ++ "footer" ++ dq ++ ">";
     "                        " ++ sent_from m ++ "<br>";
     "                        " ++ strftime_utc (timestamp m);
     "                    </div>";
     "                </div>";
     "            </div>";
     "        </body>";
     "        </html>";
     "        "].

(** [_build_html_message]: no part of the message is escaped. *)
Definition build_html_message (m : alert_message) : string :=
  html_head m ++
  match metadata m with
  | [] => ""
  | md => "<div class=" ++ dq ++ "metadata" ++ dq ++ ">" ++ String.concat "" (omap html_metadata_item md) ++ "</div>"
  end ++
  html_footer m.

(** ** The recipients list *)

Definition has_char (c : Ascii.ascii) (s : string) : Prop := In c (String.list_ascii_of_string s).

Lemma lstrip_has_char c s : has_char c (lstrip s) -> has_char c s.
Proof.
  unfold has_char. induction s as [|c' s IH]; simpl; [tauto|].
  destruct (is_space c'); simpl; auto.
Qed.

Lemma rev_str_has_char c s : has_char c (rev_str s) <-> has_char c s.
Proof.
  unfold has_char, rev_str. rewrite String.list_ascii_of_string_of_list_ascii, <- in_rev. reflexivity.
Qed.

Lemma strip_has_char c s : has_char c (strip s) -> has_char c s.
Proof.
  unfold strip. intros H. apply lstrip_has_char.
  apply (proj1 (rev_str_has_char c (lstrip s))), lstrip_has_char, (proj1 (rev_str_has_char _ _)), H.
Qed.

Lemma split_on_no_sep sep s w : In w (split_on sep s) -> ~ has_char sep w.
Proof.
  unfold has_char. revert w. induction s as [|c s IH]; intros w; simpl.
  - intros [<-|[]]. simpl. tauto.
  - destruct (Ascii.eqb_spec c sep) as [->|Hne].
    + intros [<-|Hw]; [simpl; tauto|exact (IH w Hw)].
    + destruct (split_on sep s) as [|w' ws] eqn:E; simpl.
      * intros [<-|[]]. simpl. intros [He|[]]. congruence.
      * intros [<-|Hw].
        -- simpl. intros [He|Hin]; [congruence|]. apply (IH w'); [left; reflexivity|exact Hin].
        -- apply IH. right. exact Hw.
Qed.

(** Every recipient [send] extracts from a comma-separated string is
    non-empty and contains no comma. *)
Lemma parse_recipients_clean s e :
  In e (parse_recipients s) -> e <> "" /\ ~ has_char comma e.
Proof.
  unfold parse_recipients. rewrite filter_In, in_map_iff. intros [[w [<- Hw]] Hne].
  split; [intros He; rewrite He in Hne; discriminate|].
  intros Hc. exact (split_on_no_sep comma s w Hw (strip_has_char _ _ Hc)).
Qed.

(** ** The SMTP session *)

(** The exceptions [smtplib] and the socket layer raise. *)
Inductive smtp_error :=
| SMTPAuthenticationError
| SMTPConnectError
| SMTPException (msg : string)
| TimeoutError
| OtherError (msg : string).

(** The commands a session issues; the arguments are the values the code
    passes. *)
Inductive smtp_cmd :=
| Connect (ssl : bool) (host : pyval) (port : Z)
| StartTLS
| Login (user password : pyval)
| SendMail (from : pyval) (to : list string) (subj : string) (body : string)
| Quit.

(** The session monad: the trace of commands, and the exception. *)
Definition M (A : Type) : Type := list smtp_cmd -> result A smtp_error * list smtp_cmd.

Definition mret {A} (a : A) : M A := fun tr => (Ok a, tr).

Definition mbind {A B} (c : M A) (k : A -> M B) : M B :=
  fun tr => match c tr with
            | (Ok a, tr') => k a tr'
            | (Err e, tr') => (Err e, tr')
            end.

Declare Scope smtp_scope.
Notation "x <-- c ;; k" := (mbind c (fun x => k))
  (at level 100, c at next level, right associativity) : smtp_scope.
Notation "c ;;; k" := (mbind c (fun _ => k)) (at level 100, right associativity) : smtp_scope.
Local Open Scope smtp_scope.

Definition when (b : bool) (c : M unit) : M unit := if b then c else mret tt.

(** The config as a dict: [self.config.get(k, d)]; [None] when the config
    is not a dict ([AttributeError]). *)
Definition cfg_dict (c : pyval) : option (list (string * pyval)) :=
  match c with PDict d => Some d | _ => None end.

Definition cget (d : list (string * pyval)) (k : string) (dflt : pyval) : pyval :=
  default dflt (dict_get k d).

(** The recipients once [to_emails] is truthy: a string is split; a list
    must hold strings and a dict gives its keys ([", ".join] raises
    otherwise). *)
Definition recipients (v : pyval) : option (list string) :=
  match v with
  | PStr s => Some (parse_recipients s)
  | PList l => mapM (fun x => match x with PStr s => Some s | _ => None end) l
  | PDict d => Some (map fst d)
  | _ => None
  end.

Section Session.
(** What the server does with each command. *)
Variable reply : smtp_cmd -> result unit smtp_error.

Definition issue (c : smtp_cmd) : M unit := fun tr => (reply c, (tr ++ [c])%list).

(** [try: body finally: server.quit()]. *)
Definition finally_quit {A} (body : M A) : M A :=
  fun tr => let '(r, tr1) := body tr in
            let '(q, tr2) := issue Quit tr1 in
            (match q with Err e => Err e | Ok _ => r end, tr2).

(** The connection both [send] and [test_connection] open:
    [SMTP_SSL] or [SMTP], then inside [try ... finally: server.quit()]
    the [starttls()] when [use_tls and not use_ssl], the [login] when a
    user and a password are set, and [body]. *)
Definition open_session {A} (use_ssl use_tls : bool) (user password host : pyval) (port : Z)
    (body : M A) : M A :=
  issue (Connect use_ssl host port) ;;;
  finally_quit
    (when (use_tls && negb use_ssl) (issue StartTLS) ;;;
     when (pytruthy user && pytruthy password) (issue (Login user password)) ;;;
     body).

Definition cfg_ssl (d : list (string * pyval)) : bool := pytruthy (cget d "use_ssl" (PBool false)).
Definition cfg_tls (d : list (string * pyval)) : bool := pytruthy (cget d "use_tls" (PBool true)).

(** The part of [send] inside its [try]. *)
Definition send_session (d : list (string * pyval)) (host : pyval) (port : Z) (from : pyval)
    (rcpts : list string) (m : alert_message) : M unit :=
  open_session (cfg_ssl d) (cfg_tls d) (cget d "smtp_user" PNone) (cget d "smtp_password" PNone)
    host port (issue (SendMail from rcpts (subject m) (build_plain_message m))).

(** [SMTPMethod.send]: the exceptions before the [try] propagate
    ([Raised]); those inside are caught and give [False]. *)
Definition smtp_send (mt : method) (m : alert_message) : send_outcome * list smtp_cmd :=
  match cfg_dict (config mt) with
  | None => (Raised, [])
  | Some d =>
      let host := cget d "smtp_host" PNone in
      match py_int (cget d "smtp_port" (PInt 587)) with
      | None => (Raised, [])
      | Some port =>
          let from := cget d "from_email" PNone in
          let to := cget d "to_emails" PNone in
          if negb (pytruthy host && pytruthy from && pytruthy to) then (Sent false, [])
          else match recipients to with
               | None => (Raised, [])
               | Some [] => (Sent false, [])
               | Some rcpts =>
                   let '(r, tr) := send_session d host port from rcpts m [] in
                   (match r with Ok _ => Sent true | Err _ => Sent false end, tr)
               end
      end
  end.

(** The message of [test_connection]. *)
Definition test_message (now : Z) : alert_message :=
  new_message "Connection Test"
    "This is a test message from Enhanced Channel Manager. If you see this, your SMTP settings are configured correctly!"
    "info" (Some "ECM Alert Test") None now.

(** An inner [send], run to its end, inside the outer session: its
    commands go on the trace; an exception it raises propagates. *)
Definition embed (r : send_outcome * list smtp_cmd) : M bool :=
  fun tr => (match r.1 with Sent b => Ok b | Raised => Err (OtherError "TypeError") end,
             (tr ++ r.2)%list).

Definition host_port (host : pyval) (port : Z) : string := default "" (py_str host) ++ ":" ++ pretty port.

(** [SMTPMethod.test_connection]; [None] when an exception escapes. *)
Definition test_connection (mt : method) (now : Z) : option (bool * string) * list smtp_cmd :=
  match cfg_dict (config mt) with
  | None => (None, [])
  | Some d =>
      let host := cget d "smtp_host" PNone in
      match py_int (cget d "smtp_port" (PInt 587)) with
      | None => (None, [])
      | Some port =>
          if negb (pytruthy host) then (Some (false, "SMTP host not configured"), [])
          else if negb (pytruthy (cget d "from_email" PNone)) then (Some (false, "From email not configured"), [])
          else if negb (pytruthy (cget d "to_emails" PNone)) then (Some (false, "No recipients configured"), [])
          else
            let '(r, tr) := open_session (cfg_ssl d) (cfg_tls d) (cget d "smtp_user" PNone)
                              (cget d "smtp_password" PNone) host port
                              (embed (smtp_send mt (test_message now))) [] in
            (Some match r with
                  | Ok true => (true, "Test email sent successfully")
                  | Ok false => (false, "Connected but failed to send test email")
                  | Err SMTPAuthenticationError => (false, "Authentication failed - check username and password")
                  | Err SMTPConnectError => (false, "Could not connect to " ++ host_port host port)
                  | Err TimeoutError => (false, "Connection timed out to " ++ host_port host port)
                  | Err (SMTPException msg) | Err (OtherError msg) => (false, "Error: " ++ msg)
                  end, tr)
      end
  end.

End Session.

(** ** Lemmas: sessions only append to the trace *)

Create HintDb smtp.

Section Traces.
Variable reply : smtp_cmd -> result unit smtp_error.

(** [c] appends commands that all satisfy [Q]. *)
Definition appends {A} (Q : smtp_cmd -> Prop) (c : M A) : Prop :=
  forall tr, exists ext, (c tr).2 = (tr ++ ext)%list /\ Forall Q ext.

Lemma appends_ret {A} Q (a : A) : appends Q (mret a).
Proof. intros tr. exists []. rewrite app_nil_r. auto. Qed.

Lemma appends_issue Q c : Q c -> appends Q (issue reply c).
Proof. intros Hc tr. exists [c]. auto. Qed.

Lemma appends_when Q b c : appends Q c -> appends Q (when b c).
Proof. destruct b; [exact id|intros _; apply appends_ret]. Qed.

Lemma appends_bind {A B} Q (c : M A) (k : A -> M B) :
  appends Q c -> (forall a, appends Q (k a)) -> appends Q (mbind c k).
Proof.
  intros Hc Hk tr. unfold mbind. destruct (Hc tr) as [e1 [H1 F1]].
  destruct (c tr) as [[a|e] tr'] eqn:E; simpl in H1; subst tr'.
  - destruct (Hk a (tr ++ e1)%list) as [e2 [H2 F2]]. exists (e1 ++ e2)%list.
    rewrite H2, app_assoc. split; [reflexivity|apply Forall_app; auto].
  - exists e1. auto.
Qed.

#[local] Hint Resolve appends_ret appends_issue appends_when appends_bind : smtp.

Definition not_quit (c : smtp_cmd) : Prop := c <> Quit.

Lemma finally_quit_trace {A} (X : M A) tr : (finally_quit reply X tr).2 = ((X tr).2 ++ [Quit])%list.
Proof. unfold finally_quit. destruct (X tr). reflexivity. Qed.

Lemma open_session_connected {A} ssl tls u pw h pt (body : M A) tr :
  reply (Connect ssl h pt) = Ok tt ->
  open_session reply ssl tls u pw h pt body tr =
  finally_quit reply
    (when (tls && negb ssl) (issue reply StartTLS) ;;;
     when (pytruthy u && pytruthy pw) (issue reply (Login u pw)) ;;; body) (tr ++ [Connect ssl h pt])%list.
Proof. intros Hc. unfold open_session, mbind at 1, issue at 1. rewrite Hc. reflexivity. Qed.

(** A session the server let connect ends with its one [QUIT]. *)
Lemma open_session_quits {A} ssl tls u pw h pt (body : M A) :
  appends not_quit body -> reply (Connect ssl h pt) = Ok tt ->
  exists mid, (open_session reply ssl tls u pw h pt body []).2 = Connect ssl h pt :: mid ++ [Quit] /\
              Forall not_quit mid.
Proof.
  intros Hb Hc. rewrite open_session_connected, finally_quit_trace by exact Hc.
  assert (Hp : appends not_quit
    (when (tls && negb ssl) (issue reply StartTLS) ;;;
     when (pytruthy u && pytruthy pw) (issue reply (Login u pw)) ;;; body)).
  { repeat (apply appends_bind; intros; try apply appends_when); auto with smtp;
      apply appends_issue; discriminate. }
  destruct (Hp ([] ++ [Connect ssl h pt])%list) as [ext [He Fe]]. rewrite He. exists ext. auto.
Qed.

Lemma appends_any {A} (c : M A) : (forall Q, appends Q c) -> appends (fun _ => True) c.
Proof. intros H. apply H. Qed.

Lemma open_session_head {A} ssl tls u pw h pt (body : M A) :
  appends (fun _ => True) body ->
  exists rest, (open_session reply ssl tls u pw h pt body []).2 = Connect ssl h pt :: rest.
Proof.
  intros Hb. destruct (reply (Connect ssl h pt)) as [[]|e] eqn:Hc.
  - rewrite open_session_connected, finally_quit_trace by exact Hc.
    assert (Hp : appends (fun _ => True)
      (when (tls && negb ssl) (issue reply StartTLS) ;;;
       when (pytruthy u && pytruthy pw) (issue reply (Login u pw)) ;;; body)).
    { repeat (apply appends_bind; intros; try apply appends_when); auto with smtp. }
    destruct (Hp ([] ++ [Connect ssl h pt])%list) as [ext [He _]]. rewrite He. eauto.
  - unfold open_session, mbind at 1, issue at 1. rewrite Hc. eauto.
Qed.

Lemma bind_issue {A} c (k : unit -> M A) tr :
  mbind (issue reply c) k tr =
  match reply c with Ok u => k u (tr ++ [c])%list | Err e => (Err e, (tr ++ [c])%list) end.
Proof. unfold mbind, issue. destruct (reply c); reflexivity. Qed.

Lemma open_session_refused_result {A} ssl tls u pw h pt (body : M A) tr e :
  reply (Connect ssl h pt) = Err e ->
  open_session reply ssl tls u pw h pt body tr = (Err e, (tr ++ [Connect ssl h pt])%list).
Proof. intros Hc. unfold open_session. rewrite bind_issue, Hc. reflexivity. Qed.

Lemma open_session_refused {A} ssl tls u pw h pt (body : M A) tr e :
  reply (Connect ssl h pt) = Err e ->
  (open_session reply ssl tls u pw h pt body tr).2 = (tr ++ [Connect ssl h pt])%list.
Proof. intros Hc. unfold open_session. rewrite bind_issue, Hc. reflexivity. Qed.

(** With [use_tls] and not [use_ssl], a [LOGIN] is sent only after the
    server accepted [STARTTLS]. *)
Lemma open_session_tls_login {A} ssl tls u pw h pt (body : M A) lu lp :
  tls && negb ssl = true -> appends (fun _ => True) body ->
  In (Login lu lp) (open_session reply ssl tls u pw h pt body []).2 ->
  exists pre post, (open_session reply ssl tls u pw h pt body []).2 = (pre ++ Login lu lp :: post)%list /\
                   In StartTLS pre /\ reply StartTLS = Ok tt.
Proof.
  intros Htls Hb Hin. destruct (reply (Connect ssl h pt)) as [[]|e] eqn:Hc.
  2:{ rewrite (open_session_refused _ _ _ _ _ _ _ _ e Hc) in Hin. destruct Hin as [[=]|[]]. }
  rewrite open_session_connected, finally_quit_trace in * by exact Hc.
  replace (when (tls && negb ssl) (issue reply StartTLS)) with (issue reply StartTLS) in *
    by (rewrite Htls; reflexivity).
  rewrite bind_issue in *. destruct (reply StartTLS) as [[]|e] eqn:Hs.
  - assert (Hp : appends (fun _ => True)
      (when (pytruthy u && pytruthy pw) (issue reply (Login u pw)) ;;; body))
      by (apply appends_bind; intros; auto with smtp).
    destruct (Hp (([] ++ [Connect ssl h pt]) ++ [StartTLS])%list) as [ext [He _]].
    rewrite He in Hin |- *. simpl in Hin.
    destruct Hin as [[=]|[[=]|Hin]]. apply in_app_iff in Hin as [Hin|[[=]|[]]].
    apply in_split in Hin as (e1 & e2 & ->).
    exists ([Connect ssl h pt; StartTLS] ++ e1)%list, (e2 ++ [Quit])%list.
    split; [simpl; rewrite <- !app_assoc; reflexivity|split; [simpl; auto|reflexivity]].
  - simpl in Hin. destruct Hin as [[=]|[[=]|[[=]|[]]]].
Qed.

End Traces.

#[export] Hint Resolve appends_ret appends_issue appends_when appends_bind : smtp.

(** ** Theorems *)

(** C26: [_build_html_message] escapes nothing: a non-empty title
    and a non-empty source are copied into the HTML body as they are, so
    markup in an alert's title or source (which can come from playlist or
    channel names) is rendered by the mail client. *)
Theorem build_html_message_unescaped m :
  title m <> "" -> contains (title m) (build_html_message m) = true /\
  (forall s, source m = Some s -> s <> "" -> contains s (build_html_message m) = true).
Proof.
  intros Ht. unfold build_html_message. split.
  - apply contains_app_r. unfold html_head.
    eapply contains_concat_In; [do 18 right; left; reflexivity|].
    unfold or_default. rewrite (proj2 (String.eqb_neq _ _) Ht).
    do 3 apply contains_app_l. apply contains_app_r, contains_refl.
  - intros so Hs Hne. apply contains_app_l, contains_app_l. unfold html_footer.
    eapply contains_concat_In; [do 2 right; left; reflexivity|].
    apply contains_app_l, contains_app_r. unfold sent_from. rewrite Hs, (proj2 (String.eqb_neq _ _) Hne).
    apply contains_app_l, contains_app_l, contains_refl.
Qed.

(** C15: every connection [send] opens is closed: the trace of
    [send] is empty or starts with its one [CONNECT], and when the server
    accepted the connection it ends with its one [QUIT], whatever the
    server answered in between. *)
Theorem smtp_send_closes reply mt m :
  (smtp_send reply mt m).2 = [] \/
  exists ssl h p rest, (smtp_send reply mt m).2 = Connect ssl h p :: rest /\
    (reply (Connect ssl h p) = Ok tt ->
     exists mid, rest = (mid ++ [Quit])%list /\ Forall not_quit mid).
Proof.
  unfold smtp_send. destruct (cfg_dict (config mt)) as [d|]; [|auto].
  destruct (py_int _) as [port|]; [|auto]. destruct (negb _); [auto|].
  destruct (recipients _) as [[|r rs]|]; [auto| |auto]. right.
  assert (Hb : forall Q, Q (SendMail (cget d "from_email" PNone) (r :: rs) (subject m) (build_plain_message m)) ->
                 appends Q (issue reply (SendMail (cget d "from_email" PNone) (r :: rs) (subject m) (build_plain_message m))))
    by (intros; apply appends_issue; assumption).
  unfold send_session.
  destruct (open_session_head reply (cfg_ssl d) (cfg_tls d) (cget d "smtp_user" PNone) (cget d "smtp_password" PNone)
              (cget d "smtp_host" PNone) port _ (Hb (fun _ => True) I)) as [rest Hr].
  destruct (open_session _ _ _ _ _ _ _ _ []) as [res tr] eqn:E. simpl in Hr |- *. subst tr.
  do 4 eexists. split; [reflexivity|]. intros Hc.
  destruct (open_session_quits reply (cfg_ssl d) (cfg_tls d) (cget d "smtp_user" PNone) (cget d "smtp_password" PNone)
              (cget d "smtp_host" PNone) port _ (Hb not_quit ltac:(unfold not_quit; congruence)) Hc) as [mid [Hm Fm]].
  rewrite E in Hm. simpl in Hm. injection Hm as ->. eauto.
Qed.

Lemma let_pair_snd {A B C} (X : A * B) (f : A -> C) : (let '(r, tr) := X in (f r, tr)).2 = X.2.
Proof. destruct X. reflexivity. Qed.

(** when the config asks for TLS ([use_tls], the default, and
    not [use_ssl]), [send] sends the credentials only after the server
    accepted [STARTTLS]: a failed [STARTTLS] never falls back to a
    plaintext login. *)
Theorem smtp_send_starttls_before_login reply mt m d lu lp :
  cfg_dict (config mt) = Some d -> cfg_tls d = true -> cfg_ssl d = false ->
  In (Login lu lp) (smtp_send reply mt m).2 ->
  exists pre post, (smtp_send reply mt m).2 = (pre ++ Login lu lp :: post)%list /\
                   In StartTLS pre /\ reply StartTLS = Ok tt.
Proof.
  intros Hd Ht Hs. unfold smtp_send. rewrite Hd.
  destruct (py_int _) as [port|]; [|intros []]. destruct (negb _); [intros []|].
  destruct (recipients _) as [[|r rs]|]; [intros []| |intros []].
  rewrite !let_pair_snd. unfold send_session. intros Hin.
  apply open_session_tls_login; [rewrite Ht, Hs; reflexivity|auto with smtp|exact Hin].
Qed.

(** with [use_tls] and [use_ssl] both off, [send] logs in on
    the plaintext connection: the credentials cross the network
    unencrypted. *)
Theorem send_session_plaintext_login d host port from rcpts m :
  cfg_tls d = false -> cfg_ssl d = false ->
  pytruthy (cget d "smtp_user" PNone) = true -> pytruthy (cget d "smtp_password" PNone) = true ->
  (send_session (fun _ => Ok tt) d host port from rcpts m []).2 =
  [Connect false host port; Login (cget d "smtp_user" PNone) (cget d "smtp_password" PNone);
   SendMail from rcpts (subject m) (build_plain_message m); Quit].
Proof.
  intros Ht Hs Hu Hp. unfold send_session. rewrite Ht, Hs.
  rewrite open_session_connected, finally_quit_trace by reflexivity.
  unfold when. rewrite Hu, Hp. reflexivity.
Qed.

(** A server that accepts everything. *)
Definition accept_all (c : smtp_cmd) : result unit smtp_error := Ok tt.

Definition login_prelude (ssl tls : bool) (u pw : pyval) : list smtp_cmd :=
  ((if tls && negb ssl then [StartTLS] else []) ++
   (if pytruthy u && pytruthy pw then [Login u pw] else []))%list.

Lemma open_session_ok {A} ssl tls u pw h pt (body : M A) tr :
  open_session accept_all ssl tls u pw h pt body tr =
  let '(r, tr') := body (tr ++ [Connect ssl h pt] ++ login_prelude ssl tls u pw)%list in
  (r, (tr' ++ [Quit])%list).
Proof.
  unfold open_session, finally_quit, login_prelude. rewrite bind_issue. cbn [accept_all].
  unfold when. destruct (tls && negb ssl), (pytruthy u && pytruthy pw);
    rewrite ?bind_issue; cbn [accept_all]; unfold mbind, mret;
    rewrite <- ?app_assoc; simpl; rewrite <- ?app_assoc; simpl; reflexivity.
Qed.

Definition is_connect (c : smtp_cmd) : bool := match c with Connect _ _ _ => true | _ => false end.

Lemma login_prelude_no_connect ssl tls u pw : List.filter is_connect (login_prelude ssl tls u pw) = [].
Proof. unfold login_prelude. destruct (tls && negb ssl), (pytruthy u && pytruthy pw); reflexivity. Qed.

(** [test_connection] on a server that accepts everything
    reports success, but it has opened two connections: its own, which
    only logs in, and the one of the [send] it calls, which logs in again
    and sends the test e-mail. *)
Theorem test_connection_connects_twice mt now d port r rs :
  cfg_dict (config mt) = Some d -> py_int (cget d "smtp_port" (PInt 587)) = Some port ->
  pytruthy (cget d "smtp_host" PNone) = true -> pytruthy (cget d "from_email" PNone) = true ->
  pytruthy (cget d "to_emails" PNone) = true -> recipients (cget d "to_emails" PNone) = Some (r :: rs) ->
  (test_connection accept_all mt now).1 = Some (true, "Test email sent successfully") /\
  length (List.filter is_connect (test_connection accept_all mt now).2) = 2%nat.
Proof.
  intros Hd Hp Hh Hf Ht Hr. unfold test_connection. rewrite Hd, Hp, Hh, Hf, Ht. cbn [negb].
  rewrite open_session_ok. unfold embed at 1. unfold smtp_send. rewrite Hd, Hp, Hh, Hf, Ht, Hr. cbn [negb andb].
  unfold send_session. rewrite open_session_ok. cbn. split; [reflexivity|].
  do 4 (rewrite ?List.filter_app, ?login_prelude_no_connect; cbn [List.filter is_connect app length]).
  reflexivity.
Qed.

Lemma smtp_send_refused reply mt m e :
  (forall c, is_connect c = true -> reply c = Err e) -> (smtp_send reply mt m).1 <> Sent true.
Proof.
  intros Hc. unfold smtp_send.
  destruct (cfg_dict (config mt)) as [d|]; [|discriminate]. destruct (py_int _) as [port|]; [|discriminate].
  destruct (negb _); [discriminate|]. destruct (recipients _) as [[|r rs]|]; [discriminate| |discriminate].
  unfold send_session.
  rewrite (open_session_refused_result reply (cfg_ssl d) (cfg_tls d) _ _ (cget d "smtp_host" PNone) port _ [] e)
    by (apply Hc; reflexivity).
  discriminate.
Qed.

(** C23: composed with the SMTP method, [send_alert] never stamps
    a method whose server refuses the connection: the result is not a
    success and the row is unchanged, so the next alert is not held back
    by the rate limit. *)
Theorem smtp_refused_alert_not_stamped reply ms db i m r now ti me ty so md e :
  Table.wf db -> List.NoDup (map fst ms) -> In (i, m) ms -> Table.get i db = Some r ->
  (forall c, is_connect c = true -> reply c = Err e) ->
  dict_get i (send_alert (fun mt msg => (smtp_send reply mt msg).1) ms db now ti me ty so md).1 <> Some true /\
  Table.get i (send_alert (fun mt msg => (smtp_send reply mt msg).1) ms db now ti me ty so md).2 = Some r.
Proof.
  intros Hwf Hnd Hin Hr Hc. unfold send_alert.
  destruct (send_loop_key (fun mt msg => (smtp_send reply mt msg).1) (new_message ti me ty so md now) now ms db [] i m Hwf Hnd Hin) as [K G].
  rewrite K, G, Hr. pose proof (smtp_send_refused reply m (new_message ti me ty so md now) e Hc) as Hn.
  rewrite (bool_decide_false _ Hn), andb_false_r. split; [|reflexivity].
  destruct (send_check _ _ _ _); [|discriminate].
  destruct (smtp_send _ _ _).1 as [[]|]; simpl; congruence.
Qed.

(** ** Witnesses *)

Definition ex_d : list (string * pyval) :=
  [("smtp_host", PStr "mail.example.org"); ("smtp_port", PStr "587");
   ("from_email", PStr "ecm@example.org"); ("to_emails", PStr "ops@example.org, admin@example.org");
   ("smtp_user", PStr "ecm"); ("smtp_password", PStr "s3cret")].
Definition ex_mt : method := mkMethod smtp_class 1 "ops" (PDict ex_d).
Definition ex_msg : alert_message := new_message "Disk" "full" "warning" None None 1762698896.
Definition ex_plain_d : list (string * pyval) := ("use_tls", PBool false) :: ex_d.

Lemma smtp_send_starttls_before_login_witness :
  exists pre post, (smtp_send accept_all ex_mt ex_msg).2 = (pre ++ Login (PStr "ecm") (PStr "s3cret") :: post)%list /\
                   In StartTLS pre /\ accept_all StartTLS = Ok tt.
Proof.
  apply (smtp_send_starttls_before_login accept_all ex_mt ex_msg ex_d); [reflexivity..|].
  vm_compute. right. right. left. reflexivity.
Defined.

Lemma send_session_plaintext_login_witness :
  (send_session (fun _ => Ok tt) ex_plain_d (PStr "mail.example.org") 587 (PStr "ecm@example.org")
     ["ops@example.org"] ex_msg []).2 =
  [Connect false (PStr "mail.example.org") 587; Login (PStr "ecm") (PStr "s3cret");
   SendMail (PStr "ecm@example.org") ["ops@example.org"] (subject ex_msg) (build_plain_message ex_msg); Quit].
Proof. apply (send_session_plaintext_login ex_plain_d); reflexivity. Defined.

Lemma test_connection_connects_twice_witness :
  (test_connection accept_all ex_mt 1762698896).1 = Some (true, "Test email sent successfully") /\
  length (List.filter is_connect (test_connection accept_all ex_mt 1762698896).2) = 2%nat.
Proof.
  apply (test_connection_connects_twice ex_mt 1762698896 ex_d 587 "ops@example.org" ["admin@example.org"]);
    vm_compute; reflexivity.
Defined.

Definition refuse_connect (c : smtp_cmd) : result unit smtp_error :=
  if is_connect c then Err SMTPConnectError else Ok tt.
Definition ex_rows : Table.t alert_row := Table.mk [(1%nat, ex_row)] 2.

Lemma smtp_refused_alert_not_stamped_witness :
  dict_get 1%nat (send_alert (fun mt msg => (smtp_send refuse_connect mt msg).1) [(1%nat, ex_mt)] ex_rows
                    2000 "Disk" "full" "error" None None).1 <> Some true /\
  Table.get 1 (send_alert (fun mt msg => (smtp_send refuse_connect mt msg).1) [(1%nat, ex_mt)] ex_rows
                 2000 "Disk" "full" "error" None None).2 = Some ex_row.
Proof.
  apply (smtp_refused_alert_not_stamped refuse_connect [(1%nat, ex_mt)] ex_rows 1 ex_mt ex_row 2000
           "Disk" "full" "error" None None SMTPConnectError).
  - split; [repeat constructor; simpl; tauto|repeat constructor; simpl; lia].
  - apply NoDup_ListNoDup, (bool_decide_unpack _). vm_compute. reflexivity.
  - left. reflexivity.
  - reflexivity.
  - intros [] Hc; try discriminate. reflexivity.
Defined.

Definition ex_markup : alert_message :=
  new_message "<img src=x onerror=alert(1)>" "full" "error" (Some "<b>M3U</b>") None 1762698896.

Lemma build_html_message_unescaped_witness :
  contains "<img src=x onerror=alert(1)>" (build_html_message ex_markup) = true /\
  (forall s, source ex_markup = Some s -> s <> "" -> contains s (build_html_message ex_markup) = true).
Proof. apply (build_html_message_unescaped ex_markup). discriminate. Defined.

End Smtp.
