(* ===== verification/Digest.v ===== *)
(** * Digest: the M3U change digest task of [src/backend/tasks/m3u_digest.py]

    [M3UDigestTask.execute] reads the digest settings (a singleton row of
    [M3UDigestSettings], created with defaults on first use by
    [get_or_create_digest_settings]), selects the [M3UChangeLog] rows since
    the last digest (or since one [frequency] period ago), filters them by
    account and by kind, applies the threshold, and sends the digest
    through [_send_digest_email]; on success it stamps [last_digest_at].
    [send_immediate_digest] runs it for one account when the frequency is
    ["immediate"].

    - The settings and the change log are [Table.t]s; their columns are
      those the code reads (the models are not in the repository).
    - The digest's subject and bodies come from [M3UDigestTemplate], which
      is not in the repository: they are parameters ([render_plain],
      [render_html], [get_subject]).
    - [_send_digest_email] is written whole ([send_digest_email_body]):
      attribute lookups raise [AttributeError] on a name the object lacks
      ([attr_error], [method_getattr]).  [alert_manager.get_methods()]
      raises, since [AlertMethodManager] defines no such method
      ([manager_attrs]); past it, [m.enabled] would raise on the first
      SMTP instance, which has no such attribute.  The [except] turns
      either into [False].  The [to_emails] override and its restoring
      [finally] act on the instance the global manager holds.
    - [_send_custom_email] is written in the SMTP session monad of [Smtp];
      unlike [SMTPMethod.send] it has no [finally: server.quit()].
    - [TaskResult]'s timestamps are left out; times are seconds. *)

From S2P Require Import Prelude Table Alerts Smtp.
From stdpp Require Import pretty sorting.

Local Open Scope string_scope.
Local Open Scope smtp_scope.

Module Digest.
Import Alerts Smtp.

(** The columns of [M3UDigestSettings] the task reads. *)
Record settings := mkSettings {
  enabled : bool;
  frequency : string;
  email_recipients : list string;
  include_group_changes : bool;
  include_stream_changes : bool;
  min_changes_threshold : Z;
  last_digest_at : option Z
}.

(** The columns of [M3UChangeLog] the task reads. *)
Record change := mkChange {
  change_time : Z;
  m3u_account_id : nat;
  change_type : string
}.

(** [TaskResult], without its timestamps. *)
Record task_result := mkResult {
  success : bool;
  rmessage : string;
  total_items : nat;
  success_count : nat;
  error : option string
}.

Definition result_of (ok : bool) (msg : string) (n : nat) : task_result := mkResult ok msg n 0 None.

(** [get_or_create_digest_settings]: the first row, or a new one with the
    defaults. *)
Definition default_settings : settings := mkSettings false "daily" [] true true 1 None.

Definition get_or_create (st : Table.t settings) : nat * settings * Table.t settings :=
  match Table.first (fun _ _ => true) st with
  | Some (i, s) => (i, s, st)
  | None => let '(i, st') := Table.insert default_settings st in (i, default_settings, st')
  end.

(** [M3UDigestTask.get_config]: the settings, created on first use. *)
Definition get_config (st : Table.t settings) : settings * Table.t settings :=
  let '(_, s, st') := get_or_create st in (s, st').

(** [get_frequency_delta], in seconds. *)
Definition get_frequency_delta (f : string) : Z :=
  if String.eqb f "immediate" then 300
  else if String.eqb f "hourly" then 3600
  else if String.eqb f "daily" then 86400
  else if String.eqb f "weekly" then 604800
  else 86400.

(** [M3UDigestTask.update_config]: each key present is assigned. *)
Record config_update := mkUpdate {
  u_enabled : option bool;
  u_frequency : option string;
  u_email_recipients : option (list string);
  u_include_group_changes : option bool;
  u_include_stream_changes : option bool;
  u_min_changes_threshold : option Z
}.

Definition apply_config (u : config_update) (s : settings) : settings :=
  mkSettings (default (enabled s) (u_enabled u)) (default (frequency s) (u_frequency u))
    (default (email_recipients s) (u_email_recipients u))
    (default (include_group_changes s) (u_include_group_changes u))
    (default (include_stream_changes s) (u_include_stream_changes u))
    (default (min_changes_threshold s) (u_min_changes_threshold u)) (last_digest_at s).

Definition update_config (u : config_update) (st : Table.t settings) : Table.t settings :=
  let '(i, _, st') := get_or_create st in Table.update i (apply_config u) st'.

Definition set_last_digest (t : Z) (s : settings) : settings :=
  mkSettings (enabled s) (frequency s) (email_recipients s) (include_group_changes s)
    (include_stream_changes s) (min_changes_threshold s) (Some t).

(** The settings table of a database the task runs on: well formed, with
    at most one row. *)
Definition settings_ok (st : Table.t settings) : Prop := Table.wf st /\ (length (Table.rows st) <= 1)%nat.

(** ** Selecting the changes *)

(** [order_by(M3UChangeLog.change_time.desc())]. *)
Definition time_ge (a b : change) : Prop := (change_time b <= change_time a)%Z.
#[export] Instance time_ge_dec : RelDecision time_ge := fun a b => decide (change_time b <= change_time a)%Z.

(** [if m3u_account_id:]: an id of [0] is false and filters nothing. *)
Definition account_filter (acct : option nat) (c : change) : bool :=
  match acct with
  | Some (S _ as a) => Nat.eqb (m3u_account_id c) a
  | _ => true
  end.

Definition is_group_change (c : change) : bool :=
  String.eqb (change_type c) "group_added" || String.eqb (change_type c) "group_removed".
Definition is_stream_change (c : change) : bool :=
  String.eqb (change_type c) "streams_added" || String.eqb (change_type c) "streams_removed".

Definition select_changes (s : settings) (since : Z) (acct : option nat) (log : Table.t change) : list change :=
  let cs := merge_sort time_ge
              (map snd (Table.select (fun _ c => (since <=? change_time c)%Z && account_filter acct c) log)) in
  let cs := if include_group_changes s then cs else List.filter (fun c => negb (is_group_change c)) cs in
  if include_stream_changes s then cs else List.filter (fun c => negb (is_stream_change c)) cs.

(** ** Sending *)

(** The attributes [AlertMethodManager] defines in [alert_methods.py]. *)
Definition manager_attrs : list string := ["_methods"; "load_methods"; "reload_method"; "send_alert"].

Definition is_sendmail (c : smtp_cmd) : bool := match c with SendMail _ _ _ _ => true | _ => false end.

Section Task.
(** [M3UDigestTemplate], not in the repository. *)
Variable render_plain : list change -> Z -> string.
Variable render_html : list change -> Z -> string.
Variable get_subject : list change -> string.
(** What the SMTP server answers. *)
Variable reply : smtp_cmd -> result unit smtp_error.
(** The alert side: [json.loads], the registry and the [AlertMethod] rows. *)
Variable json_loads : string -> option pyval.
Variable reg : registry.
Variable adb : Table.t alert_row.

(** [_send_custom_email] on the first enabled SMTP method's config. *)
Definition send_custom_email (d : list (string * pyval)) (rcpts : list string) (subj plain : string)
    : bool * list smtp_cmd :=
  match py_int (cget d "smtp_port" (PInt 587)) with
  | None => (false, [])
  | Some port =>
      let host := cget d "smtp_host" PNone in
      let from := cget d "from_email" PNone in
      if negb (pytruthy host && pytruthy from) then (false, [])
      else
        let use_ssl := pytruthy (cget d "use_ssl" (PBool false)) in
        let use_tls := pytruthy (cget d "use_tls" (PBool true)) in
        let user := cget d "smtp_user" PNone in
        let password := cget d "smtp_password" PNone in
        let sess :=
          issue reply (Connect use_ssl host port) ;;;
          when (negb use_ssl && use_tls) (issue reply StartTLS) ;;;
          when (pytruthy user && pytruthy password) (issue reply (Login user password)) ;;;
          issue reply (SendMail from rcpts subj plain) ;;;
          issue reply Quit in
        let '(r, tr) := sess [] in
        (match r with Ok _ => true | Err _ => false end, tr)
  end.

(** The data attributes of an [AlertMethod] instance: the three
    [__init__] assigns and the class attributes of its class. *)
Definition instance_dict (m : method) : list (string * pyval) :=
  [("method_id", PInt (Z.of_nat (method_id m))); ("name", PStr (name m)); ("config", config m);
   ("method_type", PStr (method_type (cls m))); ("display_name", PStr (display_name (cls m)));
   ("required_config_fields", PList (map PStr (required_config_fields (cls m))));
   ("optional_config_fields", PDict (optional_config_fields (cls m)))].

(** [m.a]: the attribute, or [AttributeError]. *)
Definition method_getattr (m : method) (a : string) : result pyval string :=
  match dict_get a (instance_dict m) with Some v => Ok v | None => Err "AttributeError" end.

(** [[m for m in ms if m.method_type == "smtp" and m.enabled]], element
    by element, [and] short-circuiting; the instances keep their keys in
    the manager's dict. *)
Fixpoint smtp_methods (ms : list (nat * method)) : result (list (nat * method)) string :=
  match ms with
  | [] => Ok []
  | (i, m) :: ms' =>
      t <-? method_getattr m "method_type" ;;
      keep <-? (if match t with PStr s => String.eqb s "smtp" | _ => false end
                then e <-? method_getattr m "enabled" ;; Ok (pytruthy e)
                else Ok false) ;;
      rest <-? smtp_methods ms' ;;
      Ok (if keep then (i, m) :: rest else rest)
  end.

(** [smtp_method.config[...] = v] on the instance the manager holds
    under key [i]: the manager's dict and the digest share it. *)
Definition set_config (i : nat) (d : list (string * pyval)) (ms : list (nat * method)) : list (nat * method) :=
  match dict_get i ms with
  | Some m => dict_set i (mkMethod (cls m) (method_id m) (name m) (PDict d)) ms
  | None => ms
  end.

(** The [try] block of [_send_digest_email] on the manager's instances
    [ms]: [alert_manager.get_methods()] (the loaded instances, were it
    defined), the SMTP filter, [to_emails] overridden on the shared
    instance, [_send_custom_email], and the [finally] that restores the
    original value ([None] when there was none).  The result, the
    instances after it, and the SMTP session. *)
Definition send_digest_email_body (ms : list (nat * method)) (rcpts : list string) (subj plain : string)
    : result (bool * list (nat * method) * list smtp_cmd) string :=
  _ <-? attr_error manager_attrs "get_methods" ;;
  sm <-? smtp_methods ms ;;
  match sm with
  | [] => Ok (false, ms, [])
  | (i, m) :: _ =>
      match config m with
      | PDict d =>
          let original := cget d "to_emails" PNone in
          let d1 := dict_set "to_emails" (PList (map PStr rcpts)) d in
          let '(ok, tr) := send_custom_email d1 rcpts subj plain in
          Ok (ok, set_config i (dict_set "to_emails" original d1) ms, tr)
      | _ => Err "AttributeError"
      end
  end.

(** [_send_digest_email]: [get_alert_manager()] loads the global manager
    when there is none yet; any exception of the body is caught by the
    [except] and gives [False].  The new global manager is returned. *)
Definition send_digest_email (g : option (list (nat * method))) (rcpts : list string) (subj plain : string)
    : bool * option (list (nat * method)) :=
  let ms := get_alert_manager json_loads reg adb g in
  match send_digest_email_body ms rcpts subj plain with
  | Ok (ok, ms', _) => (ok, Some ms')
  | Err _ => (false, Some ms)
  end.

(** [M3UDigestTask.execute(force, m3u_account_id)] at time [now], on the
    settings table and the global alert manager. *)
Definition execute (force : bool) (acct : option nat) (now : Z) (log : Table.t change)
    (st : Table.t settings) (g : option (list (nat * method)))
    : task_result * Table.t settings * option (list (nat * method)) :=
  let '(i, s, st1) := get_or_create st in
  if negb (enabled s) && negb force then (result_of true "M3U digest is disabled" 0, st1, g)
  else match email_recipients s with
  | [] => (result_of false "No email recipients configured for M3U digest" 0, st1, g)
  | rcpts =>
      let since := default (now - get_frequency_delta (frequency s))%Z (last_digest_at s) in
      let cs := select_changes s since acct log in
      let n := length cs in
      if (Z.of_nat n <? min_changes_threshold s)%Z && negb force then
        (result_of true ("No digest sent: only " ++ pretty n ++ " changes (threshold: " ++
                         pretty (min_changes_threshold s) ++ ")") n, st1, g)
      else match cs with
      | [] => (result_of true "No changes to report since last digest" 0, st1, g)
      | _ =>
          let '(ok, g') := send_digest_email g rcpts (get_subject cs) (render_plain cs since) in
          if ok then
            (mkResult true ("Sent M3U digest with " ++ pretty n ++ " changes to " ++
                            pretty (length rcpts) ++ " recipients") n n None,
             Table.update i (set_last_digest now) st1, g')
          else (mkResult false "Failed to send M3U digest email" n 0 (Some "Email sending failed"), st1, g')
      end
  end.

(** [send_immediate_digest(m3u_account_id)]. *)
Definition send_immediate_digest (acct : nat) (now : Z) (log : Table.t change)
    (st : Table.t settings) (g : option (list (nat * method)))
    : task_result * Table.t settings * option (list (nat * method)) :=
  let '(_, s, st1) := get_or_create st in
  if negb (enabled s) || negb (String.eqb (frequency s) "immediate")
  then (result_of true "Immediate digest not enabled" 0, st1, g)
  else execute false (Some acct) now log st1 g.

(** ** Lemmas *)

Lemma manager_get_methods_missing : attr_error manager_attrs "get_methods" = Err "AttributeError".
Proof. vm_compute. reflexivity. Qed.

(** [alert_manager.get_methods()] raises before any instance is read. *)
Lemma send_digest_email_raises ms rcpts subj plain :
  send_digest_email_body ms rcpts subj plain = Err "AttributeError".
Proof. unfold send_digest_email_body. rewrite manager_get_methods_missing. reflexivity. Qed.

(** Past [get_methods], the filter raises on the first SMTP instance:
    [AlertMethod] instances have no [enabled] attribute. *)
Lemma smtp_methods_enabled_missing ms :
  Exists (fun im => String.eqb (method_type (cls im.2)) "smtp" = true) ms ->
  smtp_methods ms = Err "AttributeError".
Proof.
  assert (Ht : forall m, method_getattr m "method_type" = Ok (PStr (method_type (cls m)))) by reflexivity.
  assert (He : forall m, method_getattr m "enabled" = Err "AttributeError") by reflexivity.
  induction ms as [|[i m] ms IH]; intros Hex; [inversion Hex|].
  cbn [smtp_methods]. rewrite Ht. cbn [rbind].
  destruct (String.eqb (method_type (cls m)) "smtp") eqn:Hs.
  - rewrite He. reflexivity.
  - cbn [rbind]. rewrite IH; [reflexivity|]. inversion Hex as [? ? Hh|? ? Hl]; subst; [cbn in Hh; congruence|exact Hl].
Qed.

Lemma send_digest_email_false g rcpts subj plain :
  send_digest_email g rcpts subj plain = (false, Some (get_alert_manager json_loads reg adb g)).
Proof. unfold send_digest_email. rewrite send_digest_email_raises. reflexivity. Qed.

Lemma get_or_create_one st i s st1 :
  settings_ok st -> get_or_create st = (i, s, st1) -> Table.wf st1 /\ Table.rows st1 = [(i, s)].
Proof.
  intros [Hwf Hlen]. unfold get_or_create, Table.first.
  destruct (Table.rows st) as [|[j x] [|r l]] eqn:R; [| |cbn in Hlen; lia].
  - cbn [find]. intros [= <- <- <-]. split; [apply Table.wf_insert, Hwf|]. cbn. rewrite R. reflexivity.
  - cbn [find fst snd]. intros [= <- <- <-]. split; [exact Hwf|exact R].
Qed.

Lemma update_one i f (s : settings) st : Table.rows st = [(i, s)] -> Table.rows (Table.update i f st) = [(i, f s)].
Proof. intros R. cbn. rewrite R. cbn. rewrite Nat.eqb_refl. reflexivity. Qed.

Lemma one_row_update i (f : settings -> settings) (s : settings) (st : Table.t settings) :
  Table.wf st -> Table.rows st = [(i, s)] -> Table.wf (Table.update i f st) /\ length (Table.rows (Table.update i f st)) = 1%nat.
Proof. intros Hwf R. split; [apply Table.wf_update, Hwf|rewrite (update_one _ _ s _ R); reflexivity]. Qed.

Lemma get_or_create_found (st : Table.t settings) i s : Table.rows st = [(i, s)] -> get_or_create st = (i, s, st).
Proof. intros R. unfold get_or_create, Table.first. rewrite R. reflexivity. Qed.

(** [execute] writes the settings table only through [last_digest_at]
    of the row [get_or_create] gives. *)
Lemma execute_settings force acct now log st g i s st1 :
  get_or_create st = (i, s, st1) ->
  (execute force acct now log st g).1.2 = st1 \/
  exists f, (execute force acct now log st g).1.2 = Table.update i f st1.
Proof.
  intros E. unfold execute. rewrite E.
  repeat case_if; cbn [fst snd]; auto.
  destruct (send_digest_email _ _ _ _) as [[] g']; cbn [fst snd]; eauto.
Qed.


(** ** Theorems *)

(** C14: [execute] never sends a digest: whatever the settings,
    the change log, the alert rows and the SMTP server, it reports no item
    sent, never stamps [last_digest_at], and leaves the global manager's
    instances as loaded (the [to_emails] override is never reached),
    because [alert_manager.get_methods()] raises [AttributeError]:
    [AlertMethodManager] defines no such method. *)
Theorem execute_never_sends force acct now log st g :
  success_count (execute force acct now log st g).1.1 = 0%nat /\
  (execute force acct now log st g).1.2 = (get_or_create st).2 /\
  ((execute force acct now log st g).2 = g \/
   (execute force acct now log st g).2 = Some (get_alert_manager json_loads reg adb g)).
Proof.
  unfold execute. destruct (get_or_create st) as [[i s] st1].
  destruct (negb (enabled s) && negb force); [cbn; auto|].
  destruct (email_recipients s) as [|r rs]; [cbn; auto|].
  destruct (_ && negb force); [cbn; auto|].
  destruct (select_changes _ _ _ _) as [|c cs]; [cbn; auto|].
  rewrite send_digest_email_false. cbn. auto.
Qed.

(** the changes of a digest are exactly the logged changes
    from [since] on that pass the account filter and the kind filters of
    the settings, newest first. *)
Theorem select_changes_spec s since acct log c :
  (In c (select_changes s since acct log) <->
    (exists i, In (i, c) (Table.rows log)) /\ (since <= change_time c)%Z /\ account_filter acct c = true /\
    (include_group_changes s = true \/ is_group_change c = false) /\
    (include_stream_changes s = true \/ is_stream_change c = false)) /\
  Sorted time_ge (select_changes s since acct log).
Proof.
  unfold select_changes.
  assert (Hbase : In c (merge_sort time_ge (map snd (Table.select (fun _ c => (since <=? change_time c)%Z && account_filter acct c) log))) <->
                  (exists i, In (i, c) (Table.rows log)) /\ (since <= change_time c)%Z /\ account_filter acct c = true).
  { rewrite <- list_elem_of_In, (merge_sort_Permutation time_ge _), list_elem_of_In, in_map_iff. split.
    - intros [[i x] [<- Hx]]. apply Table.In_select in Hx as [Hx Hp]. apply andb_true_iff in Hp as [Ht Ha].
      apply Z.leb_le in Ht. eauto.
    - intros [[i Hx] [Ht Ha]]. exists (i, c). split; [reflexivity|]. apply Table.In_select.
      split; [exact Hx|]. apply andb_true_iff. split; [apply Z.leb_le, Ht|exact Ha]. }
  assert (Hsort : Sorted time_ge (merge_sort time_ge (map snd (Table.select (fun _ c => (since <=? change_time c)%Z && account_filter acct c) log)))).
  { apply Sorted_merge_sort. intros a b. unfold time_ge. lia. }
  assert (Htr : Transitive time_ge) by (intros ???; unfold time_ge; lia).
  destruct (include_group_changes s), (include_stream_changes s); split;
    rewrite ?filter_In, ?Hbase; repeat apply Sorted_filter; auto;
    destruct (is_group_change c), (is_stream_change c); simpl; intuition congruence.
Qed.

(** C20: [_send_custom_email] leaves the connection open when the
    server rejects the message: after a [CONNECT] it accepted, a refused
    [SENDMAIL] ends the session with no [QUIT] (compare [smtp_send_closes]
    for [SMTPMethod.send], whose [finally] closes it). *)
Theorem send_custom_email_leaks d rcpts subj plain port e :
  py_int (cget d "smtp_port" (PInt 587)) = Some port ->
  pytruthy (cget d "smtp_host" PNone) && pytruthy (cget d "from_email" PNone) = true ->
  (forall c, reply c = (if is_sendmail c then Err e else Ok tt)) ->
  (send_custom_email d rcpts subj plain).1 = false /\
  hd_error (send_custom_email d rcpts subj plain).2 =
    Some (Connect (pytruthy (cget d "use_ssl" (PBool false))) (cget d "smtp_host" PNone) port) /\
  ~ In Quit (send_custom_email d rcpts subj plain).2.
Proof.
  intros Hp Hh Hr. unfold send_custom_email. rewrite Hp, Hh. cbn [negb].
  unfold when. destruct (negb _ && _), (pytruthy (cget d "smtp_user" PNone) && _);
    unfold issue, mbind, mret; rewrite !Hr; cbn [is_sendmail]; simpl;
    (split; [reflexivity|split; [reflexivity|]]); intros H; repeat destruct H as [H|H]; solve [discriminate|destruct H].
Qed.

(** C25: the digest settings stay a singleton: on a table with at
    most one row, [get_config], [update_config], [execute] and
    [send_immediate_digest] leave exactly one, well-formed. *)
Theorem digest_settings_singleton st u force acct acct' now log g :
  settings_ok st ->
  let one st' := Table.wf st' /\ length (Table.rows st') = 1%nat in
  one (get_config st).2 /\ one (update_config u st) /\
  one (execute force acct now log st g).1.2 /\ one (send_immediate_digest acct' now log st g).1.2.
Proof.
  intros Hok one. destruct (get_or_create st) as [[i s] st1] eqn:E.
  destruct (get_or_create_one st i s st1 Hok E) as [Hwf R].
  assert (H1 : one st1) by (split; [exact Hwf|rewrite R; reflexivity]).
  assert (Hx : forall t f a g', get_or_create t = (i, s, st1) -> one (execute f a now log t g').1.2).
  { intros t f a g' Et. destruct (execute_settings f a now log t g' i s st1 Et) as [->|[h ->]];
      [exact H1|exact (one_row_update i h s st1 Hwf R)]. }
  unfold get_config, update_config, send_immediate_digest. rewrite E.
  split; [exact H1|split; [exact (one_row_update i _ s st1 Hwf R)|split; [exact (Hx st force acct g E)|]]].
  case_if; [exact H1|]. exact (Hx st1 false (Some acct') g (get_or_create_found st1 i s R)).
Qed.

End Task.

(** ** Witnesses *)

Definition reject_mail (c : smtp_cmd) : result unit smtp_error :=
  if is_sendmail c then Err (SMTPException "550") else Ok tt.

Lemma send_custom_email_leaks_witness :
  (send_custom_email reject_mail ex_d ["ops@example.org"] "M3U digest" "3 changes").1 = false /\
  hd_error (send_custom_email reject_mail ex_d ["ops@example.org"] "M3U digest" "3 changes").2 =
    Some (Connect false (PStr "mail.example.org") 587) /\
  ~ In Quit (send_custom_email reject_mail ex_d ["ops@example.org"] "M3U digest" "3 changes").2.
Proof.
  apply (send_custom_email_leaks reject_mail ex_d _ _ _ 587 (SMTPException "550"));
    [reflexivity..|].
  intros c. reflexivity.
Defined.

Definition ex_render (cs : list change) (since : Z) : string := "M3U changes".
Definition ex_subject (cs : list change) : string := "M3U digest".
Definition ex_log : Table.t change := Table.mk [(1%nat, mkChange 1000 3 "streams_added")] 2.
Definition ex_update : config_update :=
  mkUpdate (Some true) (Some "immediate") (Some ["ops@example.org"]) None None None.

Lemma digest_settings_singleton_witness :
  let one st' := Table.wf st' /\ length (Table.rows st') = 1%nat in
  one (get_config Table.empty).2 /\ one (update_config ex_update Table.empty) /\
  one (execute ex_render ex_subject accept_all ex_json ex_reg ex_db true None 2000 ex_log Table.empty None).1.2 /\
  one (send_immediate_digest ex_render ex_subject accept_all ex_json ex_reg ex_db 3 2000 ex_log Table.empty None).1.2.
Proof.
  apply (digest_settings_singleton ex_render ex_subject accept_all ex_json ex_reg ex_db Table.empty ex_update true None 3 2000 ex_log None).
  split; [apply Table.wf_empty|simpl; lia].
Defined.

End Digest.
