(* ===== verification/Mail.v ===== *)
(** * Mail: the password-reset e-mail of [src/backend/auth/routes.py]

    [forgot_password] builds the application's base URL from the request
    ([X-Forwarded-Proto] and [X-Forwarded-Host], or the request's own
    scheme and host) and calls [send_password_reset_email], which reads the
    shared SMTP settings ([get_settings()], in a module that is not in the
    repository: [smtp_settings], and [is_smtp_configured] a parameter),
    writes the reset link into the body and talks to the server in the
    session monad of [Smtp].  Its boolean decides the log line of
    [forgot_password] ([Reset.forgot_password] takes it as an input).

    The request's headers are the ASGI header list, names in lower case,
    as [request.headers.get] compares them.  The HTML alternative and the
    MIME encoding are not modelled, as in [Smtp]. *)

From S2P Require Import Prelude Table Models Crypto Settings Password Tokens Sessions Reset Identities Login Calendar Alerts Smtp.

Local Open Scope string_scope.

Module Mail.
Import Alerts Smtp.
Local Open Scope smtp_scope.

(** The fields of the shared settings [send_password_reset_email] reads. *)
Record smtp_settings := mkSmtpSettings {
  smtp_host : string;
  smtp_port : Z;
  smtp_user : string;
  smtp_password : string;
  smtp_from_email : string;
  smtp_from_name : string;
  smtp_use_tls : bool;
  smtp_use_ssl : bool
}.

(** [f"{base_url}/reset-password?token={reset_token}"] *)
Definition reset_url (base_url reset_token : string) : string :=
  base_url ++ "/reset-password?token=" ++ reset_token.

(** The plain-text body. *)
Definition reset_plain_text (url : string) : string :=
  String.concat nl
    ["Password Reset Request"; ""; "You requested to reset your password for Enhanced Channel Manager."; "";
     "Click the link below to reset your password:"; url; ""; "This link will expire in 1 hour."; "";
     "If you didn't request this, you can safely ignore this email."; ""; "---"; "Enhanced Channel Manager"; ""].

(** [request.headers.get(k, default)] on the lower-cased header list. *)
Definition header (hdrs : list (string * string)) (k d : string) : string := default d (dict_get k hdrs).

(** [f"{forwarded_proto}://{forwarded_host}"] *)
Definition base_url_of (hdrs : list (string * string)) (scheme netloc : string) : string :=
  header hdrs "x-forwarded-proto" scheme ++ "://" ++ header hdrs "x-forwarded-host" netloc.

Section Send.
(** What the SMTP server does with each command. *)
Variable reply : smtp_cmd -> result unit smtp_error.
(** [settings.is_smtp_configured()]. *)
Variable is_smtp_configured : smtp_settings -> bool.

(** [send_password_reset_email(to_email, reset_token, base_url)]: every
    exception is caught and gives [False]. *)
Definition send_password_reset_email (st : smtp_settings) (to_email reset_token base_url : string)
    : bool * list smtp_cmd :=
  if negb (is_smtp_configured st) then (false, [])
  else
    let body := reset_plain_text (reset_url base_url reset_token) in
    let '(r, tr) :=
      open_session reply (smtp_use_ssl st) (smtp_use_tls st) (PStr (smtp_user st)) (PStr (smtp_password st))
        (PStr (smtp_host st)) (smtp_port st)
        (issue reply (SendMail (PStr (smtp_from_email st)) [to_email] "Password Reset Request" body)) [] in
    (match r with Ok _ => true | Err _ => false end, tr).

(** [forgot_password] with its e-mail: the user lookup and the
    eligibility test decide whether [send_password_reset_email] runs;
    its result is the [email_sent] of [Reset.forgot_password]. *)
Definition forgot_password_mailed (st : smtp_settings) (hdrs : list (string * string)) (scheme netloc : string)
    (e : env) (email : string) (db : DB) : (DB * list string * string) * list smtp_cmd :=
  match Table.first (fun _ u => bool_decide (User.email u = Some email)) (users db) with
  | Some (_, u) =>
      if reset_eligible u then
        let '(sent, tr) := send_password_reset_email st email (nonce e) (base_url_of hdrs scheme netloc) in
        (forgot_password e email sent db, tr)
      else (forgot_password e email false db, [])
  | None => (forgot_password e email false db, [])
  end.

(** The log of [forgot_password] for an eligible user, in terms of what
    the e-mail gave. *)
Lemma forgot_password_log e email sent db uid u :
  Table.first (fun _ u => bool_decide (User.email u = Some email)) (users db) = Some (uid, u) ->
  reset_eligible u = true ->
  (forgot_password e email sent db).1.2 =
    [if sent then "Password reset email sent to: " ++ email
     else "Password reset email failed for " ++ email ++ ", token: " ++ nonce e].
Proof. intros Hf He. unfold forgot_password. rewrite Hf, He. reflexivity. Qed.

Lemma forgot_password_mailed_eligible st hdrs scheme netloc e email db uid u :
  Table.first (fun _ u => bool_decide (User.email u = Some email)) (users db) = Some (uid, u) ->
  reset_eligible u = true ->
  forgot_password_mailed st hdrs scheme netloc e email db =
  let '(sent, tr) := send_password_reset_email st email (nonce e) (base_url_of hdrs scheme netloc) in
  (forgot_password e email sent db, tr).
Proof. intros Hf He. unfold forgot_password_mailed. rewrite Hf, He. reflexivity. Qed.

End Send.

(** ** Theorems *)

(** C16: the reset link goes to whatever host the request names in
    [X-Forwarded-Host]: for an eligible user, a configured and accepting
    server receives a message to the user's address whose link is built
    on that header's value, and [forgot_password] logs a success.  A
    client that sets the header for someone else's address has that
    person's reset token delivered through a link to its own host. *)
Theorem reset_link_uses_forwarded_host is_conf st hdrs scheme netloc e email db uid u h :
  is_conf st = true ->
  Table.first (fun _ u => bool_decide (User.email u = Some email)) (users db) = Some (uid, u) ->
  reset_eligible u = true -> dict_get "x-forwarded-host" hdrs = Some h ->
  In (SendMail (PStr (smtp_from_email st)) [email] "Password Reset Request"
        (reset_plain_text (reset_url (header hdrs "x-forwarded-proto" scheme ++ "://" ++ h) (nonce e))))
     (forgot_password_mailed accept_all is_conf st hdrs scheme netloc e email db).2 /\
  (forgot_password_mailed accept_all is_conf st hdrs scheme netloc e email db).1.1.2 =
    ["Password reset email sent to: " ++ email].
Proof.
  intros Hc Hf He Hh. rewrite (forgot_password_mailed_eligible _ _ _ _ _ _ _ _ _ _ _ Hf He).
  replace (base_url_of hdrs scheme netloc) with (header hdrs "x-forwarded-proto" scheme ++ "://" ++ h)
    by (unfold base_url_of, header; rewrite Hh; reflexivity).
  unfold send_password_reset_email. rewrite Hc. cbn [negb]. rewrite open_session_ok.
  unfold issue. cbn [accept_all fst snd]. rewrite (forgot_password_log _ _ _ _ _ _ Hf He).
  split; [|reflexivity]. rewrite in_app_iff. left. rewrite in_app_iff. right. left. reflexivity.
Qed.

(** C27: when the e-mail cannot go out (SMTP not configured, or the
    server refuses the connection), [forgot_password] writes the user's
    raw reset token into the log, and the session, if any, was only the
    refused [CONNECT]. *)
Theorem reset_mail_failure_logs_token reply is_conf st hdrs scheme netloc e email db uid u err :
  Table.first (fun _ u => bool_decide (User.email u = Some email)) (users db) = Some (uid, u) ->
  reset_eligible u = true ->
  (is_conf st = false \/ forall c, is_connect c = true -> reply c = Err err) ->
  (forgot_password_mailed reply is_conf st hdrs scheme netloc e email db).1.1.2 =
    ["Password reset email failed for " ++ email ++ ", token: " ++ nonce e] /\
  List.filter (fun c => negb (is_connect c)) (forgot_password_mailed reply is_conf st hdrs scheme netloc e email db).2 = [].
Proof.
  intros Hf He Hr. rewrite (forgot_password_mailed_eligible _ _ _ _ _ _ _ _ _ _ _ Hf He).
  unfold send_password_reset_email. destruct (is_conf st) eqn:Hc; cbn [negb].
  - destruct Hr as [Hr|Hr]; [discriminate|].
    rewrite (open_session_refused_result reply _ _ _ _ _ _ _ [] err) by (apply Hr; reflexivity).
    cbn [fst snd]. rewrite (forgot_password_log _ _ _ _ _ _ Hf He). split; reflexivity.
  - cbn [fst snd]. rewrite (forgot_password_log _ _ _ _ _ _ Hf He). split; reflexivity.
Qed.

(** ** Witnesses *)

Definition ml_st : smtp_settings :=
  mkSmtpSettings "mail.example.org" 587 "ecm" "s3cret" "ecm@example.org" "ECM" true false.
Definition ml_conf (st : smtp_settings) : bool := true.
Definition ml_hdrs : list (string * string) := [("x-forwarded-host", "evil.example")].
Definition ml_first := Table.first (fun _ u => bool_decide (User.email u = Some "root@example.com")) (users lg_setup_db).
Definition ml_user : User.t := match ml_first with Some (_, u) => u | None => lg_dave end.

Lemma reset_link_uses_forwarded_host_witness :
  In (SendMail (PStr "ecm@example.org") ["root@example.com"] "Password Reset Request"
        (reset_plain_text (reset_url ("http" ++ "://" ++ "evil.example") (nonce lg_e'))))
     (forgot_password_mailed accept_all ml_conf ml_st ml_hdrs "http" "ecm.local" lg_e' "root@example.com" lg_setup_db).2 /\
  (forgot_password_mailed accept_all ml_conf ml_st ml_hdrs "http" "ecm.local" lg_e' "root@example.com" lg_setup_db).1.1.2 =
    ["Password reset email sent to: " ++ "root@example.com"].
Proof.
  apply (reset_link_uses_forwarded_host ml_conf ml_st ml_hdrs "http" "ecm.local" lg_e' "root@example.com"
           lg_setup_db 1 ml_user "evil.example"); vm_compute; reflexivity.
Defined.

Lemma reset_mail_failure_logs_token_witness :
  (forgot_password_mailed refuse_connect ml_conf ml_st ml_hdrs "http" "ecm.local" lg_e' "root@example.com" lg_setup_db).1.1.2 =
    ["Password reset email failed for " ++ "root@example.com" ++ ", token: " ++ nonce lg_e'] /\
  List.filter (fun c => negb (is_connect c))
    (forgot_password_mailed refuse_connect ml_conf ml_st ml_hdrs "http" "ecm.local" lg_e' "root@example.com" lg_setup_db).2 = [].
Proof.
  apply (reset_mail_failure_logs_token refuse_connect ml_conf ml_st ml_hdrs "http" "ecm.local" lg_e' "root@example.com"
           lg_setup_db 1 ml_user SMTPConnectError); [vm_compute; reflexivity..|].
  right. intros [] Hc; try discriminate. reflexivity.
Defined.

End Mail.
