(* ===== verification/Journal.v ===== *)
(** * Journal: the [JournalEntry] model of [src/backend/models.py]

    The journal table records changes to channels, EPG sources and M3U
    accounts; no module of the repository writes it, and the API reads it
    through [to_dict].  A row is a [journal_entry] with the columns of the
    class; [to_dict] is the dict the API serialises, a [pyval] dict in
    key order, with [json.loads] of the stored before and after values a
    parameter that fails ([None]) on text that is not JSON. *)

From S2P Require Import Prelude Calendar Alerts.
From stdpp Require Import pretty.

Local Open Scope string_scope.

Module Journal.
Import Alerts.

(** The columns of [JournalEntry]; [timestamp] in seconds, [None] before
    the column default is applied. *)
Record journal_entry := mkEntry {
  id : Z;
  timestamp : option Z;
  category : string;
  action_type : string;
  entity_id : option Z;
  entity_name : string;
  description : string;
  before_value : option string;
  after_value : option string;
  user_initiated : bool;
  batch_id : option string
}.

Section Dict.
(** [json.loads]: [None] when it raises. *)
Variable json_loads : string -> option pyval.

(** [json.loads(v) if v else None]; [None] is the exception. *)
Definition load_value (v : option string) : option pyval :=
  match v with
  | Some s => if String.eqb s "" then Some PNone else json_loads s
  | None => Some PNone
  end.

Definition opt_str (o : option string) : pyval := match o with Some s => PStr s | None => PNone end.
Definition opt_int (o : option Z) : pyval := match o with Some z => PInt z | None => PNone end.

(** [JournalEntry.to_dict]: the dict, or [None] when a [json.loads]
    raises. *)
Definition to_dict (e : journal_entry) : option (list (string * pyval)) :=
  match load_value (before_value e), load_value (after_value e) with
  | Some bv, Some av =>
      Some [("id", PInt (id e));
            ("timestamp", match timestamp e with Some t => PStr (iso_datetime t ++ "Z") | None => PNone end);
            ("category", PStr (category e)); ("action_type", PStr (action_type e));
            ("entity_id", opt_int (entity_id e)); ("entity_name", PStr (entity_name e));
            ("description", PStr (description e)); ("before_value", bv); ("after_value", av);
            ("user_initiated", PBool (user_initiated e)); ("batch_id", opt_str (batch_id e))]
  | _, _ => None
  end.

(** [load_value] raises exactly on a non-empty text that is not JSON. *)
Lemma load_value_None v : load_value v = None <-> exists s, v = Some s /\ s <> "" /\ json_loads s = None.
Proof.
  unfold load_value. destruct v as [s|]; [|split; [discriminate|intros (? & ? & _); discriminate]].
  destruct (String.eqb_spec s "") as [->|Hne].
  - split; [discriminate|intros (s' & [= <-] & H & _); congruence].
  - split; [intros H; eauto|intros (s' & [= <-] & _ & H); exact H].
Qed.

(** ** Theorems *)

(** C39: [JournalEntry.to_dict] raises exactly when the stored
    before or after value is non-empty text that [json.loads] rejects; an
    empty value gives [None] in the dict, not an error. *)
Theorem to_dict_error e :
  to_dict e = None <->
  (exists s, before_value e = Some s /\ s <> "" /\ json_loads s = None) \/
  (exists s, after_value e = Some s /\ s <> "" /\ json_loads s = None).
Proof.
  rewrite <- !load_value_None. unfold to_dict.
  destruct (load_value (before_value e)), (load_value (after_value e)); intuition congruence.
Qed.
End Dict.

(** [JournalEntry.__repr__]. *)
Definition repr (e : journal_entry) : string :=
  "<JournalEntry(id=" ++ pretty (id e) ++ ", category=" ++ category e ++ ", action=" ++ action_type e ++
  ", entity=" ++ entity_name e ++ ")>".

End Journal.
